(** * Recurrent nodes of the computation network: delayed values and the LSTM node

    A shallow embedding of [RecurrentNodes.h]: the class template
    [DelayedValueNodeBase] with its two instances [PastValueNode] and
    [FutureValueNode], and [LSTMNode].  C++ member functions become
    computations in a state-and-exception monad over the node's fields; the
    [static] helpers become computations over the buffers they receive by
    reference. *)

From stdpp Require Import base numbers list strings.
From Stdlib Require Import ZArith Lia.

Local Open Scope string_scope.
Local Open Scope Z_scope.

(** ** Machine integers

    [size_t] is 64 bits wide and unsigned, [int] is 32 bits wide and signed.
    Both are carried as [Z]; a conversion to either type is written out. *)

Definition to_size_t (z : Z) : Z := z mod 2 ^ 64.

Definition to_int (z : Z) : Z := (z + 2 ^ 31) mod 2 ^ 32 - 2 ^ 31.

(** ** Exceptions and mutable state

    A computation over a state [St] either finishes with a value or throws;
    in both cases it leaves a state behind, as a C++ function that throws
    after having written through its reference parameters does. *)

Inductive Fault : Type :=
  | LogicError (msg : string)
  | InvalidArgument (msg : string)
  | RuntimeError (msg : string)
  | DivisionByZero.

Inductive Outcome (St A : Type) : Type :=
  | Done (a : A) (s : St)
  | Thrown (e : Fault) (s : St).

Arguments Done {St A} a s.
Arguments Thrown {St A} e s.

Definition M (St A : Type) : Type := St -> Outcome St A.

Definition ret {St A} (a : A) : M St A := fun s => Done a s.

Definition bind {St A B} (c : M St A) (k : A -> M St B) : M St B :=
  fun s => match c s with
           | Done a s' => k a s'
           | Thrown e s' => Thrown e s'
           end.

Definition throw {St A} (e : Fault) : M St A := fun s => Thrown e s.

Definition get {St} : M St St := fun s => Done s s.

Definition put {St} (s : St) : M St unit := fun _ => Done tt s.

Definition modify {St} (f : St -> St) : M St unit := fun s => Done tt (f s).

Definition lift_option {St A} (o : option A) (e : Fault) : M St A :=
  match o with
  | Some a => ret a
  | None => throw e
  end.

(** Runs a computation over one field of a larger state. *)
Definition zoom {St T A} (proj : St -> T) (upd : T -> St -> St) (c : M T A) : M St A :=
  fun s => match c (proj s) with
           | Done a t => Done a (upd t s)
           | Thrown e t => Thrown e (upd t s)
           end.

Declare Scope monad_scope.
Delimit Scope monad_scope with monad.

Notation "x <- c1 ;; c2" := (bind c1 (fun x => c2))
  (at level 100, c1 at next level, right associativity) : monad_scope.
Notation "c1 ;; c2" := (bind c1 (fun _ => c2))
  (at level 100, right associativity) : monad_scope.

Local Open Scope monad_scope.

(** A [for] loop whose body is run once per element, in list order. *)
Fixpoint forM_ {St A} (l : list A) (body : A -> M St unit) : M St unit :=
  match l with
  | [] => ret tt
  | x :: l' => body x ;; forM_ l' body
  end.

(** The values [0, 1, ..., n-1] of a loop counter. *)
Definition upto (n : Z) : list Z := Z.of_nat <$> seq 0 (Z.to_nat n).

(** The values [n-1, ..., 1, 0] of a loop counter that runs downwards. *)
Definition downfrom (n : Z) : list Z := reverse (upto n).

(** ** Element type

    [ElemType] is [float] or [double] in the source.  The embedding keeps it
    abstract: an element type comes with the operations and literals the
    nodes use, and nothing is assumed about them. *)

Class ElemOps (E : Type) : Type := {
  elem_add : E -> E -> E;
  elem_zero : E;
  elem_one : E;
  elem_tenth : E;
  elem_NAN : E
}.

(** ** Boundary flags

    The [MinibatchPackingFlags] enumeration is declared in a header outside
    this file's source; its members are taken as parameters.  A flag word is
    a bit set carried as [Z]. *)

Class PackingFlags : Type := {
  SequenceStart : Z;
  SequenceEnd : Z;
  NoFeature : Z;
  NoLabel : Z
}.

Definition FlagNone : Z := 0.

Definition NoInput `{PackingFlags} : Z := Z.lor NoFeature NoLabel.

(** [flags & f] read as a [bool], as C++ does in a condition. *)
Definition has_flag (flags f : Z) : bool := negb (Z.land flags f =? 0).

(** ** Matrix

    Modelled from the spec: the [Matrix] class (Matrix.h) is not part of the
    source at hand.  A matrix is a row count and its columns in order; a
    column slice is a view of consecutive columns, so that writing through a
    slice writes the columns of the matrix it was taken from.  Taking a
    slice that reaches beyond the last column, and combining matrices of
    different shapes, throw. *)

Section Matrix.
Context {E : Type}.

Record Matrix : Type := mkMatrix {
  NumRows : nat;
  Columns : list (list E)
}.

Definition GetNumRows (m : Matrix) : Z := Z.of_nat (NumRows m).

Definition GetNumCols (m : Matrix) : Z := Z.of_nat (length (Columns m)).

Definition HasNoElements (m : Matrix) : bool :=
  (GetNumRows m * GetNumCols m =? 0).

Definition IsEmpty (m : Matrix) : bool := HasNoElements m.

Definition same_shape (a b : Matrix) : bool :=
  (GetNumRows a =? GetNumRows b) && (GetNumCols a =? GetNumCols b).

(** Every column has [NumRows] entries. *)
Definition well_formed (m : Matrix) : Prop :=
  Forall (fun c => length c = NumRows m) (Columns m).

Definition in_range (m : Matrix) (startColumn numCols : Z) : bool :=
  (0 <=? startColumn) && (0 <=? numCols) && (startColumn + numCols <=? GetNumCols m).

(** The columns a slice covers. *)
Definition slice_columns (m : Matrix) (startColumn numCols : Z) : list (list E) :=
  take (Z.to_nat numCols) (drop (Z.to_nat startColumn) (Columns m)).

(** [m.ColumnSlice(startColumn, numCols)], read as a value. *)
Definition ColumnSlice (m : Matrix) (startColumn numCols : Z) : option Matrix :=
  if in_range m startColumn numCols
  then Some (mkMatrix (NumRows m) (slice_columns m startColumn numCols))
  else None.

Definition slice_fault : Fault :=
  InvalidArgument "The slice is out of range of the source matrix.".

Definition shape_fault : Fault :=
  InvalidArgument "Matrix dimensions do not match.".

(** [m.ColumnSlice(startColumn, numCols)] on a matrix other than the state. *)
Definition ColumnSliceOf {St} (m : Matrix) (startColumn numCols : Z) : M St Matrix :=
  lift_option (ColumnSlice m startColumn numCols) slice_fault.

(** [ColumnSlice] on the matrix that is the state. *)
Definition ColumnSliceHere (startColumn numCols : Z) : M Matrix Matrix :=
  m <- get ;; ColumnSliceOf m startColumn numCols.

(** Overwrites the columns from [startColumn] on with [new]. *)
Definition write_columns (startColumn : Z) (new : list (list E)) (m : Matrix) : Matrix :=
  let s := Z.to_nat startColumn in
  mkMatrix (NumRows m)
           (take s (Columns m) ++ new ++ drop (s + length new) (Columns m)).

(** [slice.SetValue(src)] for the view [slice] of the state's columns
    [startColumn ..]; [slice] and [src] must have the same shape. *)
Definition SetValue_slice (startColumn : Z) (slice src : Matrix) : M Matrix unit :=
  if same_shape slice src
  then modify (write_columns startColumn (Columns src))
  else throw shape_fault.

(** [slice.SetValue(v)] for a scalar [v]: every entry of the view becomes [v]. *)
Definition SetValue_slice_scalar (startColumn : Z) (slice : Matrix) (v : E) : M Matrix unit :=
  modify (write_columns startColumn
            (replicate (length (Columns slice)) (replicate (NumRows slice) v))).

(** [m.SetValue(v)] on a whole matrix. *)
Definition SetValue_scalar (v : E) (m : Matrix) : Matrix :=
  mkMatrix (NumRows m) (replicate (length (Columns m)) (replicate (NumRows m) v)).

Context `{ElemOps E}.

Definition add_columns (a b : list (list E)) : list (list E) :=
  zip_with (zip_with elem_add) a b.

(** [slice += src] for the view [slice] of the state's columns [startColumn ..]. *)
Definition PlusAssign_slice (startColumn : Z) (slice src : Matrix) : M Matrix unit :=
  if same_shape slice src
  then modify (write_columns startColumn (add_columns (Columns slice) (Columns src)))
  else throw shape_fault.

(** [a += b] as a value: entry by entry on matrices of one shape; a [b] of
    a single column is added to every column of [a]. *)
Definition plus (a b : Matrix) : option Matrix :=
  if same_shape a b
  then Some (mkMatrix (NumRows a) (add_columns (Columns a) (Columns b)))
  else if (GetNumRows a =? GetNumRows b) && (GetNumCols b =? 1)
       then Some (mkMatrix (NumRows a)
                    ((fun c => zip_with elem_add c (default [] (Columns b !! 0%nat)))
                       <$> Columns a))
       else None.

(** [a += b] on the matrix that is the state. *)
Definition PlusAssign (b : Matrix) : M Matrix unit :=
  a <- get ;; a' <- lift_option (plus a b) shape_fault ;; put a'.

(** [m(row, col)]. *)
Definition element (m : Matrix) (row col : Z) : option E :=
  if (0 <=? row) && (0 <=? col)
  then c ← Columns m !! Z.to_nat col; c !! Z.to_nat row
  else None.

(** Runs [f] on the view of columns [startColumn ..] of [m] and writes its
    result through the view. *)
Definition through_slice (m : Matrix) (startColumn numCols : Z)
    (f : Matrix -> option Matrix) : option Matrix :=
  v ← ColumnSlice m startColumn numCols;
  v' ← f v;
  if same_shape v v' then Some (write_columns startColumn (Columns v') m) else None.

End Matrix.

Arguments Matrix E : clear implicits.

(** What the matrix library leaves open to the embedding: the contents of a
    reallocated buffer ([unspecified m r c j i] stands for entry [i] of
    column [j] after [m] was resized to [r] by [c]), and the static helper
    [Mod], called as [(int) Mod((float) x, (float) y)], which may throw. *)
Class MatrixLib (E : Type) : Type := {
  unspecified : Matrix E -> nat -> nat -> nat -> nat -> E;
  Mod : Z -> Z -> option Z
}.

(** The numeric kernels of the matrix library that [LSTMNode] calls.  Each
    is taken as it is called: the operands in the order of the call, the
    result being the new value of the matrix the call writes. *)
Class MatrixKernels (E : Type) : Type := {
  Multiply : Matrix E -> bool -> Matrix E -> bool -> Matrix E;
  MultiplyAndAdd : Matrix E -> bool -> Matrix E -> bool -> Matrix E -> Matrix E;
  AssignSigmoidOf : Matrix E -> Matrix E;
  AssignTanhOf : Matrix E -> Matrix E;
  AssignSigmoidDerivativeOf : Matrix E -> Matrix E;
  AssignElementProductOf : Matrix E -> Matrix E -> Matrix E;
  AddElementProductOf : Matrix E -> Matrix E -> Matrix E -> Matrix E;
  ColumnElementMultiplyWith : Matrix E -> Matrix E -> Matrix E;
  AssignDifferenceOf : E -> Matrix E -> Matrix E;
  AssignInnerProductOf : Matrix E -> Matrix E -> bool -> Matrix E;
  (** [ISCLOSE(x, literal, EPSILON)], the literal kept as it is written. *)
  ISCLOSE : E -> string -> bool;
  elem_eqb : E -> E -> bool
}.

(** [m.Resize(numRows, numCols)]: nothing happens when the shape is the
    requested one already. *)
Definition Resize {E} `{MatrixLib E} (numRows numCols : Z) (m : Matrix E) : Matrix E :=
  if (GetNumRows m =? numRows) && (GetNumCols m =? numCols)
  then m
  else
    let r := Z.to_nat numRows in
    let c := Z.to_nat numCols in
    mkMatrix r ((fun j => unspecified m r c j <$> seq 0 r) <$> seq 0 c).

(** ** Minibatch layout

    Modelled from the spec: the [MBLayout] class is not part of the source
    at hand.  A layout holds, per frame, the boundary flags of every
    parallel sequence; the flags of a frame as a whole are the union of the
    flags of its sequences. *)

Record MBLayout : Type := mkMBLayout {
  NumParallelSequences : nat;
  FrameFlags : list (list Z)
}.

Definition GetNumParallelSequences (L : MBLayout) : Z :=
  Z.of_nat (NumParallelSequences L).

Definition GetSize (L : MBLayout) : Z := Z.of_nat (length (FrameFlags L)).

(** Every frame lists one flag word per parallel sequence. *)
Definition layout_ok (L : MBLayout) : Prop :=
  Forall (fun col => length col = NumParallelSequences L) (FrameFlags L).

Definition frame_column (L : MBLayout) (t : Z) : list Z :=
  default [] (FrameFlags L !! Z.to_nat t).

(** The flag word of sequence [id] at frame [t]. *)
Definition flag_at (L : MBLayout) (id t : Z) : Z :=
  default 0 (frame_column L t !! Z.to_nat id).

Definition union_flags (col : list Z) : Z := foldr Z.lor 0 col.

(** [Is(t, f)]: some sequence carries one of the flags [f] at frame [t]. *)
Definition Is_frame (L : MBLayout) (t : Z) (f : Z) : bool :=
  has_flag (union_flags (frame_column L t)) f.

(** [Is(id, t, f)]. *)
Definition Is (L : MBLayout) (id t : Z) (f : Z) : bool :=
  has_flag (flag_at L id t) f.

Definition alter_flag (g : Z -> Z) (id t : Z) (L : MBLayout) : MBLayout :=
  mkMBLayout (NumParallelSequences L)
             (alter (alter g (Z.to_nat id)) (Z.to_nat t) (FrameFlags L)).

(** [Mask(id, t, f)]: keeps of the flag word only the flags [f]. *)
Definition Mask (id t : Z) (f : Z) (L : MBLayout) : MBLayout :=
  alter_flag (fun b => Z.land b f) id t L.

(** [Set(id, t, f)]: adds the flags [f] to the flag word. *)
Definition Set_ (id t : Z) (f : Z) (L : MBLayout) : MBLayout :=
  alter_flag (fun b => Z.lor b f) id t L.

(** [GetFrame(t)]: the flag column of the frame and the flags of the frame
    as a whole. *)
Definition GetFrame (L : MBLayout) (t : Z) : option (list Z * Z) :=
  if 0 <=? t then
    match FrameFlags L !! Z.to_nat t with
    | Some col => Some (col, union_flags col)
    | None => None
    end
  else None.

(** [Resize(numSequences, numFrames)]: a layout without any flag. *)
Definition MBLayout_Resize (numSequences numFrames : Z) : MBLayout :=
  mkMBLayout (Z.to_nat numSequences)
             (replicate (Z.to_nat numFrames) (replicate (Z.to_nat numSequences) 0)).

Definition index_fault : Fault := LogicError "index out of range".

(** ** Frame range

    Modelled from the spec: [FrameRange] is declared outside the source at
    hand; the nodes build it from a frame index and the number of parallel
    sequences and read the two back with [t()] and [NumCols()]. *)

Record FrameRange : Type := mkFrameRange {
  FrameRange_t : Z;
  FrameRange_NumCols : Z
}.

(** ** Model files

    Modelled from the spec: [File] is declared outside the source at hand.
    A file is the sequence of the values written to it; reading takes the
    next value and throws when it is of another type or missing. *)

Inductive FileItem (E : Type) : Type :=
  | item_int (z : Z)
  | item_size_t (z : Z)
  | item_elem (e : E).

Arguments item_int {E} z.
Arguments item_size_t {E} z.
Arguments item_elem {E} e.

Definition File (E : Type) : Type := list (FileItem E).

Definition read_fault : Fault := RuntimeError "unexpected item in model file".

Definition read_int {St E} (f : File E) : M St (Z * File E) :=
  match f with
  | item_int z :: rest => ret (z, rest)
  | _ => throw read_fault
  end.

Definition read_size_t {St E} (f : File E) : M St (Z * File E) :=
  match f with
  | item_size_t z :: rest => ret (z, rest)
  | _ => throw read_fault
  end.

Definition read_elem {St E} (f : File E) : M St (E * File E) :=
  match f with
  | item_elem e :: rest => ret (e, rest)
  | _ => throw read_fault
  end.

(** ** DelayedValueNodeBase

    The class template shared by [PastValueNode] and [FutureValueNode].  Its
    template parameters [direction] (-1 or +1) and [SequenceStart_or_End]
    are parameters of the section.  The node's single input is carried in
    the node record by the two buffers of it that the node touches. *)

Module DelayedValueNodeBase.
Section Node.
Context {E : Type} `{ElemOps E} `{MatrixLib E} `{PackingFlags}.
Context (direction : Z) (SequenceStart_or_End : Z).

Record Node : Type := mkNode {
  m_functionValues : Matrix E;
  m_gradientValues : Matrix E;
  m_pMBLayout : MBLayout;
  m_initialActivationValue : E;
  m_delayedActivation : Matrix E;
  m_timeStep : Z;
  m_pShiftedMBLayout : MBLayout;
  m_historyAlreadySet : bool;
  Inputs0_FunctionValues : Matrix E;
  Inputs0_GradientValues : Matrix E
}.

Definition set_functionValues (v : Matrix E) (n : Node) : Node :=
  mkNode v (m_gradientValues n) (m_pMBLayout n) (m_initialActivationValue n)
         (m_delayedActivation n) (m_timeStep n) (m_pShiftedMBLayout n)
         (m_historyAlreadySet n) (Inputs0_FunctionValues n) (Inputs0_GradientValues n).

Definition set_pMBLayout (v : MBLayout) (n : Node) : Node :=
  mkNode (m_functionValues n) (m_gradientValues n) v (m_initialActivationValue n)
         (m_delayedActivation n) (m_timeStep n) (m_pShiftedMBLayout n)
         (m_historyAlreadySet n) (Inputs0_FunctionValues n) (Inputs0_GradientValues n).

Definition set_initialActivationValue (v : E) (n : Node) : Node :=
  mkNode (m_functionValues n) (m_gradientValues n) (m_pMBLayout n) v
         (m_delayedActivation n) (m_timeStep n) (m_pShiftedMBLayout n)
         (m_historyAlreadySet n) (Inputs0_FunctionValues n) (Inputs0_GradientValues n).

Definition set_delayedActivation (v : Matrix E) (n : Node) : Node :=
  mkNode (m_functionValues n) (m_gradientValues n) (m_pMBLayout n)
         (m_initialActivationValue n) v (m_timeStep n) (m_pShiftedMBLayout n)
         (m_historyAlreadySet n) (Inputs0_FunctionValues n) (Inputs0_GradientValues n).

Definition set_timeStep (v : Z) (n : Node) : Node :=
  mkNode (m_functionValues n) (m_gradientValues n) (m_pMBLayout n)
         (m_initialActivationValue n) (m_delayedActivation n) v (m_pShiftedMBLayout n)
         (m_historyAlreadySet n) (Inputs0_FunctionValues n) (Inputs0_GradientValues n).

Definition set_pShiftedMBLayout (v : MBLayout) (n : Node) : Node :=
  mkNode (m_functionValues n) (m_gradientValues n) (m_pMBLayout n)
         (m_initialActivationValue n) (m_delayedActivation n) (m_timeStep n) v
         (m_historyAlreadySet n) (Inputs0_FunctionValues n) (Inputs0_GradientValues n).

Definition set_historyAlreadySet (v : bool) (n : Node) : Node :=
  mkNode (m_functionValues n) (m_gradientValues n) (m_pMBLayout n)
         (m_initialActivationValue n) (m_delayedActivation n) (m_timeStep n)
         (m_pShiftedMBLayout n) v (Inputs0_FunctionValues n) (Inputs0_GradientValues n).

Definition set_Inputs0_GradientValues (v : Matrix E) (n : Node) : Node :=
  mkNode (m_functionValues n) (m_gradientValues n) (m_pMBLayout n)
         (m_initialActivationValue n) (m_delayedActivation n) (m_timeStep n)
         (m_pShiftedMBLayout n) (m_historyAlreadySet n) (Inputs0_FunctionValues n) v.

(** *** Persistence

    The part of the record that the base class [ComputationNode] writes
    and reads is outside the source at hand; a file here starts at the
    node's own fields. *)

Definition SaveToFile (n : Node) : File E :=
  [ item_int (m_timeStep n);
    item_size_t (GetNumRows (m_functionValues n));
    item_size_t (GetNumCols (m_functionValues n));
    item_elem (m_initialActivationValue n) ].

(** [CNTK_MODEL_VERSION_2] is defined in a header outside the source at hand. *)
Context (CNTK_MODEL_VERSION_2 : Z).

Definition LoadFromFile (fstream : File E) (modelVersion : Z) : M Node (File E) :=
  timeStep <- read_int fstream ;;
  modify (set_timeStep (fst timeStep)) ;;
  iRow <- read_size_t (snd timeStep) ;;
  timeIdxInSeq <- read_size_t (snd iRow) ;;
  modify (fun n => set_functionValues
                     (Resize (fst iRow) (fst timeIdxInSeq) (m_functionValues n)) n) ;;
  modify (fun n => set_delayedActivation
                     (Resize (fst iRow) (fst timeIdxInSeq) (m_delayedActivation n)) n) ;;
  if CNTK_MODEL_VERSION_2 <=? modelVersion then
    v <- read_elem (snd timeIdxInSeq) ;;
    modify (set_initialActivationValue (fst v)) ;;
    ret (snd v)
  else ret (snd timeIdxInSeq).

(** *** The shifted layout *)

(** The first inner loop of [SetMBLayout] at frame [i]: restarts or clears
    the countdown [numResetLeft[j]] of every sequence [j]. *)
Definition restart_countdowns (pMBLayout : MBLayout) (timeStep : Z) (i : Z)
    (numRows : Z) (numResetLeft : list Z) : list Z :=
  foldl (fun numResetLeft j =>
           if Is pMBLayout j i SequenceStart_or_End
           then <[Z.to_nat j := timeStep]> numResetLeft
           else if Is pMBLayout j i NoFeature
                then <[Z.to_nat j := 0]> numResetLeft
                else numResetLeft)
        numResetLeft (upto numRows).

(** The second inner loop at frame [i]: [if (numResetLeft[j]-- > 0)] the
    flag word of sequence [j] is masked down to [NoLabel] and the boundary
    flag is implanted.  The countdown is an [int]. *)
Definition implant_flags (i : Z) (numRows : Z)
    (st : list Z * MBLayout) : list Z * MBLayout :=
  foldl (fun '(numResetLeft, shifted) j =>
           let left := default 0 (numResetLeft !! Z.to_nat j) in
           let numResetLeft' := <[Z.to_nat j := to_int (left - 1)]> numResetLeft in
           if 0 <? left
           then (numResetLeft', Set_ j i SequenceStart_or_End (Mask j i NoLabel shifted))
           else (numResetLeft', shifted))
        st (upto numRows).

Definition shift_frame (pMBLayout : MBLayout) (timeStep : Z) (numRows : Z)
    (st : list Z * MBLayout) (i : Z) : list Z * MBLayout :=
  let '(numResetLeft, shifted) := st in
  let numResetLeft :=
    if Is_frame pMBLayout i (Z.lor SequenceStart_or_End NoFeature)
    then restart_countdowns pMBLayout timeStep i numRows numResetLeft
    else numResetLeft in
  implant_flags i numRows (numResetLeft, shifted).

(** The post-processed copy of the layout that [SetMBLayout] stores. *)
Definition shifted_layout (pMBLayout : MBLayout) (timeStep : Z) : MBLayout :=
  if 1 <? timeStep then
    let numRows := GetNumParallelSequences pMBLayout in
    let numResetLeft := replicate (Z.to_nat numRows) 0 in
    snd (foldl (shift_frame pMBLayout timeStep numRows)
               (numResetLeft, pMBLayout) (upto (GetSize pMBLayout)))
  else pMBLayout.

Definition SetMBLayout (pMBLayout : MBLayout) : M Node unit :=
  n <- get ;;
  if m_timeStep n <=? 0 then throw (LogicError "timeStep should be 1 or larger")
  else
    modify (set_pMBLayout pMBLayout) ;;
    modify (set_pShiftedMBLayout (shifted_layout pMBLayout (m_timeStep n))).


(** *** Backward step of one frame

    The state is [inputGradientValues]. *)

(** The body of the loop over the sequences of the frame; [delayed] is the
    delayed frame index. *)
Definition ComputeInputPartialSRP_stream (timeIdxInSeq mNbr delayed : Z)
    (gradientValues : Matrix E) (colBoundaryFlags : list Z) (i : Z) : M (Matrix E) unit :=
  flags <- lift_option (colBoundaryFlags !! Z.to_nat i) index_fault ;;
  if negb (has_flag flags SequenceStart_or_End) && negb (has_flag flags NoFeature)
  then
    to <- ColumnSliceHere (to_size_t (delayed * mNbr + i)) 1 ;;
    frm <- ColumnSliceOf gradientValues (to_size_t (timeIdxInSeq * mNbr + i)) 1 ;;
    PlusAssign_slice (to_size_t (delayed * mNbr + i)) to frm
  else ret tt.

Definition ComputeInputPartialSRP (frameRange : FrameRange) (timeStep : Z)
    (gradientValues : Matrix E) (colBoundaryFlags : list Z)
    (minibatchPackingFlags : Z) : M (Matrix E) unit :=
  let timeIdxInSeq := FrameRange_t frameRange in
  let mNbr := FrameRange_NumCols frameRange in
  let delayed := to_size_t (timeIdxInSeq + to_int (direction * timeStep)) in
  if (0 <=? delayed) && (delayed <? GetNumCols gradientValues) then
    if has_flag minibatchPackingFlags (Z.lor SequenceStart_or_End NoFeature) then
      forM_ (upto mNbr)
            (ComputeInputPartialSRP_stream timeIdxInSeq mNbr delayed gradientValues
               colBoundaryFlags)
    else
      frm <- ColumnSliceOf gradientValues (to_size_t (timeIdxInSeq * mNbr)) mNbr ;;
      to <- ColumnSliceHere (to_size_t (delayed * mNbr)) mNbr ;;
      PlusAssign_slice (to_size_t (delayed * mNbr)) to frm
  else ret tt.

(** *** Forward step of one frame

    The state is [functionValues], which is the node's own output buffer. *)
Definition delayedIndex_of (timeIdxInSeq timeStep mNbr : Z) : Z :=
  to_int (to_size_t (to_int (to_size_t (timeIdxInSeq + to_int (direction * timeStep))) * mNbr)).

Definition outside_minibatch (delayedIndex : Z) (inputFunctionValues : Matrix E) : bool :=
  (delayedIndex <? 0) || (GetNumCols inputFunctionValues <=? delayedIndex).

(** Where the delayed value of a frame is read: the carry buffer when the
    delayed index is outside the minibatch, the input otherwise. *)
Definition delayed_source (delayedIndex : Z) (delayedActivation inputFunctionValues : Matrix E)
    : Matrix E :=
  if outside_minibatch delayedIndex inputFunctionValues
  then delayedActivation else inputFunctionValues.

(** The body of the loop over the sequences of the frame. *)
Definition EvaluateThisNodeSRP_stream (timeIdxInSeq mNbr delayedIndex d : Z)
    (delayedActivation inputFunctionValues : Matrix E) (initStateValue : E)
    (colBoundaryFlags : list Z) (i : Z) : M (Matrix E) unit :=
  out <- ColumnSliceHere (to_size_t (timeIdxInSeq * mNbr + i)) 1 ;;
  flags <- lift_option (colBoundaryFlags !! Z.to_nat i) index_fault ;;
  if has_flag flags SequenceStart_or_End
  then SetValue_slice_scalar (to_size_t (timeIdxInSeq * mNbr + i)) out initStateValue
  else
    inp <- ColumnSliceOf (delayed_source delayedIndex delayedActivation inputFunctionValues)
                         (to_size_t (to_int (d + i))) 1 ;;
    SetValue_slice (to_size_t (timeIdxInSeq * mNbr + i)) out inp.

Definition EvaluateThisNodeSRP (frameRange : FrameRange) (timeStep : Z)
    (delayedActivation inputFunctionValues : Matrix E) (initStateValue : E)
    (colBoundaryFlags : list Z) (minibatchPackingFlags : Z) : M (Matrix E) unit :=
  let timeIdxInSeq := FrameRange_t frameRange in
  let mNbr := FrameRange_NumCols frameRange in
  functionValues <- get ;;
  (if negb (same_shape functionValues inputFunctionValues)
   then modify (Resize (GetNumRows inputFunctionValues) (GetNumCols inputFunctionValues))
   else ret tt) ;;
  let delayedIndex := delayedIndex_of timeIdxInSeq timeStep mNbr in
  d <- (if outside_minibatch delayedIndex inputFunctionValues
        then lift_option (Mod delayedIndex (GetNumCols delayedActivation))
                         (LogicError "y is smaller than zero")
        else ret delayedIndex) ;;
  out <- ColumnSliceHere (to_size_t (timeIdxInSeq * mNbr)) mNbr ;;
  if has_flag minibatchPackingFlags SequenceStart_or_End then
    forM_ (upto mNbr)
          (EvaluateThisNodeSRP_stream timeIdxInSeq mNbr delayedIndex d
             delayedActivation inputFunctionValues initStateValue colBoundaryFlags)
  else
    inp <- ColumnSliceOf (delayed_source delayedIndex delayedActivation inputFunctionValues)
                         (to_size_t d) mNbr ;;
    SetValue_slice (to_size_t (timeIdxInSeq * mNbr)) out inp.

(** *** Entry points shared by the two nodes *)

Definition GetFrameOf {St} (L : MBLayout) (t : Z) : M St (list Z * Z) :=
  lift_option (GetFrame L t) index_fault.

Definition one_input_fault : Fault :=
  InvalidArgument "PastValue and FutureValue operations only take one input.".

(** The call of [ComputeInputPartialSRP] that all backward entry points make. *)
Definition backward_frame (frameRange : FrameRange) : M Node unit :=
  n <- get ;;
  colBoundaryFlags <- GetFrameOf (m_pShiftedMBLayout n) (FrameRange_t frameRange) ;;
  zoom Inputs0_GradientValues set_Inputs0_GradientValues
       (ComputeInputPartialSRP frameRange (m_timeStep n) (m_gradientValues n)
          (fst colBoundaryFlags) (snd colBoundaryFlags)).

(** [ComputeInputPartial(inputIndex, frameRange)]. *)
Definition ComputeInputPartial_frame (inputIndex : Z) (frameRange : FrameRange)
    : M Node unit :=
  if 0 <? inputIndex then throw one_input_fault else backward_frame frameRange.

(** The call of [EvaluateThisNodeSRP] that all forward entry points make. *)
Definition evaluate_frame (frameRange : FrameRange) : M Node unit :=
  n <- get ;;
  colBoundaryFlags <- GetFrameOf (m_pShiftedMBLayout n) (FrameRange_t frameRange) ;;
  zoom m_functionValues set_functionValues
       (EvaluateThisNodeSRP frameRange (m_timeStep n) (m_delayedActivation n)
          (Inputs0_FunctionValues n) (m_initialActivationValue n)
          (fst colBoundaryFlags) (snd colBoundaryFlags)).

(** The node's [GetNumParallelSequences()] asks its layout. *)
Definition NumParallel (n : Node) : Z := GetNumParallelSequences (m_pMBLayout n).

(** [cols / GetNumParallelSequences()], assigned to an [int]. *)
Definition nbrSamples_of {St} (cols : Z) (n : Node) : M St Z :=
  if NumParallel n =? 0 then throw DivisionByZero
  else ret (to_int (cols / NumParallel n)).

(** [m_delayedActivation = Inputs(0)->FunctionValues()]. *)
Definition keep_activation : M Node unit :=
  modify (fun n => set_delayedActivation (Inputs0_FunctionValues n) n).

Definition SetHistory (hist : Matrix E) : M Node unit :=
  modify (set_delayedActivation hist) ;;
  modify (set_historyAlreadySet true).

(** *** Construction

    The constructors of the base class [ComputationNode] are outside the
    source at hand: a constructor here starts from the node as the base
    class left it and sets the members of this class.
    [SetMaskMissingColumnsToZero] sets a flag of the base class that the
    record does not carry. *)

Definition set_gradientValues (v : Matrix E) (n : Node) : Node :=
  mkNode (m_functionValues n) v (m_pMBLayout n) (m_initialActivationValue n)
         (m_delayedActivation n) (m_timeStep n) (m_pShiftedMBLayout n)
         (m_historyAlreadySet n) (Inputs0_FunctionValues n) (Inputs0_GradientValues n).

Definition Init (row_size col_size : Z) (initialActivationValue : E) : M Node unit :=
  modify (set_initialActivationValue initialActivationValue) ;;
  modify (set_timeStep 1) ;;
  modify (fun n => set_functionValues (Resize row_size col_size (m_functionValues n)) n) ;;
  modify (fun n => set_delayedActivation (Resize row_size col_size (m_delayedActivation n)) n) ;;
  modify (set_historyAlreadySet false).

(** The member initialisers [m_delayedActivation(deviceId)] and
    [m_pShiftedMBLayout(make_shared<MBLayout>())]: a matrix and a layout
    without content. *)
Definition member_initialisers : M Node unit :=
  modify (set_delayedActivation (mkMatrix 0 [])) ;;
  modify (set_pShiftedMBLayout (mkMBLayout 0 [])).

(** [DEFAULT_HIDDEN_ACTIVATION] is defined in a header outside the source
    at hand. *)
Context (DEFAULT_HIDDEN_ACTIVATION : E).

(** [DelayedValueNodeBase(deviceId, name)]. *)
Definition Construct : M Node unit :=
  member_initialisers ;;
  Init 1 1 DEFAULT_HIDDEN_ACTIVATION.

(** [DelayedValueNodeBase(deviceId, name, initialActivationValue, row_size,
    col_size, timeStep)]; [timeStep] is a [size_t]. *)
Definition Construct_with (initialActivationValue : E) (row_size col_size timeStep : Z)
    : M Node unit :=
  member_initialisers ;;
  Init row_size col_size initialActivationValue ;;
  modify (set_timeStep (to_int timeStep)) ;;
  modify (fun n => set_functionValues
                     (SetValue_scalar (m_initialActivationValue n) (m_functionValues n)) n) ;;
  modify (fun n => set_delayedActivation
                     (SetValue_scalar (m_initialActivationValue n) (m_delayedActivation n)) n) ;;
  modify (fun n => set_gradientValues (Resize row_size col_size (m_gradientValues n)) n) ;;
  modify (fun n => set_gradientValues (SetValue_scalar elem_zero (m_gradientValues n)) n).

(** *** Validation, history and copies *)

(** [Validate()].  [Base::Validate], [PrintSelfBeforeValidation] and
    [InferImageDimsFromInputs] are outside the source at hand, and the
    record carries the buffers of [Inputs(0)] only: [m_children_size] is
    [m_children.size()] and [input_attached] says whether [Inputs(0)] is
    other than [nullptr]. *)
Definition Validate (m_children_size : Z) (input_attached : bool) : M Node unit :=
  if negb (m_children_size =? 1)
  then throw (LogicError "PastValue operation should have one input.")
  else
    if input_attached then
      n <- get ;;
      let rows0 := GetNumRows (Inputs0_FunctionValues n) in
      let cols0 := GetNumCols (Inputs0_FunctionValues n) in
      if (0 <? rows0) && (0 <? cols0)
      then modify (fun n => set_functionValues (Resize rows0 cols0 (m_functionValues n)) n)
      else ret tt
    else ret tt.

(** [GetHistory(hist, bool)]: the state is [hist], the node is read.  The
    transfers between devices leave the values as they are. *)
Definition GetHistory (n : Node) : M (Matrix E) bool :=
  put (Inputs0_FunctionValues n) ;;
  ret true.

(** [CopyTo(nodeP, newName, flags)]: the state is the node that [nodeP]
    points to, the node itself is read.  [Base::CopyTo] is outside the
    source at hand; [copyNodeValue] says whether [flags] has that bit. *)
Definition CopyTo (Base_CopyTo : Node -> M Node unit) (copyNodeValue : bool) (n : Node)
    : M Node unit :=
  Base_CopyTo n ;;
  if copyNodeValue then
    modify (set_timeStep (m_timeStep n)) ;;
    modify (set_initialActivationValue (m_initialActivationValue n)) ;;
    modify (set_delayedActivation (m_delayedActivation n)) ;;
    modify (set_historyAlreadySet false)
  else ret tt.

End Node.
End DelayedValueNodeBase.

(** ** PastValueNode: [DelayedValueNodeBase<ElemType, -1, SequenceStart>] *)

Module PastValueNode.
Section Node.
Context {E : Type} `{ElemOps E} `{MatrixLib E} `{PackingFlags}.
Import DelayedValueNodeBase.

Definition direction : Z := -1.

Definition ComputeInputPartial (inputIndex : Z) : M (Node (E:=E)) unit :=
  if 0 <? inputIndex then throw one_input_fault
  else
    n <- get ;;
    nbrSamples <- nbrSamples_of (GetNumCols (m_gradientValues n)) n ;;
    forM_ (downfrom nbrSamples) (fun timeIdxInSeq =>
      backward_frame direction SequenceStart
        (mkFrameRange (to_size_t timeIdxInSeq) (NumParallel n))).

Definition EvaluateThisNode : M (Node (E:=E)) unit :=
  n <- get ;;
  nbrSamples <- nbrSamples_of (GetNumCols (Inputs0_FunctionValues n)) n ;;
  forM_ (upto nbrSamples) (fun timeIdxInSeq =>
    evaluate_frame direction SequenceStart
      (mkFrameRange (to_size_t timeIdxInSeq) (NumParallel n))) ;;
  keep_activation.

(** [EvaluateThisNode(frameRange)]. *)
Definition EvaluateThisNode_frame (frameRange : FrameRange) : M (Node (E:=E)) unit :=
  n <- get ;;
  (if (FrameRange_t frameRange =? 0) && negb (m_historyAlreadySet n)
   then keep_activation else ret tt) ;;
  evaluate_frame direction SequenceStart frameRange.

End Node.
End PastValueNode.

(** ** FutureValueNode: [DelayedValueNodeBase<ElemType, +1, SequenceEnd>] *)

Module FutureValueNode.
Section Node.
Context {E : Type} `{ElemOps E} `{MatrixLib E} `{PackingFlags}.
Import DelayedValueNodeBase.

Definition direction : Z := 1.

Definition ComputeInputPartial (inputIndex : Z) : M (Node (E:=E)) unit :=
  if 0 <? inputIndex then throw one_input_fault
  else
    n <- get ;;
    nbrSamples <- nbrSamples_of (GetNumCols (m_gradientValues n)) n ;;
    forM_ (upto nbrSamples) (fun timeIdxInSeq =>
      backward_frame direction SequenceEnd
        (mkFrameRange (to_size_t timeIdxInSeq) (NumParallel n))).

Definition EvaluateThisNode : M (Node (E:=E)) unit :=
  n <- get ;;
  nbrSamples <- nbrSamples_of (GetNumCols (Inputs0_FunctionValues n)) n ;;
  forM_ (downfrom nbrSamples) (fun timeIdxInSeq =>
    evaluate_frame direction SequenceEnd
      (mkFrameRange (to_size_t timeIdxInSeq) (NumParallel n))) ;;
  keep_activation.

(** [EvaluateThisNode(frameRange)]. *)
Definition EvaluateThisNode_frame (frameRange : FrameRange) : M (Node (E:=E)) unit :=
  n <- get ;;
  (if NumParallel n =? 0 then throw DivisionByZero
   else if FrameRange_t frameRange
           =? to_size_t (GetNumCols (Inputs0_FunctionValues n) / NumParallel n - 1)
        then keep_activation else ret tt) ;;
  evaluate_frame direction SequenceEnd frameRange.

End Node.
End FutureValueNode.

(** ** LSTMNode

    The node's five inputs (the observation and the four weight blocks) are
    carried in the node record by their value and gradient buffers, in the
    order of [Inputs(0)] to [Inputs(4)]. *)

Module LSTMNode.
Section Node.
Context {E : Type} `{ElemOps E} `{MatrixLib E} `{MatrixKernels E} `{PackingFlags}.

Record Node : Type := mkNode {
  m_functionValues : Matrix E;
  m_gradientValues : Matrix E;
  m_pMBLayout : MBLayout;
  InputsFunctionValues : list (Matrix E);
  InputsGradientValues : list (Matrix E);
  m_inputDim : Z;
  m_outputDim : Z;
  m_State : Matrix E;
  m_PastState : Matrix E;
  m_PastOutput : Matrix E;
  mLastState : Matrix E;
  mLastOutput : Matrix E;
  m_Gi : Matrix E;
  m_Gf : Matrix E;
  m_Go : Matrix E;
  grdToObs : Matrix E;
  grdToInputGate : Matrix E;
  grdToForgetGate : Matrix E;
  grdToOutputGate : Matrix E;
  grdToCellWgt : Matrix E;
  tanhState : Matrix E;
  tanhObs : Matrix E;
  m_tempMatrix : Matrix E;
  m_GradientComputed : bool;
  mSlicePrevOutput : Matrix E;
  mSlicePrevState : Matrix E;
  m_obs_error_from_future_minibatch : Matrix E;
  m_state_error_from_future_minibatch : Matrix E;
  m_use_errors_from_future_minibatch : bool;
  m_DefaultState : E
}.

Definition set_m_functionValues (v : Matrix E) (n : Node) : Node :=
  mkNode v (m_gradientValues n) (m_pMBLayout n) (InputsFunctionValues n)
         (InputsGradientValues n) (m_inputDim n) (m_outputDim n) (m_State n)
         (m_PastState n) (m_PastOutput n) (mLastState n) (mLastOutput n) (m_Gi n)
         (m_Gf n) (m_Go n) (grdToObs n) (grdToInputGate n) (grdToForgetGate n)
         (grdToOutputGate n) (grdToCellWgt n) (tanhState n) (tanhObs n)
         (m_tempMatrix n) (m_GradientComputed n) (mSlicePrevOutput n)
         (mSlicePrevState n) (m_obs_error_from_future_minibatch n)
         (m_state_error_from_future_minibatch n)
         (m_use_errors_from_future_minibatch n) (m_DefaultState n).

Definition set_m_gradientValues (v : Matrix E) (n : Node) : Node :=
  mkNode (m_functionValues n) v (m_pMBLayout n) (InputsFunctionValues n)
         (InputsGradientValues n) (m_inputDim n) (m_outputDim n) (m_State n)
         (m_PastState n) (m_PastOutput n) (mLastState n) (mLastOutput n) (m_Gi n)
         (m_Gf n) (m_Go n) (grdToObs n) (grdToInputGate n) (grdToForgetGate n)
         (grdToOutputGate n) (grdToCellWgt n) (tanhState n) (tanhObs n)
         (m_tempMatrix n) (m_GradientComputed n) (mSlicePrevOutput n)
         (mSlicePrevState n) (m_obs_error_from_future_minibatch n)
         (m_state_error_from_future_minibatch n)
         (m_use_errors_from_future_minibatch n) (m_DefaultState n).

Definition set_m_pMBLayout (v : MBLayout) (n : Node) : Node :=
  mkNode (m_functionValues n) (m_gradientValues n) v (InputsFunctionValues n)
         (InputsGradientValues n) (m_inputDim n) (m_outputDim n) (m_State n)
         (m_PastState n) (m_PastOutput n) (mLastState n) (mLastOutput n) (m_Gi n)
         (m_Gf n) (m_Go n) (grdToObs n) (grdToInputGate n) (grdToForgetGate n)
         (grdToOutputGate n) (grdToCellWgt n) (tanhState n) (tanhObs n)
         (m_tempMatrix n) (m_GradientComputed n) (mSlicePrevOutput n)
         (mSlicePrevState n) (m_obs_error_from_future_minibatch n)
         (m_state_error_from_future_minibatch n)
         (m_use_errors_from_future_minibatch n) (m_DefaultState n).

Definition set_InputsFunctionValues (v : list (Matrix E)) (n : Node) : Node :=
  mkNode (m_functionValues n) (m_gradientValues n) (m_pMBLayout n) v
         (InputsGradientValues n) (m_inputDim n) (m_outputDim n) (m_State n)
         (m_PastState n) (m_PastOutput n) (mLastState n) (mLastOutput n) (m_Gi n)
         (m_Gf n) (m_Go n) (grdToObs n) (grdToInputGate n) (grdToForgetGate n)
         (grdToOutputGate n) (grdToCellWgt n) (tanhState n) (tanhObs n)
         (m_tempMatrix n) (m_GradientComputed n) (mSlicePrevOutput n)
         (mSlicePrevState n) (m_obs_error_from_future_minibatch n)
         (m_state_error_from_future_minibatch n)
         (m_use_errors_from_future_minibatch n) (m_DefaultState n).

Definition set_InputsGradientValues (v : list (Matrix E)) (n : Node) : Node :=
  mkNode (m_functionValues n) (m_gradientValues n) (m_pMBLayout n)
         (InputsFunctionValues n) v (m_inputDim n) (m_outputDim n) (m_State n)
         (m_PastState n) (m_PastOutput n) (mLastState n) (mLastOutput n) (m_Gi n)
         (m_Gf n) (m_Go n) (grdToObs n) (grdToInputGate n) (grdToForgetGate n)
         (grdToOutputGate n) (grdToCellWgt n) (tanhState n) (tanhObs n)
         (m_tempMatrix n) (m_GradientComputed n) (mSlicePrevOutput n)
         (mSlicePrevState n) (m_obs_error_from_future_minibatch n)
         (m_state_error_from_future_minibatch n)
         (m_use_errors_from_future_minibatch n) (m_DefaultState n).

Definition set_m_inputDim (v : Z) (n : Node) : Node :=
  mkNode (m_functionValues n) (m_gradientValues n) (m_pMBLayout n)
         (InputsFunctionValues n) (InputsGradientValues n) v (m_outputDim n)
         (m_State n) (m_PastState n) (m_PastOutput n) (mLastState n) (mLastOutput n)
         (m_Gi n) (m_Gf n) (m_Go n) (grdToObs n) (grdToInputGate n)
         (grdToForgetGate n) (grdToOutputGate n) (grdToCellWgt n) (tanhState n)
         (tanhObs n) (m_tempMatrix n) (m_GradientComputed n) (mSlicePrevOutput n)
         (mSlicePrevState n) (m_obs_error_from_future_minibatch n)
         (m_state_error_from_future_minibatch n)
         (m_use_errors_from_future_minibatch n) (m_DefaultState n).

Definition set_m_outputDim (v : Z) (n : Node) : Node :=
  mkNode (m_functionValues n) (m_gradientValues n) (m_pMBLayout n)
         (InputsFunctionValues n) (InputsGradientValues n) (m_inputDim n) v
         (m_State n) (m_PastState n) (m_PastOutput n) (mLastState n) (mLastOutput n)
         (m_Gi n) (m_Gf n) (m_Go n) (grdToObs n) (grdToInputGate n)
         (grdToForgetGate n) (grdToOutputGate n) (grdToCellWgt n) (tanhState n)
         (tanhObs n) (m_tempMatrix n) (m_GradientComputed n) (mSlicePrevOutput n)
         (mSlicePrevState n) (m_obs_error_from_future_minibatch n)
         (m_state_error_from_future_minibatch n)
         (m_use_errors_from_future_minibatch n) (m_DefaultState n).

Definition set_m_State (v : Matrix E) (n : Node) : Node :=
  mkNode (m_functionValues n) (m_gradientValues n) (m_pMBLayout n)
         (InputsFunctionValues n) (InputsGradientValues n) (m_inputDim n)
         (m_outputDim n) v (m_PastState n) (m_PastOutput n) (mLastState n)
         (mLastOutput n) (m_Gi n) (m_Gf n) (m_Go n) (grdToObs n) (grdToInputGate n)
         (grdToForgetGate n) (grdToOutputGate n) (grdToCellWgt n) (tanhState n)
         (tanhObs n) (m_tempMatrix n) (m_GradientComputed n) (mSlicePrevOutput n)
         (mSlicePrevState n) (m_obs_error_from_future_minibatch n)
         (m_state_error_from_future_minibatch n)
         (m_use_errors_from_future_minibatch n) (m_DefaultState n).

Definition set_m_PastState (v : Matrix E) (n : Node) : Node :=
  mkNode (m_functionValues n) (m_gradientValues n) (m_pMBLayout n)
         (InputsFunctionValues n) (InputsGradientValues n) (m_inputDim n)
         (m_outputDim n) (m_State n) v (m_PastOutput n) (mLastState n) (mLastOutput n)
         (m_Gi n) (m_Gf n) (m_Go n) (grdToObs n) (grdToInputGate n)
         (grdToForgetGate n) (grdToOutputGate n) (grdToCellWgt n) (tanhState n)
         (tanhObs n) (m_tempMatrix n) (m_GradientComputed n) (mSlicePrevOutput n)
         (mSlicePrevState n) (m_obs_error_from_future_minibatch n)
         (m_state_error_from_future_minibatch n)
         (m_use_errors_from_future_minibatch n) (m_DefaultState n).

Definition set_m_PastOutput (v : Matrix E) (n : Node) : Node :=
  mkNode (m_functionValues n) (m_gradientValues n) (m_pMBLayout n)
         (InputsFunctionValues n) (InputsGradientValues n) (m_inputDim n)
         (m_outputDim n) (m_State n) (m_PastState n) v (mLastState n) (mLastOutput n)
         (m_Gi n) (m_Gf n) (m_Go n) (grdToObs n) (grdToInputGate n)
         (grdToForgetGate n) (grdToOutputGate n) (grdToCellWgt n) (tanhState n)
         (tanhObs n) (m_tempMatrix n) (m_GradientComputed n) (mSlicePrevOutput n)
         (mSlicePrevState n) (m_obs_error_from_future_minibatch n)
         (m_state_error_from_future_minibatch n)
         (m_use_errors_from_future_minibatch n) (m_DefaultState n).

Definition set_mLastState (v : Matrix E) (n : Node) : Node :=
  mkNode (m_functionValues n) (m_gradientValues n) (m_pMBLayout n)
         (InputsFunctionValues n) (InputsGradientValues n) (m_inputDim n)
         (m_outputDim n) (m_State n) (m_PastState n) (m_PastOutput n) v
         (mLastOutput n) (m_Gi n) (m_Gf n) (m_Go n) (grdToObs n) (grdToInputGate n)
         (grdToForgetGate n) (grdToOutputGate n) (grdToCellWgt n) (tanhState n)
         (tanhObs n) (m_tempMatrix n) (m_GradientComputed n) (mSlicePrevOutput n)
         (mSlicePrevState n) (m_obs_error_from_future_minibatch n)
         (m_state_error_from_future_minibatch n)
         (m_use_errors_from_future_minibatch n) (m_DefaultState n).

Definition set_mLastOutput (v : Matrix E) (n : Node) : Node :=
  mkNode (m_functionValues n) (m_gradientValues n) (m_pMBLayout n)
         (InputsFunctionValues n) (InputsGradientValues n) (m_inputDim n)
         (m_outputDim n) (m_State n) (m_PastState n) (m_PastOutput n) (mLastState n) v
         (m_Gi n) (m_Gf n) (m_Go n) (grdToObs n) (grdToInputGate n)
         (grdToForgetGate n) (grdToOutputGate n) (grdToCellWgt n) (tanhState n)
         (tanhObs n) (m_tempMatrix n) (m_GradientComputed n) (mSlicePrevOutput n)
         (mSlicePrevState n) (m_obs_error_from_future_minibatch n)
         (m_state_error_from_future_minibatch n)
         (m_use_errors_from_future_minibatch n) (m_DefaultState n).

Definition set_m_Gi (v : Matrix E) (n : Node) : Node :=
  mkNode (m_functionValues n) (m_gradientValues n) (m_pMBLayout n)
         (InputsFunctionValues n) (InputsGradientValues n) (m_inputDim n)
         (m_outputDim n) (m_State n) (m_PastState n) (m_PastOutput n) (mLastState n)
         (mLastOutput n) v (m_Gf n) (m_Go n) (grdToObs n) (grdToInputGate n)
         (grdToForgetGate n) (grdToOutputGate n) (grdToCellWgt n) (tanhState n)
         (tanhObs n) (m_tempMatrix n) (m_GradientComputed n) (mSlicePrevOutput n)
         (mSlicePrevState n) (m_obs_error_from_future_minibatch n)
         (m_state_error_from_future_minibatch n)
         (m_use_errors_from_future_minibatch n) (m_DefaultState n).

Definition set_m_Gf (v : Matrix E) (n : Node) : Node :=
  mkNode (m_functionValues n) (m_gradientValues n) (m_pMBLayout n)
         (InputsFunctionValues n) (InputsGradientValues n) (m_inputDim n)
         (m_outputDim n) (m_State n) (m_PastState n) (m_PastOutput n) (mLastState n)
         (mLastOutput n) (m_Gi n) v (m_Go n) (grdToObs n) (grdToInputGate n)
         (grdToForgetGate n) (grdToOutputGate n) (grdToCellWgt n) (tanhState n)
         (tanhObs n) (m_tempMatrix n) (m_GradientComputed n) (mSlicePrevOutput n)
         (mSlicePrevState n) (m_obs_error_from_future_minibatch n)
         (m_state_error_from_future_minibatch n)
         (m_use_errors_from_future_minibatch n) (m_DefaultState n).

Definition set_m_Go (v : Matrix E) (n : Node) : Node :=
  mkNode (m_functionValues n) (m_gradientValues n) (m_pMBLayout n)
         (InputsFunctionValues n) (InputsGradientValues n) (m_inputDim n)
         (m_outputDim n) (m_State n) (m_PastState n) (m_PastOutput n) (mLastState n)
         (mLastOutput n) (m_Gi n) (m_Gf n) v (grdToObs n) (grdToInputGate n)
         (grdToForgetGate n) (grdToOutputGate n) (grdToCellWgt n) (tanhState n)
         (tanhObs n) (m_tempMatrix n) (m_GradientComputed n) (mSlicePrevOutput n)
         (mSlicePrevState n) (m_obs_error_from_future_minibatch n)
         (m_state_error_from_future_minibatch n)
         (m_use_errors_from_future_minibatch n) (m_DefaultState n).

Definition set_grdToObs (v : Matrix E) (n : Node) : Node :=
  mkNode (m_functionValues n) (m_gradientValues n) (m_pMBLayout n)
         (InputsFunctionValues n) (InputsGradientValues n) (m_inputDim n)
         (m_outputDim n) (m_State n) (m_PastState n) (m_PastOutput n) (mLastState n)
         (mLastOutput n) (m_Gi n) (m_Gf n) (m_Go n) v (grdToInputGate n)
         (grdToForgetGate n) (grdToOutputGate n) (grdToCellWgt n) (tanhState n)
         (tanhObs n) (m_tempMatrix n) (m_GradientComputed n) (mSlicePrevOutput n)
         (mSlicePrevState n) (m_obs_error_from_future_minibatch n)
         (m_state_error_from_future_minibatch n)
         (m_use_errors_from_future_minibatch n) (m_DefaultState n).

Definition set_grdToInputGate (v : Matrix E) (n : Node) : Node :=
  mkNode (m_functionValues n) (m_gradientValues n) (m_pMBLayout n)
         (InputsFunctionValues n) (InputsGradientValues n) (m_inputDim n)
         (m_outputDim n) (m_State n) (m_PastState n) (m_PastOutput n) (mLastState n)
         (mLastOutput n) (m_Gi n) (m_Gf n) (m_Go n) (grdToObs n) v (grdToForgetGate n)
         (grdToOutputGate n) (grdToCellWgt n) (tanhState n) (tanhObs n)
         (m_tempMatrix n) (m_GradientComputed n) (mSlicePrevOutput n)
         (mSlicePrevState n) (m_obs_error_from_future_minibatch n)
         (m_state_error_from_future_minibatch n)
         (m_use_errors_from_future_minibatch n) (m_DefaultState n).

Definition set_grdToForgetGate (v : Matrix E) (n : Node) : Node :=
  mkNode (m_functionValues n) (m_gradientValues n) (m_pMBLayout n)
         (InputsFunctionValues n) (InputsGradientValues n) (m_inputDim n)
         (m_outputDim n) (m_State n) (m_PastState n) (m_PastOutput n) (mLastState n)
         (mLastOutput n) (m_Gi n) (m_Gf n) (m_Go n) (grdToObs n) (grdToInputGate n) v
         (grdToOutputGate n) (grdToCellWgt n) (tanhState n) (tanhObs n)
         (m_tempMatrix n) (m_GradientComputed n) (mSlicePrevOutput n)
         (mSlicePrevState n) (m_obs_error_from_future_minibatch n)
         (m_state_error_from_future_minibatch n)
         (m_use_errors_from_future_minibatch n) (m_DefaultState n).

Definition set_grdToOutputGate (v : Matrix E) (n : Node) : Node :=
  mkNode (m_functionValues n) (m_gradientValues n) (m_pMBLayout n)
         (InputsFunctionValues n) (InputsGradientValues n) (m_inputDim n)
         (m_outputDim n) (m_State n) (m_PastState n) (m_PastOutput n) (mLastState n)
         (mLastOutput n) (m_Gi n) (m_Gf n) (m_Go n) (grdToObs n) (grdToInputGate n)
         (grdToForgetGate n) v (grdToCellWgt n) (tanhState n) (tanhObs n)
         (m_tempMatrix n) (m_GradientComputed n) (mSlicePrevOutput n)
         (mSlicePrevState n) (m_obs_error_from_future_minibatch n)
         (m_state_error_from_future_minibatch n)
         (m_use_errors_from_future_minibatch n) (m_DefaultState n).

Definition set_grdToCellWgt (v : Matrix E) (n : Node) : Node :=
  mkNode (m_functionValues n) (m_gradientValues n) (m_pMBLayout n)
         (InputsFunctionValues n) (InputsGradientValues n) (m_inputDim n)
         (m_outputDim n) (m_State n) (m_PastState n) (m_PastOutput n) (mLastState n)
         (mLastOutput n) (m_Gi n) (m_Gf n) (m_Go n) (grdToObs n) (grdToInputGate n)
         (grdToForgetGate n) (grdToOutputGate n) v (tanhState n) (tanhObs n)
         (m_tempMatrix n) (m_GradientComputed n) (mSlicePrevOutput n)
         (mSlicePrevState n) (m_obs_error_from_future_minibatch n)
         (m_state_error_from_future_minibatch n)
         (m_use_errors_from_future_minibatch n) (m_DefaultState n).

Definition set_tanhState (v : Matrix E) (n : Node) : Node :=
  mkNode (m_functionValues n) (m_gradientValues n) (m_pMBLayout n)
         (InputsFunctionValues n) (InputsGradientValues n) (m_inputDim n)
         (m_outputDim n) (m_State n) (m_PastState n) (m_PastOutput n) (mLastState n)
         (mLastOutput n) (m_Gi n) (m_Gf n) (m_Go n) (grdToObs n) (grdToInputGate n)
         (grdToForgetGate n) (grdToOutputGate n) (grdToCellWgt n) v (tanhObs n)
         (m_tempMatrix n) (m_GradientComputed n) (mSlicePrevOutput n)
         (mSlicePrevState n) (m_obs_error_from_future_minibatch n)
         (m_state_error_from_future_minibatch n)
         (m_use_errors_from_future_minibatch n) (m_DefaultState n).

Definition set_tanhObs (v : Matrix E) (n : Node) : Node :=
  mkNode (m_functionValues n) (m_gradientValues n) (m_pMBLayout n)
         (InputsFunctionValues n) (InputsGradientValues n) (m_inputDim n)
         (m_outputDim n) (m_State n) (m_PastState n) (m_PastOutput n) (mLastState n)
         (mLastOutput n) (m_Gi n) (m_Gf n) (m_Go n) (grdToObs n) (grdToInputGate n)
         (grdToForgetGate n) (grdToOutputGate n) (grdToCellWgt n) (tanhState n) v
         (m_tempMatrix n) (m_GradientComputed n) (mSlicePrevOutput n)
         (mSlicePrevState n) (m_obs_error_from_future_minibatch n)
         (m_state_error_from_future_minibatch n)
         (m_use_errors_from_future_minibatch n) (m_DefaultState n).

Definition set_m_tempMatrix (v : Matrix E) (n : Node) : Node :=
  mkNode (m_functionValues n) (m_gradientValues n) (m_pMBLayout n)
         (InputsFunctionValues n) (InputsGradientValues n) (m_inputDim n)
         (m_outputDim n) (m_State n) (m_PastState n) (m_PastOutput n) (mLastState n)
         (mLastOutput n) (m_Gi n) (m_Gf n) (m_Go n) (grdToObs n) (grdToInputGate n)
         (grdToForgetGate n) (grdToOutputGate n) (grdToCellWgt n) (tanhState n)
         (tanhObs n) v (m_GradientComputed n) (mSlicePrevOutput n) (mSlicePrevState n)
         (m_obs_error_from_future_minibatch n) (m_state_error_from_future_minibatch n)
         (m_use_errors_from_future_minibatch n) (m_DefaultState n).

Definition set_m_GradientComputed (v : bool) (n : Node) : Node :=
  mkNode (m_functionValues n) (m_gradientValues n) (m_pMBLayout n)
         (InputsFunctionValues n) (InputsGradientValues n) (m_inputDim n)
         (m_outputDim n) (m_State n) (m_PastState n) (m_PastOutput n) (mLastState n)
         (mLastOutput n) (m_Gi n) (m_Gf n) (m_Go n) (grdToObs n) (grdToInputGate n)
         (grdToForgetGate n) (grdToOutputGate n) (grdToCellWgt n) (tanhState n)
         (tanhObs n) (m_tempMatrix n) v (mSlicePrevOutput n) (mSlicePrevState n)
         (m_obs_error_from_future_minibatch n) (m_state_error_from_future_minibatch n)
         (m_use_errors_from_future_minibatch n) (m_DefaultState n).

Definition set_mSlicePrevOutput (v : Matrix E) (n : Node) : Node :=
  mkNode (m_functionValues n) (m_gradientValues n) (m_pMBLayout n)
         (InputsFunctionValues n) (InputsGradientValues n) (m_inputDim n)
         (m_outputDim n) (m_State n) (m_PastState n) (m_PastOutput n) (mLastState n)
         (mLastOutput n) (m_Gi n) (m_Gf n) (m_Go n) (grdToObs n) (grdToInputGate n)
         (grdToForgetGate n) (grdToOutputGate n) (grdToCellWgt n) (tanhState n)
         (tanhObs n) (m_tempMatrix n) (m_GradientComputed n) v (mSlicePrevState n)
         (m_obs_error_from_future_minibatch n) (m_state_error_from_future_minibatch n)
         (m_use_errors_from_future_minibatch n) (m_DefaultState n).

Definition set_mSlicePrevState (v : Matrix E) (n : Node) : Node :=
  mkNode (m_functionValues n) (m_gradientValues n) (m_pMBLayout n)
         (InputsFunctionValues n) (InputsGradientValues n) (m_inputDim n)
         (m_outputDim n) (m_State n) (m_PastState n) (m_PastOutput n) (mLastState n)
         (mLastOutput n) (m_Gi n) (m_Gf n) (m_Go n) (grdToObs n) (grdToInputGate n)
         (grdToForgetGate n) (grdToOutputGate n) (grdToCellWgt n) (tanhState n)
         (tanhObs n) (m_tempMatrix n) (m_GradientComputed n) (mSlicePrevOutput n) v
         (m_obs_error_from_future_minibatch n) (m_state_error_from_future_minibatch n)
         (m_use_errors_from_future_minibatch n) (m_DefaultState n).

Definition set_m_obs_error_from_future_minibatch (v : Matrix E) (n : Node) : Node :=
  mkNode (m_functionValues n) (m_gradientValues n) (m_pMBLayout n)
         (InputsFunctionValues n) (InputsGradientValues n) (m_inputDim n)
         (m_outputDim n) (m_State n) (m_PastState n) (m_PastOutput n) (mLastState n)
         (mLastOutput n) (m_Gi n) (m_Gf n) (m_Go n) (grdToObs n) (grdToInputGate n)
         (grdToForgetGate n) (grdToOutputGate n) (grdToCellWgt n) (tanhState n)
         (tanhObs n) (m_tempMatrix n) (m_GradientComputed n) (mSlicePrevOutput n)
         (mSlicePrevState n) v (m_state_error_from_future_minibatch n)
         (m_use_errors_from_future_minibatch n) (m_DefaultState n).

Definition set_m_state_error_from_future_minibatch (v : Matrix E) (n : Node) : Node :=
  mkNode (m_functionValues n) (m_gradientValues n) (m_pMBLayout n)
         (InputsFunctionValues n) (InputsGradientValues n) (m_inputDim n)
         (m_outputDim n) (m_State n) (m_PastState n) (m_PastOutput n) (mLastState n)
         (mLastOutput n) (m_Gi n) (m_Gf n) (m_Go n) (grdToObs n) (grdToInputGate n)
         (grdToForgetGate n) (grdToOutputGate n) (grdToCellWgt n) (tanhState n)
         (tanhObs n) (m_tempMatrix n) (m_GradientComputed n) (mSlicePrevOutput n)
         (mSlicePrevState n) (m_obs_error_from_future_minibatch n) v
         (m_use_errors_from_future_minibatch n) (m_DefaultState n).

Definition set_m_use_errors_from_future_minibatch (v : bool) (n : Node) : Node :=
  mkNode (m_functionValues n) (m_gradientValues n) (m_pMBLayout n)
         (InputsFunctionValues n) (InputsGradientValues n) (m_inputDim n)
         (m_outputDim n) (m_State n) (m_PastState n) (m_PastOutput n) (mLastState n)
         (mLastOutput n) (m_Gi n) (m_Gf n) (m_Go n) (grdToObs n) (grdToInputGate n)
         (grdToForgetGate n) (grdToOutputGate n) (grdToCellWgt n) (tanhState n)
         (tanhObs n) (m_tempMatrix n) (m_GradientComputed n) (mSlicePrevOutput n)
         (mSlicePrevState n) (m_obs_error_from_future_minibatch n)
         (m_state_error_from_future_minibatch n) v (m_DefaultState n).

Definition set_m_DefaultState (v : E) (n : Node) : Node :=
  mkNode (m_functionValues n) (m_gradientValues n) (m_pMBLayout n)
         (InputsFunctionValues n) (InputsGradientValues n) (m_inputDim n)
         (m_outputDim n) (m_State n) (m_PastState n) (m_PastOutput n) (mLastState n)
         (mLastOutput n) (m_Gi n) (m_Gf n) (m_Go n) (grdToObs n) (grdToInputGate n)
         (grdToForgetGate n) (grdToOutputGate n) (grdToCellWgt n) (tanhState n)
         (tanhObs n) (m_tempMatrix n) (m_GradientComputed n) (mSlicePrevOutput n)
         (mSlicePrevState n) (m_obs_error_from_future_minibatch n)
         (m_state_error_from_future_minibatch n)
         (m_use_errors_from_future_minibatch n) v.

(** *** Persistence *)

Definition SaveToFile (n : Node) : File E :=
  [ item_size_t (m_inputDim n); item_size_t (m_outputDim n);
    item_elem (m_DefaultState n) ].

Definition LoadFromFile (fstream : File E) (modelVersion : Z) : M Node (File E) :=
  fstream <- (if modelVersion =? 2 then
                inputDim <- read_size_t fstream ;;
                modify (set_m_inputDim (fst inputDim)) ;;
                outputDim <- read_size_t (snd inputDim) ;;
                modify (set_m_outputDim (fst outputDim)) ;;
                ret (snd outputDim)
              else ret fstream) ;;
  v <- read_elem fstream ;;
  modify (set_m_DefaultState (fst v)) ;;
  ret (snd v).

(** *** Access to the inputs and to frames *)

Definition NumParallel (n : Node) : Z := GetNumParallelSequences (m_pMBLayout n).

(** [Inputs(i)->FunctionValues()]. *)
Definition InputValues (i : Z) : M Node (Matrix E) :=
  n <- get ;;
  lift_option (if 0 <=? i then InputsFunctionValues n !! Z.to_nat i else None) index_fault.

(** [DataSlice(data, frameRange)]: the columns of the frame. *)
Definition DataSlice {St} (data : Matrix E) (frameRange : FrameRange) : M St (Matrix E) :=
  ColumnSliceOf data
    (to_size_t (FrameRange_t frameRange * FrameRange_NumCols frameRange))
    (FrameRange_NumCols frameRange).

(** [frameRange.Check(expectedStartColumn, expectedNumCols, pMBLayout)] is
    declared outside the source at hand: [Check] says which fault, if any,
    it raises. *)
Context (Check : FrameRange -> Z -> Z -> MBLayout -> option Fault).

Definition FrameRange_Check {St} (frameRange : FrameRange)
    (expectedStartColumn expectedNumCols : Z) (pMBLayout : MBLayout) : M St unit :=
  match Check frameRange expectedStartColumn expectedNumCols pMBLayout with
  | Some e => throw e
  | None => ret tt
  end.

(** Runs a computation that only reads the node. *)
Definition reading {St A} (n : Node) (c : M Node A) : M St A :=
  fun s => match c n with
           | Done a _ => Done a s
           | Thrown e _ => Thrown e s
           end.

Definition GetSegInfo (t streamid : Z) : M Node Z :=
  n <- get ;;
  if NumParallel n <=? streamid
  then throw (LogicError "GetSegInfo: stream id is larger than the number of streams")
  else
    obs <- InputValues 0 ;;
    let nT := GetNumCols obs in
    if nT <=? t
    then throw (LogicError "GetSegInfo: time is larger than the total number of observations")
    else
      if NumParallel n =? 0 then throw DivisionByZero
      else
        let utt_t := to_int (to_size_t (to_int t) / NumParallel n) in
        thisCol <- lift_option (GetFrame (m_pMBLayout n) (to_size_t utt_t)) index_fault ;;
        lift_option (if 0 <=? streamid then fst thisCol !! Z.to_nat streamid else None)
                    slice_fault.

(** *** The three preparation routines

    In each the code that follows the [#if 1] branch is compiled out; what
    is left ends in [LogicError]. *)

Definition needs_resize (m : Matrix E) (nRow nsamples : Z) : bool :=
  IsEmpty m || negb (GetNumRows m =? nRow) || negb (GetNumCols m =? nsamples).

(** The state is the pair of [slicePrevOutput] and [slicePrevState]. *)
Definition PrepareHistory (timeIdxInSeq : Z) (output state pastOutput pastState : Matrix E)
    (nsamples : Z) (initStateValue : E) (sentenceBegin : MBLayout)
    : M (Matrix E * Matrix E) unit :=
  let nRow := GetNumRows pastOutput in
  let nStream := GetNumParallelSequences sentenceBegin in
  if nsamples =? 0 then throw DivisionByZero
  else
    let utt_t := to_int (timeIdxInSeq / nsamples) in
    modify (fun s => (if needs_resize (fst s) nRow nsamples
                      then Resize nRow nsamples (fst s) else fst s, snd s)) ;;
    modify (fun s => (fst s, if needs_resize (snd s) nRow nsamples
                             then Resize nRow nsamples (snd s) else snd s)) ;;
    if negb (nStream =? nsamples)
    then throw (LogicError "Number of rows should be the same as the number of data streams")
    else
      colBegin <- lift_option (GetFrame sentenceBegin (to_size_t utt_t)) slice_fault ;;
      throw (LogicError "PrepareHistory: finish this").

(** The state is the pair of [error] and [stateError]; the node is read. *)
Definition PrepareThisErrorsBeforeBackProp (n : Node) (timeIdxInSeq nT : Z)
    (grdToPrevOutput grdToPrevState : Matrix E)
    (obs_error_from_future_minibatch state_error_from_future_minibatch : Matrix E)
    (nsamples : Z) (sentenceBegin : MBLayout) : M (Matrix E * Matrix E) unit :=
  if nsamples =? 0 then throw DivisionByZero
  else
    let utt_t := to_int (timeIdxInSeq / nsamples) in
    let total_utt_t := to_int (nT / nsamples) in
    zoom fst (fun v s => (v, snd s)) (PlusAssign grdToPrevOutput) ;;
    modify (fun s => (fst s, grdToPrevState)) ;;
    (if m_use_errors_from_future_minibatch n then
       forM_ (upto nsamples) (fun utt_id =>
         here <- reading n (GetSegInfo timeIdxInSeq utt_id) ;;
         last <- (if (here =? FlagNone) && (utt_t =? total_utt_t - 1) then ret true
                  else if (utt_t <? total_utt_t - 1) && (here =? FlagNone)
                       then next <- reading n (GetSegInfo (to_size_t (timeIdxInSeq + nsamples))
                                                          utt_id) ;;
                            ret (next =? NoInput)
                       else ret false) ;;
         if last : bool then
           obs_error <- ColumnSliceOf obs_error_from_future_minibatch utt_id 1 ;;
           zoom fst (fun v s => (v, snd s))
                (to <- ColumnSliceHere utt_id 1 ;; PlusAssign_slice utt_id to obs_error) ;;
           state_error <- ColumnSliceOf state_error_from_future_minibatch utt_id 1 ;;
           zoom snd (fun v s => (fst s, v))
                (to <- ColumnSliceHere utt_id 1 ;; PlusAssign_slice utt_id to state_error)
         else ret tt)
     else ret tt) ;;
    throw (LogicError "PrepareThisErrorsBeforeBackProp: finish this").

(** The state is the pair of [errors] and [stateError]. *)
Definition PrepareErrors (timeIdxInSeq : Z) (nsamples : Z) (sentenceBegin : MBLayout)
    : M (Matrix E * Matrix E) unit :=
  if nsamples =? 0 then throw DivisionByZero
  else
    let utt_t := to_int (timeIdxInSeq / nsamples) in
    throw (LogicError "PrepareErrors: finish this").

(** *** The cell

    [EvaluateThisNodeS] and [ComputeInputGradientWrtGates] are [static]
    and work on the matrices they are handed.  Each is read as a function
    from the values it receives to the values of the matrices it writes;
    [None] stands for a throw of the matrix library. *)

Record CellValues : Type := mkCellValues {
  cell_output : Matrix E;
  cell_state : Matrix E;
  cell_gi : Matrix E;
  cell_gf : Matrix E;
  cell_go : Matrix E;
  cell_tanhState : Matrix E;
  cell_tanhObs : Matrix E;
  cell_tmp : Matrix E
}.

(** The forward step of one frame: the gates in the order input, forget,
    cell state, output. *)
Definition EvaluateThisNodeS (mInputGate mForgetGate mOutputGate mCellWgt : Matrix E)
    (obs prevOutput prevState : Matrix E) : option CellValues :=
  let inputDim := to_int (GetNumRows obs) in
  let outputDim := to_int (GetNumRows mOutputGate) in
  (* for input gate *)
  Wxi ← ColumnSlice mInputGate 1 inputDim;
  let gi := Multiply Wxi false obs false in
  Whi ← ColumnSlice mInputGate (1 + inputDim) outputDim;
  let gi := MultiplyAndAdd Whi false prevOutput false gi in
  bi ← ColumnSlice mInputGate 0 1;
  gi ← plus gi bi;
  let tmp := prevState in
  Wci ← ColumnSlice mInputGate (1 + inputDim + outputDim) 1;
  let tmp := ColumnElementMultiplyWith tmp Wci in
  gi ← plus gi tmp;
  let gi := AssignSigmoidOf gi in
  (* for forget gate *)
  Wxf ← ColumnSlice mForgetGate 1 inputDim;
  let gf := Multiply Wxf false obs false in
  Whf ← ColumnSlice mForgetGate (1 + inputDim) outputDim;
  let gf := MultiplyAndAdd Whf false prevOutput false gf in
  bf ← ColumnSlice mForgetGate 0 1;
  gf ← plus gf bf;
  let tmp := prevState in
  Wcf ← ColumnSlice mForgetGate (1 + inputDim + outputDim) 1;
  let tmp := ColumnElementMultiplyWith tmp Wcf in
  gf ← plus gf tmp;
  let gf := AssignSigmoidOf gf in
  (* for cell state *)
  Wxc ← ColumnSlice mCellWgt 1 inputDim;
  let state := Multiply Wxc false obs false in
  Whc ← ColumnSlice mCellWgt (1 + inputDim) outputDim;
  let state := MultiplyAndAdd Whc false prevOutput false state in
  bc ← ColumnSlice mCellWgt 0 1;
  state ← plus state bc;
  let tanhObs := AssignTanhOf state in
  let state := AssignElementProductOf gi tanhObs in
  let state := AddElementProductOf state gf prevState in
  (* for output gate *)
  Wxo ← ColumnSlice mOutputGate 1 inputDim;
  let go := Multiply Wxo false obs false in
  Who ← ColumnSlice mOutputGate (1 + inputDim) outputDim;
  let go := MultiplyAndAdd Who false prevOutput false go in
  bo ← ColumnSlice mOutputGate 0 1;
  go ← plus go bo;
  let tmp := state in
  Wco ← ColumnSlice mOutputGate (1 + inputDim + outputDim) 1;
  let tmp := ColumnElementMultiplyWith tmp Wco in
  go ← plus go tmp;
  let go := AssignSigmoidOf go in
  (* to return output *)
  let tanhState := AssignTanhOf state in
  let output := AssignElementProductOf go tanhState in
  Some (mkCellValues output state gi gf go tanhState tanhObs tmp).

(** Returns the new [inputGradientValues] and [extTmp]. *)
Definition GradientOfTanh (functionValues gradientOut inputGradientValues : Matrix E)
    : option (Matrix E * Matrix E) :=
  let extTmp := AssignElementProductOf functionValues functionValues in
  let mTmp := AssignDifferenceOf elem_one extTmp in
  if negb (same_shape inputGradientValues functionValues) then None
  else Some (AddElementProductOf inputGradientValues gradientOut mTmp, extTmp).

(** [for (i < src.GetNumCols()) v += src.ColumnSlice(i, 1)]. *)
Definition add_each_column (src : Matrix E) (v : Matrix E) : option (Matrix E) :=
  foldl (fun acc i => a ← acc; c ← ColumnSlice src i 1; plus a c)
        (Some v) (upto (GetNumCols src)).

Record GateGradients : Type := mkGateGradients {
  gg_grdToObs : Matrix E;
  gg_grdToInputGate : Matrix E;
  gg_grdToForgetGate : Matrix E;
  gg_grdToOutputGate : Matrix E;
  gg_grdToCellWgt : Matrix E;
  gg_grdToPrevOutput : Matrix E;
  gg_grdToPrevState : Matrix E;
  gg_tmpMat : Matrix E
}.

(** The backward step of one frame.  The views of the weight blocks and of
    their gradients are taken first, as in the source; a gradient view is
    written through with [through_slice]. *)
Definition ComputeInputGradientWrtGates
    (outGrd obs grdToObs : Matrix E)
    (mInputGate grdToInputGate mForgetGate grdToForgetGate : Matrix E)
    (mOutputGate grdToOutputGate mCellWgt grdToCellWgt : Matrix E)
    (prevOutput prevState stateError state tanhState : Matrix E)
    (tanhBeforeApplyingInputGating gi gf go : Matrix E)
    (grdToPrevOutput grdToPrevState tmpMat : Matrix E) : option GateGradients :=
  let inputDim := to_int (GetNumRows obs) in
  let outputDim := to_int (GetNumRows mOutputGate) in
  Who ← ColumnSlice mOutputGate (1 + inputDim) outputDim;
  Wco ← ColumnSlice mOutputGate (1 + inputDim + outputDim) 1;
  Wxo ← ColumnSlice mOutputGate 1 inputDim;
  _ ← ColumnSlice grdToOutputGate (1 + inputDim) outputDim;
  _ ← ColumnSlice grdToOutputGate (1 + inputDim + outputDim) 1;
  _ ← ColumnSlice grdToOutputGate 1 inputDim;
  _ ← ColumnSlice grdToOutputGate 0 1;
  Whf ← ColumnSlice mForgetGate (1 + inputDim) outputDim;
  Wcf ← ColumnSlice mForgetGate (1 + inputDim + outputDim) 1;
  Wxf ← ColumnSlice mForgetGate 1 inputDim;
  _ ← ColumnSlice grdToForgetGate (1 + inputDim) outputDim;
  _ ← ColumnSlice grdToForgetGate (1 + inputDim + outputDim) 1;
  _ ← ColumnSlice grdToForgetGate 1 inputDim;
  _ ← ColumnSlice grdToForgetGate 0 1;
  Wxc ← ColumnSlice mCellWgt 1 inputDim;
  Whc ← ColumnSlice mCellWgt (1 + inputDim) outputDim;
  _ ← ColumnSlice grdToCellWgt 1 inputDim;
  _ ← ColumnSlice grdToCellWgt (1 + inputDim) outputDim;
  _ ← ColumnSlice grdToCellWgt 0 1;
  Whi ← ColumnSlice mInputGate (1 + inputDim) outputDim;
  Wci ← ColumnSlice mInputGate (1 + inputDim + outputDim) 1;
  Wxi ← ColumnSlice mInputGate 1 inputDim;
  _ ← ColumnSlice grdToInputGate (1 + inputDim) outputDim;
  _ ← ColumnSlice grdToInputGate (1 + inputDim + outputDim) 1;
  _ ← ColumnSlice grdToInputGate 1 inputDim;
  _ ← ColumnSlice grdToInputGate 0 1;
  (* error backpropagate to output gate *)
  let tmpMat := AssignElementProductOf outGrd tanhState in
  let gradientOfSigmoid := AssignSigmoidDerivativeOf go in
  let grdBeforeGo := AssignElementProductOf tmpMat gradientOfSigmoid in
  let grdToPrevOutput := MultiplyAndAdd Who true grdBeforeGo false grdToPrevOutput in
  let grdToObs := MultiplyAndAdd Wxo true grdBeforeGo false grdToObs in
  let tmpMat := grdBeforeGo in
  let tmpMat := ColumnElementMultiplyWith tmpMat Wco in
  let grdToCell := tmpMat in
  grdToOutputGate ← through_slice grdToOutputGate (1 + inputDim) outputDim
    (fun grdToWho => Some (MultiplyAndAdd grdBeforeGo false prevOutput true grdToWho));
  grdToOutputGate ← through_slice grdToOutputGate 1 inputDim
    (fun grdToWxo => Some (MultiplyAndAdd grdBeforeGo false obs true grdToWxo));
  let tmpMat := AssignInnerProductOf grdBeforeGo state false in
  grdToOutputGate ← through_slice grdToOutputGate (1 + inputDim + outputDim) 1
    (fun grdToWco => plus grdToWco tmpMat);
  grdToOutputGate ← through_slice grdToOutputGate 0 1 (add_each_column grdBeforeGo);
  let grdToGo := AssignElementProductOf outGrd go in
  r ← GradientOfTanh tanhState grdToGo grdToCell;
  let grdToCell := fst r in
  let tmpMat := snd r in
  grdToCell ← plus grdToCell stateError;
  (* error backpropagate to memory cells *)
  let grdToPrevState := AssignElementProductOf gf grdToCell in
  let tmpMat := AssignElementProductOf prevState grdToCell in
  let gradientOfSigmoid := AssignSigmoidDerivativeOf gf in
  let grdBeforeForget := AssignElementProductOf gradientOfSigmoid tmpMat in
  let grdToPrevOutput := MultiplyAndAdd Whf true grdBeforeForget false grdToPrevOutput in
  let tmpMat := grdBeforeForget in
  let tmpMat := ColumnElementMultiplyWith tmpMat Wcf in
  grdToPrevState ← plus grdToPrevState tmpMat;
  let grdToObs := MultiplyAndAdd Wxf true grdBeforeForget false grdToObs in
  grdToForgetGate ← through_slice grdToForgetGate (1 + inputDim) outputDim
    (fun grdToWhf => Some (MultiplyAndAdd grdBeforeForget false prevOutput true grdToWhf));
  let tmpMat := AssignInnerProductOf grdBeforeForget prevState false in
  grdToForgetGate ← through_slice grdToForgetGate (1 + inputDim + outputDim) 1
    (fun grdToWcf => plus grdToWcf tmpMat);
  grdToForgetGate ← through_slice grdToForgetGate 1 inputDim
    (fun grdToWxf => Some (MultiplyAndAdd grdBeforeForget false obs true grdToWxf));
  grdToForgetGate ← through_slice grdToForgetGate 0 1 (add_each_column grdBeforeForget);
  (* error backpropagate to input gate *)
  let tmpMat := AssignElementProductOf tanhBeforeApplyingInputGating grdToCell in
  let gradientOfSigmoid := AssignSigmoidDerivativeOf gi in
  let grdBeforeInputGate := AssignElementProductOf gradientOfSigmoid tmpMat in
  let grdToPrevOutput := MultiplyAndAdd Whi true grdBeforeInputGate false grdToPrevOutput in
  let tmpMat := grdBeforeInputGate in
  let tmpMat := ColumnElementMultiplyWith tmpMat Wci in
  grdToPrevState ← plus grdToPrevState tmpMat;
  let grdToObs := MultiplyAndAdd Wxi true grdBeforeInputGate false grdToObs in
  grdToInputGate ← through_slice grdToInputGate (1 + inputDim) outputDim
    (fun grdToWhi => Some (MultiplyAndAdd grdBeforeInputGate false prevOutput true grdToWhi));
  let tmpMat := AssignInnerProductOf grdBeforeInputGate prevState false in
  grdToInputGate ← through_slice grdToInputGate (1 + inputDim + outputDim) 1
    (fun grdToWci => plus grdToWci tmpMat);
  grdToInputGate ← through_slice grdToInputGate 1 inputDim
    (fun grdToWxi => Some (MultiplyAndAdd grdBeforeInputGate false obs true grdToWxi));
  grdToInputGate ← through_slice grdToInputGate 0 1 (add_each_column grdBeforeInputGate);
  (* error backpropagate to inputs *)
  let grdTmp2 := AssignElementProductOf gi grdToCell in
  let grdBeforeTanhInputGate :=
    Resize (GetNumRows tanhBeforeApplyingInputGating)
           (GetNumCols tanhBeforeApplyingInputGating) (mkMatrix 0 []) in
  r ← GradientOfTanh tanhBeforeApplyingInputGating grdTmp2 grdBeforeTanhInputGate;
  let grdBeforeTanhInputGate := fst r in
  let tmpMat := snd r in
  let grdToObs := MultiplyAndAdd Wxc true grdBeforeTanhInputGate false grdToObs in
  let grdToPrevOutput := MultiplyAndAdd Whc true grdBeforeTanhInputGate false grdToPrevOutput in
  grdToCellWgt ← through_slice grdToCellWgt 1 inputDim
    (fun grdToWxc => Some (MultiplyAndAdd grdBeforeTanhInputGate false obs true grdToWxc));
  grdToCellWgt ← through_slice grdToCellWgt (1 + inputDim) outputDim
    (fun grdToWhc => Some (MultiplyAndAdd grdBeforeTanhInputGate false prevOutput true grdToWhc));
  grdToCellWgt ← through_slice grdToCellWgt 0 1 (add_each_column grdBeforeTanhInputGate);
  Some (mkGateGradients grdToObs grdToInputGate grdToForgetGate grdToOutputGate
          grdToCellWgt grdToPrevOutput grdToPrevState tmpMat).

(** *** Loop counters

    [for (t = 0; t < nT; t += S)] and [for (int t = start; t >= 0; t -= S)].
    With [S = 0] the counter does not move and the first iteration is the
    one that repeats; it is the only one listed. *)

Definition strided_up (nT S : Z) : list Z :=
  if S =? 0 then (if 0 <? nT then [0] else [])
  else (fun k => k * S) <$> upto ((nT + S - 1) / S).

Definition strided_down (start S : Z) : list Z :=
  if S =? 0 then (if 0 <=? start then [start] else [])
  else (fun k => start - k * S) <$> upto (start / S + 1).

(** *** Forward evaluation *)

(** The first time [t], walking down from [start], at which sequence [i]
    has no flag: [Some] of it, as the loop with [break] finds it. *)
Fixpoint last_active (i : Z) (ts : list Z) : M Node (option Z) :=
  match ts with
  | [] => ret None
  | t :: ts' =>
      seg <- GetSegInfo (to_size_t t) i ;;
      if seg =? FlagNone then ret (Some t) else last_active i ts'
  end.

Definition SaveLastStateActity : M Node unit :=
  obs <- InputValues 0 ;;
  w <- InputValues 1 ;;
  let nT := GetNumCols obs in
  let outputDim := GetNumRows w in
  n <- get ;;
  let S := NumParallel n in
  modify (fun n => set_mLastOutput (Resize outputDim S (mLastOutput n)) n) ;;
  modify (fun n => set_mLastState (Resize outputDim S (mLastState n)) n) ;;
  forM_ (upto S) (fun i =>
    found <- last_active i (strided_down (to_int (to_size_t (nT - S + i))) S) ;;
    match found with
    | Some t =>
        n <- get ;;
        src <- ColumnSliceOf (m_functionValues n) (to_size_t t) 1 ;;
        zoom mLastOutput set_mLastOutput
             (to <- ColumnSliceHere i 1 ;; SetValue_slice i to src) ;;
        src <- ColumnSliceOf (m_State n) (to_size_t t) 1 ;;
        zoom mLastState set_mLastState
             (to <- ColumnSliceHere i 1 ;; SetValue_slice i to src)
    | None => ret tt
    end).

(** [m.Resize(rows, cols); m.SetValue(v)]. *)
Definition resized_to (rows cols : Z) (v : E) (m : Matrix E) : Matrix E :=
  SetValue_scalar v (Resize rows cols m).

(** Writes [new] through the view [slice] of the frame's columns of one
    of the node's buffers. *)
Definition write_frame (buffer : Node -> Matrix E) (set_buffer : Matrix E -> Node -> Node)
    (frameRange : FrameRange) (slice new : Matrix E) : M Node unit :=
  zoom buffer set_buffer
       (SetValue_slice (to_size_t (FrameRange_t frameRange * FrameRange_NumCols frameRange))
                       slice new).

Definition prev_slices (n : Node) : Matrix E * Matrix E :=
  (mSlicePrevOutput n, mSlicePrevState n).

Definition set_prev_slices (v : Matrix E * Matrix E) (n : Node) : Node :=
  set_mSlicePrevState (snd v) (set_mSlicePrevOutput (fst v) n).

(** The body of the loop over the frames in [EvaluateThisNode]. *)
Definition forward_frame (timeIdxInSeq : Z) : M Node unit :=
  n <- get ;;
  let S := NumParallel n in
  let frameRange := mkFrameRange timeIdxInSeq S in
  FrameRange_Check frameRange (FrameRange_t frameRange) S (m_pMBLayout n) ;;
  obs <- InputValues 0 ;;
  sliceObs <- DataSlice obs frameRange ;;
  sliceOutput <- DataSlice (m_functionValues n) frameRange ;;
  sliceState <- DataSlice (m_State n) frameRange ;;
  sliceGi <- DataSlice (m_Gi n) frameRange ;;
  sliceGf <- DataSlice (m_Gf n) frameRange ;;
  sliceGo <- DataSlice (m_Go n) frameRange ;;
  sliceTanhState <- DataSlice (tanhState n) frameRange ;;
  sliceTanhInput <- DataSlice (tanhObs n) frameRange ;;
  zoom prev_slices set_prev_slices
       (PrepareHistory timeIdxInSeq (m_functionValues n) (m_State n) (m_PastOutput n)
          (m_PastState n) S (m_DefaultState n) (m_pMBLayout n)) ;;
  n <- get ;;
  mInputGate <- InputValues 1 ;;
  mForgetGate <- InputValues 2 ;;
  mOutputGate <- InputValues 3 ;;
  mCellWgt <- InputValues 4 ;;
  r <- lift_option (EvaluateThisNodeS mInputGate mForgetGate mOutputGate mCellWgt
                      sliceObs (mSlicePrevOutput n) (mSlicePrevState n)) shape_fault ;;
  write_frame m_functionValues set_m_functionValues frameRange sliceOutput (cell_output r) ;;
  write_frame m_State set_m_State frameRange sliceState (cell_state r) ;;
  write_frame m_Gi set_m_Gi frameRange sliceGi (cell_gi r) ;;
  write_frame m_Gf set_m_Gf frameRange sliceGf (cell_gf r) ;;
  write_frame m_Go set_m_Go frameRange sliceGo (cell_go r) ;;
  write_frame tanhState set_tanhState frameRange sliceTanhState (cell_tanhState r) ;;
  write_frame tanhObs set_tanhObs frameRange sliceTanhInput (cell_tanhObs r) ;;
  modify (set_m_tempMatrix (cell_tmp r)).

Definition EvaluateThisNode : M Node unit :=
  obs <- InputValues 0 ;;
  w <- InputValues 1 ;;
  let nT := GetNumCols obs in
  let outputDim := GetNumRows w in
  modify (fun n => set_m_functionValues (resized_to outputDim nT elem_NAN (m_functionValues n)) n) ;;
  modify (fun n => set_m_State (resized_to outputDim nT elem_NAN (m_State n)) n) ;;
  modify (fun n => set_m_Gi (resized_to outputDim nT elem_NAN (m_Gi n)) n) ;;
  modify (fun n => set_m_Gf (resized_to outputDim nT elem_NAN (m_Gf n)) n) ;;
  modify (fun n => set_m_Go (resized_to outputDim nT elem_NAN (m_Go n)) n) ;;
  modify (fun n => set_tanhState (resized_to outputDim nT elem_NAN (tanhState n)) n) ;;
  modify (fun n => set_tanhObs (resized_to outputDim nT elem_NAN (tanhObs n)) n) ;;
  n <- get ;;
  let S := NumParallel n in
  (if IsEmpty (m_PastState n) || negb (GetNumCols (m_PastState n) =? S)
   then modify (set_m_PastState (resized_to outputDim S (m_DefaultState n) (m_PastState n)))
   else ret tt) ;;
  (if IsEmpty (m_PastOutput n) || negb (GetNumCols (m_PastOutput n) =? S)
   then modify (set_m_PastOutput (Resize outputDim S (m_PastOutput n)))
   else ret tt) ;;
  forM_ (strided_up nT S) forward_frame ;;
  SaveLastStateActity ;;
  modify (set_m_GradientComputed false).

(** *** Backward evaluation *)

(** The matrices local to the backward sweep that live across its frames. *)
Record SweepLocals : Type := mkSweepLocals {
  loc_grdToPrevOutput : Matrix E;
  loc_grdToPrevState : Matrix E;
  loc_stateError : Matrix E
}.

Definition on_node {A} (c : M Node A) : M (Node * SweepLocals) A :=
  zoom fst (fun v s => (v, snd s)) c.

Definition empty_matrix : Matrix E := mkMatrix 0 [].

(** The views [error] (of the node's gradient at the frame) and
    [stateError] that [PrepareThisErrorsBeforeBackProp] writes. *)
Definition set_error_views (frameRange : FrameRange) (v : Matrix E * Matrix E)
    (s : Node * SweepLocals) : Node * SweepLocals :=
  (set_m_gradientValues
     (write_columns (to_size_t (FrameRange_t frameRange * FrameRange_NumCols frameRange))
                    (Columns (fst v)) (m_gradientValues (fst s))) (fst s),
   mkSweepLocals (loc_grdToPrevOutput (snd s)) (loc_grdToPrevState (snd s)) (snd v)).

Definition prev_errors (s : Node * SweepLocals) : Matrix E * Matrix E :=
  (loc_grdToPrevOutput (snd s), loc_grdToPrevState (snd s)).

Definition set_prev_errors (v : Matrix E * Matrix E) (s : Node * SweepLocals)
    : Node * SweepLocals :=
  (fst s, mkSweepLocals (fst v) (snd v) (loc_stateError (snd s))).

(** The body of the loop over the frames in [ComputeInputPartial]. *)
Definition backward_frame (nT outputDim : Z) (timeIdxInSeq : Z)
    : M (Node * SweepLocals) unit :=
  s <- get ;;
  let n := fst s in
  let S := NumParallel n in
  let frameRange := mkFrameRange timeIdxInSeq S in
  FrameRange_Check frameRange timeIdxInSeq S (m_pMBLayout n) ;;
  obs <- on_node (InputValues 0) ;;
  sliceObs <- DataSlice obs frameRange ;;
  sliceOutput <- DataSlice (m_functionValues n) frameRange ;;
  sliceState <- DataSlice (m_State n) frameRange ;;
  sliceGi <- DataSlice (m_Gi n) frameRange ;;
  sliceGf <- DataSlice (m_Gf n) frameRange ;;
  sliceGo <- DataSlice (m_Go n) frameRange ;;
  sliceTanhState <- DataSlice (tanhState n) frameRange ;;
  sliceTanhObs <- DataSlice (tanhObs n) frameRange ;;
  error <- DataSlice (m_gradientValues n) frameRange ;;
  let grdToObsSlice := empty_matrix in
  zoom (fun s => (error, loc_stateError (snd s))) (set_error_views frameRange)
       (PrepareThisErrorsBeforeBackProp n timeIdxInSeq nT
          (loc_grdToPrevOutput (snd s)) (loc_grdToPrevState (snd s))
          (m_obs_error_from_future_minibatch n) (m_state_error_from_future_minibatch n)
          S (m_pMBLayout n)) ;;
  modify (set_prev_errors (resized_to outputDim S elem_zero (loc_grdToPrevOutput (snd s)),
                           resized_to outputDim S elem_zero (loc_grdToPrevState (snd s)))) ;;
  on_node (zoom prev_slices set_prev_slices
             (PrepareHistory timeIdxInSeq (m_functionValues n) (m_State n) (m_PastOutput n)
                (m_PastState n) S (m_DefaultState n) (m_pMBLayout n))) ;;
  s <- get ;;
  let n := fst s in
  error <- DataSlice (m_gradientValues n) frameRange ;;
  mInputGate <- on_node (InputValues 1) ;;
  mForgetGate <- on_node (InputValues 2) ;;
  mOutputGate <- on_node (InputValues 3) ;;
  mCellWgt <- on_node (InputValues 4) ;;
  g <- lift_option
         (ComputeInputGradientWrtGates error sliceObs grdToObsSlice
            mInputGate (grdToInputGate n) mForgetGate (grdToForgetGate n)
            mOutputGate (grdToOutputGate n) mCellWgt (grdToCellWgt n)
            (mSlicePrevOutput n) (mSlicePrevState n) (loc_stateError (snd s))
            sliceState sliceTanhState sliceTanhObs sliceGi sliceGf sliceGo
            (loc_grdToPrevOutput (snd s)) (loc_grdToPrevState (snd s)) (m_tempMatrix n))
         shape_fault ;;
  on_node (modify (set_grdToInputGate (gg_grdToInputGate g))) ;;
  on_node (modify (set_grdToForgetGate (gg_grdToForgetGate g))) ;;
  on_node (modify (set_grdToOutputGate (gg_grdToOutputGate g))) ;;
  on_node (modify (set_grdToCellWgt (gg_grdToCellWgt g))) ;;
  on_node (modify (set_m_tempMatrix (gg_tmpMat g))) ;;
  modify (set_prev_errors (gg_grdToPrevOutput g, gg_grdToPrevState g)) ;;
  toObs <- DataSlice (grdToObs n) frameRange ;;
  on_node (write_frame grdToObs set_grdToObs frameRange toObs (gg_grdToObs g)) ;;
  zoom prev_errors set_prev_errors (PrepareErrors timeIdxInSeq S (m_pMBLayout n)).

(** What [ComputeInputPartial] does while [m_GradientComputed == false]. *)
Definition backward_sweep (nT inputDim outputDim : Z) : M Node unit :=
  n <- get ;;
  if negb (same_shape (m_functionValues n) (m_gradientValues n))
  then throw (RuntimeError "LSTMNode::GradientValue size doesn't match to the function value size")
  else
    mInputGate <- InputValues 1 ;;
    mForgetGate <- InputValues 2 ;;
    mOutputGate <- InputValues 3 ;;
    mCellWgt <- InputValues 4 ;;
    modify (fun n => set_grdToObs (resized_to inputDim nT elem_zero (grdToObs n)) n) ;;
    modify (fun n => set_grdToInputGate
              (resized_to (GetNumRows mInputGate) (GetNumCols mInputGate) elem_zero
                          (grdToInputGate n)) n) ;;
    modify (fun n => set_grdToForgetGate
              (resized_to (GetNumRows mForgetGate) (GetNumCols mForgetGate) elem_zero
                          (grdToForgetGate n)) n) ;;
    modify (fun n => set_grdToOutputGate
              (resized_to (GetNumRows mOutputGate) (GetNumCols mOutputGate) elem_zero
                          (grdToOutputGate n)) n) ;;
    modify (fun n => set_grdToCellWgt
              (resized_to (GetNumRows mCellWgt) (GetNumCols mCellWgt) elem_zero
                          (grdToCellWgt n)) n) ;;
    let S := NumParallel n in
    let locals :=
      mkSweepLocals (resized_to outputDim S elem_zero empty_matrix)
                    (resized_to outputDim S elem_zero empty_matrix)
                    (Resize outputDim S empty_matrix) in
    zoom (fun n => (n, locals)) (fun v _ => fst v)
         (forM_ (strided_down (to_int (to_size_t (nT - S))) S) (backward_frame nT outputDim) ;;
          s <- get ;;
          on_node (modify (set_m_obs_error_from_future_minibatch (loc_grdToPrevOutput (snd s)))) ;;
          on_node (modify (set_m_state_error_from_future_minibatch (loc_grdToPrevState (snd s)))) ;;
          on_node (modify (set_m_GradientComputed true))).

(** [if (g.HasNoElements()) g.SetValue(grd); else g += grd;] for the
    gradient [g] of input [inputIndex]. *)
Definition accumulate (inputIndex : Z) (grd : Matrix E) : M Node unit :=
  n <- get ;;
  g <- lift_option (InputsGradientValues n !! Z.to_nat inputIndex) index_fault ;;
  if HasNoElements g
  then modify (set_InputsGradientValues (<[Z.to_nat inputIndex := grd]> (InputsGradientValues n)))
  else
    g' <- lift_option (plus g grd) shape_fault ;;
    modify (set_InputsGradientValues (<[Z.to_nat inputIndex := g']> (InputsGradientValues n))).

Definition ComputeInputPartial (inputIndex : Z) : M Node unit :=
  if 4 <? inputIndex
  then throw (InvalidArgument "LSTM operation only takes five inputs.")
  else
    obs <- InputValues 0 ;;
    w <- InputValues 1 ;;
    let nT := GetNumCols obs in
    let inputDim := GetNumRows obs in
    let outputDim := GetNumRows w in
    n <- get ;;
    (if negb (m_GradientComputed n) then backward_sweep nT inputDim outputDim else ret tt) ;;
    (if inputIndex =? 0 then n <- get ;; accumulate inputIndex (grdToObs n) else ret tt) ;;
    (if inputIndex =? 1 then n <- get ;; accumulate inputIndex (grdToInputGate n) else ret tt) ;;
    (if inputIndex =? 2 then n <- get ;; accumulate inputIndex (grdToForgetGate n) else ret tt) ;;
    (if inputIndex =? 3 then n <- get ;; accumulate inputIndex (grdToOutputGate n) else ret tt) ;;
    (if inputIndex =? 4 then n <- get ;; accumulate inputIndex (grdToCellWgt n) else ret tt).

(** *** The node's self test *)

(** [Inputs(i)->FunctionValues()] and [Inputs(i)->GradientValues()],
    changed in place. *)
Definition change_InputValues (i : Z) (f : Matrix E -> Matrix E) : M Node unit :=
  v <- InputValues i ;;
  modify (fun n => set_InputsFunctionValues (<[Z.to_nat i := f v]> (InputsFunctionValues n)) n).

Definition change_InputGradient (i : Z) (f : Matrix E -> Matrix E) : M Node unit :=
  n <- get ;;
  g <- lift_option (InputsGradientValues n !! Z.to_nat i) index_fault ;;
  modify (set_InputsGradientValues (<[Z.to_nat i := f g]> (InputsGradientValues n))).

Definition elementOf {St} (m : Matrix E) (row col : Z) : M St E :=
  lift_option (element m row col) index_fault.

(** [ISCLOSE(Inputs(i)->GradientValues()(0, col), literal, EPSILON)]. *)
Definition gradient_close (i col : Z) (literal : string) : M Node bool :=
  n <- get ;;
  g <- lift_option (InputsGradientValues n !! Z.to_nat i) index_fault ;;
  x <- elementOf g 0 col ;;
  ret (ISCLOSE x literal).

Definition all_close (checks : list (Z * Z * string)) : M Node bool :=
  foldr (fun c rest =>
           ok <- gradient_close (fst (fst c)) (snd (fst c)) (snd c) ;;
           if ok : bool then rest else ret false)
        (ret true) checks.

Definition UnitTest : M Node bool :=
  let nT := 3 in
  let nInput := 2 in
  let nHidden := 3 in
  let nOutput := 3 in
  n <- get ;;
  let initStateValue := m_DefaultState n in
  let pMBLayout := Set_ 0 1 SequenceStart (MBLayout_Resize 1 nT) in
  modify (set_m_pMBLayout pMBLayout) ;;
  change_InputValues 0 (fun m => SetValue_scalar elem_tenth
                                   (SetValue_scalar elem_one (Resize nInput nT m))) ;;
  change_InputValues 1 (fun m => SetValue_scalar elem_tenth
                                   (Resize nHidden (nInput + nOutput + 2) m)) ;;
  change_InputValues 2 (fun m => SetValue_scalar elem_tenth
                                   (Resize nHidden (nInput + nHidden + 2) m)) ;;
  change_InputValues 3 (fun m => SetValue_scalar elem_tenth
                                   (Resize nOutput (nInput + nHidden + 2) m)) ;;
  change_InputValues 4 (fun m => SetValue_scalar elem_tenth
                                   (Resize nOutput (nHidden + nInput + 1) m)) ;;
  modify (fun n => set_m_functionValues (Resize nOutput nT (m_functionValues n)) n) ;;
  modify (set_m_DefaultState elem_zero) ;;
  EvaluateThisNode ;;
  (* check with expected values *)
  n <- get ;;
  f00 <- elementOf (m_functionValues n) 0 0 ;;
  f01 <- elementOf (m_functionValues n) 0 1 ;;
  f02 <- elementOf (m_functionValues n) 0 2 ;;
  f10 <- elementOf (m_functionValues n) 1 0 ;;
  if negb (ISCLOSE f00 "0.0335975") || negb (ISCLOSE f01 "0.05485132")
     || negb (ISCLOSE f02 "0.06838435") || negb (elem_eqb f00 f10)
  then throw (RuntimeError "LSTMNode forward computation error")
  else
    modify (fun n => set_m_gradientValues
                       (SetValue_scalar elem_one (Resize nOutput nT (m_gradientValues n))) n) ;;
    forM_ (upto 5) (fun i =>
      v <- InputValues i ;;
      change_InputGradient i (fun g => SetValue_scalar elem_zero
                                         (Resize (GetNumRows v) (GetNumCols v) g))) ;;
    forM_ (upto 5) ComputeInputPartial ;;
    (* check with expected values *)
    ok <- all_close [ (1, 0, "0.07843818"); (1, 1, "0.00784382");
                      (1, 3, "0.00192997"); (1, 6, "0.00362767") ] ;;
    if negb ok then throw (RuntimeError "LSTMNode gradient error on input gates")
    else
      ok <- all_close [ (2, 0, "0.02738655"); (2, 1, "0.00273866");
                        (2, 3, "0.00120922"); (2, 6, "0.00227184") ] ;;
      if negb ok then throw (RuntimeError "LSTMNode gradient error on forget gates")
      else
        ok <- all_close [ (3, 0, "0.07801557"); (3, 1, "0.00780156");
                          (3, 3, "0.00268089"); (3, 6, "0.00809852") ] ;;
        if negb ok then throw (RuntimeError "LSTMNode gradient error on output gates")
        else
          ok <- all_close [ (4, 0, "1.3075038"); (4, 1, "0.13075038");
                            (4, 3, "0.03080355") ] ;;
          if negb ok then throw (RuntimeError "LSTMNode gradient error on memory cells")
          else
            modify (set_m_DefaultState initStateValue) ;;
            ret true.

(** *** Validation *)

(** [Validate()].  [Base::Validate] and [InferImageDimsFromInputs] are
    outside the source at hand.  What the inputs say of themselves is
    passed in: [input_is_sparse] is
    [Inputs(0)->FunctionValues().GetMatrixType() == SPARSE],
    [operationNames] lists [Inputs(i)->OperationName()], and
    [LearnableParameter] is [OperationNameOf(LearnableParameter)].  The
    number of children is the number of inputs the record carries. *)
Definition Validate (input_is_sparse : bool) (operationNames : list string)
    (LearnableParameter : string) : M Node unit :=
  n <- get ;;
  if negb (Z.of_nat (length (InputsFunctionValues n)) =? 5)
  then throw (LogicError "LSTMNode requires four inputs.")
  else if input_is_sparse
  then throw (LogicError "LSTMNode: input to LSTM has to be dense matrix. Consider adding a project layer using lookuptable before LSTM node. ")
  else
    name1 <- lift_option (operationNames !! 1%nat) index_fault ;;
    name2 <- lift_option (operationNames !! 2%nat) index_fault ;;
    name3 <- lift_option (operationNames !! 3%nat) index_fault ;;
    name4 <- lift_option (operationNames !! 4%nat) index_fault ;;
    if negb (String.eqb name1 LearnableParameter) || negb (String.eqb name2 LearnableParameter)
       || negb (String.eqb name3 LearnableParameter) || negb (String.eqb name4 LearnableParameter)
    then throw (LogicError "LSTM validation: need to have learnable parameters ")
    else
      obs <- InputValues 0 ;;
      mInputGate <- InputValues 1 ;;
      mForgetGate <- InputValues 2 ;;
      mOutputGate <- InputValues 3 ;;
      mCellWgt <- InputValues 4 ;;
      if HasNoElements obs
      then throw (LogicError "LSTM validation: input size is zero!")
      else if HasNoElements mInputGate || HasNoElements mForgetGate
              || HasNoElements mOutputGate || HasNoElements mCellWgt
      then throw (LogicError "LSTM validation : parameter size is zero!")
      else
        let nindim := GetNumRows obs in
        let noutdim := GetNumRows mInputGate in
        let nT := GetNumCols obs in
        let nCol := to_size_t (nindim + noutdim + 2) in
        if negb (GetNumCols mInputGate =? nCol)
        then throw (LogicError "LSTM validation : dimension mismatched between child and inputGate")
        else if negb (GetNumCols mForgetGate =? nCol)
        then throw (LogicError "LSTM validation : dimension mismatched between child and forgetGate")
        else if negb (GetNumCols mOutputGate =? nCol)
        then throw (LogicError "LSTM validation : dimension mismatched between child and outputGate")
        else if negb (noutdim =? GetNumRows mForgetGate)
                || negb (noutdim =? GetNumRows mOutputGate)
                || negb (noutdim =? GetNumRows mCellWgt)
        then throw (LogicError "LSTM validation: output dimension mismatched!")
        else
          modify (fun n => set_m_functionValues
                             (resized_to noutdim nT elem_NAN (m_functionValues n)) n).

(** *** History and errors across minibatches

    In the four functions the transfers between devices leave the values
    as they are. *)

(** [GetHistory(hist, bLastTime)]: the state is [hist], the node is read. *)
Definition GetHistory (n : Node) (bLastTime : bool) : M (Matrix E) bool :=
  let tRow := GetNumRows (m_PastOutput n) in
  let tCol := GetNumCols (m_PastOutput n) in
  let rCol := GetNumCols (m_PastState n) in
  modify (Resize tRow (to_size_t (tCol + rCol))) ;;
  (if bLastTime then
     to <- ColumnSliceHere 0 tCol ;;
     SetValue_slice 0 to (mLastOutput n) ;;
     to <- ColumnSliceHere tCol rCol ;;
     SetValue_slice tCol to (mLastState n)
   else
     to <- ColumnSliceHere 0 tCol ;;
     SetValue_slice 0 to (m_PastOutput n) ;;
     to <- ColumnSliceHere tCol rCol ;;
     SetValue_slice tCol to (m_PastState n)) ;;
  ret true.

(** [SetHistory(hist)]. *)
Definition SetHistory (hist : Matrix E) : M Node unit :=
  let tRow := GetNumRows hist in
  let tCol := GetNumCols hist in
  let eCols := tCol / 2 in
  modify (fun n => set_m_PastOutput (Resize tRow eCols (m_PastOutput n)) n) ;;
  modify (fun n => set_m_PastState (Resize tRow eCols (m_PastState n)) n) ;;
  pastOutput <- ColumnSliceOf hist 0 eCols ;;
  modify (set_m_PastOutput pastOutput) ;;
  pastState <- ColumnSliceOf hist eCols eCols ;;
  modify (set_m_PastState pastState).

(** [GetErrorsToPreviousMinibatch(hist)]: the state is [hist], the node is
    read. *)
Definition GetErrorsToPreviousMinibatch (n : Node) : M (Matrix E) unit :=
  let tRow := GetNumRows (m_obs_error_from_future_minibatch n) in
  let tCol := GetNumCols (m_obs_error_from_future_minibatch n) in
  let rCol := GetNumCols (m_state_error_from_future_minibatch n) in
  modify (Resize tRow (to_size_t (tCol + rCol))) ;;
  to <- ColumnSliceHere 0 tCol ;;
  SetValue_slice 0 to (m_obs_error_from_future_minibatch n) ;;
  to <- ColumnSliceHere tCol rCol ;;
  SetValue_slice tCol to (m_state_error_from_future_minibatch n).

(** [SetErrorsFromFutureMinibatch(hist)]. *)
Definition SetErrorsFromFutureMinibatch (hist : Matrix E) : M Node unit :=
  let tCol := GetNumCols hist in
  let rCol := tCol / 2 in
  obs_error <- ColumnSliceOf hist 0 rCol ;;
  modify (set_m_obs_error_from_future_minibatch obs_error) ;;
  state_error <- ColumnSliceOf hist rCol rCol ;;
  modify (set_m_state_error_from_future_minibatch state_error) ;;
  modify (set_m_use_errors_from_future_minibatch true).

End Node.
End LSTMNode.

(** * Concrete instances

    Integers as element type, for running the nodes on explicit inputs.
    The flag values are the bit positions [1], [2], [4] and [8]. *)

Definition Z_ElemOps : ElemOps Z :=
  {| elem_add := Z.add; elem_zero := 0; elem_one := 1; elem_tenth := 10; elem_NAN := -1 |}.

Definition Z_MatrixLib : MatrixLib Z :=
  {| unspecified := fun _ _ _ _ _ => 0;
     Mod := fun x y => if 0 <? y then Some (x mod y) else None |}.

Definition Z_MatrixKernels : MatrixKernels Z :=
  {| Multiply := fun a _ _ _ => a;
     MultiplyAndAdd := fun _ _ _ _ c => c;
     AssignSigmoidOf := fun a => a;
     AssignTanhOf := fun a => a;
     AssignSigmoidDerivativeOf := fun a => a;
     AssignElementProductOf := fun a _ => a;
     AddElementProductOf := fun c _ _ => c;
     ColumnElementMultiplyWith := fun a _ => a;
     AssignDifferenceOf := fun _ a => a;
     AssignInnerProductOf := fun a _ _ => a;
     ISCLOSE := fun _ _ => true;
     elem_eqb := Z.eqb |}.

Definition bit_flags : PackingFlags :=
  {| SequenceStart := 1; SequenceEnd := 2; NoFeature := 4; NoLabel := 8 |}.

(** A [Check] that never objects. *)
Definition Check_passes : FrameRange -> Z -> Z -> MBLayout -> option Fault :=
  fun _ _ _ _ => None.

(** * Reasoning about computations *)

(** The state a computation leaves behind, finished or thrown. *)
Definition final_state {St A} (o : Outcome St A) : St :=
  match o with
  | Done _ s => s
  | Thrown _ s => s
  end.

(** [c] never finishes normally. *)
Definition always_throws {St A} (c : M St A) : Prop :=
  forall s, exists e s', c s = Thrown e s'.

(** Partial correctness: when [c] finishes from a state satisfying [P], the
    value and the state it finishes with satisfy [Q]. *)
Definition hoare {St A} (P : St -> Prop) (c : M St A) (Q : A -> St -> Prop) : Prop :=
  forall s, P s -> forall a s', c s = Done a s' -> Q a s'.

(** [c] throws from every state that satisfies [P]. *)
Definition throws_from {St A} (P : St -> Prop) (c : M St A) : Prop :=
  forall s, P s -> exists e s', c s = Thrown e s'.

(** The observation that [Inputs(0)] of an LSTM node holds has at least one
    column. *)
Definition has_frames {E} (n : LSTMNode.Node (E:=E)) : Prop :=
  exists obs, LSTMNode.InputsFunctionValues n !! 0%nat = Some obs /\ 0 < GetNumCols obs.

(** The cached gradient that [ComputeInputPartial] hands to input [i]. *)
Definition cached_gradient {E} (i : Z) (n : LSTMNode.Node (E:=E)) : Matrix E :=
  if i =? 0 then LSTMNode.grdToObs n
  else if i =? 1 then LSTMNode.grdToInputGate n
  else if i =? 2 then LSTMNode.grdToForgetGate n
  else if i =? 3 then LSTMNode.grdToOutputGate n
  else LSTMNode.grdToCellWgt n.


(** What loading the file of a saved delayed-value node [n] into a node
    [n0] makes of [n0]. *)
Definition loaded {E} `{MatrixLib E} (n n0 : DelayedValueNodeBase.Node (E:=E))
    : DelayedValueNodeBase.Node (E:=E) :=
  let rows := GetNumRows (DelayedValueNodeBase.m_functionValues n) in
  let cols := GetNumCols (DelayedValueNodeBase.m_functionValues n) in
  DelayedValueNodeBase.set_initialActivationValue
    (DelayedValueNodeBase.m_initialActivationValue n)
    (DelayedValueNodeBase.set_delayedActivation
       (Resize rows cols (DelayedValueNodeBase.m_delayedActivation n0))
       (DelayedValueNodeBase.set_functionValues
          (Resize rows cols (DelayedValueNodeBase.m_functionValues n0))
          (DelayedValueNodeBase.set_timeStep (DelayedValueNodeBase.m_timeStep n) n0))).

(** The column of the input's gradient that the backward step of frame
    [frameRange] addresses for sequence [i]: the delayed frame index
    [t + direction * timeStep], in [size_t] arithmetic. *)
Definition delayed_frame (direction : Z) (frameRange : FrameRange) (timeStep : Z) : Z :=
  to_size_t (FrameRange_t frameRange + to_int (direction * timeStep)).

Definition delayed_column (direction : Z) (frameRange : FrameRange) (timeStep i : Z) : Z :=
  to_size_t (delayed_frame direction frameRange timeStep * FrameRange_NumCols frameRange + i).

(** The flag word [flags] stops the delayed gradient: it carries the
    boundary marker, or [NoFeature], or all of [NoInput]. *)
Definition stops_gradient `{PackingFlags} (SequenceStart_or_End flags : Z) : Prop :=
  has_flag flags SequenceStart_or_End = true
  \/ has_flag flags NoFeature = true
  \/ (Z.land flags NoInput = NoInput /\ NoFeature <> 0).

(** The column of the node's own gradient for sequence [i] at the frame. *)
Definition frame_column_of (frameRange : FrameRange) (i : Z) : Z :=
  to_size_t (FrameRange_t frameRange * FrameRange_NumCols frameRange + i).

(** Entry-wise sum of two columns. *)
Definition column_sum {E} `{ElemOps E} (a b : list E) : list E := zip_with elem_add a b.

(** The output buffer as the forward step first makes it: resized to the
    shape of the input when it has another shape. *)
Definition shaped_like {E} `{MatrixLib E} (functionValues inputFunctionValues : Matrix E)
    : Matrix E :=
  if same_shape functionValues inputFunctionValues then functionValues
  else Resize (GetNumRows inputFunctionValues) (GetNumCols inputFunctionValues)
              functionValues.

(** The index [d] that the forward step computes from [delayedIndex]. *)
Definition wrapped_index {E} `{MatrixLib E} (delayedIndex : Z)
    (delayedActivation inputFunctionValues : Matrix E) (d : Z) : Prop :=
  if DelayedValueNodeBase.outside_minibatch delayedIndex inputFunctionValues
  then Mod delayedIndex (GetNumCols delayedActivation) = Some d
  else d = delayedIndex.

(** Where the forward step reads the value of a sequence that is not at a
    boundary: column [src] of the source, addressed from [d] either within
    the loop over the sequences or as part of the whole frame. *)
Definition reads_from (d mNbr i : Z) (src : nat) : Prop :=
  src = Z.to_nat (to_size_t (to_int (d + i)))
  \/ (src = (Z.to_nat (to_size_t d) + Z.to_nat i)%nat).

(** What a full-minibatch forward evaluation of the node [n0] leaves in the
    output column of sequence [i] at frame [t], [S] being the number of
    parallel sequences: the initial activation when the shifted flag word
    carries the boundary marker, the delayed column of the source otherwise. *)
Definition delayed_output {E} `{MatrixLib E} (direction SequenceStart_or_End : Z)
    (n0 : DelayedValueNodeBase.Node (E:=E)) (S t i : Z) (column : option (list E)) : Prop :=
  let input := DelayedValueNodeBase.Inputs0_FunctionValues n0 in
  let carry := DelayedValueNodeBase.m_delayedActivation n0 in
  let flags := flag_at (DelayedValueNodeBase.m_pShiftedMBLayout n0) i t in
  let delayedIndex :=
    DelayedValueNodeBase.delayedIndex_of direction t (DelayedValueNodeBase.m_timeStep n0) S in
  if has_flag flags SequenceStart_or_End
  then column = Some (replicate (NumRows input)
                        (DelayedValueNodeBase.m_initialActivationValue n0))
  else exists d src col,
      wrapped_index delayedIndex carry input d
      /\ reads_from d S i src
      /\ Columns (DelayedValueNodeBase.delayed_source delayedIndex carry input) !! src
         = Some col
      /\ column = Some col.


(** * The shifted layout, sequence by sequence *)

(** The flag word [SetMBLayout] forces on a cell: the boundary marker, and
    of the base word the [NoLabel] flag only. *)
Definition forced_flag `{PackingFlags} (marker base : Z) : Z :=
  Z.lor (Z.land base NoLabel) marker.

(** The value of [numResetLeft[j]] that [SetMBLayout] tests at frame [i]:
    restarted at a boundary marker, cleared at a [NoFeature] flag,
    otherwise one less than at the frame before. *)
Fixpoint countdown `{PackingFlags} (marker : Z) (L : MBLayout) (timeStep j : Z)
    (i : nat) : Z :=
  let carried := match i with
                 | O => 0
                 | Datatypes.S i' => to_int (countdown marker L timeStep j i' - 1)
                 end in
  if Is L j (Z.of_nat i) marker then timeStep
  else if Is L j (Z.of_nat i) NoFeature then 0
  else carried.

(** The value of [numResetLeft[j]] on entry to frame [i]. *)
Definition carried `{PackingFlags} (marker : Z) (L : MBLayout) (timeStep j : Z)
    (i : nat) : Z :=
  match i with
  | O => 0
  | Datatypes.S i' => to_int (countdown marker L timeStep j i' - 1)
  end.

(** The shape of a layout: the number of flag words of every frame. *)
Definition layout_shape (L : MBLayout) : list nat := length <$> FrameFlags L.

(** * Explicit inputs *)

(** A delayed-value node over one sequence of three frames: the input
    holds [10], [20], [30], the sequence starts at frame 0, the step is one
    and the initial activation is [7]. *)
Definition sample_node : DelayedValueNodeBase.Node (E:=Z) :=
  let zeros := mkMatrix 1 [[0]; [0]; [0]] in
  let layout := mkMBLayout 1 [[1]; [0]; [0]] in
  DelayedValueNodeBase.mkNode zeros (mkMatrix 1 [[1]; [2]; [3]]) layout 7 zeros 1 layout false
    (mkMatrix 1 [[10]; [20]; [30]]) (mkMatrix 1 [[100]; [200]; [300]]).

(** A layout of one sequence over four frames that starts a sequence at
    frame 1. *)
Definition sample_layout : MBLayout := mkMBLayout 1 [[0]; [1]; [0]; [0]].

(** An empty matrix. *)
Definition no_matrix : Matrix Z := mkMatrix 0 [].

(** An LSTM node without any content. *)
Definition blank_node : LSTMNode.Node (E:=Z) :=
  let e := no_matrix in
  LSTMNode.mkNode e e (mkMBLayout 1 []) [e; e; e; e; e] [e; e; e; e; e]
    0 0 e e e e e e e e e e e e e e e e false e e e e false 0.

(** * Shapes and parts of nodes *)

(** The shape of a matrix: its number of rows and of columns. *)
Definition shape_of {E} (m : Matrix E) : nat * nat := (NumRows m, length (Columns m)).

(** A delayed-value node but for the contents of the gradient of its input:
    the other fields, and the shape of that gradient. *)
Definition rest_of {E} (n : DelayedValueNodeBase.Node (E:=E))
    : DelayedValueNodeBase.Node (E:=E) * (nat * nat) :=
  (DelayedValueNodeBase.set_Inputs0_GradientValues (mkMatrix 0 []) n,
   shape_of (DelayedValueNodeBase.Inputs0_GradientValues n)).

(** The matrix of [rows] by [cols] entries that all are [v]. *)
Definition filled {E} (rows cols : Z) (v : E) : Matrix E :=
  mkMatrix (Z.to_nat rows) (replicate (Z.to_nat cols) (replicate (Z.to_nat rows) v)).

(** Every [size_t] item of a model file is a size: it is not negative. *)
Definition sizes_ok {E} (f : File E) : Prop :=
  Forall (fun item => match item with
                      | item_size_t z => 0 <= z
                      | _ => True
                      end) f.

(** The columns of [a] followed by the columns of [b]. *)
Definition packed {E} (a b : Matrix E) : Matrix E :=
  mkMatrix (NumRows a) (Columns a ++ Columns b).

(** The matrix [m] without the columns from [k] on. *)
Definition first_columns {E} (k : nat) (m : Matrix E) : Matrix E :=
  mkMatrix (NumRows m) (take k (Columns m)).

(** What [LSTMNode::Validate] asks of the five inputs of a node: dense
    observations, learnable parameters as the four weight blocks, no input
    without elements, the three gates with as many columns as the
    observation and the input gate have rows together plus two, and the
    four weight blocks with the same number of rows. *)
Definition validated {E} (input_is_sparse : bool) (operationNames : list string)
    (LearnableParameter : string) (obs mInputGate mForgetGate mOutputGate mCellWgt : Matrix E)
    : Prop :=
  input_is_sparse = false
  /\ operationNames !! 1%nat = Some LearnableParameter
  /\ operationNames !! 2%nat = Some LearnableParameter
  /\ operationNames !! 3%nat = Some LearnableParameter
  /\ operationNames !! 4%nat = Some LearnableParameter
  /\ HasNoElements obs = false
  /\ HasNoElements mInputGate = false
  /\ HasNoElements mForgetGate = false
  /\ HasNoElements mOutputGate = false
  /\ HasNoElements mCellWgt = false
  /\ GetNumCols mInputGate = to_size_t (GetNumRows obs + GetNumRows mInputGate + 2)
  /\ GetNumCols mForgetGate = to_size_t (GetNumRows obs + GetNumRows mInputGate + 2)
  /\ GetNumCols mOutputGate = to_size_t (GetNumRows obs + GetNumRows mInputGate + 2)
  /\ GetNumRows mForgetGate = GetNumRows mInputGate
  /\ GetNumRows mOutputGate = GetNumRows mInputGate
  /\ GetNumRows mCellWgt = GetNumRows mInputGate.


(** An LSTM node over one sequence of one frame, at which the sequence
    starts: the observation is 1 x 1 and each of the four weight blocks is
    1 x 4. *)
Definition one_frame_node : LSTMNode.Node (E:=Z) :=
  let e := no_matrix in
  let w := mkMatrix 1 [[1]; [1]; [1]; [1]] in
  LSTMNode.mkNode e e (mkMBLayout 1 [[1]]) [mkMatrix 1 [[1]]; w; w; w; w] [e; e; e; e; e]
    0 0 e e e e e e e e e e e e e e e e false e e e e false 0.

(** * Repeated gradient requests *)



Section GradientRequests.
Context {E : Type} `{ElemOps E} `{MatrixLib E} `{MatrixKernels E} `{PackingFlags}.
Context (Check : FrameRange -> Z -> Z -> MBLayout -> option Fault).

End GradientRequests.

(** An LSTM node before a backward sweep on a minibatch without frames:
    the observation has one row and no column, each weight block is 1 x 4,
    and the gradient of input 1 holds [5] in every entry. *)
Definition quiet_node : LSTMNode.Node (E:=Z) :=
  let e := no_matrix in
  let w := mkMatrix 1 [[1]; [1]; [1]; [1]] in
  LSTMNode.mkNode e e (mkMBLayout 1 []) [mkMatrix 1 []; w; w; w; w]
    [e; mkMatrix 1 [[5]; [5]; [5]; [5]]; e; e; e]
    0 0 e e e e e e e e e e e e e e e e false e e e e false 0.

(** * Loading a node back *)

(** The forward step of frame [t] does not read the carry buffer for
    sequence [i]: the shifted flag word carries the boundary marker, or
    the delayed frame lies within the minibatch. *)
Definition reads_no_carry {E} `{PackingFlags} (direction SequenceStart_or_End : Z)
    (n : DelayedValueNodeBase.Node (E:=E)) (t i : Z) : Prop :=
  has_flag (flag_at (DelayedValueNodeBase.m_pShiftedMBLayout n) i t) SequenceStart_or_End
  = true
  \/ 0 <= t + direction * DelayedValueNodeBase.m_timeStep n
     < GetNumCols (DelayedValueNodeBase.Inputs0_FunctionValues n)
       / DelayedValueNodeBase.NumParallel n.

(** The node [n] with its carry buffer resized to the shape of its output
    buffer. *)
Definition reloaded {E} `{MatrixLib E} (n : DelayedValueNodeBase.Node (E:=E))
    : DelayedValueNodeBase.Node (E:=E) :=
  DelayedValueNodeBase.set_delayedActivation
    (Resize (GetNumRows (DelayedValueNodeBase.m_functionValues n))
            (GetNumCols (DelayedValueNodeBase.m_functionValues n))
            (DelayedValueNodeBase.m_delayedActivation n)) n.

(** * Further explicit inputs *)

(** A delayed-value node as the base class leaves it, before the
    constructor of the class has run: no buffer has any content; its input
    holds [10], [20], [30]. *)
Definition bare_node : DelayedValueNodeBase.Node (E:=Z) :=
  DelayedValueNodeBase.mkNode no_matrix no_matrix (mkMBLayout 0 []) 0 no_matrix 0
    (mkMBLayout 0 []) false (mkMatrix 1 [[10]; [20]; [30]]) (mkMatrix 1 [[0]; [0]; [0]]).

(** One sequence of three frames, none of them at a boundary. *)
Definition plain_layout : MBLayout := mkMBLayout 1 [[0]; [0]; [0]].

(** Construction with initial activation [7], one row, one column and a
    step of one, then validation against the attached input and the
    layout [plain_layout]. *)
Section SetUp.
#[local] Existing Instance Z_ElemOps.
#[local] Existing Instance Z_MatrixLib.
#[local] Existing Instance bit_flags.

Definition set_up : M (DelayedValueNodeBase.Node (E:=Z)) unit :=
  DelayedValueNodeBase.Construct_with 7 1 1 1 ;;
  DelayedValueNodeBase.Validate 1 true ;;
  DelayedValueNodeBase.SetMBLayout SequenceStart plain_layout.
End SetUp.

(** The node that [set_up] builds: the output has the shape of the input,
    1 x 3, and the carry is 1 x 1 and holds the initial activation. *)
Definition fresh_node : DelayedValueNodeBase.Node (E:=Z) :=
  DelayedValueNodeBase.mkNode (mkMatrix 1 [[0]; [0]; [0]]) (mkMatrix 1 [[0]]) plain_layout 7
    (mkMatrix 1 [[7]]) 1 plain_layout false
    (mkMatrix 1 [[10]; [20]; [30]]) (mkMatrix 1 [[0]; [0]; [0]]).

(** A node over two parallel sequences of three frames, none of them at a
    boundary: output, gradients and input are 1 x 6. *)
Definition two_stream_node : DelayedValueNodeBase.Node (E:=Z) :=
  let layout := mkMBLayout 2 [[0; 0]; [0; 0]; [0; 0]] in
  let zeros := mkMatrix 1 [[0]; [0]; [0]; [0]; [0]; [0]] in
  DelayedValueNodeBase.mkNode zeros (mkMatrix 1 [[1]; [2]; [3]; [4]; [5]; [6]]) layout 7
    zeros 1 layout false (mkMatrix 1 [[10]; [20]; [30]; [40]; [50]; [60]]) zeros.

(** * Facts about computations *)

Lemma bind_Done {St A B} (c : M St A) (k : A -> M St B) s b s' :
  bind c k s = Done b s' ->
  exists a s1, c s = Done a s1 /\ k a s1 = Done b s'.
Proof.
  unfold bind. destruct (c s) as [a s1|e s1]; [eauto | discriminate].
Qed.

Lemma bind_Done_intro {St A B} (c : M St A) (k : A -> M St B) s a s1 :
  c s = Done a s1 -> bind c k s = k a s1.
Proof. unfold bind. intros ->. reflexivity. Qed.

Lemma bind_Thrown_intro {St A B} (c : M St A) (k : A -> M St B) s e s1 :
  c s = Thrown e s1 -> bind c k s = Thrown e s1.
Proof. unfold bind. intros ->. reflexivity. Qed.

Lemma always_throws_throw {St A} (e : Fault) : always_throws (@throw St A e).
Proof. intros s. exists e, s. reflexivity. Qed.

Lemma always_throws_bind_l {St A B} (c : M St A) (k : A -> M St B) :
  always_throws c -> always_throws (bind c k).
Proof.
  intros Hc s. destruct (Hc s) as (e & s' & Hs). exists e, s'.
  exact (bind_Thrown_intro c k s e s' Hs).
Qed.

Lemma always_throws_bind_r {St A B} (c : M St A) (k : A -> M St B) :
  (forall a, always_throws (k a)) -> always_throws (bind c k).
Proof.
  intros Hk s. unfold bind. destruct (c s) as [a s1|e s1]; [apply Hk | eauto].
Qed.

Lemma always_throws_if {St A} (b : bool) (c1 c2 : M St A) :
  always_throws c1 -> always_throws c2 -> always_throws (if b then c1 else c2).
Proof. destruct b; auto. Qed.

Lemma always_throws_zoom {St T A} (proj : St -> T) (upd : T -> St -> St) (c : M T A) :
  always_throws c -> always_throws (zoom proj upd c).
Proof.
  intros Hc s. unfold zoom. destruct (Hc (proj s)) as (e & t & ->). eauto.
Qed.

Lemma always_throws_forM_ {St A} (x : A) (l : list A) (body : A -> M St unit) :
  (forall a, always_throws (body a)) -> always_throws (forM_ (x :: l) body).
Proof. intros Hb. simpl. apply always_throws_bind_l, Hb. Qed.

Create HintDb throws.

#[local] Hint Resolve always_throws_throw always_throws_bind_l always_throws_bind_r
  always_throws_if always_throws_zoom : throws.

(** * LSTMNode: the preparation routines and what follows from them *)

Section LSTMNodeFacts.
Context {E : Type} `{ElemOps E} `{MatrixLib E} `{MatrixKernels E} `{PackingFlags}.
Context (Check : FrameRange -> Z -> Z -> MBLayout -> option Fault).
Import LSTMNode.

Lemma PrepareHistory_throws timeIdxInSeq output state pastOutput pastState
    nsamples initStateValue sentenceBegin :
  always_throws (PrepareHistory timeIdxInSeq output state pastOutput pastState
                   nsamples initStateValue sentenceBegin).
Proof.
  unfold PrepareHistory.
  apply always_throws_if; [apply always_throws_throw|].
  do 2 (apply always_throws_bind_r; intros _).
  apply always_throws_if; [apply always_throws_throw|].
  apply always_throws_bind_r; intros _. apply always_throws_throw.
Qed.

Lemma PrepareThisErrorsBeforeBackProp_throws n timeIdxInSeq nT grdToPrevOutput
    grdToPrevState obs_error state_error nsamples sentenceBegin :
  always_throws (PrepareThisErrorsBeforeBackProp n timeIdxInSeq nT grdToPrevOutput
                   grdToPrevState obs_error state_error nsamples sentenceBegin).
Proof.
  unfold PrepareThisErrorsBeforeBackProp.
  apply always_throws_if; [apply always_throws_throw|].
  do 3 (apply always_throws_bind_r; intros _).
  apply always_throws_throw.
Qed.

Lemma PrepareErrors_throws timeIdxInSeq nsamples sentenceBegin :
  always_throws (PrepareErrors (E:=E) timeIdxInSeq nsamples sentenceBegin).
Proof.
  unfold PrepareErrors.
  apply always_throws_if; apply always_throws_throw.
Qed.

(** C4, as amended: none of the three preparation routines ever finishes
    normally, whatever it is called with; [PrepareErrors] with a nonzero
    number of sequences, and [PrepareHistory] once its guards are passed,
    throw the placeholder fault. *)
Theorem Prepare_routines_never_finish :
  (forall timeIdxInSeq output state pastOutput pastState nsamples initStateValue
          sentenceBegin,
      always_throws (PrepareHistory timeIdxInSeq output state pastOutput pastState
                       nsamples initStateValue sentenceBegin))
  /\ (forall n timeIdxInSeq nT grdToPrevOutput grdToPrevState obs_error state_error
             nsamples sentenceBegin,
      always_throws (PrepareThisErrorsBeforeBackProp n timeIdxInSeq nT grdToPrevOutput
                       grdToPrevState obs_error state_error nsamples sentenceBegin))
  /\ (forall timeIdxInSeq nsamples sentenceBegin,
      always_throws (PrepareErrors (E:=E) timeIdxInSeq nsamples sentenceBegin))
  /\ (forall timeIdxInSeq nsamples sentenceBegin s,
      (nsamples =? 0) = false ->
      PrepareErrors (E:=E) timeIdxInSeq nsamples sentenceBegin s
      = Thrown (LogicError "PrepareErrors: finish this") s)
  /\ (forall timeIdxInSeq output state pastOutput pastState nsamples initStateValue
             sentenceBegin s,
      (nsamples =? 0) = false ->
      GetNumParallelSequences sentenceBegin = nsamples ->
      is_Some (GetFrame sentenceBegin (to_size_t (to_int (timeIdxInSeq / nsamples)))) ->
      exists s',
        PrepareHistory timeIdxInSeq output state pastOutput pastState nsamples
          initStateValue sentenceBegin s
        = Thrown (LogicError "PrepareHistory: finish this") s').
Proof.
  split; [intros; apply PrepareHistory_throws|].
  split; [intros; apply PrepareThisErrorsBeforeBackProp_throws|].
  split; [intros; apply PrepareErrors_throws|].
  split.
  - intros * Hn. unfold PrepareErrors. rewrite Hn. reflexivity.
  - intros * Hn Hrows [col Hcol]. unfold PrepareHistory. rewrite Hn.
    rewrite Hrows, Z.eqb_refl. cbn [negb].
    unfold bind, modify. rewrite Hcol. cbn. eauto.
Qed.
End LSTMNodeFacts.




Lemma hoare_modify {St} (f : St -> St) (P : St -> Prop) (Q : unit -> St -> Prop) :
  (forall s, P s -> Q tt (f s)) -> hoare P (modify f) Q.
Proof. intros Hf s HP [] s' Hrun. inversion Hrun; subst. auto. Qed.

Lemma throws_from_bind {St A B} (P : St -> Prop) (Q : A -> St -> Prop)
    (c : M St A) (k : A -> M St B) :
  hoare P c Q -> (forall a, throws_from (Q a) (k a)) -> throws_from P (bind c k).
Proof.
  intros Hc Hk s HP. unfold bind.
  destruct (c s) as [a s1|e s1] eqn:Hrun; [|eauto].
  exact (Hk a s1 (Hc s HP a s1 Hrun)).
Qed.

Lemma always_throws_from {St A} (P : St -> Prop) (c : M St A) :
  always_throws c -> throws_from P c.
Proof. intros Hc s _. apply Hc. Qed.

Section LSTMNodeForward.
Context {E : Type} `{ElemOps E} `{MatrixLib E} `{MatrixKernels E} `{PackingFlags}.
Context (Check : FrameRange -> Z -> Z -> MBLayout -> option Fault).
Import LSTMNode.

Lemma InputValues_Done (i : Z) (n : Node) (v : Matrix E) :
  0 <= i -> InputsFunctionValues n !! Z.to_nat i = Some v -> InputValues i n = Done v n.
Proof.
  intros Hi Hv. unfold InputValues, bind, get.
  apply Z.leb_le in Hi. rewrite Hi, Hv. reflexivity.
Qed.

Lemma forward_frame_throws timeIdxInSeq :
  always_throws (forward_frame Check timeIdxInSeq).
Proof.
  unfold forward_frame.
  do 11 (apply always_throws_bind_r; intros ?).
  apply always_throws_bind_l, always_throws_zoom, PrepareHistory_throws.
Qed.

Lemma strided_up_nonempty nT S :
  0 < nT -> 0 <= S -> exists x l, strided_up nT S = x :: l.
Proof.
  intros HnT HS. unfold strided_up.
  destruct (S =? 0) eqn:HS0.
  - apply Z.ltb_lt in HnT. rewrite HnT. eauto.
  - apply Z.eqb_neq in HS0.
    assert (Hq : 1 <= (nT + S - 1) / S) by (apply Z.div_le_lower_bound; lia).
    unfold upto. destruct (Z.to_nat ((nT + S - 1) / S)) eqn:Hk; [lia|].
    cbn. eauto.
Qed.

Lemma EvaluateThisNode_throws : throws_from has_frames (EvaluateThisNode Check).
Proof.
  intros s (obs & Hobs & Hcols).
  unfold EvaluateThisNode.
  assert (Hget : InputValues 0 s = Done obs s).
  { apply InputValues_Done; [lia | exact Hobs]. }
  rewrite (bind_Done_intro _ _ _ _ _ Hget).
  clear Hget Hobs. revert s.
  do 11 (apply always_throws_bind_r; intros ?).
  apply always_throws_bind_l.
  destruct (strided_up_nonempty (GetNumCols obs) (NumParallel a7)) as (x & l & ->);
    [lia | unfold NumParallel, GetNumParallelSequences; lia |].
  apply always_throws_forM_, forward_frame_throws.
Qed.
End LSTMNodeForward.

Section LSTMNodeUnitTest.
Context {E : Type} `{ElemOps E} `{MatrixLib E} `{MatrixKernels E} `{PackingFlags}.
Context (Check : FrameRange -> Z -> Z -> MBLayout -> option Fault).
Import LSTMNode.

Lemma GetNumCols_Resize (r c : Z) (m : Matrix E) :
  0 <= c -> GetNumCols (Resize r c m) = c.
Proof.
  intros Hc. unfold Resize.
  destruct ((GetNumRows m =? r) && (GetNumCols m =? c)) eqn:Hsame.
  - apply andb_true_iff in Hsame as [_ Hcols]. apply Z.eqb_eq in Hcols. exact Hcols.
  - unfold GetNumCols. cbn. rewrite length_fmap, length_seq. lia.
Qed.

Lemma GetNumCols_SetValue_scalar (v : E) (m : Matrix E) :
  GetNumCols (SetValue_scalar v m) = GetNumCols m.
Proof. unfold GetNumCols, SetValue_scalar. cbn. rewrite length_replicate. reflexivity. Qed.

Lemma throws_from_bind_l {St A B} (P : St -> Prop) (c : M St A) (k : A -> M St B) :
  throws_from P c -> throws_from P (bind c k).
Proof.
  intros Hc s HP. destruct (Hc s HP) as (e & s' & Hs). exists e, s'.
  exact (bind_Thrown_intro c k s e s' Hs).
Qed.

Lemma change_InputValues_0 (f : Matrix E -> Matrix E) :
  (forall m, 0 < GetNumCols (f m)) ->
  hoare (fun _ => True) (change_InputValues 0 f) (fun _ => has_frames).
Proof.
  intros Hf s _ [] s' Hrun. unfold change_InputValues in Hrun.
  apply bind_Done in Hrun as (v & s1 & Hv & Hrun).
  unfold InputValues, bind, get, lift_option in Hv. cbn in Hv.
  destruct (InputsFunctionValues s !! Z.to_nat 0) as [v0|] eqn:Hlk; [|discriminate].
  inversion Hv; subst v0 s1. inversion Hrun; subst s'.
  exists (f v). split; [|apply Hf]. cbn.
  apply list_lookup_insert_eq. eapply lookup_lt_Some, Hlk.
Qed.

Lemma change_InputValues_other (i : Z) (f : Matrix E -> Matrix E) :
  0 < i -> hoare has_frames (change_InputValues i f) (fun _ => has_frames).
Proof.
  intros Hi s (obs & Hobs & Hcols) [] s' Hrun. unfold change_InputValues in Hrun.
  apply bind_Done in Hrun as (v & s1 & Hv & Hrun).
  unfold InputValues, bind, get, lift_option in Hv.
  destruct (if 0 <=? i then _ else _); [|discriminate].
  inversion Hv; subst s1. inversion Hrun; subst s'.
  exists obs. split; [|exact Hcols]. cbn.
  rewrite list_lookup_insert_ne by lia. exact Hobs.
Qed.

(** C5: the node's self test never gets to compare an output value: from
    every node, and whatever [Check] does, it throws, because the forward
    evaluation it starts runs into [PrepareHistory] at the first frame. *)
Theorem UnitTest_always_throws : always_throws (UnitTest Check).
Proof.
  intros s0.
  assert (Hall : throws_from (fun _ : Node => True) (UnitTest Check)); [|exact (Hall s0 I)].
  unfold UnitTest.
  apply (throws_from_bind _ (fun _ _ => True)); [intros s _ a s' _; exact I|]. intros n.
  apply (throws_from_bind _ (fun _ _ => True)); [apply hoare_modify; intros; exact I|].
  intros ?.
  apply (throws_from_bind _ (fun _ => has_frames)).
  { apply change_InputValues_0. intros m.
    rewrite !GetNumCols_SetValue_scalar, GetNumCols_Resize; lia. }
  intros ?.
  do 4 (apply (throws_from_bind has_frames (fun _ => has_frames));
        [apply change_InputValues_other; lia|]; intros ?).
  do 2 (apply (throws_from_bind has_frames (fun _ => has_frames));
        [apply hoare_modify; intros s Hs; exact Hs|]; intros ?).
  apply throws_from_bind_l, EvaluateThisNode_throws.
Qed.

End LSTMNodeUnitTest.

Section LSTMNodeBackward.
Context {E : Type} `{ElemOps E} `{MatrixLib E} `{MatrixKernels E} `{PackingFlags}.
Context (Check : FrameRange -> Z -> Z -> MBLayout -> option Fault).
Import LSTMNode.

#[local] Arguments accumulate : simpl never.

Lemma zoom_Done {St T A} (proj : St -> T) (upd : T -> St -> St) (c : M T A) s a s' :
  zoom proj upd c s = Done a s' -> exists t, c (proj s) = Done a t /\ s' = upd t s.
Proof.
  unfold zoom. destruct (c (proj s)) as [a0 t|e t]; [|discriminate].
  intros Hd. inversion Hd; subst. eauto.
Qed.

Lemma InputValues_reads (i : Z) (n n' : Node) (v : Matrix E) :
  InputValues i n = Done v n' -> n' = n.
Proof.
  unfold InputValues, bind, get, lift_option.
  destruct (if 0 <=? i then _ else _); intros Hd; inversion Hd. reflexivity.
Qed.





(** Once the flag is set, a call of [ComputeInputPartial] is the call of
    [accumulate] on the cached gradient of that input. *)
Lemma ComputeInputPartial_flag_set (i : Z) (n n' : Node) :
  0 <= i <= 4 -> m_GradientComputed n = true ->
  ComputeInputPartial Check i n = Done tt n' ->
  accumulate i (cached_gradient i n) n = Done tt n'.
Proof.
  intros Hi Hflag Hrun. unfold ComputeInputPartial in Hrun.
  replace (4 <? i) with false in Hrun by (symmetry; apply Z.ltb_ge; lia).
  apply bind_Done in Hrun as (obs & s1 & Hobs & Hrun).
  apply InputValues_reads in Hobs as ->.
  apply bind_Done in Hrun as (w & s1 & Hw & Hrun).
  apply InputValues_reads in Hw as ->.
  unfold bind at 1 in Hrun. unfold get at 1 in Hrun.
  rewrite Hflag in Hrun. cbn [negb] in Hrun.
  unfold bind at 1 in Hrun. unfold ret at 1 in Hrun.
  unfold cached_gradient.
  assert (Hcases : i = 0 \/ i = 1 \/ i = 2 \/ i = 3 \/ i = 4) by lia.
  destruct Hcases as [->|[->|[->|[->| ->]]]]; cbn in Hrun |- *;
    unfold bind, get, ret in Hrun; cbn in Hrun;
    destruct (accumulate _ _ n) as [[] s|e s]; cbn in Hrun; try discriminate; exact Hrun.
Qed.

End LSTMNodeBackward.

(** * Delayed-value nodes: configuration and persistence *)

Section DelayedValueConfiguration.
Context {E : Type} `{ElemOps E} `{MatrixLib E} `{PackingFlags}.
Context (SequenceStart_or_End : Z).
Import DelayedValueNodeBase.
Local Abbreviation Node := (Node (E:=E)).


Lemma Resize_own_shape (m : Matrix E) : Resize (GetNumRows m) (GetNumCols m) m = m.
Proof. unfold Resize. rewrite !Z.eqb_refl. reflexivity. Qed.

Lemma Resize_same_shape (m m' : Matrix E) :
  same_shape m m' = true -> Resize (GetNumRows m') (GetNumCols m') m = m.
Proof. unfold same_shape, Resize. intros ->. reflexivity. Qed.

Lemma GetNumRows_Resize (r c : Z) (m : Matrix E) :
  0 <= r -> GetNumRows (Resize r c m) = r.
Proof.
  intros Hr. unfold Resize.
  destruct ((GetNumRows m =? r) && (GetNumCols m =? c)) eqn:Hsame.
  - apply andb_true_iff in Hsame as [Hrows _]. apply Z.eqb_eq in Hrows. exact Hrows.
  - unfold GetNumRows. cbn. lia.
Qed.

Context (CNTK_MODEL_VERSION_2 : Z).

Lemma LoadFromFile_SaveToFile (n n0 : Node) (rest : File E) (modelVersion : Z) :
  CNTK_MODEL_VERSION_2 <= modelVersion ->
  LoadFromFile CNTK_MODEL_VERSION_2 (SaveToFile n ++ rest)%list modelVersion n0
  = Done rest (loaded n n0).
Proof.
  intros Hv. unfold LoadFromFile, SaveToFile. cbn.
  replace (CNTK_MODEL_VERSION_2 <=? modelVersion) with true
    by (symmetry; apply Z.leb_le; exact Hv).
  reflexivity.
Qed.

Lemma loaded_scalars (n n0 : Node) :
  m_timeStep (loaded n n0) = m_timeStep n
  /\ m_initialActivationValue (loaded n n0) = m_initialActivationValue n
  /\ GetNumRows (m_functionValues (loaded n n0)) = GetNumRows (m_functionValues n)
  /\ GetNumCols (m_functionValues (loaded n n0)) = GetNumCols (m_functionValues n).
Proof.
  unfold loaded. cbn. repeat split.
  - apply GetNumRows_Resize. unfold GetNumRows. lia.
  - apply GetNumCols_Resize. unfold GetNumCols. lia.
Qed.

Lemma loaded_same_node (n : Node) (timeStep : Z) (v : E) :
  same_shape (m_delayedActivation n) (m_functionValues n) = true ->
  loaded n (set_timeStep timeStep (set_initialActivationValue v n)) = n.
Proof.
  intros Hshape. unfold loaded. cbn.
  rewrite Resize_own_shape, (Resize_same_shape _ _ Hshape).
  destruct n; reflexivity.
Qed.
End DelayedValueConfiguration.

(** * Persistence of both kinds of node *)

Section Persistence.
Context {E : Type} `{ElemOps E} `{MatrixLib E} `{MatrixKernels E} `{PackingFlags}.
Context (Check : FrameRange -> Z -> Z -> MBLayout -> option Fault).
Context (CNTK_MODEL_VERSION_2 : Z).

Lemma LSTM_LoadFromFile_SaveToFile (n n0 : LSTMNode.Node (E:=E)) (rest : File E) :
  LSTMNode.LoadFromFile (LSTMNode.SaveToFile n ++ rest)%list 2 n0
  = Done rest (LSTMNode.set_m_DefaultState (LSTMNode.m_DefaultState n)
                 (LSTMNode.set_m_outputDim (LSTMNode.m_outputDim n)
                    (LSTMNode.set_m_inputDim (LSTMNode.m_inputDim n) n0))).
Proof. reflexivity. Qed.

End Persistence.

(** * Columns of a matrix under slicing and writing *)

Section MatrixFacts.
Context {E : Type} `{ElemOps E}.

Lemma in_range_bounds (m : Matrix E) (s n : Z) :
  in_range m s n = true -> 0 <= s /\ 0 <= n /\ s + n <= GetNumCols m.
Proof.
  unfold in_range. intros Hr.
  apply andb_true_iff in Hr as [Hr Hle]. apply andb_true_iff in Hr as [Hs Hn].
  apply Z.leb_le in Hle, Hs, Hn. auto.
Qed.

Lemma ColumnSlice_Some (m v : Matrix E) (s n : Z) :
  ColumnSlice m s n = Some v ->
  in_range m s n = true /\ v = mkMatrix (NumRows m) (slice_columns m s n).
Proof.
  unfold ColumnSlice. destruct (in_range m s n); [|discriminate].
  intros Hv. inversion Hv. auto.
Qed.

Lemma ColumnSliceHere_Done (s n : Z) (m m' v : Matrix E) :
  ColumnSliceHere s n m = Done v m' ->
  m' = m /\ in_range m s n = true /\ v = mkMatrix (NumRows m) (slice_columns m s n).
Proof.
  unfold ColumnSliceHere, bind, get, ColumnSliceOf, lift_option.
  destruct (ColumnSlice m s n) as [v0|] eqn:Hslice; [|discriminate].
  intros Hd. inversion Hd; subst. apply ColumnSlice_Some in Hslice as [Hr ->]. auto.
Qed.

Lemma ColumnSliceHere_final (s n : Z) (m : Matrix E) :
  final_state (ColumnSliceHere s n m) = m.
Proof.
  unfold ColumnSliceHere, bind, get, ColumnSliceOf, lift_option.
  destruct (ColumnSlice m s n); reflexivity.
Qed.

Lemma ColumnSliceOf_Done {St} (m v : Matrix E) (s n : Z) (st st' : St) :
  ColumnSliceOf m s n st = Done v st' ->
  st' = st /\ in_range m s n = true /\ v = mkMatrix (NumRows m) (slice_columns m s n).
Proof.
  unfold ColumnSliceOf, lift_option.
  destruct (ColumnSlice m s n) as [v0|] eqn:Hslice; [|discriminate].
  intros Hd. inversion Hd; subst. apply ColumnSlice_Some in Hslice as [Hr ->]. auto.
Qed.

Lemma lookup_slice_columns (m : Matrix E) (s n : Z) (j : nat) :
  0 <= s -> (j < Z.to_nat n)%nat ->
  slice_columns m s n !! j = Columns m !! (Z.to_nat s + j)%nat.
Proof.
  intros Hs Hj. unfold slice_columns.
  rewrite lookup_take_lt by exact Hj. apply lookup_drop.
Qed.

Lemma length_slice_columns (m : Matrix E) (s n : Z) :
  in_range m s n = true -> length (slice_columns m s n) = Z.to_nat n.
Proof.
  intros Hr. apply in_range_bounds in Hr as (Hs & Hn & Hle).
  unfold slice_columns, GetNumCols in *. rewrite length_take, length_drop. lia.
Qed.

(** Writing columns leaves the columns outside the written range alone. *)
Lemma lookup_write_columns_other (m : Matrix E) (s : Z) (new : list (list E)) (k : nat) :
  (Z.to_nat s + length new <= length (Columns m))%nat ->
  (k < Z.to_nat s \/ Z.to_nat s + length new <= k)%nat ->
  Columns (write_columns s new m) !! k = Columns m !! k.
Proof.
  intros Hfit Hk. unfold write_columns. cbn.
  destruct Hk as [Hk|Hk].
  - rewrite lookup_app_l by (rewrite length_take; lia).
    apply lookup_take_lt. exact Hk.
  - rewrite lookup_app_r by (rewrite length_take; lia).
    rewrite length_take, Nat.min_l by lia.
    rewrite lookup_app_r by lia.
    rewrite lookup_drop. f_equal. lia.
Qed.

(** The written columns are the new ones. *)
Lemma lookup_write_columns_new (m : Matrix E) (s : Z) (new : list (list E)) (j : nat) :
  (Z.to_nat s + length new <= length (Columns m))%nat ->
  (j < length new)%nat ->
  Columns (write_columns s new m) !! (Z.to_nat s + j)%nat = new !! j.
Proof.
  intros Hfit Hj. unfold write_columns. cbn.
  rewrite lookup_app_r by (rewrite length_take; lia).
  rewrite length_take, Nat.min_l by lia.
  rewrite lookup_app_l by lia. f_equal. lia.
Qed.

Lemma write_columns_shape (m : Matrix E) (s : Z) (new : list (list E)) :
  (Z.to_nat s + length new <= length (Columns m))%nat ->
  NumRows (write_columns s new m) = NumRows m
  /\ length (Columns (write_columns s new m)) = length (Columns m).
Proof.
  intros Hfit. unfold write_columns. cbn. split; [reflexivity|].
  rewrite !length_app, length_take, length_drop. lia.
Qed.

Lemma PlusAssign_slice_Done (s : Z) (to frm m m' : Matrix E) :
  PlusAssign_slice s to frm m = Done tt m' ->
  same_shape to frm = true
  /\ m' = write_columns s (add_columns (Columns to) (Columns frm)) m.
Proof.
  unfold PlusAssign_slice. destruct (same_shape to frm); [|discriminate].
  intros Hd. inversion Hd. auto.
Qed.

Lemma PlusAssign_slice_final (s : Z) (to frm m : Matrix E) :
  final_state (PlusAssign_slice s to frm m) = m
  \/ (same_shape to frm = true
      /\ final_state (PlusAssign_slice s to frm m)
         = write_columns s (add_columns (Columns to) (Columns frm)) m).
Proof.
  unfold PlusAssign_slice. destruct (same_shape to frm); [right|left]; auto.
Qed.

Lemma same_shape_cols (a b : Matrix E) :
  same_shape a b = true -> NumRows a = NumRows b /\ length (Columns a) = length (Columns b).
Proof.
  unfold same_shape, GetNumRows, GetNumCols. intros Hs.
  apply andb_true_iff in Hs as [Hr Hc]. apply Z.eqb_eq in Hr, Hc. lia.
Qed.

Lemma length_add_columns (a b : list (list E)) :
  length a = length b -> length (add_columns a b) = length a.
Proof. intros Hl. unfold add_columns. rewrite length_zip_with. lia. Qed.
End MatrixFacts.

(** * Loops *)

Lemma final_state_bind {St A B} (c : M St A) (k : A -> M St B) (s : St) :
  final_state (bind c k s)
  = match c s with
    | Done a s1 => final_state (k a s1)
    | Thrown _ s1 => s1
    end.
Proof. unfold bind. destruct (c s); reflexivity. Qed.

(** What every iteration keeps, the loop keeps, finished or thrown. *)
Lemma forM__keeps {St A B} (proj : St -> B) (l : list A) (body : A -> M St unit) :
  (forall x s, x ∈ l -> proj (final_state (body x s)) = proj s) ->
  forall s, proj (final_state (forM_ l body s)) = proj s.
Proof.
  induction l as [|x l IH]; intros Hbody s; [reflexivity|].
  cbn [forM_]. rewrite final_state_bind.
  specialize (Hbody x s (list_elem_of_here x l)) as Hx.
  destruct (body x s) as [[] s1|e s1]; cbn in Hx |- *; [|exact Hx].
  rewrite IH; [exact Hx|]. intros y s2 Hy. apply Hbody. apply list_elem_of_further, Hy.
Qed.

(** A loop over distinct values in which [Post] is established by the
    iteration at [i] from [Pre], kept by the others, and [Pre] is kept by
    the others until then. *)
Lemma forM__at {St A} (Pre Post : St -> Prop) (i : A) (l : list A) (body : A -> M St unit) :
  NoDup l -> i ∈ l ->
  (forall x s s', x ∈ l -> x <> i -> Pre s -> body x s = Done tt s' -> Pre s') ->
  (forall s s', Pre s -> body i s = Done tt s' -> Post s') ->
  (forall x s s', x ∈ l -> x <> i -> Post s -> body x s = Done tt s' -> Post s') ->
  forall s s', Pre s -> forM_ l body s = Done tt s' -> Post s'.
Proof.
  intros Hnd Hin Hpre Hat Hpost.
  assert (Hkeep : forall l', l' ⊆ l -> i ∉ l' -> forall s s',
            Post s -> forM_ l' body s = Done tt s' -> Post s').
  { induction l' as [|x l' IH]; intros Hsub Hni s s' Hs Hrun.
    - inversion Hrun; subst. exact Hs.
    - cbn [forM_] in Hrun. apply bind_Done in Hrun as ([] & s1 & Hx & Hrun).
      apply not_elem_of_cons in Hni as [Hne Hni].
      eapply IH; [| exact Hni | | exact Hrun].
      + intros y Hy. apply Hsub. apply list_elem_of_further, Hy.
      + eapply Hpost; [| | exact Hs | exact Hx].
        * apply Hsub. apply list_elem_of_here.
        * congruence. }
  assert (Hgo : forall l', l' ⊆ l -> NoDup l' -> i ∈ l' -> forall s s',
            Pre s -> forM_ l' body s = Done tt s' -> Post s').
  { induction l' as [|x l' IH]; intros Hsub Hnd' Hin' s s' Hs Hrun; [inversion Hin'|].
    cbn [forM_] in Hrun. apply bind_Done in Hrun as ([] & s1 & Hx & Hrun).
    apply NoDup_cons in Hnd' as [Hnx Hnd'].
    assert (Hsub' : l' ⊆ l) by (intros y Hy; apply Hsub; apply list_elem_of_further, Hy).
    destruct (elem_of_cons l' i x) as [Hcases _]. destruct (Hcases Hin') as [->|Hil].
    - eapply Hkeep; [exact Hsub' | exact Hnx | | exact Hrun]. eapply Hat; eauto.
    - eapply IH; [exact Hsub' | exact Hnd' | exact Hil | | exact Hrun].
      eapply Hpre; [| | exact Hs | exact Hx].
      + apply Hsub. apply list_elem_of_here.
      + intros ->. contradiction. }
  apply Hgo; [intros y Hy; exact Hy | exact Hnd | exact Hin].
Qed.

Lemma elem_of_upto (n x : Z) : x ∈ upto n <-> 0 <= x < n.
Proof.
  unfold upto. rewrite list_elem_of_fmap. split.
  - intros (k & -> & Hk). apply elem_of_seq in Hk. lia.
  - intros Hx. exists (Z.to_nat x). split; [lia|]. apply elem_of_seq. lia.
Qed.

Lemma NoDup_upto (n : Z) : NoDup (upto n).
Proof.
  unfold upto. apply NoDup_fmap_2_strong; [|apply NoDup_seq].
  intros a b _ _ Hab. lia.
Qed.

Lemma elem_of_downfrom (n x : Z) : x ∈ downfrom n <-> 0 <= x < n.
Proof. unfold downfrom. rewrite elem_of_reverse. apply elem_of_upto. Qed.

Lemma NoDup_downfrom (n : Z) : NoDup (downfrom n).
Proof. unfold downfrom. rewrite reverse_Permutation. apply NoDup_upto. Qed.

(** * Machine integers *)

Lemma to_size_t_small (z : Z) : 0 <= z < 2 ^ 64 -> to_size_t z = z.
Proof. intros Hz. unfold to_size_t. apply Z.mod_small. exact Hz. Qed.

Lemma to_int_small (z : Z) : - 2 ^ 31 <= z < 2 ^ 31 -> to_int z = z.
Proof.
  intros Hz. unfold to_int. rewrite Z.mod_small by lia. lia.
Qed.

Lemma to_size_t_range (z : Z) : 0 <= to_size_t z < 2 ^ 64.
Proof. unfold to_size_t. apply Z.mod_pos_bound. lia. Qed.

(** Offsets below [2^64] from one base stay apart after wrapping. *)
Lemma to_size_t_offsets (a i j : Z) :
  0 <= i < 2 ^ 64 -> 0 <= j < 2 ^ 64 ->
  to_size_t (a + i) = to_size_t (a + j) -> i = j.
Proof.
  unfold to_size_t. intros Hi Hj Heq.
  pose proof (Z.div_mod (a + i) (2 ^ 64) ltac:(lia)) as Hdi.
  pose proof (Z.div_mod (a + j) (2 ^ 64) ltac:(lia)) as Hdj.
  rewrite Heq in Hdi.
  assert (Hq : (a + i) / 2 ^ 64 = (a + j) / 2 ^ 64) by nia.
  rewrite Hq in Hdi. lia.
Qed.

(** * Delayed-value nodes: the backward step of one frame *)

Section BackwardStep.
Context {E : Type} `{ElemOps E} `{PackingFlags}.
Context (direction : Z) (SequenceStart_or_End : Z).
Import DelayedValueNodeBase.

Lemma has_flag_union (col : list Z) (j : nat) (f flag : Z) :
  col !! j = Some f -> has_flag f flag = true -> has_flag (union_flags col) flag = true.
Proof.
  unfold has_flag. revert j. induction col as [|x col IH]; intros j Hj Hf; [discriminate|].
  cbn [union_flags foldr]. rewrite Z.land_lor_distr_l.
  apply negb_true_iff, Z.eqb_neq. intros Hzero.
  apply Z.lor_eq_0_iff in Hzero as [Hx Hrest].
  destruct j as [|j]; cbn in Hj.
  - inversion Hj; subst. apply negb_true_iff, Z.eqb_neq in Hf. contradiction.
  - specialize (IH j Hj Hf). apply negb_true_iff, Z.eqb_neq in IH. contradiction.
Qed.

Lemma has_flag_lor_l (f a b : Z) : has_flag f a = true -> has_flag f (Z.lor a b) = true.
Proof.
  unfold has_flag. intros Ha. apply negb_true_iff, Z.eqb_neq in Ha.
  apply negb_true_iff, Z.eqb_neq. rewrite Z.land_lor_distr_r.
  intros Hz. apply Z.lor_eq_0_iff in Hz as [Hz _]. contradiction.
Qed.

Lemma has_flag_lor_r (f a b : Z) : has_flag f b = true -> has_flag f (Z.lor a b) = true.
Proof.
  unfold has_flag. intros Hb. apply negb_true_iff, Z.eqb_neq in Hb.
  apply negb_true_iff, Z.eqb_neq. rewrite Z.land_lor_distr_r.
  intros Hz. apply Z.lor_eq_0_iff in Hz as [_ Hz]. contradiction.
Qed.

(** A flag word that carries all of [NoInput] carries [NoFeature]. *)
Lemma NoInput_has_NoFeature (f : Z) :
  Z.land f NoInput = NoInput -> NoFeature <> 0 -> has_flag f NoFeature = true.
Proof.
  unfold has_flag, NoInput. intros Hall Hnz. apply negb_true_iff, Z.eqb_neq.
  intros Hz. apply Hnz. apply Z.bits_inj'. intros k Hk. rewrite Z.bits_0.
  destruct (Z.testbit NoFeature k) eqn:Hb; [|reflexivity].
  assert (H1 : Z.testbit (Z.land f (Z.lor NoFeature NoLabel)) k = true)
    by (rewrite Hall, Z.lor_spec, Hb; reflexivity).
  rewrite Z.land_spec in H1. apply andb_true_iff in H1 as [Hf _].
  assert (H2 : Z.testbit (Z.land f NoFeature) k = true)
    by (rewrite Z.land_spec, Hf, Hb; reflexivity).
  rewrite Hz, Z.bits_0 in H2. discriminate.
Qed.

Lemma stops_gradient_test (flags : Z) :
  stops_gradient SequenceStart_or_End flags ->
  negb (has_flag flags SequenceStart_or_End) && negb (has_flag flags NoFeature) = false.
Proof.
  intros [Hm|[Hn|[Hall Hnz]]].
  - rewrite Hm. reflexivity.
  - rewrite Hn. apply andb_false_r.
  - rewrite (NoInput_has_NoFeature flags Hall Hnz). apply andb_false_r.
Qed.
End BackwardStep.

Section BackwardStepColumns.
Context {E : Type} `{ElemOps E} `{PackingFlags}.
Context (direction : Z) (SequenceStart_or_End : Z).
Import DelayedValueNodeBase.

Lemma ColumnSliceOf_final {St} (m : Matrix E) (s n : Z) (st : St) :
  final_state (ColumnSliceOf m s n st) = st.
Proof. unfold ColumnSliceOf, lift_option. destruct (ColumnSlice m s n); reflexivity. Qed.

Lemma GetFrame_Some (L : MBLayout) (t : Z) (col : list Z) (mb : Z) :
  GetFrame L t = Some (col, mb) ->
  0 <= t /\ FrameFlags L !! Z.to_nat t = Some col /\ mb = union_flags col.
Proof.
  unfold GetFrame. destruct (0 <=? t) eqn:Ht; [|discriminate].
  destruct (FrameFlags L !! Z.to_nat t) as [c|]; [|discriminate].
  intros Hs. inversion Hs; subst. apply Z.leb_le in Ht. auto.
Qed.

(** What [to += frm] on single columns does to the gradient of the input:
    when it finishes, column [c] holds the sum; in any case all other
    columns are as before. *)
Lemma add_column_other (c k : Z) (gradientValues : Matrix E) (src : Z) (s : Matrix E) :
  0 <= c -> 0 <= k -> k <> c ->
  Columns (final_state
             ((bind (ColumnSliceHere c 1) (fun to =>
               bind (ColumnSliceOf gradientValues src 1) (fun frm =>
               PlusAssign_slice c to frm))) s)) !! Z.to_nat k
  = Columns s !! Z.to_nat k.
Proof.
  intros Hc Hk Hne. rewrite final_state_bind.
  pose proof (ColumnSliceHere_final c 1 s) as Hfin.
  destruct (ColumnSliceHere c 1 s) as [to s1|e s1] eqn:Hto; cbn in Hfin; subst s1;
    [|reflexivity].
  apply ColumnSliceHere_Done in Hto as (_ & Hrange & ->).
  rewrite final_state_bind.
  pose proof (ColumnSliceOf_final gradientValues src 1 s) as Hfin.
  destruct (ColumnSliceOf gradientValues src 1 s) as [frm s1|e s1] eqn:Hfrm;
    cbn in Hfin; subst s1; [|reflexivity].
  destruct (PlusAssign_slice_final c (mkMatrix (NumRows s) (slice_columns s c 1)) frm s)
    as [->|[Hshape ->]]; [reflexivity|].
  apply same_shape_cols in Hshape as [_ Hlen]. cbn in Hlen.
  pose proof (length_slice_columns s c 1 Hrange) as Hone.
  apply in_range_bounds in Hrange as (_ & _ & Hfit). unfold GetNumCols in Hfit.
  apply lookup_write_columns_other; rewrite length_add_columns by exact Hlen;
    cbn [Columns]; lia.
Qed.

(** The iteration for sequence [x] leaves the column of every other
    sequence [i] alone. *)
Lemma ComputeInputPartialSRP_stream_other
    (timeIdxInSeq mNbr delayed : Z) (gradientValues : Matrix E)
    (colBoundaryFlags : list Z) (x i : Z) (s : Matrix E) :
  0 <= mNbr <= 2 ^ 64 -> 0 <= x < mNbr -> 0 <= i < mNbr -> x <> i ->
  Columns (final_state
             (ComputeInputPartialSRP_stream SequenceStart_or_End timeIdxInSeq mNbr delayed
                gradientValues colBoundaryFlags x s))
    !! Z.to_nat (to_size_t (delayed * mNbr + i))
  = Columns s !! Z.to_nat (to_size_t (delayed * mNbr + i)).
Proof.
  intros HmNbr Hx Hi Hne. unfold ComputeInputPartialSRP_stream.
  rewrite final_state_bind. unfold lift_option.
  destruct (colBoundaryFlags !! Z.to_nat x) as [fx|] eqn:Hfx; [|reflexivity].
  cbn [ret].
  destruct (negb (has_flag fx SequenceStart_or_End) && negb (has_flag fx NoFeature));
    [|reflexivity].
  apply add_column_other.
  - apply to_size_t_range.
  - apply to_size_t_range.
  - intros Heq. apply Hne.
    apply (to_size_t_offsets (delayed * mNbr) x i); [lia | lia | congruence].
Qed.

(** C8: the backward step of one frame leaves the gradient of the input as
    it was when the delayed frame index lies outside the column range of
    the node's gradient; and it leaves alone the column it addresses for a
    sequence whose flag word at the frame carries the boundary marker,
    [NoFeature] or all of [NoInput].  This holds for the state the step
    ends in, be it finished or thrown. *)
Theorem ComputeInputPartialSRP_drops_contribution
    (frameRange : FrameRange) (timeStep : Z) (gradientValues : Matrix E)
    (L : MBLayout) (colBoundaryFlags : list Z) (minibatchPackingFlags : Z)
    (inputGradientValues : Matrix E) :
  GetFrame L (FrameRange_t frameRange) = Some (colBoundaryFlags, minibatchPackingFlags) ->
  0 <= FrameRange_NumCols frameRange <= 2 ^ 64 ->
  (GetNumCols gradientValues <= delayed_frame direction frameRange timeStep ->
   final_state (ComputeInputPartialSRP direction SequenceStart_or_End frameRange timeStep
                  gradientValues colBoundaryFlags minibatchPackingFlags inputGradientValues)
   = inputGradientValues)
  /\ (forall i flags,
        0 <= i < FrameRange_NumCols frameRange ->
        colBoundaryFlags !! Z.to_nat i = Some flags ->
        stops_gradient SequenceStart_or_End flags ->
        Columns (final_state
                   (ComputeInputPartialSRP direction SequenceStart_or_End frameRange timeStep
                      gradientValues colBoundaryFlags minibatchPackingFlags
                      inputGradientValues))
          !! Z.to_nat (delayed_column direction frameRange timeStep i)
        = Columns inputGradientValues
            !! Z.to_nat (delayed_column direction frameRange timeStep i)).
Proof.
  intros Hframe HmNbr. apply GetFrame_Some in Hframe as (Ht & _ & ->).
  unfold ComputeInputPartialSRP, delayed_column, delayed_frame.
  set (mNbr := FrameRange_NumCols frameRange) in *.
  set (delayed := to_size_t (FrameRange_t frameRange + to_int (direction * timeStep))).
  split.
  - intros Hout.
    replace (delayed <? GetNumCols gradientValues) with false
      by (symmetry; apply Z.ltb_ge; exact Hout).
    rewrite andb_false_r. reflexivity.
  - intros i flags Hi Hflags Hstop.
    destruct ((0 <=? delayed) && (delayed <? GetNumCols gradientValues)); [|reflexivity].
    assert (Htest := stops_gradient_test SequenceStart_or_End flags Hstop).
    assert (Hunion : has_flag (union_flags colBoundaryFlags)
                       (Z.lor SequenceStart_or_End NoFeature) = true).
    { apply andb_false_iff in Htest as [Hm|Hn]; apply negb_false_iff in Hm || apply negb_false_iff in Hn.
      - apply has_flag_lor_l. eapply has_flag_union; eauto.
      - apply has_flag_lor_r. eapply has_flag_union; eauto. }
    rewrite Hunion.
    apply (forM__keeps (fun s : Matrix E => Columns s !! Z.to_nat (to_size_t (delayed * mNbr + i)))).
    intros x s Hx. apply elem_of_upto in Hx.
    destruct (Z.eq_dec x i) as [->|Hne].
    + unfold ComputeInputPartialSRP_stream. rewrite final_state_bind.
      rewrite Hflags. cbn [lift_option ret]. rewrite Htest. reflexivity.
    + apply ComputeInputPartialSRP_stream_other; [fold mNbr; lia .. | exact Hne].
Qed.
End BackwardStepColumns.

Section BackwardStepAdds.
Context {E : Type} `{ElemOps E} `{PackingFlags}.
Context (direction : Z) (SequenceStart_or_End : Z).
Import DelayedValueNodeBase.

Lemma to_size_t_add_small (a i : Z) :
  0 <= i -> to_size_t a + i < 2 ^ 64 -> to_size_t (a + i) = to_size_t a + i.
Proof.
  intros Hi Hsmall. pose proof (to_size_t_range a) as Ha. unfold to_size_t in *.
  rewrite <- Zplus_mod_idemp_l. apply Z.mod_small. lia.
Qed.

Lemma slice_single (m : Matrix E) (c : Z) :
  in_range m c 1 = true ->
  exists col, Columns m !! Z.to_nat c = Some col /\ slice_columns m c 1 = [col].
Proof.
  intros Hr. apply in_range_bounds in Hr as (Hc & _ & Hfit). unfold GetNumCols in Hfit.
  destruct (lookup_lt_is_Some_2 (Columns m) (Z.to_nat c) ltac:(lia)) as [col Hcol].
  exists col. split; [exact Hcol|].
  unfold slice_columns. rewrite (drop_S _ _ _ Hcol).
  change (Z.to_nat 1) with 1%nat. reflexivity.
Qed.

(** The iteration for sequence [i], when the flag word lets the gradient
    through and the iteration finishes, adds the node's gradient column
    onto the column of the input's gradient. *)
Lemma ComputeInputPartialSRP_stream_at
    (timeIdxInSeq mNbr delayed : Z) (gradientValues : Matrix E)
    (colBoundaryFlags : list Z) (i flags : Z) (s s' : Matrix E) :
  colBoundaryFlags !! Z.to_nat i = Some flags ->
  has_flag flags SequenceStart_or_End = false ->
  has_flag flags NoFeature = false ->
  ComputeInputPartialSRP_stream SequenceStart_or_End timeIdxInSeq mNbr delayed
    gradientValues colBoundaryFlags i s = Done tt s' ->
  exists old frm,
    Columns s !! Z.to_nat (to_size_t (delayed * mNbr + i)) = Some old
    /\ Columns gradientValues !! Z.to_nat (to_size_t (timeIdxInSeq * mNbr + i)) = Some frm
    /\ Columns s' !! Z.to_nat (to_size_t (delayed * mNbr + i)) = Some (column_sum old frm).
Proof.
  intros Hflags Hm Hn Hrun. unfold ComputeInputPartialSRP_stream in Hrun.
  rewrite Hflags in Hrun. unfold bind at 1 in Hrun. cbn [lift_option ret] in Hrun.
  rewrite Hm, Hn in Hrun. cbn [negb andb] in Hrun.
  apply bind_Done in Hrun as (to & s1 & Hto & Hrun).
  apply ColumnSliceHere_Done in Hto as (-> & Hrange & ->).
  apply bind_Done in Hrun as (frm & s1 & Hfrm & Hrun).
  apply ColumnSliceOf_Done in Hfrm as (-> & Hrange' & ->).
  apply PlusAssign_slice_Done in Hrun as (Hshape & ->).
  destruct (slice_single _ _ Hrange) as (old & Hold & Hslice).
  destruct (slice_single _ _ Hrange') as (col & Hcol & Hslice').
  exists old, col. split; [exact Hold|]. split; [exact Hcol|].
  cbn [Columns]. rewrite Hslice, Hslice'. cbn [add_columns zip_with].
  apply in_range_bounds in Hrange as (Hpos & _ & Hfit). unfold GetNumCols in Hfit.
  rewrite <- (Nat.add_0_r (Z.to_nat (to_size_t (delayed * mNbr + i)))) at 1.
  rewrite lookup_write_columns_new; [reflexivity | cbn [length]; lia | cbn [length]; lia].
Qed.

End BackwardStepAdds.

(** * Delayed-value nodes: the forward step of one frame *)

Section ForwardStep.
Context {E : Type} `{ElemOps E} `{MatrixLib E} `{PackingFlags}.
Context (direction : Z) (SequenceStart_or_End : Z).
Import DelayedValueNodeBase.

Lemma SetValue_slice_Done (c : Z) (slice src s s' : Matrix E) :
  SetValue_slice c slice src s = Done tt s' ->
  same_shape slice src = true /\ s' = write_columns c (Columns src) s.
Proof.
  unfold SetValue_slice. destruct (same_shape slice src); [|discriminate].
  intros Hd. inversion Hd. auto.
Qed.

Lemma SetValue_slice_final (c : Z) (slice src s : Matrix E) :
  final_state (SetValue_slice c slice src s) = s
  \/ (same_shape slice src = true
      /\ final_state (SetValue_slice c slice src s) = write_columns c (Columns src) s).
Proof. unfold SetValue_slice. destruct (same_shape slice src); [right|left]; auto. Qed.

(** What the iteration for sequence [x] finishes with: the matrix with one
    column written, at the column of that sequence, and with the shape it
    had. *)
Lemma EvaluateThisNodeSRP_stream_Done
    (timeIdxInSeq mNbr delayedIndex d : Z) (delayedActivation inputFunctionValues : Matrix E)
    (initStateValue : E) (colBoundaryFlags : list Z) (x : Z) (s s' : Matrix E) :
  EvaluateThisNodeSRP_stream SequenceStart_or_End timeIdxInSeq mNbr delayedIndex d
    delayedActivation inputFunctionValues initStateValue colBoundaryFlags x s = Done tt s' ->
  exists col flags,
    in_range s (to_size_t (timeIdxInSeq * mNbr + x)) 1 = true
    /\ colBoundaryFlags !! Z.to_nat x = Some flags
    /\ s' = write_columns (to_size_t (timeIdxInSeq * mNbr + x)) [col] s
    /\ (if has_flag flags SequenceStart_or_End
        then col = replicate (NumRows s) initStateValue
        else Columns (delayed_source delayedIndex delayedActivation inputFunctionValues)
               !! Z.to_nat (to_size_t (to_int (d + x))) = Some col).
Proof.
  intros Hrun. unfold EvaluateThisNodeSRP_stream in Hrun.
  apply bind_Done in Hrun as (out & s1 & Hout & Hrun).
  apply ColumnSliceHere_Done in Hout as (-> & Hrange & ->).
  apply bind_Done in Hrun as (flags & s1 & Hflags & Hrun).
  unfold lift_option in Hflags.
  destruct (colBoundaryFlags !! Z.to_nat x) as [f|] eqn:Hf; [|discriminate].
  inversion Hflags; subst f s1.
  destruct (slice_single _ _ Hrange) as (old & Hold & Hslice).
  destruct (has_flag flags SequenceStart_or_End) eqn:Hm.
  - unfold SetValue_slice_scalar, modify in Hrun. inversion Hrun. cbn [Columns NumRows].
    rewrite Hslice. cbn [length replicate].
    exists (replicate (NumRows s) initStateValue), flags. rewrite Hm. auto.
  - apply bind_Done in Hrun as (inp & s1 & Hinp & Hrun).
    apply ColumnSliceOf_Done in Hinp as (-> & Hrange' & ->).
    apply SetValue_slice_Done in Hrun as (_ & ->). cbn [Columns].
    destruct (slice_single _ _ Hrange') as (col & Hcol & ->).
    exists col, flags. rewrite Hm. auto.
Qed.

Lemma write_one_column (c : Z) (col : list E) (s : Matrix E) :
  in_range s c 1 = true ->
  Columns (write_columns c [col] s) !! Z.to_nat c = Some col
  /\ (forall k, k <> Z.to_nat c ->
        Columns (write_columns c [col] s) !! k = Columns s !! k)
  /\ NumRows (write_columns c [col] s) = NumRows s
  /\ length (Columns (write_columns c [col] s)) = length (Columns s).
Proof.
  intros Hrange. apply in_range_bounds in Hrange as (Hc & _ & Hfit).
  unfold GetNumCols in Hfit.
  assert (Hfit' : (Z.to_nat c + length [col] <= length (Columns s))%nat) by (cbn; lia).
  split.
  { rewrite <- (Nat.add_0_r (Z.to_nat c)) at 1.
    rewrite lookup_write_columns_new; [reflexivity | exact Hfit' | cbn; lia]. }
  split.
  { intros k Hk. apply lookup_write_columns_other; [exact Hfit' | cbn; lia]. }
  apply write_columns_shape. exact Hfit'.
Qed.
End ForwardStep.

Section ForwardStepFrame.
Context {E : Type} `{ElemOps E} `{MatrixLib E} `{PackingFlags}.
Context (direction : Z) (SequenceStart_or_End : Z).
Import DelayedValueNodeBase.

Lemma forM__inv {St A} (Inv : St -> Prop) (l : list A) (body : A -> M St unit) :
  (forall x s s', x ∈ l -> Inv s -> body x s = Done tt s' -> Inv s') ->
  forall s s', Inv s -> forM_ l body s = Done tt s' -> Inv s'.
Proof.
  induction l as [|x l IH]; intros Hbody s s' Hs Hrun.
  - inversion Hrun; subst. exact Hs.
  - cbn [forM_] in Hrun. apply bind_Done in Hrun as ([] & s1 & Hx & Hrun).
    eapply IH; [| | exact Hrun].
    + intros y s2 s3 Hy. apply Hbody. apply list_elem_of_further, Hy.
    + eapply Hbody; [apply list_elem_of_here | exact Hs | exact Hx].
Qed.

Lemma shaped_like_shape (functionValues inputFunctionValues : Matrix E) :
  same_shape (shaped_like functionValues inputFunctionValues) inputFunctionValues = true.
Proof.
  unfold shaped_like.
  destruct (same_shape functionValues inputFunctionValues) eqn:Hs; [exact Hs|].
  unfold same_shape.
  rewrite GetNumRows_Resize by (unfold GetNumRows; lia).
  rewrite GetNumCols_Resize by (unfold GetNumCols; lia).
  rewrite !Z.eqb_refl. reflexivity.
Qed.

(** The forward step of one frame, taken apart: the resize, the index [d],
    the view of the frame, and then either the loop over the sequences or
    the copy of the whole frame. *)
Lemma EvaluateThisNodeSRP_Done
    (frameRange : FrameRange) (timeStep : Z) (delayedActivation inputFunctionValues : Matrix E)
    (initStateValue : E) (colBoundaryFlags : list Z) (minibatchPackingFlags : Z)
    (functionValues fv' : Matrix E) :
  EvaluateThisNodeSRP direction SequenceStart_or_End frameRange timeStep delayedActivation
    inputFunctionValues initStateValue colBoundaryFlags minibatchPackingFlags functionValues
  = Done tt fv' ->
  let t := FrameRange_t frameRange in
  let mNbr := FrameRange_NumCols frameRange in
  let delayedIndex := delayedIndex_of direction t timeStep mNbr in
  let fv1 := shaped_like functionValues inputFunctionValues in
  exists d,
    wrapped_index delayedIndex delayedActivation inputFunctionValues d
    /\ in_range fv1 (to_size_t (t * mNbr)) mNbr = true
    /\ (if has_flag minibatchPackingFlags SequenceStart_or_End
        then forM_ (upto mNbr)
               (EvaluateThisNodeSRP_stream SequenceStart_or_End t mNbr delayedIndex d
                  delayedActivation inputFunctionValues initStateValue colBoundaryFlags)
               fv1 = Done tt fv'
        else
          let source := delayed_source delayedIndex delayedActivation inputFunctionValues in
          in_range source (to_size_t d) mNbr = true
          /\ fv' = write_columns (to_size_t (t * mNbr))
                     (slice_columns source (to_size_t d) mNbr) fv1).
Proof.
  intros Hrun t mNbr delayedIndex fv1. unfold EvaluateThisNodeSRP in Hrun.
  fold t mNbr delayedIndex in Hrun.
  unfold bind at 1 in Hrun. unfold get at 1 in Hrun.
  apply bind_Done in Hrun as ([] & s1 & Hresize & Hrun).
  assert (Hs1 : s1 = fv1).
  { unfold fv1, shaped_like.
    destruct (same_shape functionValues inputFunctionValues); cbn [negb] in Hresize;
      inversion Hresize; reflexivity. }
  subst s1. clear Hresize.
  apply bind_Done in Hrun as (d & s1 & Hd & Hrun).
  assert (Hwrapped : wrapped_index delayedIndex delayedActivation inputFunctionValues d
                     /\ s1 = fv1).
  { unfold wrapped_index.
    destruct (outside_minibatch delayedIndex inputFunctionValues).
    - unfold lift_option in Hd. destruct (Mod _ _) as [d0|]; [|discriminate].
      inversion Hd; subst. auto.
    - inversion Hd; subst. auto. }
  destruct Hwrapped as [Hwrapped ->]. clear Hd.
  apply bind_Done in Hrun as (out & s1 & Hout & Hrun).
  apply ColumnSliceHere_Done in Hout as (-> & Hrange & ->).
  exists d. split; [exact Hwrapped|]. split; [exact Hrange|].
  destruct (has_flag minibatchPackingFlags SequenceStart_or_End); [exact Hrun|].
  apply bind_Done in Hrun as (inp & s1 & Hinp & Hrun).
  apply ColumnSliceOf_Done in Hinp as (-> & Hrange' & ->).
  apply SetValue_slice_Done in Hrun as (_ & ->). cbn [Columns]. auto.
Qed.

(** The loop over the sequences keeps the shape of the matrix and every
    column outside the frame. *)
Lemma EvaluateThisNodeSRP_streams_keep
    (t mNbr delayedIndex d : Z) (delayedActivation inputFunctionValues : Matrix E)
    (initStateValue : E) (colBoundaryFlags : list Z) (l : list Z) (s s' : Matrix E) :
  0 <= t -> 0 <= mNbr -> (t + 1) * mNbr <= 2 ^ 64 ->
  (forall x, x ∈ l -> 0 <= x < mNbr) ->
  forM_ l (EvaluateThisNodeSRP_stream SequenceStart_or_End t mNbr delayedIndex d
             delayedActivation inputFunctionValues initStateValue colBoundaryFlags) s
  = Done tt s' ->
  NumRows s' = NumRows s
  /\ length (Columns s') = length (Columns s)
  /\ (forall k, (k < Z.to_nat (t * mNbr) \/ Z.to_nat ((t + 1) * mNbr) <= k)%nat ->
        Columns s' !! k = Columns s !! k).
Proof.
  intros Ht HmNbr Hwide Hl Hrun.
  refine (forM__inv
            (fun s1 : Matrix E =>
               NumRows s1 = NumRows s
               /\ length (Columns s1) = length (Columns s)
               /\ (forall k, (k < Z.to_nat (t * mNbr) \/ Z.to_nat ((t + 1) * mNbr) <= k)%nat ->
                     Columns s1 !! k = Columns s !! k))
            l _ _ s s' _ Hrun); [|auto].
  intros x s1 s2 Hx (Hrows & Hcols & Hother) Hstep.
  apply EvaluateThisNodeSRP_stream_Done in Hstep as (col & flags & Hrange & _ & -> & _).
  destruct (write_one_column _ col s1 Hrange) as (_ & Hk & Hrows' & Hcols').
  split; [congruence|]. split; [congruence|].
  intros k Hkout. rewrite Hk; [apply Hother, Hkout|].
  specialize (Hl x Hx). rewrite to_size_t_small by nia. nia.
Qed.
End ForwardStepFrame.

Section ForwardStepColumns.
Context {E : Type} `{ElemOps E} `{MatrixLib E} `{PackingFlags}.
Context (direction : Z) (SequenceStart_or_End : Z).
Import DelayedValueNodeBase.

(** The forward step of one frame, column by column. *)
Lemma EvaluateThisNodeSRP_frame
    (frameRange : FrameRange) (timeStep : Z) (delayedActivation inputFunctionValues : Matrix E)
    (initStateValue : E) (L : MBLayout) (colBoundaryFlags : list Z)
    (minibatchPackingFlags : Z) (functionValues fv' : Matrix E) :
  let t := FrameRange_t frameRange in
  let mNbr := FrameRange_NumCols frameRange in
  let delayedIndex := delayedIndex_of direction t timeStep mNbr in
  let fv1 := shaped_like functionValues inputFunctionValues in
  let source := delayed_source delayedIndex delayedActivation inputFunctionValues in
  GetFrame L t = Some (colBoundaryFlags, minibatchPackingFlags) ->
  0 <= mNbr -> (t + 1) * mNbr <= 2 ^ 64 ->
  EvaluateThisNodeSRP direction SequenceStart_or_End frameRange timeStep delayedActivation
    inputFunctionValues initStateValue colBoundaryFlags minibatchPackingFlags functionValues
  = Done tt fv' ->
  NumRows fv' = NumRows fv1
  /\ length (Columns fv') = length (Columns fv1)
  /\ (forall k, (k < Z.to_nat (t * mNbr) \/ Z.to_nat ((t + 1) * mNbr) <= k)%nat ->
        Columns fv' !! k = Columns fv1 !! k)
  /\ (forall i,
        0 <= i < mNbr ->
        if has_flag (default 0 (colBoundaryFlags !! Z.to_nat i)) SequenceStart_or_End
        then Columns fv' !! Z.to_nat (t * mNbr + i)
             = Some (replicate (NumRows fv1) initStateValue)
        else exists d src col,
               wrapped_index delayedIndex delayedActivation inputFunctionValues d
               /\ reads_from d mNbr i src
               /\ Columns source !! src = Some col
               /\ Columns fv' !! Z.to_nat (t * mNbr + i) = Some col).
Proof.
  intros t mNbr delayedIndex fv1 source Hframe HmNbr Hwide Hrun.
  apply GetFrame_Some in Hframe as (Ht & _ & ->).
  apply EvaluateThisNodeSRP_Done in Hrun as (d & Hd & Hrange & Hrun).
  fold t mNbr delayedIndex fv1 source in Hd, Hrange, Hrun.
  destruct (has_flag (union_flags colBoundaryFlags) SequenceStart_or_End) eqn:Hany.
  - (* sequence by sequence *)
    pose proof (EvaluateThisNodeSRP_streams_keep SequenceStart_or_End t mNbr delayedIndex d
                  delayedActivation inputFunctionValues initStateValue colBoundaryFlags
                  (upto mNbr) fv1 fv' Ht HmNbr Hwide
                  (fun x Hx => proj1 (elem_of_upto mNbr x) Hx) Hrun)
      as (Hrows & Hcols & Hother).
    do 3 (split; [assumption|]).
    intros i Hi.
    set (flags := default 0 (colBoundaryFlags !! Z.to_nat i)).
    refine (proj2 (forM__at
              (fun s : Matrix E => NumRows s = NumRows fv1)
              (fun s : Matrix E =>
                 NumRows s = NumRows fv1 /\
                 if has_flag flags SequenceStart_or_End
                 then Columns s !! Z.to_nat (t * mNbr + i)
                      = Some (replicate (NumRows fv1) initStateValue)
                 else exists d src col,
                     wrapped_index delayedIndex delayedActivation inputFunctionValues d
                     /\ reads_from d mNbr i src
                     /\ Columns source !! src = Some col
                     /\ Columns s !! Z.to_nat (t * mNbr + i) = Some col)
              i (upto mNbr) _ (NoDup_upto mNbr) _ _ _ _ fv1 fv' eq_refl Hrun)).
    + apply elem_of_upto. exact Hi.
    + intros x s s' Hx Hne Hpre Hstep.
      apply EvaluateThisNodeSRP_stream_Done in Hstep as (col & fx & Hr & _ & -> & _).
      destruct (write_one_column _ col s Hr) as (_ & _ & Hrows' & _). congruence.
    + intros s s' Hpre Hstep.
      apply EvaluateThisNodeSRP_stream_Done in Hstep as (col & fx & Hr & Hfx & -> & Hcol).
      assert (Hfi : fx = flags) by (unfold flags; rewrite Hfx; reflexivity). subst fx.
      destruct (write_one_column _ col s Hr) as (Hnew & _ & Hrows' & _).
      assert (Hc : to_size_t (t * mNbr + i) = t * mNbr + i) by (apply to_size_t_small; nia).
      rewrite Hc in *.
      split; [congruence|].
      destruct (has_flag flags SequenceStart_or_End).
      * rewrite Hnew, Hcol, Hpre. reflexivity.
      * exists d, (Z.to_nat (to_size_t (to_int (d + i)))), col.
        split; [exact Hd|]. split; [left; reflexivity|]. split; [exact Hcol | exact Hnew].
    + intros x s s' Hx Hne [Hpre Hpost] Hstep. apply elem_of_upto in Hx.
      apply EvaluateThisNodeSRP_stream_Done in Hstep as (col & fx & Hr & _ & -> & _).
      destruct (write_one_column _ col s Hr) as (_ & Hk & Hrows' & _).
      split; [congruence|].
      assert (Hc : to_size_t (t * mNbr + x) = t * mNbr + x) by (apply to_size_t_small; nia).
      rewrite Hc in *.
      rewrite Hk by nia. exact Hpost.
  - (* the whole frame in one go *)
    destruct Hrun as (Hrange' & ->).
    pose proof (length_slice_columns _ _ _ Hrange') as Hlen.
    apply in_range_bounds in Hrange as (Hts & _ & Hfit).
    apply in_range_bounds in Hrange' as (Hds & _ & Hfit').
    unfold GetNumCols in Hfit, Hfit'.
    rewrite to_size_t_small in Hfit |- * by nia.
    assert (Hfits : (Z.to_nat (t * mNbr)
                     + length (slice_columns source (to_size_t d) mNbr)
                     <= length (Columns fv1))%nat) by lia.
    destruct (write_columns_shape fv1 (t * mNbr) _ Hfits) as [Hrows Hcols].
    do 2 (split; [assumption|]).
    split.
    + intros k Hk. apply lookup_write_columns_other; [exact Hfits|]. rewrite Hlen. nia.
    + intros i Hi.
      destruct (has_flag (default 0 (colBoundaryFlags !! Z.to_nat i)) SequenceStart_or_End)
        eqn:Hm.
      { destruct (colBoundaryFlags !! Z.to_nat i) as [flags|] eqn:Hflags; cbn in Hm.
        - rewrite (has_flag_union _ _ _ _ Hflags Hm) in Hany. discriminate.
        - unfold has_flag in Hm. rewrite Z.land_0_l in Hm. discriminate. }
      destruct (lookup_lt_is_Some_2 (Columns source)
                  (Z.to_nat (to_size_t d) + Z.to_nat i) ltac:(lia)) as [col Hcol].
      exists d, (Z.to_nat (to_size_t d) + Z.to_nat i)%nat, col.
      split; [exact Hd|]. split; [right; reflexivity|]. split; [exact Hcol|].
      rewrite Z2Nat.inj_add by nia.
      rewrite lookup_write_columns_new by (try exact Hfits; lia).
      rewrite lookup_slice_columns by lia. exact Hcol.
Qed.
End ForwardStepColumns.

(** * Delayed-value nodes: forward evaluation of a whole minibatch *)

Section ForwardMinibatch.
Context {E : Type} `{ElemOps E} `{MatrixLib E} `{PackingFlags}.
Context (direction : Z) (SequenceStart_or_End : Z).
Import DelayedValueNodeBase.
Local Abbreviation Node := (Node (E:=E)).

Lemma evaluate_frame_Done (frameRange : FrameRange) (n n' : Node) :
  evaluate_frame direction SequenceStart_or_End frameRange n = Done tt n' ->
  exists colBoundaryFlags minibatchPackingFlags fv',
    GetFrame (m_pShiftedMBLayout n) (FrameRange_t frameRange)
    = Some (colBoundaryFlags, minibatchPackingFlags)
    /\ EvaluateThisNodeSRP direction SequenceStart_or_End frameRange (m_timeStep n)
         (m_delayedActivation n) (Inputs0_FunctionValues n) (m_initialActivationValue n)
         colBoundaryFlags minibatchPackingFlags (m_functionValues n) = Done tt fv'
    /\ n' = set_functionValues fv' n.
Proof.
  unfold evaluate_frame. intros Hrun.
  unfold bind at 1 in Hrun. unfold get at 1 in Hrun.
  apply bind_Done in Hrun as ([col mb] & s1 & Hframe & Hrun).
  unfold GetFrameOf, lift_option in Hframe.
  destruct (GetFrame (m_pShiftedMBLayout n) (FrameRange_t frameRange)) as [p|] eqn:Hget;
    [|discriminate].
  inversion Hframe; subst p s1.
  apply zoom_Done in Hrun as (fv' & Hsrp & ->).
  exists col, mb, fv'. cbn [fst snd] in Hsrp. auto.
Qed.

Lemma same_shape_sizes (a b : Matrix E) :
  NumRows a = NumRows b -> length (Columns a) = length (Columns b) ->
  same_shape a b = true.
Proof.
  intros Hr Hc. unfold same_shape, GetNumRows, GetNumCols.
  rewrite Hr, Hc, !Z.eqb_refl. reflexivity.
Qed.

Lemma shaped_like_same (a b : Matrix E) : same_shape a b = true -> shaped_like a b = a.
Proof. unfold shaped_like. intros ->. reflexivity. Qed.

(** The loop over the frames: each frame's columns are what its own
    iteration made of them. *)
Lemma evaluate_frames_columns (frames : list Z) (n0 n1 : Node) :
  let S := NumParallel n0 in
  let input := Inputs0_FunctionValues n0 in
  NoDup frames ->
  (forall x, x ∈ frames -> 0 <= x /\ (x + 1) * S <= GetNumCols input) ->
  GetNumCols input <= 2 ^ 64 ->
  forM_ frames (fun timeIdxInSeq =>
                  evaluate_frame direction SequenceStart_or_End
                    (mkFrameRange (to_size_t timeIdxInSeq) S)) n0 = Done tt n1 ->
  forall t i, t ∈ frames -> 0 <= i < S ->
    delayed_output direction SequenceStart_or_End n0 S t i
      (Columns (m_functionValues n1) !! Z.to_nat (t * S + i)).
Proof.
  intros S input Hnd Hframes Hwide Hrun t i Ht Hi.
  assert (HS : 0 <= S) by (unfold S, NumParallel, GetNumParallelSequences; lia).
  subst input.
  refine (proj2 (proj2 (forM__at
            (fun s : Node => exists fv, s = set_functionValues fv n0)
            (fun s : Node =>
               (exists fv, s = set_functionValues fv n0)
               /\ same_shape (m_functionValues s) (Inputs0_FunctionValues n0) = true
               /\ delayed_output direction SequenceStart_or_End n0 S t i
                    (Columns (m_functionValues s) !! Z.to_nat (t * S + i)))
            t frames _ Hnd Ht _ _ _ n0 n1 _ Hrun))).
  - intros x s s' Hx Hne [fv ->] Hstep.
    apply evaluate_frame_Done in Hstep as (col & mb & fv' & _ & _ & ->).
    exists fv'. reflexivity.
  - intros s s' [fv ->] Hstep.
    apply evaluate_frame_Done in Hstep as (col & mb & fv' & Hframe & Hsrp & ->).
    cbn [m_pShiftedMBLayout m_timeStep m_delayedActivation Inputs0_FunctionValues
         m_initialActivationValue m_functionValues set_functionValues FrameRange_t] in *.
    destruct (Hframes t Ht) as [Ht0 Htfit].
    assert (Htt : to_size_t t = t) by (apply to_size_t_small; nia).
    rewrite Htt in *.
    pose proof (EvaluateThisNodeSRP_frame direction SequenceStart_or_End
                  (mkFrameRange t S) _ _ _ _ (m_pShiftedMBLayout n0) _ _ _ _
                  Hframe HS ltac:(cbn; nia) Hsrp)
      as (Hrows & Hcols & _ & Hcol).
    cbn [FrameRange_t FrameRange_NumCols] in Hrows, Hcols, Hcol.
    pose proof (shaped_like_shape fv (Inputs0_FunctionValues n0)) as Hshape.
    apply same_shape_cols in Hshape as [Hr1 Hc1].
    split; [exists fv'; reflexivity|].
    split; [apply same_shape_sizes; congruence|].
    specialize (Hcol i Hi).
    apply GetFrame_Some in Hframe as (_ & Hlk & _).
    unfold delayed_output, flag_at, frame_column. rewrite Hlk. cbn [default].
    destruct (has_flag _ SequenceStart_or_End); [|exact Hcol].
    rewrite Hcol, Hr1. reflexivity.
  - intros x s s' Hx Hne ([fv ->] & Hshape & Hout) Hstep.
    apply evaluate_frame_Done in Hstep as (col & mb & fv' & Hframe & Hsrp & ->).
    cbn [m_pShiftedMBLayout m_timeStep m_delayedActivation Inputs0_FunctionValues
         m_initialActivationValue m_functionValues set_functionValues FrameRange_t] in *.
    destruct (Hframes x Hx) as [Hx0 Hxfit]. destruct (Hframes t Ht) as [Ht0 Htfit].
    assert (Hxx : to_size_t x = x) by (apply to_size_t_small; nia).
    rewrite Hxx in *.
    pose proof (EvaluateThisNodeSRP_frame direction SequenceStart_or_End
                  (mkFrameRange x S) _ _ _ _ (m_pShiftedMBLayout n0) _ _ _ _
                  Hframe HS ltac:(cbn; nia) Hsrp)
      as (Hrows & Hcols & Hother & _).
    cbn [FrameRange_t FrameRange_NumCols] in Hrows, Hcols, Hother.
    rewrite (shaped_like_same _ _ Hshape) in Hrows, Hcols, Hother.
    apply same_shape_cols in Hshape as [Hr1 Hc1].
    split; [exists fv'; reflexivity|].
    split; [apply same_shape_sizes; congruence|].
    rewrite Hother; [exact Hout|]. nia.
  - exists (m_functionValues n0). destruct n0; reflexivity.
Qed.
End ForwardMinibatch.

Section ForwardTheorems.
Context {E : Type} `{ElemOps E} `{MatrixLib E} `{PackingFlags}.
Import DelayedValueNodeBase.
Local Abbreviation Node := (Node (E:=E)).

Lemma to_int_le (z : Z) : 0 <= z -> to_int z <= z.
Proof.
  intros Hz. unfold to_int.
  pose proof (Z.mod_le (z + 2 ^ 31) (2 ^ 32) ltac:(lia) ltac:(lia)). lia.
Qed.

Lemma nbrSamples_of_Done {St} (cols : Z) (n : Node) (nbr : Z) (s s' : St) :
  nbrSamples_of cols n s = Done nbr s' ->
  s' = s /\ NumParallel n <> 0 /\ nbr = to_int (cols / NumParallel n).
Proof.
  unfold nbrSamples_of. destruct (NumParallel n =? 0) eqn:HS; [discriminate|].
  apply Z.eqb_neq in HS. intros Hd. inversion Hd. auto.
Qed.

(** Both nodes evaluate a minibatch by one pass over its frames, in one
    order or the other, and then keep the input as the carry. *)
Lemma minibatch_columns (direction SequenceStart_or_End : Z) (frames : Z -> list Z)
    (n n' : Node) (t i : Z) :
  let S := NumParallel n in
  let input := Inputs0_FunctionValues n in
  (forall nbr, NoDup (frames nbr)) ->
  (forall nbr x, x ∈ frames nbr <-> 0 <= x < nbr) ->
  bind get (fun n0 : Node =>
    bind (nbrSamples_of (GetNumCols (Inputs0_FunctionValues n0)) n0) (fun nbrSamples =>
      bind (forM_ (frames nbrSamples) (fun timeIdxInSeq =>
              evaluate_frame direction SequenceStart_or_End
                (mkFrameRange (to_size_t timeIdxInSeq) (NumParallel n0))))
           (fun _ => keep_activation))) n = Done tt n' ->
  GetNumCols input < 2 ^ 31 ->
  0 <= t < GetNumCols input / S -> 0 <= i < S ->
  delayed_output direction SequenceStart_or_End n S t i
    (Columns (m_functionValues n') !! Z.to_nat (t * S + i)).
Proof.
  intros S input Hnd Hin Hrun Hsmall Ht Hi. subst input.
  unfold bind at 1 in Hrun. unfold get at 1 in Hrun.
  apply bind_Done in Hrun as (nbr & s1 & Hnbr & Hrun).
  apply nbrSamples_of_Done in Hnbr as (-> & HS & ->).
  apply bind_Done in Hrun as ([] & n1 & Hloop & Hkeep).
  unfold keep_activation, modify in Hkeep. inversion Hkeep; subst n'.
  cbn [m_functionValues set_delayedActivation].
  fold S in HS, Hloop.
  assert (Hcols : 0 <= GetNumCols (Inputs0_FunctionValues n)) by (unfold GetNumCols; lia).
  assert (Hq : 0 <= GetNumCols (Inputs0_FunctionValues n) / S
               /\ S * (GetNumCols (Inputs0_FunctionValues n) / S)
                  <= GetNumCols (Inputs0_FunctionValues n)).
  { split; [apply Z.div_pos; lia | apply Z.mul_div_le; lia]. }
  assert (Hnbr : to_int (GetNumCols (Inputs0_FunctionValues n) / S)
                 = GetNumCols (Inputs0_FunctionValues n) / S).
  { apply to_int_small. split; [lia|]. nia. }
  rewrite Hnbr in Hloop.
  apply (evaluate_frames_columns direction SequenceStart_or_End
           (frames (GetNumCols (Inputs0_FunctionValues n) / S)) n n1); auto.
  - intros x Hx. apply Hin in Hx. split; [lia|]. fold S. nia.
  - lia.
  - apply Hin. exact Ht.
Qed.

(** C2: after a full-minibatch evaluation that finishes, a sequence whose
    shifted flag word at a frame carries the boundary marker
    ([SequenceStart] for the past-value node, [SequenceEnd] for the
    future-value node) has the node's initial activation in every entry of
    its output column at that frame, whatever the input, the carry buffer
    and the delayed index are. *)
Theorem boundary_frames_hold_initial_activation (n n' : Node) (t i : Z) :
  let S := NumParallel n in
  let input := Inputs0_FunctionValues n in
  GetNumCols input < 2 ^ 31 ->
  0 <= t < GetNumCols input / S ->
  0 <= i < S ->
  (PastValueNode.EvaluateThisNode n = Done tt n' ->
   has_flag (flag_at (m_pShiftedMBLayout n) i t) SequenceStart = true ->
   Columns (m_functionValues n') !! Z.to_nat (t * S + i)
   = Some (replicate (NumRows input) (m_initialActivationValue n)))
  /\ (FutureValueNode.EvaluateThisNode n = Done tt n' ->
      has_flag (flag_at (m_pShiftedMBLayout n) i t) SequenceEnd = true ->
      Columns (m_functionValues n') !! Z.to_nat (t * S + i)
      = Some (replicate (NumRows input) (m_initialActivationValue n))).
Proof.
  intros S input Hsmall Ht Hi. split; intros Hrun Hflag.
  - pose proof (minibatch_columns PastValueNode.direction SequenceStart upto n n' t i
                  NoDup_upto elem_of_upto Hrun Hsmall Ht Hi) as Hout.
    unfold delayed_output in Hout. rewrite Hflag in Hout. exact Hout.
  - pose proof (minibatch_columns FutureValueNode.direction SequenceEnd downfrom n n' t i
                  NoDup_downfrom elem_of_downfrom Hrun Hsmall Ht Hi) as Hout.
    unfold delayed_output in Hout. rewrite Hflag in Hout. exact Hout.
Qed.

(** With a step of one and the delayed frame inside the minibatch, the
    delayed output is the column of the input at the delayed frame. *)
Lemma delayed_output_inside (direction SequenceStart_or_End : Z) (n : Node) (t i : Z)
    (column : option (list E)) :
  let S := NumParallel n in
  let input := Inputs0_FunctionValues n in
  direction = 1 \/ direction = -1 ->
  m_timeStep n = 1 ->
  GetNumCols input < 2 ^ 31 ->
  0 <= t -> 0 <= i < S ->
  0 <= t + direction < GetNumCols input / S ->
  has_flag (flag_at (m_pShiftedMBLayout n) i t) SequenceStart_or_End = false ->
  delayed_output direction SequenceStart_or_End n S t i column ->
  exists col,
    Columns input !! Z.to_nat ((t + direction) * S + i) = Some col /\ column = Some col.
Proof.
  intros S input Hdir Hstep Hsmall Ht Hi Hin Hflag Hout. subst input.
  unfold delayed_output in Hout. rewrite Hflag, Hstep in Hout. fold S in Hout.
  destruct Hout as (d & src & col & Hd & Hsrc & Hcol & ->).
  assert (Hq : S * (GetNumCols (Inputs0_FunctionValues n) / S)
               <= GetNumCols (Inputs0_FunctionValues n)) by (apply Z.mul_div_le; lia).
  assert (Hindex : delayedIndex_of direction t 1 S = (t + direction) * S).
  { unfold delayedIndex_of. rewrite Z.mul_1_r.
    rewrite (to_int_small direction) by (destruct Hdir; subst; lia).
    rewrite (to_size_t_small (t + direction)) by nia.
    rewrite (to_int_small (t + direction)) by nia.
    rewrite to_size_t_small by nia. apply to_int_small. nia. }
  rewrite Hindex in Hd, Hcol.
  assert (Hinside : outside_minibatch ((t + direction) * S) (Inputs0_FunctionValues n) = false).
  { unfold outside_minibatch. apply orb_false_iff. split; [apply Z.ltb_ge | apply Z.leb_gt]; nia. }
  unfold wrapped_index in Hd. unfold delayed_source in Hcol. rewrite Hinside in Hd, Hcol.
  subst d. exists col. split; [|reflexivity].
  destruct Hsrc as [->| ->].
  - rewrite to_int_small, to_size_t_small in Hcol by nia. exact Hcol.
  - rewrite to_size_t_small in Hcol by nia. rewrite Z2Nat.inj_add by nia. exact Hcol.
Qed.

(** C1: with a step of one, after a full-minibatch evaluation that
    finishes, the output column of a sequence at a frame whose shifted flag
    word does not carry the boundary marker, and whose delayed frame (the
    one before for the past-value node, the one after for the future-value
    node) lies within the minibatch, is the column of the input for that
    sequence at the delayed frame, entry for entry. *)
Theorem delayed_value_is_copied (n n' : Node) (t i : Z) :
  let S := NumParallel n in
  let input := Inputs0_FunctionValues n in
  m_timeStep n = 1 ->
  GetNumCols input < 2 ^ 31 ->
  0 <= t < GetNumCols input / S ->
  0 <= i < S ->
  (PastValueNode.EvaluateThisNode n = Done tt n' ->
   has_flag (flag_at (m_pShiftedMBLayout n) i t) SequenceStart = false ->
   0 <= t - 1 ->
   exists col,
     Columns input !! Z.to_nat ((t - 1) * S + i) = Some col
     /\ Columns (m_functionValues n') !! Z.to_nat (t * S + i) = Some col)
  /\ (FutureValueNode.EvaluateThisNode n = Done tt n' ->
      has_flag (flag_at (m_pShiftedMBLayout n) i t) SequenceEnd = false ->
      t + 1 < GetNumCols input / S ->
      exists col,
        Columns input !! Z.to_nat ((t + 1) * S + i) = Some col
        /\ Columns (m_functionValues n') !! Z.to_nat (t * S + i) = Some col).
Proof.
  intros S input Hstep Hsmall Ht Hi. split; intros Hrun Hflag Hin.
  - pose proof (minibatch_columns PastValueNode.direction SequenceStart upto n n' t i
                  NoDup_upto elem_of_upto Hrun Hsmall Ht Hi) as Hout.
    apply (delayed_output_inside PastValueNode.direction SequenceStart n t i) in Hout;
      [exact Hout | right; reflexivity | assumption | assumption | lia | assumption
       | unfold PastValueNode.direction; fold S input; lia | assumption].
  - pose proof (minibatch_columns FutureValueNode.direction SequenceEnd downfrom n n' t i
                  NoDup_downfrom elem_of_downfrom Hrun Hsmall Ht Hi) as Hout.
    apply (delayed_output_inside FutureValueNode.direction SequenceEnd n t i) in Hout;
      [exact Hout | left; reflexivity | assumption | assumption | lia | assumption
       | unfold FutureValueNode.direction; fold S input; lia | assumption].
Qed.
End ForwardTheorems.

(** * Delayed-value nodes: the shifted layout *)

Section LayoutCells.

Lemma upto_succ (n : nat) :
  upto (Z.of_nat (Datatypes.S n)) = (upto (Z.of_nat n) ++ [Z.of_nat n])%list.
Proof. unfold upto. rewrite !Nat2Z.id, seq_S, fmap_app. reflexivity. Qed.

Lemma alter_flag_shape (g : Z -> Z) (j i : Z) (L : MBLayout) :
  layout_shape (alter_flag g j i L) = layout_shape L.
Proof.
  unfold layout_shape, alter_flag. cbn [FrameFlags].
  apply list_eq. intros k. rewrite !list_lookup_fmap, list_lookup_alter.
  destruct (decide (Z.to_nat i = k)) as [->|]; [|reflexivity].
  destruct (FrameFlags L !! k); cbn; [|reflexivity].
  rewrite length_alter. reflexivity.
Qed.

Lemma flag_at_alter_flag_other (g : Z -> Z) (j i j' t : Z) (L : MBLayout) :
  Z.to_nat j' <> Z.to_nat j \/ Z.to_nat t <> Z.to_nat i ->
  flag_at (alter_flag g j i L) j' t = flag_at L j' t.
Proof.
  intros Hne. unfold flag_at, frame_column, alter_flag. cbn [FrameFlags].
  rewrite list_lookup_alter.
  destruct (decide (Z.to_nat i = Z.to_nat t)) as [Heq|]; [|reflexivity].
  rewrite Heq. destruct (FrameFlags L !! Z.to_nat t); cbn; [|reflexivity].
  rewrite list_lookup_alter_ne by (destruct Hne; congruence). reflexivity.
Qed.

Lemma flag_at_alter_flag_same (g : Z -> Z) (j i : Z) (L : MBLayout) (col : list Z) :
  FrameFlags L !! Z.to_nat i = Some col ->
  (Z.to_nat j < length col)%nat ->
  flag_at (alter_flag g j i L) j i = g (flag_at L j i).
Proof.
  intros Hcol Hj. unfold flag_at, frame_column, alter_flag. cbn [FrameFlags].
  rewrite list_lookup_alter. destruct (decide (Z.to_nat i = Z.to_nat i)); [|congruence].
  rewrite Hcol. cbn. rewrite list_lookup_alter.
  destruct (decide (Z.to_nat j = Z.to_nat j)); [|congruence].
  destruct (lookup_lt_is_Some_2 col (Z.to_nat j) Hj) as [b Hb]. rewrite Hb. reflexivity.
Qed.

(** A cell of a layout of the shape of a well-formed layout exists. *)
Lemma shaped_cell (L sh : MBLayout) (j i : nat) :
  layout_ok L -> layout_shape sh = layout_shape L ->
  (i < length (FrameFlags L))%nat -> (j < NumParallelSequences L)%nat ->
  exists col, FrameFlags sh !! i = Some col /\ (j < length col)%nat.
Proof.
  intros Hok Hshape Hi Hj.
  destruct (lookup_lt_is_Some_2 _ _ Hi) as [colL HcolL].
  assert (Hlen : length colL = NumParallelSequences L).
  { unfold layout_ok in Hok. rewrite Forall_lookup in Hok. exact (Hok _ _ HcolL). }
  assert (Hk : layout_shape sh !! i = Some (length colL)).
  { rewrite Hshape. unfold layout_shape. rewrite list_lookup_fmap, HcolL. reflexivity. }
  unfold layout_shape in Hk. rewrite list_lookup_fmap in Hk.
  destruct (FrameFlags sh !! i) as [col|]; [|discriminate].
  exists col. split; [reflexivity|]. cbn in Hk. inversion Hk. lia.
Qed.
End LayoutCells.

Section ShiftedLayout.
Context `{PackingFlags}.
Context (SequenceStart_or_End : Z).
Import DelayedValueNodeBase.

Lemma countdown_eq (L : MBLayout) (timeStep j : Z) (i : nat) :
  countdown SequenceStart_or_End L timeStep j i
  = if Is L j (Z.of_nat i) SequenceStart_or_End then timeStep
    else if Is L j (Z.of_nat i) NoFeature then 0
    else carried SequenceStart_or_End L timeStep j i.
Proof. destruct i; reflexivity. Qed.

(** A frame none of whose sequences carries a flag. *)
Lemma Is_frame_false (L : MBLayout) (j t a b : Z) :
  Is_frame L t (Z.lor a b) = false -> Is L j t a = false /\ Is L j t b = false.
Proof.
  unfold Is_frame, Is, flag_at. intros Hframe.
  destruct (frame_column L t !! Z.to_nat j) as [f|] eqn:Hf; cbn.
  - split.
    + destruct (has_flag f a) eqn:Ha; [|reflexivity].
      pose proof (has_flag_union _ _ _ _ Hf Ha) as Hu.
      apply (has_flag_lor_l _ a b) in Hu. congruence.
    + destruct (has_flag f b) eqn:Hb; [|reflexivity].
      pose proof (has_flag_union _ _ _ _ Hf Hb) as Hu.
      apply (has_flag_lor_r _ a b) in Hu. congruence.
  - split; reflexivity.
Qed.

(** The first inner loop touches the countdown of each sequence once. *)
Lemma restart_countdowns_prefix (L : MBLayout) (timeStep i : Z) (numResetLeft : list Z)
    (m : nat) :
  let r := foldl (fun numResetLeft j =>
                    if Is L j i SequenceStart_or_End
                    then <[Z.to_nat j := timeStep]> numResetLeft
                    else if Is L j i NoFeature
                         then <[Z.to_nat j := 0]> numResetLeft
                         else numResetLeft)
                 numResetLeft (upto (Z.of_nat m)) in
  length r = length numResetLeft
  /\ forall j : nat, (j < length numResetLeft)%nat ->
       r !! j = if (j <? m)%nat
                then Some (if Is L (Z.of_nat j) i SequenceStart_or_End then timeStep
                           else if Is L (Z.of_nat j) i NoFeature then 0
                           else default 0 (numResetLeft !! j))
                else numResetLeft !! j.
Proof.
  induction m as [|m IH]; cbn zeta.
  - split; [reflexivity|]. intros j _. reflexivity.
  - rewrite upto_succ, foldl_app. cbn [foldl]. cbn zeta in IH.
    destruct IH as [Hlen Hat]. rewrite Nat2Z.id.
    set (r := foldl _ numResetLeft (upto (Z.of_nat m))) in *.
    split.
    + destruct (Is L (Z.of_nat m) i SequenceStart_or_End);
        [|destruct (Is L (Z.of_nat m) i NoFeature)];
        rewrite ?length_insert; exact Hlen.
    + intros j Hj. specialize (Hat j Hj).
      destruct (decide (j = m)) as [->|Hne].
      * rewrite Nat.ltb_irrefl in Hat.
        assert (Hlt : (m <? Datatypes.S m)%nat = true) by (apply Nat.ltb_lt; lia).
        rewrite Hlt.
        destruct (Is L (Z.of_nat m) i SequenceStart_or_End);
          [|destruct (Is L (Z.of_nat m) i NoFeature)].
        -- rewrite list_lookup_insert. rewrite decide_True by (split; [reflexivity|lia]).
           reflexivity.
        -- rewrite list_lookup_insert. rewrite decide_True by (split; [reflexivity|lia]).
           reflexivity.
        -- rewrite Hat. destruct (lookup_lt_is_Some_2 _ _ Hj) as [x Hx]. rewrite Hx.
           reflexivity.
      * assert (Hsame : (j <? Datatypes.S m)%nat = (j <? m)%nat).
        { destruct (j <? m)%nat eqn:Hjm.
          - apply Nat.ltb_lt in Hjm. apply Nat.ltb_lt. lia.
          - apply Nat.ltb_ge in Hjm. apply Nat.ltb_ge. lia. }
        rewrite Hsame, <- Hat.
        destruct (Is L (Z.of_nat m) i SequenceStart_or_End);
          [|destruct (Is L (Z.of_nat m) i NoFeature)];
          rewrite ?list_lookup_insert_ne by congruence; reflexivity.
Qed.

Lemma restart_countdowns_at (L : MBLayout) (timeStep i : Z) (numResetLeft : list Z)
    (j : nat) :
  (j < length numResetLeft)%nat ->
  let r := restart_countdowns SequenceStart_or_End L timeStep i
             (Z.of_nat (length numResetLeft)) numResetLeft in
  length r = length numResetLeft
  /\ r !! j = Some (if Is L (Z.of_nat j) i SequenceStart_or_End then timeStep
                    else if Is L (Z.of_nat j) i NoFeature then 0
                    else default 0 (numResetLeft !! j)).
Proof.
  intros Hj. cbn zeta. unfold restart_countdowns.
  destruct (restart_countdowns_prefix L timeStep i numResetLeft (length numResetLeft))
    as [Hlen Hat].
  split; [exact Hlen|]. rewrite (Hat j Hj).
  assert (Hlt : (j <? length numResetLeft)%nat = true) by (apply Nat.ltb_lt; lia).
  rewrite Hlt. reflexivity.
Qed.
End ShiftedLayout.

Section ShiftedLayoutFrames.
Context `{PackingFlags}.
Context (SequenceStart_or_End : Z).
Import DelayedValueNodeBase.

Lemma ltb_succ_other (j m : nat) : j <> m -> (j <? Datatypes.S m)%nat = (j <? m)%nat.
Proof.
  intros Hne. destruct (j <? m)%nat eqn:Hjm.
  - apply Nat.ltb_lt in Hjm. apply Nat.ltb_lt. lia.
  - apply Nat.ltb_ge in Hjm. apply Nat.ltb_ge. lia.
Qed.

Lemma ltb_succ_same (m : nat) : (m <? Datatypes.S m)%nat = true.
Proof. apply Nat.ltb_lt. lia. Qed.

(** The second inner loop, run over the first [m] sequences. *)
Lemma implant_flags_prefix (L sh : MBLayout) (i : nat) (numResetLeft : list Z) (m : nat) :
  layout_ok L -> layout_shape sh = layout_shape L ->
  (i < length (FrameFlags L))%nat ->
  length numResetLeft = NumParallelSequences L ->
  (m <= NumParallelSequences L)%nat ->
  let st := implant_flags SequenceStart_or_End (Z.of_nat i) (Z.of_nat m) (numResetLeft, sh) in
  length (fst st) = length numResetLeft
  /\ layout_shape (snd st) = layout_shape L
  /\ (forall j : nat, (j < length numResetLeft)%nat ->
        fst st !! j = if (j <? m)%nat
                      then Some (to_int (default 0 (numResetLeft !! j) - 1))
                      else numResetLeft !! j)
  /\ (forall j t : nat,
        flag_at (snd st) (Z.of_nat j) (Z.of_nat t)
        = if (t =? i)%nat && (j <? m)%nat && (0 <? default 0 (numResetLeft !! j))
          then forced_flag SequenceStart_or_End (flag_at sh (Z.of_nat j) (Z.of_nat i))
          else flag_at sh (Z.of_nat j) (Z.of_nat t)).
Proof.
  intros Hok Hshape Hi Hlen. induction m as [|m IH]; intros Hm; cbn zeta.
  - unfold implant_flags. cbn. repeat split; auto.
    intros j t. rewrite andb_false_r. reflexivity.
  - unfold implant_flags. rewrite upto_succ, foldl_app. cbn [foldl].
    fold (implant_flags SequenceStart_or_End (Z.of_nat i) (Z.of_nat m) (numResetLeft, sh)).
    specialize (IH ltac:(lia)). cbn zeta in IH.
    destruct (implant_flags SequenceStart_or_End (Z.of_nat i) (Z.of_nat m) (numResetLeft, sh))
      as [nrl' sh'].
    cbn [fst snd] in IH. destruct IH as (Hlen' & Hshape' & Hcount & Hflags).
    rewrite Nat2Z.id.
    assert (Hmlt : (m < length numResetLeft)%nat) by lia.
    pose proof (Hcount m Hmlt) as Hleft. rewrite Nat.ltb_irrefl in Hleft.
    rewrite Hleft.
    set (left := default 0 (numResetLeft !! m)).
    assert (Hcount' : forall j : nat, (j < length numResetLeft)%nat ->
              <[m := to_int (left - 1)]> nrl' !! j
              = if (j <? Datatypes.S m)%nat
                then Some (to_int (default 0 (numResetLeft !! j) - 1))
                else numResetLeft !! j).
    { intros j Hj. destruct (decide (j = m)) as [->|Hne].
      - rewrite ltb_succ_same, list_lookup_insert.
        rewrite decide_True by (split; [reflexivity|lia]). reflexivity.
      - rewrite (ltb_succ_other j m Hne), list_lookup_insert_ne by congruence.
        apply Hcount, Hj. }
    destruct (0 <? left) eqn:Hpos; cbn [fst snd].
    + split; [rewrite length_insert; exact Hlen'|].
      split; [unfold Set_, Mask; rewrite !alter_flag_shape; exact Hshape'|].
      split; [exact Hcount'|].
      intros j t.
      destruct (decide (j = m /\ t = i)) as [[-> ->]|Hne].
      * rewrite Nat.eqb_refl, ltb_succ_same. fold left. rewrite Hpos. cbn [andb].
        destruct (shaped_cell L sh' m i Hok Hshape' Hi ltac:(lia)) as (col & Hcol & Hj).
        destruct (shaped_cell L (Mask (Z.of_nat m) (Z.of_nat i) NoLabel sh') m i Hok
                    ltac:(unfold Mask; rewrite alter_flag_shape; exact Hshape') Hi ltac:(lia))
          as (col' & Hcol' & Hj').
        unfold Set_. rewrite (flag_at_alter_flag_same _ _ _ _ col')
          by (rewrite ?Nat2Z.id; assumption).
        unfold Mask. rewrite (flag_at_alter_flag_same _ _ _ _ col)
          by (rewrite ?Nat2Z.id; assumption).
        rewrite (Hflags m i), Nat.ltb_irrefl, andb_false_r. cbn [andb]. reflexivity.
      * unfold Set_, Mask.
        rewrite !flag_at_alter_flag_other by (rewrite !Nat2Z.id; lia).
        rewrite (Hflags j t).
        destruct (decide (t = i)) as [->|Hti].
        -- assert (Hjm : j <> m) by (intros ->; apply Hne; auto).
           rewrite (ltb_succ_other j m Hjm). reflexivity.
        -- assert (Hf : (t =? i)%nat = false) by (apply Nat.eqb_neq; exact Hti).
           rewrite Hf. reflexivity.
    + split; [rewrite length_insert; exact Hlen'|].
      split; [exact Hshape'|].
      split; [exact Hcount'|].
      intros j t. rewrite (Hflags j t).
      destruct (decide (j = m)) as [->|Hjm].
      * fold left. rewrite Hpos, Nat.ltb_irrefl, !andb_false_r. reflexivity.
      * rewrite (ltb_succ_other j m Hjm). reflexivity.
Qed.

(** The scan of [SetMBLayout], run over the first [m] frames. *)
Lemma shift_frames_prefix (L : MBLayout) (timeStep : Z) (m : nat) :
  layout_ok L -> (m <= length (FrameFlags L))%nat ->
  let R := NumParallelSequences L in
  let st := foldl (shift_frame SequenceStart_or_End L timeStep (Z.of_nat R))
                  (replicate R 0, L) (upto (Z.of_nat m)) in
  length (fst st) = R
  /\ layout_shape (snd st) = layout_shape L
  /\ (forall j : nat, (j < R)%nat ->
        fst st !! j = Some (carried SequenceStart_or_End L timeStep (Z.of_nat j) m))
  /\ (forall j t : nat, (j < R)%nat ->
        flag_at (snd st) (Z.of_nat j) (Z.of_nat t)
        = if (t <? m)%nat && (0 <? countdown SequenceStart_or_End L timeStep (Z.of_nat j) t)
          then forced_flag SequenceStart_or_End (flag_at L (Z.of_nat j) (Z.of_nat t))
          else flag_at L (Z.of_nat j) (Z.of_nat t)).
Proof.
  intros Hok. induction m as [|m IH]; intros Hm; cbn zeta.
  - cbn. split; [apply length_replicate|]. split; [reflexivity|].
    split; [|reflexivity].
    intros j Hj. apply lookup_replicate_2. exact Hj.
  - rewrite upto_succ, foldl_app. cbn [foldl].
    specialize (IH ltac:(lia)). cbn zeta in IH.
    destruct (foldl (shift_frame SequenceStart_or_End L timeStep
                       (Z.of_nat (NumParallelSequences L)))
                    (replicate (NumParallelSequences L) 0, L) (upto (Z.of_nat m)))
      as [nrl sh].
    cbn [fst snd] in IH. destruct IH as (Hlen & Hshape & Hcount & Hflags).
    unfold shift_frame.
    set (nrl1 := if Is_frame L (Z.of_nat m) (Z.lor SequenceStart_or_End NoFeature)
                 then restart_countdowns SequenceStart_or_End L timeStep (Z.of_nat m)
                        (Z.of_nat (NumParallelSequences L)) nrl
                 else nrl).
    assert (Hnrl1 : length nrl1 = NumParallelSequences L
                    /\ forall j : nat, (j < NumParallelSequences L)%nat ->
                         nrl1 !! j
                         = Some (countdown SequenceStart_or_End L timeStep (Z.of_nat j) m)).
    { subst nrl1.
      destruct (Is_frame L (Z.of_nat m) (Z.lor SequenceStart_or_End NoFeature)) eqn:Hframe.
      - split.
        + rewrite <- Hlen at 1.
          destruct (NumParallelSequences L) as [|R'] eqn:HR.
          * destruct nrl; [reflexivity|discriminate].
          * rewrite <- Hlen.
            apply (restart_countdowns_at SequenceStart_or_End L timeStep (Z.of_nat m) nrl 0%nat).
            lia.
        + intros j Hj. rewrite <- Hlen.
          destruct (restart_countdowns_at SequenceStart_or_End L timeStep (Z.of_nat m) nrl j
                      ltac:(lia)) as [_ Hat].
          rewrite Hat, countdown_eq, (Hcount j Hj). reflexivity.
      - split; [exact Hlen|]. intros j Hj.
        destruct (Is_frame_false L (Z.of_nat j) (Z.of_nat m) _ _ Hframe) as [Hm1 Hm2].
        rewrite countdown_eq, Hm1, Hm2. apply Hcount, Hj. }
    destruct Hnrl1 as [Hlen1 Hat1].
    destruct (implant_flags_prefix L sh m nrl1 (NumParallelSequences L)
                Hok Hshape ltac:(lia) Hlen1 ltac:(lia)) as (Hl & Hs & Hc & Hf).
    split; [rewrite Hl; exact Hlen1|]. split; [exact Hs|]. split.
    + intros j Hj. rewrite (Hc j ltac:(lia)).
      assert (Hlt : (j <? NumParallelSequences L)%nat = true) by (apply Nat.ltb_lt; lia).
      rewrite Hlt, (Hat1 j Hj). reflexivity.
    + intros j t Hj. rewrite (Hf j t), (Hat1 j Hj).
      assert (Hlt : (j <? NumParallelSequences L)%nat = true) by (apply Nat.ltb_lt; lia).
      rewrite Hlt, andb_true_r. cbn [default].
      destruct (decide (t = m)) as [->|Htm].
      * rewrite Nat.eqb_refl, ltb_succ_same. cbn [andb].
        rewrite (Hflags j m Hj), Nat.ltb_irrefl. cbn [andb]. reflexivity.
      * assert (Hne : (t =? m)%nat = false) by (apply Nat.eqb_neq; exact Htm).
        rewrite Hne, (ltb_succ_other t m Htm). cbn [andb]. apply Hflags, Hj.
Qed.

(** Every cell of the shifted layout, by the countdown of its sequence. *)
Lemma shifted_layout_cell (L : MBLayout) (timeStep : Z) (j t : nat) :
  layout_ok L -> 1 < timeStep ->
  (j < NumParallelSequences L)%nat -> (t < length (FrameFlags L))%nat ->
  flag_at (shifted_layout SequenceStart_or_End L timeStep) (Z.of_nat j) (Z.of_nat t)
  = if 0 <? countdown SequenceStart_or_End L timeStep (Z.of_nat j) t
    then forced_flag SequenceStart_or_End (flag_at L (Z.of_nat j) (Z.of_nat t))
    else flag_at L (Z.of_nat j) (Z.of_nat t).
Proof.
  intros Hok Hstep Hj Ht. unfold shifted_layout.
  assert (Hlt : (1 <? timeStep) = true) by (apply Z.ltb_lt; exact Hstep).
  rewrite Hlt. unfold GetNumParallelSequences, GetSize. rewrite Nat2Z.id.
  destruct (shift_frames_prefix L timeStep (length (FrameFlags L)) Hok ltac:(lia))
    as (_ & _ & _ & Hflags).
  rewrite (Hflags j t Hj).
  assert (Htl : (t <? length (FrameFlags L))%nat = true) by (apply Nat.ltb_lt; exact Ht).
  rewrite Htl. reflexivity.
Qed.
End ShiftedLayoutFrames.

Section Countdown.
Context `{PackingFlags}.
Context (SequenceStart_or_End : Z) (L : MBLayout) (timeStep j : Z).
Hypothesis timeStep_int : 0 < timeStep < 2 ^ 31.

Local Abbreviation cd := (countdown SequenceStart_or_End L timeStep j).

Lemma countdown_bounds (i : nat) : Z.of_nat i < 2 ^ 31 -> - Z.of_nat i <= cd i <= timeStep.
Proof.
  induction i as [|i IH]; intros Hi; rewrite countdown_eq.
  - destruct (Is L j _ SequenceStart_or_End); [lia|].
    destruct (Is L j _ NoFeature); cbn [carried]; lia.
  - destruct (Is L j _ SequenceStart_or_End); [lia|].
    destruct (Is L j _ NoFeature); [lia|]. cbn [carried].
    specialize (IH ltac:(lia)). rewrite to_int_small by lia. lia.
Qed.

(** The countdown that a boundary marker starts runs for [timeStep] frames,
    as long as no flag [NoFeature] clears it. *)
Lemma countdown_after_marker (k d : nat) :
  Is L j (Z.of_nat k) SequenceStart_or_End = true ->
  Z.of_nat d < timeStep ->
  (forall m : nat, (k < m <= k + d)%nat ->
     Is L j (Z.of_nat m) SequenceStart_or_End = false ->
     Is L j (Z.of_nat m) NoFeature = false) ->
  timeStep - Z.of_nat d <= cd (k + d) <= timeStep.
Proof.
  intros Hk. induction d as [|d IH]; intros Hd Hclear.
  - rewrite Nat.add_0_r, countdown_eq, Hk. lia.
  - replace (k + Datatypes.S d)%nat with (Datatypes.S (k + d)) by lia.
    rewrite countdown_eq.
    destruct (Is L j (Z.of_nat (Datatypes.S (k + d))) SequenceStart_or_End) eqn:Hm; [lia|].
    rewrite (Hclear (Datatypes.S (k + d)) ltac:(lia) Hm). cbn [carried].
    specialize (IH ltac:(lia) ltac:(intros m Hm'; apply Hclear; lia)).
    rewrite to_int_small by lia. lia.
Qed.

(** A flag [NoFeature] without the marker clears the countdown, and it
    stays cleared up to the next marker. *)
Lemma countdown_after_NoFeature (k d : nat) :
  Is L j (Z.of_nat k) SequenceStart_or_End = false ->
  Is L j (Z.of_nat k) NoFeature = true ->
  Z.of_nat d < 2 ^ 31 ->
  (forall m : nat, (k < m <= k + d)%nat -> Is L j (Z.of_nat m) SequenceStart_or_End = false) ->
  - Z.of_nat d <= cd (k + d) <= 0.
Proof.
  intros Hk Hn. induction d as [|d IH]; intros Hd Hquiet.
  - rewrite Nat.add_0_r, countdown_eq, Hk, Hn. lia.
  - replace (k + Datatypes.S d)%nat with (Datatypes.S (k + d)) by lia.
    rewrite countdown_eq, (Hquiet (Datatypes.S (k + d)) ltac:(lia)).
    destruct (Is L j (Z.of_nat (Datatypes.S (k + d))) NoFeature); [lia|]. cbn [carried].
    specialize (IH ltac:(lia) ltac:(intros m Hm'; apply Hquiet; lia)).
    rewrite to_int_small by lia. lia.
Qed.

(** After [d] frames without a marker the countdown is at most
    [timeStep - d], or cleared. *)
Lemma countdown_quiet (i : nat) (d : Z) :
  Z.of_nat i < 2 ^ 31 -> 0 <= d ->
  (forall m : nat, (m <= i)%nat -> Z.of_nat i < Z.of_nat m + d ->
     Is L j (Z.of_nat m) SequenceStart_or_End = false) ->
  cd i <= Z.max 0 (timeStep - d).
Proof.
  revert d. induction i as [|i IH]; intros d Hi Hd Hquiet.
  - destruct (decide (d = 0)) as [->|Hpos].
    + pose proof (countdown_bounds 0 Hi). lia.
    + rewrite countdown_eq, (Hquiet 0%nat ltac:(lia) ltac:(lia)).
      destruct (Is L j _ NoFeature); cbn [carried]; lia.
  - destruct (decide (d = 0)) as [->|Hpos].
    + pose proof (countdown_bounds _ Hi). lia.
    + rewrite countdown_eq, (Hquiet (Datatypes.S i) ltac:(lia) ltac:(lia)).
      destruct (Is L j _ NoFeature); [lia|]. cbn [carried].
      pose proof (countdown_bounds i ltac:(lia)) as Hb.
      specialize (IH (d - 1) ltac:(lia) ltac:(lia)
                    ltac:(intros m Hm Hm'; apply Hquiet; lia)).
      rewrite to_int_small by lia. lia.
Qed.
End Countdown.

Section ShiftedLayoutTheorem.
Context {E : Type} `{PackingFlags}.
Import DelayedValueNodeBase.
Local Abbreviation Node := (Node (E:=E)).

(** C3 (amended): for a layout of fewer than [2^31] frames, each listing
    one flag word per sequence, and a step [1 < timeStep], [SetMBLayout]
    finishes and builds the shifted layout by one scan in increasing frame
    order, whichever boundary marker (that is, whichever direction) the
    node has.  For a sequence [j]:
    - a boundary marker at frame [k] forces every frame [i] of
      [k .. k + timeStep - 1] within the layout to carry the marker and, of
      its base flags, [NoLabel] only, as long as no frame after [k] up to
      [i] carries [NoFeature] without the marker;
    - a frame [k] that carries [NoFeature] without the marker stops the
      forcing at once: from [k] up to the next marker the frames keep their
      base flags;
    - a frame with no marker among the [timeStep] frames up to it keeps its
      base flags. *)
Theorem SetMBLayout_forces_following_frames (SequenceStart_or_End : Z) (L : MBLayout)
    (n : Node) (j : Z) :
  layout_ok L ->
  1 < m_timeStep n < 2 ^ 31 ->
  GetSize L < 2 ^ 31 ->
  0 <= j < GetNumParallelSequences L ->
  exists n',
    SetMBLayout SequenceStart_or_End L n = Done tt n'
    /\ m_pMBLayout n' = L
    /\ (forall k i,
          0 <= k <= i -> i < k + m_timeStep n -> i < GetSize L ->
          Is L j k SequenceStart_or_End = true ->
          (forall m, k < m <= i ->
             Is L j m SequenceStart_or_End = false -> Is L j m NoFeature = false) ->
          flag_at (m_pShiftedMBLayout n') j i
          = forced_flag SequenceStart_or_End (flag_at L j i))
    /\ (forall k i,
          0 <= k <= i -> i < GetSize L ->
          Is L j k SequenceStart_or_End = false ->
          Is L j k NoFeature = true ->
          (forall m, k < m <= i -> Is L j m SequenceStart_or_End = false) ->
          flag_at (m_pShiftedMBLayout n') j i = flag_at L j i)
    /\ (forall i,
          0 <= i < GetSize L ->
          (forall m, 0 <= m <= i -> i - m_timeStep n < m ->
             Is L j m SequenceStart_or_End = false) ->
          flag_at (m_pShiftedMBLayout n') j i = flag_at L j i).
Proof.
  intros Hok Hstep Hsize Hj.
  unfold SetMBLayout, bind, get, modify.
  assert (Hle : (m_timeStep n <=? 0) = false) by (apply Z.leb_gt; lia).
  rewrite Hle. eexists. split; [reflexivity|]. cbn [m_pShiftedMBLayout m_pMBLayout
    set_pShiftedMBLayout set_pMBLayout m_timeStep].
  split; [reflexivity|].
  unfold GetSize, GetNumParallelSequences in *.
  assert (Hcell : forall i : Z, 0 <= i < Z.of_nat (length (FrameFlags L)) ->
            flag_at (shifted_layout SequenceStart_or_End L (m_timeStep n)) j i
            = if 0 <? countdown SequenceStart_or_End L (m_timeStep n) j (Z.to_nat i)
              then forced_flag SequenceStart_or_End (flag_at L j i)
              else flag_at L j i).
  { intros i Hi.
    pose proof (shifted_layout_cell SequenceStart_or_End L (m_timeStep n)
                  (Z.to_nat j) (Z.to_nat i) Hok ltac:(lia) ltac:(lia) ltac:(lia)) as Hc.
    rewrite !Z2Nat.id in Hc by lia. exact Hc. }
  split; [|split].
  - intros k i Hk Hi Hin Hmark Hclear. rewrite Hcell by lia.
    pose proof (countdown_after_marker SequenceStart_or_End L (m_timeStep n) j ltac:(lia)
                  (Z.to_nat k) (Z.to_nat (i - k))) as Hcd.
    rewrite Z2Nat.id in Hcd by lia.
    specialize (Hcd Hmark ltac:(lia)).
    replace (Z.to_nat k + Z.to_nat (i - k))%nat with (Z.to_nat i) in Hcd by lia.
    assert (Hpos : (0 <? countdown SequenceStart_or_End L (m_timeStep n) j (Z.to_nat i)) = true).
    { apply Z.ltb_lt.
      assert (timeStep_left : m_timeStep n - Z.of_nat (Z.to_nat (i - k))
                <= countdown SequenceStart_or_End L (m_timeStep n) j (Z.to_nat i)).
      { apply Hcd. intros m Hm. apply Hclear. lia. }
      lia. }
    rewrite Hpos. reflexivity.
  - intros k i Hk Hin Hmark Hnf Hquiet. rewrite Hcell by lia.
    pose proof (countdown_after_NoFeature SequenceStart_or_End L (m_timeStep n) j
                  (Z.to_nat k) (Z.to_nat (i - k))) as Hcd.
    rewrite Z2Nat.id in Hcd by lia.
    specialize (Hcd Hmark Hnf ltac:(lia)).
    replace (Z.to_nat k + Z.to_nat (i - k))%nat with (Z.to_nat i) in Hcd by lia.
    assert (Hneg : (0 <? countdown SequenceStart_or_End L (m_timeStep n) j (Z.to_nat i)) = false).
    { apply Z.ltb_ge. apply Hcd. intros m Hm. apply Hquiet. lia. }
    rewrite Hneg. reflexivity.
  - intros i Hi Hquiet. rewrite Hcell by lia.
    pose proof (countdown_quiet SequenceStart_or_End L (m_timeStep n) j ltac:(lia)
                  (Z.to_nat i) (m_timeStep n) ltac:(lia) ltac:(lia)) as Hcd.
    assert (Hneg : (0 <? countdown SequenceStart_or_End L (m_timeStep n) j (Z.to_nat i)) = false).
    { apply Z.ltb_ge.
      assert (Hmax : countdown SequenceStart_or_End L (m_timeStep n) j (Z.to_nat i)
                     <= Z.max 0 (m_timeStep n - m_timeStep n)).
      { apply Hcd. intros m Hm Hm'. apply Hquiet; lia. }
      lia. }
    rewrite Hneg. reflexivity.
Qed.
End ShiftedLayoutTheorem.

(** * The nodes on explicit inputs *)

Section DelayedValueExamples.
#[local] Existing Instance Z_ElemOps.
#[local] Existing Instance Z_MatrixLib.
#[local] Existing Instance bit_flags.
Import DelayedValueNodeBase.

(** Frame 1 of the sample node receives the input of frame 0. *)
Lemma delayed_value_is_copied_witness :
  exists n' col,
    PastValueNode.EvaluateThisNode sample_node = Done tt n'
    /\ Columns (Inputs0_FunctionValues sample_node) !! 0%nat = Some col
    /\ Columns (m_functionValues n') !! 1%nat = Some col.
Proof.
  set (n' := final_state (PastValueNode.EvaluateThisNode sample_node)).
  assert (Hrun : PastValueNode.EvaluateThisNode sample_node = Done tt n')
    by (vm_compute; reflexivity).
  destruct (proj1 (delayed_value_is_copied sample_node n' 1 0
                     ltac:(reflexivity) ltac:(vm_compute; reflexivity)
                     ltac:(vm_compute; easy) ltac:(vm_compute; easy))
                  Hrun ltac:(vm_compute; reflexivity) ltac:(lia))
    as (col & Hin & Hout).
  exists n', col. split; [exact Hrun|]. split; [exact Hin | exact Hout].
Defined.

(** Frame 0 of the sample node, where the sequence starts, receives the
    initial activation. *)
Lemma boundary_frames_hold_initial_activation_witness :
  exists n',
    PastValueNode.EvaluateThisNode sample_node = Done tt n'
    /\ Columns (m_functionValues n') !! 0%nat = Some [7].
Proof.
  set (n' := final_state (PastValueNode.EvaluateThisNode sample_node)).
  assert (Hrun : PastValueNode.EvaluateThisNode sample_node = Done tt n')
    by (vm_compute; reflexivity).
  exists n'. split; [exact Hrun|].
  exact (proj1 (boundary_frames_hold_initial_activation sample_node n' 0 0
                  ltac:(vm_compute; reflexivity) ltac:(vm_compute; easy)
                  ltac:(vm_compute; easy))
               Hrun ltac:(vm_compute; reflexivity)).
Defined.

(** With a step of two, and the sequence start at frame 1 of the sample
    layout, frame 2 is forced to carry the start. *)
Lemma SetMBLayout_forces_following_frames_witness :
  exists n',
    SetMBLayout SequenceStart sample_layout (set_timeStep 2 sample_node) = Done tt n'
    /\ flag_at (m_pShiftedMBLayout n') 0 2
       = forced_flag SequenceStart (flag_at sample_layout 0 2).
Proof.
  destruct (SetMBLayout_forces_following_frames SequenceStart sample_layout
              (set_timeStep 2 sample_node) 0
              ltac:(repeat constructor) ltac:(vm_compute; easy)
              ltac:(vm_compute; reflexivity) ltac:(vm_compute; easy))
    as (n' & Hrun & _ & Hforced & _ & _).
  exists n'. split; [exact Hrun|].
  apply (Hforced 1 2); [lia | vm_compute; reflexivity | vm_compute; reflexivity
                        | reflexivity |].
  intros m Hm _. assert (m = 2) as -> by lia. reflexivity.
Defined.

(** The same run for the past-value node, whose direction is -1: the
    forced frames are 1 and 2, the frame of the marker and the one after
    it; frame 0, the frame before the marker, is left without the marker. *)
Lemma SetMBLayout_past_value_forces_later_frames :
  exists n',
    SetMBLayout SequenceStart sample_layout (set_timeStep 2 sample_node) = Done tt n'
    /\ PastValueNode.direction = -1
    /\ Is sample_layout 0 1 SequenceStart = true
    /\ has_flag (flag_at (m_pShiftedMBLayout n') 0 0) SequenceStart = false
    /\ has_flag (flag_at (m_pShiftedMBLayout n') 0 1) SequenceStart = true
    /\ has_flag (flag_at (m_pShiftedMBLayout n') 0 2) SequenceStart = true.
Proof.
  eexists. split; [vm_compute; reflexivity|]. vm_compute. repeat split; reflexivity.
Qed.

(** The backward step of frame 0 of the sample node, whose delayed frame
    lies before the minibatch, leaves the input's gradient as it is. *)
Lemma ComputeInputPartialSRP_drops_contribution_witness :
  final_state
    (ComputeInputPartialSRP (-1) SequenceStart (mkFrameRange 0 1) 1
       (m_gradientValues sample_node) [1] 1 (Inputs0_GradientValues sample_node))
  = Inputs0_GradientValues sample_node.
Proof.
  apply (proj1 (ComputeInputPartialSRP_drops_contribution (-1) SequenceStart
                  (mkFrameRange 0 1) 1 (m_gradientValues sample_node)
                  (m_pShiftedMBLayout sample_node) [1] 1
                  (Inputs0_GradientValues sample_node)
                  ltac:(reflexivity) ltac:(vm_compute; easy))).
  vm_compute. discriminate.
Defined.

End DelayedValueExamples.

Section LSTMExamples.
#[local] Existing Instance Z_ElemOps.
#[local] Existing Instance Z_MatrixLib.
#[local] Existing Instance Z_MatrixKernels.
#[local] Existing Instance bit_flags.

(** With as many sequences in the layout as samples, [PrepareHistory] ends
    in the placeholder fault. *)
Lemma Prepare_routines_never_finish_witness :
  exists s',
    LSTMNode.PrepareHistory 0 no_matrix no_matrix no_matrix no_matrix 1 0
      (mkMBLayout 1 [[0]]) (no_matrix, no_matrix)
    = Thrown (LogicError "PrepareHistory: finish this") s'.
Proof.
  apply (proj2 (proj2 (proj2 (proj2 Prepare_routines_never_finish)))
           0 no_matrix no_matrix no_matrix no_matrix 1 0 (mkMBLayout 1 [[0]])
           (no_matrix, no_matrix));
    [reflexivity | reflexivity | vm_compute; eexists; reflexivity].
Defined.

(** With two sequences in the layout and one sample, [PrepareHistory]
    throws, and the fault is not the placeholder. *)
Lemma PrepareHistory_stream_count_fault :
  exists s',
    LSTMNode.PrepareHistory 0 no_matrix no_matrix no_matrix no_matrix 1 0
      (mkMBLayout 2 [[0; 0]]) (no_matrix, no_matrix)
    = Thrown (LogicError "Number of rows should be the same as the number of data streams")
             s'
    /\ LogicError "Number of rows should be the same as the number of data streams"
       <> LogicError "PrepareHistory: finish this".
Proof.
  eexists. split; [vm_compute; reflexivity | discriminate].
Qed.

(** The reference scenario of [UnitTest], run on a node without any
    content: the forward evaluation throws at its first frame. *)
Lemma UnitTest_reference_run :
  exists n',
    LSTMNode.UnitTest Check_passes blank_node
    = Thrown (LogicError "PrepareHistory: finish this") n'.
Proof.
  eexists. vm_compute. reflexivity.
Qed.

End LSTMExamples.


(** * Delayed-value nodes: what a pass over the minibatch changes *)

Section DelayedValuePasses.
Context {E : Type} `{ElemOps E} `{MatrixLib E} `{PackingFlags}.
Import DelayedValueNodeBase.
Local Abbreviation Node := (Node (E:=E)).

(** What every run of the body establishes holds after a loop that ran it
    at least once. *)
Lemma forM__last {St A} (Inv Q : St -> Prop) (l : list A) (body : A -> M St unit) :
  l <> [] ->
  (forall x s s', x ∈ l -> Inv s -> body x s = Done tt s' -> Inv s' /\ Q s') ->
  forall s s', Inv s -> forM_ l body s = Done tt s' -> Q s'.
Proof.
  induction l as [|x l IH]; intros Hne Hbody s s' Hinv Hrun; [congruence|].
  cbn [forM_] in Hrun. apply bind_Done in Hrun as ([] & s1 & Hx & Hrest).
  destruct (Hbody x s s1 ltac:(left) Hinv Hx) as [Hinv1 HQ1].
  destruct l as [|y l].
  - cbn in Hrest. inversion Hrest; subst. exact HQ1.
  - apply (IH ltac:(discriminate)
              ltac:(intros z u u' Hz; apply Hbody; right; exact Hz) s1 s' Hinv1 Hrest).
Qed.

Lemma set_functionValues_own (n : Node) : set_functionValues (m_functionValues n) n = n.
Proof. destruct n. reflexivity. Qed.

Lemma set_Inputs0_GradientValues_own (n : Node) :
  set_Inputs0_GradientValues (Inputs0_GradientValues n) n = n.
Proof. destruct n. reflexivity. Qed.

(** The frames of a forward pass write the output buffer only. *)
Lemma evaluate_frames_write_output (direction SequenceStart_or_End : Z)
    (frames : list FrameRange) (n n1 : Node) :
  forM_ frames (evaluate_frame direction SequenceStart_or_End) n = Done tt n1 ->
  n1 = set_functionValues (m_functionValues n1) n.
Proof.
  apply (forM__inv (fun s => s = set_functionValues (m_functionValues s) n)).
  - intros x s s' _ Hs Hx.
    apply evaluate_frame_Done in Hx as (flags & mb & fv' & _ & _ & ->).
    rewrite Hs. reflexivity.
  - symmetry. apply set_functionValues_own.
Qed.

Lemma forM__fmap {St A B} (f : A -> B) (l : list A) (body : B -> M St unit) (s : St) :
  forM_ (f <$> l) body s = forM_ l (fun x => body (f x)) s.
Proof.
  revert s. induction l as [|x l IH]; intros s; [reflexivity|].
  cbn [fmap list_fmap forM_]. unfold bind. destruct (body (f x) s); [apply IH | reflexivity].
Qed.

(** Both forward passes, taken apart. *)
Lemma forward_pass_Done (direction SequenceStart_or_End : Z) (frames : Z -> list Z)
    (n n' : Node) :
  bind get (fun n0 : Node =>
    bind (nbrSamples_of (GetNumCols (Inputs0_FunctionValues n0)) n0) (fun nbrSamples =>
      bind (forM_ (frames nbrSamples) (fun timeIdxInSeq =>
              evaluate_frame direction SequenceStart_or_End
                (mkFrameRange (to_size_t timeIdxInSeq) (NumParallel n0))))
           (fun _ => keep_activation))) n = Done tt n' ->
  NumParallel n <> 0
  /\ exists n1,
       forM_ ((fun timeIdxInSeq => mkFrameRange (to_size_t timeIdxInSeq) (NumParallel n))
                <$> frames (to_int (GetNumCols (Inputs0_FunctionValues n) / NumParallel n)))
             (evaluate_frame direction SequenceStart_or_End) n = Done tt n1
       /\ n' = set_delayedActivation (Inputs0_FunctionValues n1) n1.
Proof.
  intros Hrun. unfold bind at 1 in Hrun. unfold get at 1 in Hrun.
  apply bind_Done in Hrun as (nbr & s1 & Hnbr & Hrun).
  apply nbrSamples_of_Done in Hnbr as (-> & HS & ->).
  apply bind_Done in Hrun as ([] & n1 & Hloop & Hkeep).
  unfold keep_activation, modify in Hkeep. inversion Hkeep; subst n'.
  split; [exact HS|]. exists n1. split; [|reflexivity].
  rewrite forM__fmap. exact Hloop.
Qed.

(** X1: a full-minibatch forward evaluation that finishes changes the
    output buffer and the carry buffer and nothing else: the carry becomes
    the values of the input, whatever [SetHistory] had put there, and the
    input, the gradients, the two layouts, the step, the initial activation
    and the history flag are as before. *)
Theorem EvaluateThisNode_changes_output_and_carry (n n' : Node) :
  PastValueNode.EvaluateThisNode n = Done tt n'
  \/ FutureValueNode.EvaluateThisNode n = Done tt n' ->
  n' = set_delayedActivation (Inputs0_FunctionValues n)
         (set_functionValues (m_functionValues n') n).
Proof.
  intros [Hrun|Hrun];
    apply forward_pass_Done in Hrun as (_ & n1 & Hloop & ->);
    apply evaluate_frames_write_output in Hloop;
    cbn [m_functionValues set_delayedActivation];
    replace (Inputs0_FunctionValues n1) with (Inputs0_FunctionValues n)
      by (rewrite Hloop; reflexivity);
    rewrite Hloop at 1; reflexivity.
Qed.

(** A frame that finishes leaves the output buffer with the shape of the
    input. *)
Lemma evaluate_frame_shape (direction SequenceStart_or_End : Z) (frameRange : FrameRange)
    (n n' : Node) :
  0 <= FrameRange_NumCols frameRange ->
  (FrameRange_t frameRange + 1) * FrameRange_NumCols frameRange <= 2 ^ 64 ->
  evaluate_frame direction SequenceStart_or_End frameRange n = Done tt n' ->
  same_shape (m_functionValues n') (Inputs0_FunctionValues n) = true.
Proof.
  intros HS Hfit Hrun.
  apply evaluate_frame_Done in Hrun as (flags & mb & fv' & Hframe & Hsrp & ->).
  cbn [m_functionValues set_functionValues].
  destruct (EvaluateThisNodeSRP_frame direction SequenceStart_or_End frameRange _ _ _ _
              (m_pShiftedMBLayout n) flags mb _ fv' Hframe HS Hfit Hsrp)
    as (Hrows & Hcols & _ & _).
  pose proof (shaped_like_shape (m_functionValues n) (Inputs0_FunctionValues n)) as Hshape.
  apply same_shape_cols in Hshape as [Hr Hc].
  apply same_shape_sizes; congruence.
Qed.

Lemma no_frames (frames : Z -> list Z) (nbr : Z) :
  (forall x, x ∈ frames nbr <-> 0 <= x < nbr) -> nbr <= 0 -> frames nbr = [].
Proof.
  intros Hin Hnbr. destruct (frames nbr) as [|x l]; [reflexivity|].
  assert (Hx : x ∈ x :: l) by left. apply Hin in Hx. lia.
Qed.

Lemma forward_pass_shape (direction SequenceStart_or_End : Z) (frames : Z -> list Z)
    (n n' : Node) :
  (forall nbr x, x ∈ frames nbr <-> 0 <= x < nbr) ->
  bind get (fun n0 : Node =>
    bind (nbrSamples_of (GetNumCols (Inputs0_FunctionValues n0)) n0) (fun nbrSamples =>
      bind (forM_ (frames nbrSamples) (fun timeIdxInSeq =>
              evaluate_frame direction SequenceStart_or_End
                (mkFrameRange (to_size_t timeIdxInSeq) (NumParallel n0))))
           (fun _ => keep_activation))) n = Done tt n' ->
  GetNumCols (Inputs0_FunctionValues n) < 2 ^ 31 ->
  (NumParallel n <= GetNumCols (Inputs0_FunctionValues n) ->
   same_shape (m_functionValues n') (Inputs0_FunctionValues n) = true)
  /\ (GetNumCols (Inputs0_FunctionValues n) < NumParallel n ->
      m_functionValues n' = m_functionValues n).
Proof.
  intros Hin Hrun Hsmall.
  apply forward_pass_Done in Hrun as (HS & n1 & Hloop & ->).
  cbn [m_functionValues set_delayedActivation].
  set (S := NumParallel n) in *. set (cols := GetNumCols (Inputs0_FunctionValues n)) in *.
  assert (HS0 : 0 < S) by (unfold S, NumParallel, GetNumParallelSequences in *; lia).
  assert (Hcols : 0 <= cols) by (unfold cols, GetNumCols; lia).
  assert (Hq : 0 <= cols / S /\ S * (cols / S) <= cols).
  { split; [apply Z.div_pos; lia | apply Z.mul_div_le; lia]. }
  assert (Hnbr : to_int (cols / S) = cols / S) by (apply to_int_small; nia).
  rewrite Hnbr in Hloop.
  split; intros Hsize.
  - assert (Hone : 1 <= cols / S).
    { apply Z.div_le_lower_bound; lia. }
    revert Hloop.
    apply (forM__last (fun s => Inputs0_FunctionValues s = Inputs0_FunctionValues n)
             (fun s => same_shape (m_functionValues s) (Inputs0_FunctionValues n) = true));
      [| |reflexivity].
    + intros Hnil. apply fmap_nil_inv in Hnil.
      assert (Hzero : 0 ∈ frames (cols / S)) by (apply Hin; lia).
      rewrite Hnil in Hzero. inversion Hzero.
    + intros fr s s' Hfr Hs Hx.
      apply list_elem_of_fmap in Hfr as (x & -> & Hxin). apply Hin in Hxin.
      assert (Hx' := Hx).
      apply evaluate_frame_Done in Hx' as (flags & mb & fv' & _ & _ & ->).
      split; [exact Hs|]. rewrite <- Hs.
      apply (evaluate_frame_shape _ _ _ _ _) in Hx; [exact Hx| |];
        cbn [FrameRange_NumCols FrameRange_t]; fold S; [lia|].
      rewrite to_size_t_small by nia. nia.
  - assert (Hzero : cols / S = 0) by (apply Z.div_small; lia).
    rewrite Hzero, (no_frames frames 0 (Hin 0) ltac:(lia)) in Hloop.
    cbn in Hloop. inversion Hloop. reflexivity.
Qed.

(** X2: after a full-minibatch forward evaluation that finishes, the
    output buffer has the shape of the input whenever the input holds at
    least one frame; an input with fewer columns than there are parallel
    sequences holds no frame, and then the output buffer is left as it
    was, not resized and not written. *)
Theorem EvaluateThisNode_output_shape (n n' : Node) :
  PastValueNode.EvaluateThisNode n = Done tt n'
  \/ FutureValueNode.EvaluateThisNode n = Done tt n' ->
  GetNumCols (Inputs0_FunctionValues n) < 2 ^ 31 ->
  (NumParallel n <= GetNumCols (Inputs0_FunctionValues n) ->
   same_shape (m_functionValues n') (Inputs0_FunctionValues n) = true)
  /\ (GetNumCols (Inputs0_FunctionValues n) < NumParallel n ->
      m_functionValues n' = m_functionValues n).
Proof.
  intros [Hrun|Hrun] Hsmall.
  - exact (forward_pass_shape PastValueNode.direction SequenceStart upto n n'
             elem_of_upto Hrun Hsmall).
  - exact (forward_pass_shape FutureValueNode.direction SequenceEnd downfrom n n'
             elem_of_downfrom Hrun Hsmall).
Qed.
End DelayedValuePasses.


(** * Delayed-value nodes: what a backward pass changes *)

Section DelayedValueBackwardPasses.
Context {E : Type} `{ElemOps E} `{MatrixLib E} `{PackingFlags}.
Import DelayedValueNodeBase.
Local Abbreviation Node := (Node (E:=E)).

Lemma write_sum_shape (c w : Z) (to frm s : Matrix E) :
  in_range s c w = true ->
  to = mkMatrix (NumRows s) (slice_columns s c w) ->
  same_shape to frm = true ->
  shape_of (write_columns c (add_columns (Columns to) (Columns frm)) s) = shape_of s.
Proof.
  intros Hin -> Hsame.
  pose proof (in_range_bounds _ _ _ Hin) as (Hc & Hw & Hfit).
  apply same_shape_cols in Hsame as [_ Hlen]. cbn [Columns] in Hlen.
  pose proof (length_slice_columns _ _ _ Hin) as Hslice.
  destruct (write_columns_shape s c (add_columns (slice_columns s c w) (Columns frm)))
    as [Hr Hl].
  - rewrite length_add_columns by exact Hlen. rewrite Hslice.
    unfold GetNumCols in Hfit. lia.
  - unfold shape_of. cbn [Columns]. rewrite Hr, Hl. reflexivity.
Qed.

Lemma ComputeInputPartialSRP_stream_shape (SequenceStart_or_End : Z)
    (timeIdxInSeq mNbr delayed : Z) (gradientValues : Matrix E)
    (colBoundaryFlags : list Z) (x : Z) (s : Matrix E) :
  shape_of (final_state
              (ComputeInputPartialSRP_stream SequenceStart_or_End timeIdxInSeq mNbr delayed
                 gradientValues colBoundaryFlags x s))
  = shape_of s.
Proof.
  unfold ComputeInputPartialSRP_stream.
  destruct (colBoundaryFlags !! Z.to_nat x) as [flags|]; [|reflexivity].
  cbn [lift_option]. unfold bind at 1. cbn [ret].
  destruct (negb (has_flag flags SequenceStart_or_End) && negb (has_flag flags NoFeature));
    [|reflexivity].
  rewrite final_state_bind.
  destruct (ColumnSliceHere (to_size_t (delayed * mNbr + x)) 1 s) as [to s1|e s1] eqn:Hto.
  - apply ColumnSliceHere_Done in Hto as (-> & Hin & Hv).
    rewrite final_state_bind.
    destruct (ColumnSliceOf gradientValues (to_size_t (timeIdxInSeq * mNbr + x)) 1 s)
      as [frm s1|e s1] eqn:Hfrm.
    + apply ColumnSliceOf_Done in Hfrm as (-> & _ & _).
      destruct (PlusAssign_slice_final (to_size_t (delayed * mNbr + x)) to frm s)
        as [->|[Hsame ->]]; [reflexivity|].
      apply (write_sum_shape _ 1 to frm s Hin Hv Hsame).
    + pose proof (ColumnSliceOf_final gradientValues
                    (to_size_t (timeIdxInSeq * mNbr + x)) 1 s) as Hf.
      rewrite Hfrm in Hf. cbn in Hf. subst s1. reflexivity.
  - pose proof (ColumnSliceHere_final (to_size_t (delayed * mNbr + x)) 1 s) as Hf.
    rewrite Hto in Hf. cbn in Hf. subst s1. reflexivity.
Qed.

(** The backward step of a frame keeps the shape of the input's gradient,
    whether it finishes or throws. *)
Lemma ComputeInputPartialSRP_shape (direction SequenceStart_or_End : Z)
    (frameRange : FrameRange) (timeStep : Z) (gradientValues : Matrix E)
    (colBoundaryFlags : list Z) (minibatchPackingFlags : Z) (s : Matrix E) :
  shape_of (final_state
              (ComputeInputPartialSRP direction SequenceStart_or_End frameRange timeStep
                 gradientValues colBoundaryFlags minibatchPackingFlags s))
  = shape_of s.
Proof.
  unfold ComputeInputPartialSRP.
  set (t := FrameRange_t frameRange). set (mNbr := FrameRange_NumCols frameRange).
  set (delayed := to_size_t (t + to_int (direction * timeStep))).
  destruct ((0 <=? delayed) && (delayed <? GetNumCols gradientValues)); [|reflexivity].
  destruct (has_flag minibatchPackingFlags (Z.lor SequenceStart_or_End NoFeature)).
  - apply (forM__keeps shape_of). intros x s0 _.
    apply ComputeInputPartialSRP_stream_shape.
  - rewrite final_state_bind.
    destruct (ColumnSliceOf gradientValues (to_size_t (t * mNbr)) mNbr s)
      as [frm s1|e s1] eqn:Hfrm.
    + apply ColumnSliceOf_Done in Hfrm as (-> & _ & _).
      rewrite final_state_bind.
      destruct (ColumnSliceHere (to_size_t (delayed * mNbr)) mNbr s) as [to s1|e s1] eqn:Hto.
      * apply ColumnSliceHere_Done in Hto as (-> & Hin & Hv).
        destruct (PlusAssign_slice_final (to_size_t (delayed * mNbr)) to frm s)
          as [->|[Hsame ->]]; [reflexivity|].
        apply (write_sum_shape _ mNbr to frm s Hin Hv Hsame).
      * pose proof (ColumnSliceHere_final (to_size_t (delayed * mNbr)) mNbr s) as Hf.
        rewrite Hto in Hf. cbn in Hf. subst s1. reflexivity.
    + pose proof (ColumnSliceOf_final gradientValues (to_size_t (t * mNbr)) mNbr s) as Hf.
      rewrite Hfrm in Hf. cbn in Hf. subst s1. reflexivity.
Qed.

Lemma backward_frame_rest (direction SequenceStart_or_End : Z) (frameRange : FrameRange)
    (n : Node) :
  rest_of (final_state (backward_frame direction SequenceStart_or_End frameRange n))
  = rest_of n.
Proof.
  unfold backward_frame. rewrite final_state_bind. unfold get at 1.
  rewrite final_state_bind. unfold GetFrameOf.
  destruct (GetFrame (m_pShiftedMBLayout n) (FrameRange_t frameRange)) as [flags|];
    [|reflexivity].
  cbn [lift_option ret]. unfold zoom.
  pose proof (ComputeInputPartialSRP_shape direction SequenceStart_or_End frameRange
                (m_timeStep n) (m_gradientValues n) (fst flags) (snd flags)
                (Inputs0_GradientValues n)) as Hshape.
  destruct (ComputeInputPartialSRP direction SequenceStart_or_End frameRange
              (m_timeStep n) (m_gradientValues n) (fst flags) (snd flags)
              (Inputs0_GradientValues n)) as [[] g|e g];
    cbn [final_state] in *; unfold rest_of;
    cbn [Inputs0_GradientValues set_Inputs0_GradientValues];
    rewrite Hshape; reflexivity.
Qed.

Lemma rest_of_eq (n n' : Node) :
  rest_of n' = rest_of n ->
  n' = set_Inputs0_GradientValues (Inputs0_GradientValues n') n
  /\ NumRows (Inputs0_GradientValues n') = NumRows (Inputs0_GradientValues n)
  /\ length (Columns (Inputs0_GradientValues n'))
     = length (Columns (Inputs0_GradientValues n)).
Proof.
  unfold rest_of, shape_of. intros Heq. destruct n, n'; cbn in *.
  inversion Heq; subst. auto.
Qed.

Lemma backward_pass_rest (direction SequenceStart_or_End : Z) (frames : Z -> list Z)
    (inputIndex : Z) (n : Node) :
  rest_of (final_state
             ((if 0 <? inputIndex then throw one_input_fault
               else
                 bind get (fun n0 : Node =>
                   bind (nbrSamples_of (GetNumCols (m_gradientValues n0)) n0)
                        (fun nbrSamples =>
                           forM_ (frames nbrSamples) (fun timeIdxInSeq =>
                             backward_frame direction SequenceStart_or_End
                               (mkFrameRange (to_size_t timeIdxInSeq) (NumParallel n0))))))
                n))
  = rest_of n.
Proof.
  destruct (0 <? inputIndex); [reflexivity|].
  rewrite final_state_bind. unfold get at 1. rewrite final_state_bind.
  unfold nbrSamples_of. destruct (NumParallel n =? 0); [reflexivity|]. cbn [ret].
  apply (forM__keeps rest_of). intros x s _. apply backward_frame_rest.
Qed.

(** X3: a backward pass, over the whole minibatch or over one frame,
    writes the gradient of the input and nothing else, and keeps the
    number of rows and of columns of that gradient; this holds for the
    state it leaves when it finishes and for the state it leaves when it
    throws.  With an input index above 0 it throws [InvalidArgument]
    and the node is as before. *)
Theorem ComputeInputPartial_writes_input_gradient_only (inputIndex : Z)
    (frameRange : FrameRange) (n : Node) :
  (forall n',
      n' = final_state (PastValueNode.ComputeInputPartial inputIndex n)
      \/ n' = final_state (FutureValueNode.ComputeInputPartial inputIndex n)
      \/ n' = final_state (ComputeInputPartial_frame PastValueNode.direction SequenceStart
                             inputIndex frameRange n)
      \/ n' = final_state (ComputeInputPartial_frame FutureValueNode.direction SequenceEnd
                             inputIndex frameRange n) ->
      n' = set_Inputs0_GradientValues (Inputs0_GradientValues n') n
      /\ NumRows (Inputs0_GradientValues n') = NumRows (Inputs0_GradientValues n)
      /\ length (Columns (Inputs0_GradientValues n'))
         = length (Columns (Inputs0_GradientValues n)))
  /\ ((0 <? inputIndex) = true ->
      PastValueNode.ComputeInputPartial inputIndex n = Thrown one_input_fault n
      /\ FutureValueNode.ComputeInputPartial inputIndex n = Thrown one_input_fault n
      /\ ComputeInputPartial_frame PastValueNode.direction SequenceStart
           inputIndex frameRange n = Thrown one_input_fault n
      /\ ComputeInputPartial_frame FutureValueNode.direction SequenceEnd
           inputIndex frameRange n = Thrown one_input_fault n).
Proof.
  split.
  - intros n' Hn'. apply rest_of_eq.
    destruct Hn' as [->|[->|[->| ->]]].
    + apply (backward_pass_rest PastValueNode.direction SequenceStart downfrom).
    + apply (backward_pass_rest FutureValueNode.direction SequenceEnd upto).
    + unfold ComputeInputPartial_frame.
      destruct (0 <? inputIndex); [reflexivity | apply backward_frame_rest].
    + unfold ComputeInputPartial_frame.
      destruct (0 <? inputIndex); [reflexivity | apply backward_frame_rest].
  - intros Hidx.
    unfold PastValueNode.ComputeInputPartial, FutureValueNode.ComputeInputPartial,
      ComputeInputPartial_frame.
    rewrite Hidx. repeat split.
Qed.
End DelayedValueBackwardPasses.


(** * Delayed-value nodes: history, copies, validation and construction *)

Section DelayedValueHistory.
Context {E : Type} `{ElemOps E} `{MatrixLib E} `{PackingFlags}.
Import DelayedValueNodeBase.
Local Abbreviation Node := (Node (E:=E)).

Lemma evaluate_frame_keeps (direction SequenceStart_or_End : Z) (frameRange : FrameRange)
    (n n' : Node) :
  evaluate_frame direction SequenceStart_or_End frameRange n = Done tt n' ->
  m_delayedActivation n' = m_delayedActivation n
  /\ m_historyAlreadySet n' = m_historyAlreadySet n
  /\ Inputs0_FunctionValues n' = Inputs0_FunctionValues n
  /\ m_timeStep n' = m_timeStep n
  /\ m_initialActivationValue n' = m_initialActivationValue n.
Proof.
  intros Hrun. apply evaluate_frame_Done in Hrun as (flags & mb & fv' & _ & _ & ->).
  repeat split.
Qed.

(** X4: the history that [SetHistory] stores is what a frame-wise
    evaluation of the past-value node reads and keeps, at every frame:
    after [SetHistory(hist)] the evaluation of a frame is the forward step
    with [hist] as carry, and when it finishes the carry still is [hist].
    Without [SetHistory], the evaluation of frame 0 first replaces the
    carry by the values of the input. *)
Theorem PastValue_frame_evaluation_and_history (hist : Matrix E) (frameRange : FrameRange)
    (n n' : Node) :
  bind (SetHistory hist) (fun _ => PastValueNode.EvaluateThisNode_frame frameRange) n
  = evaluate_frame PastValueNode.direction SequenceStart frameRange
      (set_historyAlreadySet true (set_delayedActivation hist n))
  /\ (bind (SetHistory hist) (fun _ => PastValueNode.EvaluateThisNode_frame frameRange) n
      = Done tt n' ->
      m_delayedActivation n' = hist /\ m_historyAlreadySet n' = true)
  /\ (PastValueNode.EvaluateThisNode_frame frameRange n = Done tt n' ->
      m_historyAlreadySet n = false -> FrameRange_t frameRange = 0 ->
      m_delayedActivation n' = Inputs0_FunctionValues n).
Proof.
  assert (Hset : bind (SetHistory hist)
                   (fun _ => PastValueNode.EvaluateThisNode_frame frameRange) n
                 = evaluate_frame PastValueNode.direction SequenceStart frameRange
                     (set_historyAlreadySet true (set_delayedActivation hist n))).
  { unfold SetHistory, PastValueNode.EvaluateThisNode_frame, bind, modify, get.
    cbn [m_historyAlreadySet set_historyAlreadySet negb]. rewrite andb_false_r.
    reflexivity. }
  split; [exact Hset|]. split.
  - rewrite Hset. intros Hrun.
    apply evaluate_frame_keeps in Hrun as (Hcarry & Hflag & _).
    rewrite Hcarry, Hflag. split; reflexivity.
  - intros Hrun Hflag Ht.
    unfold PastValueNode.EvaluateThisNode_frame in Hrun.
    unfold bind at 1 in Hrun. unfold get at 1 in Hrun.
    rewrite Hflag, Ht in Hrun. cbn [Z.eqb negb andb] in Hrun.
    unfold bind at 1, keep_activation, modify in Hrun.
    apply evaluate_frame_keeps in Hrun as (Hcarry & _). rewrite Hcarry. reflexivity.
Qed.

(** X5: the future-value node does not consult the history flag: after
    [SetHistory(hist)], a frame-wise evaluation that finishes leaves [hist]
    as carry at every frame but the last one of the minibatch, where the
    carry is replaced by the values of the input before the frame is
    evaluated. *)
Theorem FutureValue_frame_evaluation_and_history (hist : Matrix E) (frameRange : FrameRange)
    (n n' : Node) :
  bind (SetHistory hist) (fun _ => FutureValueNode.EvaluateThisNode_frame frameRange) n
  = Done tt n' ->
  m_delayedActivation n'
  = if FrameRange_t frameRange
       =? to_size_t (GetNumCols (Inputs0_FunctionValues n) / NumParallel n - 1)
    then Inputs0_FunctionValues n else hist.
Proof.
  unfold SetHistory, FutureValueNode.EvaluateThisNode_frame.
  unfold bind at 1 2. unfold modify at 1 2. unfold bind at 1. unfold get at 1.
  unfold NumParallel.
  cbn [m_pMBLayout set_historyAlreadySet set_delayedActivation Inputs0_FunctionValues].
  destruct (GetNumParallelSequences (m_pMBLayout n) =? 0);
    [unfold bind, throw; discriminate|].
  destruct (FrameRange_t frameRange =? _); unfold bind at 1;
    unfold keep_activation, modify, ret; intros Hrun;
    apply evaluate_frame_keeps in Hrun as (Hcarry & _); rewrite Hcarry; reflexivity.
Qed.

(** X6: [GetHistory] hands out the values of the input, not the carry
    buffer: what [SetHistory] stored does not come back, while after a
    full-minibatch forward evaluation, which ends by taking the input as
    carry, [GetHistory] hands out exactly the carry. *)
Theorem GetHistory_returns_input_values (hist hist0 : Matrix E) (n n' : Node) :
  (exists n1,
      SetHistory hist n = Done tt n1
      /\ m_delayedActivation n1 = hist
      /\ GetHistory n1 hist0 = Done true (Inputs0_FunctionValues n))
  /\ (PastValueNode.EvaluateThisNode n = Done tt n'
      \/ FutureValueNode.EvaluateThisNode n = Done tt n' ->
      GetHistory n' hist0 = Done true (m_delayedActivation n')).
Proof.
  split.
  - eexists. split; [reflexivity|]. split; reflexivity.
  - intros [Hrun|Hrun];
      apply forward_pass_Done in Hrun as (_ & n1 & Hloop & ->);
      reflexivity.
Qed.

(** X7: a copy made with [copyNodeValue] receives the step, the initial
    activation and the carry of the node, but never its history flag,
    which is cleared.  So the frame-wise evaluation of frame 0 on the copy
    of a past-value node discards the carry just copied, also when the
    node had its history set; at any other frame the copied carry stays. *)
Theorem CopyTo_clears_history_flag (Base_CopyTo : Node -> M Node unit)
    (frameRange : FrameRange) (n target n' : Node) :
  bind (CopyTo Base_CopyTo true n)
       (fun _ => PastValueNode.EvaluateThisNode_frame frameRange) target = Done tt n' ->
  m_timeStep n' = m_timeStep n
  /\ m_initialActivationValue n' = m_initialActivationValue n
  /\ m_historyAlreadySet n' = false
  /\ m_delayedActivation n'
     = if FrameRange_t frameRange =? 0 then Inputs0_FunctionValues n'
       else m_delayedActivation n.
Proof.
  intros Hrun. apply bind_Done in Hrun as ([] & c & Hcopy & Hrun).
  unfold CopyTo in Hcopy. apply bind_Done in Hcopy as ([] & b & _ & Hown).
  unfold bind, modify in Hown. inversion Hown; subst c. clear Hown.
  unfold PastValueNode.EvaluateThisNode_frame in Hrun.
  unfold bind at 1 in Hrun. unfold get at 1 in Hrun.
  cbn [m_historyAlreadySet set_historyAlreadySet negb] in Hrun.
  rewrite andb_true_r in Hrun.
  destruct (FrameRange_t frameRange =? 0); unfold bind at 1 in Hrun;
    unfold keep_activation, modify, ret in Hrun;
    apply evaluate_frame_keeps in Hrun as (Hcarry & Hflag & Hin & Hstep & Hinit);
    rewrite Hcarry, Hflag, Hstep, Hinit; try rewrite Hin; repeat split.
Qed.

(** X8: the one check that [Validate] makes itself is the number of
    children: with another number than one it throws [LogicError] and the
    node is as before.  With one child it finishes and changes the output
    buffer at most, which takes the shape of the input when the input is
    attached and has at least one row and one column, and stays as it is
    for an input without elements. *)
Theorem Validate_gives_output_the_shape_of_input (m_children_size : Z)
    (input_attached : bool) (n : Node) :
  (m_children_size <> 1 ->
   Validate m_children_size input_attached n
   = Thrown (LogicError "PastValue operation should have one input.") n)
  /\ (m_children_size = 1 ->
      exists n',
        Validate m_children_size input_attached n = Done tt n'
        /\ n' = set_functionValues (m_functionValues n') n
        /\ (input_attached = true ->
            HasNoElements (Inputs0_FunctionValues n) = false ->
            same_shape (m_functionValues n') (Inputs0_FunctionValues n) = true)
        /\ (input_attached = false \/ HasNoElements (Inputs0_FunctionValues n) = true ->
            n' = n)).
Proof.
  unfold Validate. split.
  - intros Hsize. apply Z.eqb_neq in Hsize. rewrite Hsize. reflexivity.
  - intros ->. cbn [Z.eqb Pos.eqb negb].
    set (input := Inputs0_FunctionValues n).
    assert (Hrows : 0 <= GetNumRows input) by (unfold GetNumRows; lia).
    assert (Hcols : 0 <= GetNumCols input) by (unfold GetNumCols; lia).
    destruct input_attached.
    + unfold bind, get. fold input.
      destruct ((0 <? GetNumRows input) && (0 <? GetNumCols input)) eqn:Hpos.
      * eexists. split; [reflexivity|]. cbn [m_functionValues set_functionValues].
        split; [reflexivity|]. split.
        -- intros _ _. apply same_shape_sizes.
           ++ apply Nat2Z.inj.
              exact (GetNumRows_Resize (GetNumRows input) (GetNumCols input)
                       (m_functionValues n) Hrows).
           ++ apply Nat2Z.inj.
              exact (GetNumCols_Resize (GetNumRows input) (GetNumCols input)
                       (m_functionValues n) Hcols).
        -- intros [Hatt|Hempty]; [discriminate|].
           unfold HasNoElements in Hempty. apply Z.eqb_eq in Hempty.
           apply andb_true_iff in Hpos as [Hr Hc].
           apply Z.ltb_lt in Hr. apply Z.ltb_lt in Hc. nia.
      * exists n. split; [reflexivity|]. split; [symmetry; apply set_functionValues_own|].
        split; [|reflexivity].
        intros _ Hfull. unfold HasNoElements in Hfull. apply Z.eqb_neq in Hfull.
        apply andb_false_iff in Hpos as [Hr|Hc];
          [apply Z.ltb_ge in Hr | apply Z.ltb_ge in Hc]; nia.
    + exists n. split; [reflexivity|]. split; [symmetry; apply set_functionValues_own|].
      split; [discriminate | reflexivity].
Qed.
End DelayedValueHistory.


Section DelayedValueConstruction.
Context {E : Type} `{ElemOps E} `{MatrixLib E} `{PackingFlags}.
Import DelayedValueNodeBase.
Local Abbreviation Node := (Node (E:=E)).

Lemma SetValue_scalar_Resize (rows cols : Z) (v : E) (m : Matrix E) :
  0 <= rows -> 0 <= cols -> SetValue_scalar v (Resize rows cols m) = filled rows cols v.
Proof.
  intros Hrows Hcols. unfold Resize, filled, SetValue_scalar.
  destruct ((GetNumRows m =? rows) && (GetNumCols m =? cols)) eqn:Hsame.
  - apply andb_true_iff in Hsame as [Hr Hc].
    apply Z.eqb_eq in Hr. apply Z.eqb_eq in Hc. unfold GetNumRows, GetNumCols in *.
    replace (NumRows m) with (Z.to_nat rows) by lia.
    replace (length (Columns m)) with (Z.to_nat cols) by lia. reflexivity.
  - cbn [NumRows Columns]. rewrite length_fmap, length_seq. reflexivity.
Qed.

Lemma shape_of_filled (rows cols : Z) (v : E) :
  0 <= rows -> 0 <= cols ->
  GetNumRows (filled rows cols v) = rows /\ GetNumCols (filled rows cols v) = cols.
Proof.
  intros Hrows Hcols. unfold GetNumRows, GetNumCols, filled. cbn [NumRows Columns].
  rewrite length_replicate. lia.
Qed.

(** X9: the constructor with sizes builds a node whose output and carry
    buffers are [row_size] by [col_size] with every entry the initial
    activation and whose gradient buffer is of the same size with every
    entry zero, with the history flag cleared; saving the node writes the
    arguments of the constructor back.  The step is the [size_t] argument
    cast to [int] and is not checked: a step that the cast makes zero or
    negative gives a node on which every [SetMBLayout] throws. *)
Theorem Construct_with_builds_node (SequenceStart_or_End : Z)
    (initialActivationValue : E) (row_size col_size timeStep : Z) (L : MBLayout)
    (n : Node) :
  0 <= row_size -> 0 <= col_size ->
  exists n',
    Construct_with initialActivationValue row_size col_size timeStep n = Done tt n'
    /\ m_functionValues n' = filled row_size col_size initialActivationValue
    /\ m_delayedActivation n' = filled row_size col_size initialActivationValue
    /\ m_gradientValues n' = filled row_size col_size elem_zero
    /\ m_historyAlreadySet n' = false
    /\ SaveToFile n'
       = [ item_int (to_int timeStep); item_size_t row_size; item_size_t col_size;
           item_elem initialActivationValue ]
    /\ (to_int timeStep <= 0 ->
        SetMBLayout SequenceStart_or_End L n'
        = Thrown (LogicError "timeStep should be 1 or larger") n').
Proof.
  intros Hrows Hcols. eexists. split; [reflexivity|].
  cbn [m_functionValues m_delayedActivation m_gradientValues m_historyAlreadySet
       m_initialActivationValue m_timeStep
       set_functionValues set_delayedActivation set_gradientValues set_historyAlreadySet
       set_initialActivationValue set_timeStep set_pShiftedMBLayout].
  rewrite !SetValue_scalar_Resize by assumption.
  split; [reflexivity|]. split; [reflexivity|]. split; [reflexivity|].
  split; [reflexivity|]. split.
  - unfold SaveToFile.
    cbn [m_functionValues m_delayedActivation m_gradientValues m_historyAlreadySet
         m_initialActivationValue m_timeStep
         set_functionValues set_delayedActivation set_gradientValues set_historyAlreadySet
         set_initialActivationValue set_timeStep set_pShiftedMBLayout].
    destruct (shape_of_filled row_size col_size initialActivationValue Hrows Hcols)
      as [Hr Hc]. rewrite Hr, Hc. reflexivity.
  - intros Hstep. unfold SetMBLayout, bind, get.
    cbn [m_timeStep set_functionValues set_delayedActivation set_gradientValues
         set_historyAlreadySet set_initialActivationValue set_timeStep
         set_pShiftedMBLayout].
    assert (Hle : (to_int timeStep <=? 0) = true) by (apply Z.leb_le; exact Hstep).
    rewrite Hle. reflexivity.
Qed.
End DelayedValueConstruction.


(** * Delayed-value nodes: what the shifted layout keeps *)

Section ShiftedLayoutKeeps.
Context {E : Type} `{PackingFlags}.
Import DelayedValueNodeBase.
Local Abbreviation Node := (Node (E:=E)).

Lemma has_flag_forced_marker (marker base : Z) :
  has_flag base marker = true -> has_flag (forced_flag marker base) marker = true.
Proof.
  unfold has_flag, forced_flag. intros Hb. apply negb_true_iff, Z.eqb_neq in Hb.
  apply negb_true_iff, Z.eqb_neq. intros Hz. apply Hb.
  rewrite Z.land_lor_distr_l, Z.land_diag in Hz.
  apply Z.lor_eq_0_iff in Hz as [_ ->]. apply Z.land_0_r.
Qed.

Lemma has_flag_forced_NoLabel (marker base : Z) :
  Z.land marker NoLabel = 0 ->
  has_flag (forced_flag marker base) NoLabel = has_flag base NoLabel.
Proof.
  unfold has_flag, forced_flag. intros Hdisjoint.
  rewrite Z.land_lor_distr_l, Hdisjoint, Z.lor_0_r, <- Z.land_assoc, Z.land_diag.
  reflexivity.
Qed.

Lemma shifted_layout_shape (SequenceStart_or_End : Z) (L : MBLayout) (timeStep : Z) :
  layout_ok L ->
  layout_shape (shifted_layout SequenceStart_or_End L timeStep) = layout_shape L.
Proof.
  intros Hok. unfold shifted_layout. destruct (1 <? timeStep); [|reflexivity].
  unfold GetNumParallelSequences, GetSize. rewrite Nat2Z.id.
  destruct (shift_frames_prefix SequenceStart_or_End L timeStep (length (FrameFlags L))
              Hok ltac:(lia)) as (_ & Hshape & _).
  exact Hshape.
Qed.

(** X10: for every step of at least one, [SetMBLayout] finishes, installs
    the layout, and builds a shifted layout with the frames and the flag
    words per frame of the layout.  With a step of one the shifted layout
    is the layout.  With a larger step every flag word is that of the
    layout or the forced word made from it: no boundary marker of the
    layout is lost, and, the marker and [NoLabel] being different bits,
    [NoLabel] is set in the shifted layout exactly where it is set in the
    layout. *)
Theorem SetMBLayout_keeps_shape_markers_and_NoLabel (SequenceStart_or_End : Z)
    (L : MBLayout) (n : Node) :
  layout_ok L ->
  1 <= m_timeStep n ->
  exists n',
    SetMBLayout SequenceStart_or_End L n = Done tt n'
    /\ m_pMBLayout n' = L
    /\ layout_shape (m_pShiftedMBLayout n') = layout_shape L
    /\ (m_timeStep n = 1 -> m_pShiftedMBLayout n' = L)
    /\ (forall j t,
          0 <= j < GetNumParallelSequences L -> 0 <= t < GetSize L ->
          let base := flag_at L j t in
          let shifted := flag_at (m_pShiftedMBLayout n') j t in
          (shifted = base \/ shifted = forced_flag SequenceStart_or_End base)
          /\ (has_flag base SequenceStart_or_End = true ->
              has_flag shifted SequenceStart_or_End = true)
          /\ (Z.land SequenceStart_or_End NoLabel = 0 ->
              has_flag shifted NoLabel = has_flag base NoLabel)).
Proof.
  intros Hok Hstep. unfold SetMBLayout, bind, get, modify.
  assert (Hle : (m_timeStep n <=? 0) = false) by (apply Z.leb_gt; lia).
  rewrite Hle. eexists. split; [reflexivity|].
  cbn [m_pShiftedMBLayout m_pMBLayout set_pShiftedMBLayout set_pMBLayout m_timeStep].
  split; [reflexivity|]. split; [apply shifted_layout_shape; exact Hok|]. split.
  - intros ->. reflexivity.
  - intros j t Hj Ht. cbn zeta.
    unfold GetNumParallelSequences, GetSize in Hj, Ht.
    destruct (decide (m_timeStep n = 1)) as [Hone|Hmore].
    + rewrite Hone. unfold shifted_layout. cbn [Z.ltb Z.compare Pos.compare].
      split; [left; reflexivity|]. split; [tauto | reflexivity].
    + pose proof (shifted_layout_cell SequenceStart_or_End L (m_timeStep n)
                    (Z.to_nat j) (Z.to_nat t) Hok ltac:(lia) ltac:(lia) ltac:(lia)) as Hcell.
      rewrite !Z2Nat.id in Hcell by lia.
      pose proof (countdown_eq SequenceStart_or_End L (m_timeStep n) j (Z.to_nat t)) as Hcd.
      rewrite Z2Nat.id in Hcd by lia. unfold Is in Hcd.
      rewrite Hcell.
      destruct (0 <? countdown SequenceStart_or_End L (m_timeStep n) j (Z.to_nat t))
        eqn:Hpos.
      * split; [right; reflexivity|].
        split; [apply has_flag_forced_marker | apply has_flag_forced_NoLabel].
      * split; [left; reflexivity|]. split; [|reflexivity].
        intros Hmark. rewrite Hmark in Hcd. apply Z.ltb_ge in Hpos. lia.
Qed.
End ShiftedLayoutKeeps.


(** * Persistence: older versions, and saving what was loaded *)

Section PersistenceVersions.
Context {E : Type} `{ElemOps E} `{MatrixLib E} `{MatrixKernels E} `{PackingFlags}.
Context (CNTK_MODEL_VERSION_2 : Z).

(** X11: with a model version below [CNTK_MODEL_VERSION_2] a delayed-value
    node reads the step and the two sizes only and keeps the initial
    activation it has; so of what [SaveToFile] writes, the initial
    activation stays in the file, unread.  With a model version other than
    2 an LSTM node reads the default state only and keeps its two
    dimensions. *)
Theorem LoadFromFile_of_an_older_version (modelVersion : Z)
    (n n0 : DelayedValueNodeBase.Node (E:=E)) (m0 : LSTMNode.Node (E:=E))
    (v : E) (rest : File E) :
  modelVersion < CNTK_MODEL_VERSION_2 ->
  modelVersion <> 2 ->
  (exists n',
      DelayedValueNodeBase.LoadFromFile CNTK_MODEL_VERSION_2
        (DelayedValueNodeBase.SaveToFile n ++ rest)%list modelVersion n0
      = Done (item_elem (DelayedValueNodeBase.m_initialActivationValue n) :: rest) n'
      /\ DelayedValueNodeBase.m_timeStep n' = DelayedValueNodeBase.m_timeStep n
      /\ GetNumRows (DelayedValueNodeBase.m_functionValues n')
         = GetNumRows (DelayedValueNodeBase.m_functionValues n)
      /\ GetNumCols (DelayedValueNodeBase.m_functionValues n')
         = GetNumCols (DelayedValueNodeBase.m_functionValues n)
      /\ DelayedValueNodeBase.m_initialActivationValue n'
         = DelayedValueNodeBase.m_initialActivationValue n0)
  /\ LSTMNode.LoadFromFile (item_elem v :: rest) modelVersion m0
     = Done rest (LSTMNode.set_m_DefaultState v m0).
Proof.
  intros Hold Hnot2. split.
  - unfold DelayedValueNodeBase.LoadFromFile, DelayedValueNodeBase.SaveToFile.
    assert (Hv : (CNTK_MODEL_VERSION_2 <=? modelVersion) = false) by (apply Z.leb_gt; lia).
    cbn [app read_int read_size_t]. unfold bind, ret, modify. cbn [fst snd].
    rewrite Hv. eexists. split; [reflexivity|].
    cbn [DelayedValueNodeBase.m_timeStep DelayedValueNodeBase.m_functionValues
         DelayedValueNodeBase.m_initialActivationValue
         DelayedValueNodeBase.set_timeStep DelayedValueNodeBase.set_functionValues
         DelayedValueNodeBase.set_delayedActivation].
    split; [reflexivity|].
    split; [apply GetNumRows_Resize; unfold GetNumRows; lia|].
    split; [apply GetNumCols_Resize; unfold GetNumCols; lia | reflexivity].
  - unfold LSTMNode.LoadFromFile.
    assert (Hv : (modelVersion =? 2) = false) by (apply Z.eqb_neq; exact Hnot2).
    rewrite Hv. reflexivity.
Qed.

(** X12: whatever [LoadFromFile] of the current version reads from a file
    of sizes, [SaveToFile] on the loaded node writes back: the items
    consumed are the items saved, for both kinds of node. *)
Theorem SaveToFile_after_LoadFromFile (modelVersion : Z)
    (f rest frest : File E) (n0 n' : DelayedValueNodeBase.Node (E:=E))
    (m0 m' : LSTMNode.Node (E:=E)) :
  CNTK_MODEL_VERSION_2 <= modelVersion ->
  sizes_ok f ->
  (DelayedValueNodeBase.LoadFromFile CNTK_MODEL_VERSION_2 f modelVersion n0 = Done rest n' ->
   (DelayedValueNodeBase.SaveToFile n' ++ rest)%list = f)
  /\ (LSTMNode.LoadFromFile f 2 m0 = Done frest m' ->
      (LSTMNode.SaveToFile m' ++ frest)%list = f).
Proof.
  intros Hv Hsizes. split.
  - unfold DelayedValueNodeBase.LoadFromFile.
    assert (Hle : (CNTK_MODEL_VERSION_2 <=? modelVersion) = true) by (apply Z.leb_le; lia).
    rewrite Hle.
    destruct f as [|[ts| |] [|[|r|] [|[|c|] [|[| |e] f]]]];
      try (unfold bind; cbn; discriminate).
    cbn [read_int read_size_t read_elem]. unfold bind, ret, modify. cbn [fst snd].
    intros Hrun. inversion Hrun; subst. clear Hrun.
    unfold sizes_ok in Hsizes.
    apply Forall_cons in Hsizes as [_ Hsizes].
    apply Forall_cons in Hsizes as [Hr Hsizes].
    apply Forall_cons in Hsizes as [Hc _].
    unfold DelayedValueNodeBase.SaveToFile.
    cbn [DelayedValueNodeBase.m_timeStep DelayedValueNodeBase.m_functionValues
         DelayedValueNodeBase.m_initialActivationValue
         DelayedValueNodeBase.set_timeStep DelayedValueNodeBase.set_functionValues
         DelayedValueNodeBase.set_delayedActivation
         DelayedValueNodeBase.set_initialActivationValue].
    rewrite GetNumRows_Resize, GetNumCols_Resize by assumption. reflexivity.
  - unfold LSTMNode.LoadFromFile. cbn [Z.eqb Pos.eqb].
    destruct f as [|[|i|] [|[|o|] [|[| |e] f]]];
      try (unfold bind; cbn; discriminate).
    cbn [read_size_t read_elem]. unfold bind, ret, modify. cbn [fst snd].
    intros Hrun. inversion Hrun; subst. reflexivity.
Qed.
End PersistenceVersions.


(** * Machine integers *)

Lemma to_int_to_size_t (z : Z) : to_int (to_size_t z) = to_int z.
Proof.
  unfold to_int, to_size_t. f_equal.
  rewrite (Z.mod_eq z (2 ^ 64)) by lia.
  replace (z - 2 ^ 64 * (z / 2 ^ 64) + 2 ^ 31)
    with (z + 2 ^ 31 + (- (2 ^ 32 * (z / 2 ^ 64))) * 2 ^ 32) by lia.
  apply Z_mod_plus_full.
Qed.


(** * LSTMNode: which evaluations can finish *)

Section LSTMNodeCompletion.
Context {E : Type} `{ElemOps E} `{MatrixLib E} `{MatrixKernels E} `{PackingFlags}.
Context (Check : FrameRange -> Z -> Z -> MBLayout -> option Fault).
Import LSTMNode.
Local Abbreviation Node := (Node (E:=E)).

Lemma strided_up_empty (S : Z) : 0 <= S -> strided_up 0 S = [].
Proof.
  intros HS. unfold strided_up. destruct (S =? 0) eqn:HS0; [reflexivity|].
  apply Z.eqb_neq in HS0. rewrite Z.div_small by lia. reflexivity.
Qed.

Lemma strided_down_negative (start S : Z) :
  0 < S -> - S <= start < 0 -> strided_down start S = [].
Proof.
  intros HS Hstart. unfold strided_down.
  assert (HS0 : (S =? 0) = false) by (apply Z.eqb_neq; lia). rewrite HS0.
  replace (start / S) with (-1); [reflexivity|].
  apply (Z.div_unique start S (-1) (start + S)); lia.
Qed.

Lemma strided_down_nonempty (start S : Z) :
  0 < S -> 0 <= start -> exists x l, strided_down start S = x :: l.
Proof.
  intros HS Hstart. unfold strided_down.
  assert (HS0 : (S =? 0) = false) by (apply Z.eqb_neq; lia). rewrite HS0.
  assert (Hq : 0 <= start / S) by (apply Z.div_pos; lia).
  unfold upto. destruct (Z.to_nat (start / S + 1)) eqn:Hk; [lia|]. cbn. eauto.
Qed.

Lemma forM__skip {St A} (l : list A) (body : A -> M St unit) (s : St) :
  (forall x, x ∈ l -> body x s = Done tt s) -> forM_ l body s = Done tt s.
Proof.
  induction l as [|x l IH]; intros Hbody; [reflexivity|].
  cbn [forM_]. rewrite (bind_Done_intro _ _ _ _ _ (Hbody x ltac:(left))).
  apply IH. intros y Hy. apply Hbody. right. exact Hy.
Qed.

(** On an observation without columns [SaveLastStateActity] finds no
    frame to save. *)
Lemma SaveLastStateActity_empty (n : Node) (obs w : Matrix E) :
  InputsFunctionValues n !! 0%nat = Some obs ->
  InputsFunctionValues n !! 1%nat = Some w ->
  GetNumCols obs = 0 ->
  NumParallel n < 2 ^ 31 ->
  SaveLastStateActity n
  = Done tt (set_mLastState (Resize (GetNumRows w) (NumParallel n) (mLastState n))
               (set_mLastOutput (Resize (GetNumRows w) (NumParallel n) (mLastOutput n)) n)).
Proof.
  intros Hobs Hw Hcols HS. unfold SaveLastStateActity.
  rewrite (bind_Done_intro _ _ _ _ _ (InputValues_Done 0 n obs ltac:(lia) Hobs)).
  rewrite (bind_Done_intro _ _ _ _ _ (InputValues_Done 1 n w ltac:(lia) Hw)).
  unfold bind at 1. unfold get at 1. unfold bind at 1. unfold modify at 1.
  unfold bind at 1. unfold modify at 1.
  apply forM__skip. intros i Hi. apply elem_of_upto in Hi.
  rewrite Hcols, to_int_to_size_t, to_int_small by lia.
  rewrite strided_down_negative by lia. reflexivity.
Qed.

Lemma resized_to_shape (rows cols : Z) (v : E) (m : Matrix E) :
  0 <= rows -> 0 <= cols ->
  GetNumRows (resized_to rows cols v m) = rows
  /\ GetNumCols (resized_to rows cols v m) = cols.
Proof.
  intros Hrows Hcols. unfold resized_to. split.
  - change (GetNumRows (SetValue_scalar v (Resize rows cols m)))
      with (GetNumRows (Resize rows cols m)).
    apply GetNumRows_Resize, Hrows.
  - rewrite GetNumCols_SetValue_scalar. apply GetNumCols_Resize, Hcols.
Qed.

(** X13: the forward evaluation of an LSTM node throws whenever the
    observation has at least one column, because the first frame already
    calls [PrepareHistory]; on an observation without columns it
    finishes: the output is resized to the rows of the input gate and no
    columns, and the gradient flag is cleared. *)
Theorem EvaluateThisNode_finishes_only_without_frames (n : Node) (obs w : Matrix E) :
  InputsFunctionValues n !! 0%nat = Some obs ->
  InputsFunctionValues n !! 1%nat = Some w ->
  NumParallel n < 2 ^ 31 ->
  (0 < GetNumCols obs -> exists e s', EvaluateThisNode Check n = Thrown e s')
  /\ (GetNumCols obs = 0 ->
      exists n',
        EvaluateThisNode Check n = Done tt n'
        /\ m_GradientComputed n' = false
        /\ GetNumRows (m_functionValues n') = GetNumRows w
        /\ GetNumCols (m_functionValues n') = 0
        /\ InputsFunctionValues n' = InputsFunctionValues n).
Proof.
  intros Hobs Hw HS. split.
  - intros Hcols. apply (EvaluateThisNode_throws Check n). exists obs. auto.
  - intros Hcols. unfold EvaluateThisNode.
    rewrite (bind_Done_intro _ _ _ _ _ (InputValues_Done 0 n obs ltac:(lia) Hobs)).
    rewrite (bind_Done_intro _ _ _ _ _ (InputValues_Done 1 n w ltac:(lia) Hw)).
    do 7 (unfold bind at 1; unfold modify at 1).
    unfold bind at 1. unfold get at 1.
    match goal with
    | |- context [NumParallel ?s] => set (n7 := s)
    end.
    assert (Hobs7 : InputsFunctionValues n7 !! 0%nat = Some obs) by exact Hobs.
    assert (Hw7 : InputsFunctionValues n7 !! 1%nat = Some w) by exact Hw.
    assert (HS7 : NumParallel n7 = NumParallel n) by reflexivity.
    assert (Hfv7 : m_functionValues n7
                   = resized_to (GetNumRows w) (GetNumCols obs) elem_NAN (m_functionValues n))
      by reflexivity.
    assert (Hin7 : InputsFunctionValues n7 = InputsFunctionValues n) by reflexivity.
    clearbody n7.
    assert (Hstep : forall (c : M Node unit) (n8 : Node),
               (forall s, exists f : Node -> Node,
                     c s = Done tt (f s)
                     /\ InputsFunctionValues (f s) = InputsFunctionValues s
                     /\ m_pMBLayout (f s) = m_pMBLayout s
                     /\ m_functionValues (f s) = m_functionValues s) ->
               InputsFunctionValues n8 = InputsFunctionValues n7 ->
               m_pMBLayout n8 = m_pMBLayout n7 ->
               m_functionValues n8 = m_functionValues n7 ->
               exists n9,
                 c n8 = Done tt n9
                 /\ InputsFunctionValues n9 = InputsFunctionValues n7
                 /\ m_pMBLayout n9 = m_pMBLayout n7
                 /\ m_functionValues n9 = m_functionValues n7).
    { intros c n8 Hc Hi HL Hf. destruct (Hc n8) as (f & Hrun & Hi' & HL' & Hf').
      exists (f n8). split; [exact Hrun|]. split; [|split]; congruence. }
    assert (Hcond : forall (b : bool) (g : Node -> Node),
               (forall s, InputsFunctionValues (g s) = InputsFunctionValues s
                          /\ m_pMBLayout (g s) = m_pMBLayout s
                          /\ m_functionValues (g s) = m_functionValues s) ->
               forall s, exists f : Node -> Node,
                   (if b then modify g else ret tt) s = Done tt (f s)
                   /\ InputsFunctionValues (f s) = InputsFunctionValues s
                   /\ m_pMBLayout (f s) = m_pMBLayout s
                   /\ m_functionValues (f s) = m_functionValues s).
    { intros b g Hg s. destruct b.
      - exists g. split; [reflexivity | apply Hg].
      - exists (fun s => s). repeat split. }
    destruct (Hstep _ n7 (Hcond (IsEmpty (m_PastState n7)
                                 || negb (GetNumCols (m_PastState n7) =? NumParallel n7))
                            (set_m_PastState
                               (resized_to (GetNumRows w) (NumParallel n7)
                                  (m_DefaultState n7) (m_PastState n7)))
                            ltac:(intros s; repeat split))
                eq_refl eq_refl eq_refl) as (n8 & Hrun8 & Hi8 & HL8 & Hf8).
    rewrite (bind_Done_intro _ _ _ _ _ Hrun8).
    destruct (Hstep _ n8 (Hcond (IsEmpty (m_PastOutput n7)
                                 || negb (GetNumCols (m_PastOutput n7) =? NumParallel n7))
                            (set_m_PastOutput
                               (Resize (GetNumRows w) (NumParallel n7) (m_PastOutput n7)))
                            ltac:(intros s; repeat split))
                Hi8 HL8 Hf8) as (n9 & Hrun9 & Hi9 & HL9 & Hf9).
    rewrite (bind_Done_intro _ _ _ _ _ Hrun9).
    rewrite Hcols, strided_up_empty
      by (unfold NumParallel, GetNumParallelSequences; lia).
    cbn [forM_]. unfold bind at 1. unfold ret at 1.
    assert (HS9 : NumParallel n9 = NumParallel n)
      by (unfold NumParallel in *; rewrite HL9; exact HS7).
    rewrite (bind_Done_intro _ _ _ _ _
               (SaveLastStateActity_empty n9 obs w
                  ltac:(rewrite Hi9; exact Hobs7) ltac:(rewrite Hi9; exact Hw7)
                  Hcols ltac:(rewrite HS9; exact HS))).
    eexists. split; [reflexivity|].
    cbn [m_GradientComputed set_m_GradientComputed m_functionValues set_mLastState
         set_mLastOutput InputsFunctionValues].
    split; [reflexivity|].
    rewrite Hf9, Hfv7, Hi9, Hin7.
    destruct (resized_to_shape (GetNumRows w) (GetNumCols obs) elem_NAN (m_functionValues n))
      as [Hr Hc]; [unfold GetNumRows; lia | lia |].
    rewrite Hr, Hc. auto.
Qed.

Lemma backward_frame_throws (nT outputDim timeIdxInSeq : Z) :
  always_throws (backward_frame Check nT outputDim timeIdxInSeq).
Proof.
  unfold backward_frame. cbv zeta.
  repeat first
    [ apply always_throws_bind_l, always_throws_zoom,
        PrepareThisErrorsBeforeBackProp_throws
    | apply always_throws_bind_r; intros ? ].
Qed.

Lemma backward_sweep_throws (nT inputDim outputDim : Z) (n : Node) :
  0 < NumParallel n <= nT -> nT < 2 ^ 31 ->
  exists e s', backward_sweep Check nT inputDim outputDim n = Thrown e s'.
Proof.
  intros HS HnT. unfold backward_sweep. unfold bind at 1. unfold get at 1.
  destruct (negb (same_shape (m_functionValues n) (m_gradientValues n)));
    [unfold throw; eauto|].
  revert n HS.
  assert (Hall : forall S, 0 < S <= nT ->
             always_throws
               (bind (InputValues 1) (fun mInputGate : Matrix E =>
                bind (InputValues 2) (fun mForgetGate : Matrix E =>
                bind (InputValues 3) (fun mOutputGate : Matrix E =>
                bind (InputValues 4) (fun mCellWgt : Matrix E =>
                bind (modify (fun n => set_grdToObs
                                (resized_to inputDim nT elem_zero (grdToObs n)) n)) (fun _ =>
                bind (modify (fun n => set_grdToInputGate
                                (resized_to (GetNumRows mInputGate) (GetNumCols mInputGate)
                                   elem_zero (grdToInputGate n)) n)) (fun _ =>
                bind (modify (fun n => set_grdToForgetGate
                                (resized_to (GetNumRows mForgetGate) (GetNumCols mForgetGate)
                                   elem_zero (grdToForgetGate n)) n)) (fun _ =>
                bind (modify (fun n => set_grdToOutputGate
                                (resized_to (GetNumRows mOutputGate) (GetNumCols mOutputGate)
                                   elem_zero (grdToOutputGate n)) n)) (fun _ =>
                bind (modify (fun n => set_grdToCellWgt
                                (resized_to (GetNumRows mCellWgt) (GetNumCols mCellWgt)
                                   elem_zero (grdToCellWgt n)) n)) (fun _ =>
                zoom (fun n => (n, mkSweepLocals
                                     (resized_to outputDim S elem_zero empty_matrix)
                                     (resized_to outputDim S elem_zero empty_matrix)
                                     (Resize outputDim S empty_matrix)))
                     (fun v _ => fst v)
                     (bind (forM_ (strided_down (to_int (to_size_t (nT - S))) S)
                              (backward_frame Check nT outputDim))
                           (fun _ =>
                      bind get (fun s =>
                      bind (on_node (modify (set_m_obs_error_from_future_minibatch
                                               (loc_grdToPrevOutput (snd s))))) (fun _ =>
                      bind (on_node (modify (set_m_state_error_from_future_minibatch
                                               (loc_grdToPrevState (snd s))))) (fun _ =>
                      on_node (modify (set_m_GradientComputed true)))))))))))))))))).
  { intros S HS.
    do 9 (apply always_throws_bind_r; intros ?).
    apply always_throws_zoom, always_throws_bind_l.
    rewrite to_int_to_size_t, to_int_small by lia.
    destruct (strided_down_nonempty (nT - S) S ltac:(lia) ltac:(lia)) as (x & l & ->).
    apply always_throws_forM_, backward_frame_throws. }
  intros n HS. exact (Hall (NumParallel n) HS n).
Qed.

(** X14: while the gradient flag is not set, no backward call of an LSTM
    node finishes on a minibatch that holds at least one frame: the sweep
    over the frames either finds the gradient of another size than the
    output, or enters its first frame and throws in
    [PrepareThisErrorsBeforeBackProp].  So the flag is never set by a
    sweep that has seen a frame. *)
Theorem ComputeInputPartial_never_finishes_on_frames (inputIndex : Z) (n : Node)
    (obs : Matrix E) :
  m_GradientComputed n = false ->
  InputsFunctionValues n !! 0%nat = Some obs ->
  0 < NumParallel n <= GetNumCols obs ->
  GetNumCols obs < 2 ^ 31 ->
  exists e s', ComputeInputPartial Check inputIndex n = Thrown e s'.
Proof.
  intros Hflag Hobs HS Hcols. unfold ComputeInputPartial.
  destruct (4 <? inputIndex); [unfold throw; eauto|].
  rewrite (bind_Done_intro _ _ _ _ _ (InputValues_Done 0 n obs ltac:(lia) Hobs)).
  unfold bind at 1.
  destruct (InputValues 1 n) as [w n1|e n1] eqn:Hw; [|eauto].
  apply InputValues_reads in Hw. subst n1.
  unfold bind at 1. unfold get at 1. rewrite Hflag. cbn [negb].
  destruct (backward_sweep_throws (GetNumCols obs) (GetNumRows obs) (GetNumRows w) n HS Hcols)
    as (e & s' & Hsweep).
  rewrite (bind_Thrown_intro _ _ _ _ _ Hsweep). eauto.
Qed.

(** X15: [GetSegInfo(t, streamid)] checks its two arguments, the stream
    first, and for a stream of the layout and a column [t] of the
    observation hands out the flag word of the stream at frame
    [t / GetNumParallelSequences()] of the layout. *)
Theorem GetSegInfo_reads_the_layout (t streamid : Z) (n : Node) (obs : Matrix E) :
  InputsFunctionValues n !! 0%nat = Some obs ->
  (NumParallel n <= streamid ->
   GetSegInfo t streamid n
   = Thrown (LogicError "GetSegInfo: stream id is larger than the number of streams") n)
  /\ (streamid < NumParallel n -> GetNumCols obs <= t ->
      GetSegInfo t streamid n
      = Thrown (LogicError
                  "GetSegInfo: time is larger than the total number of observations") n)
  /\ (0 <= streamid < NumParallel n -> 0 <= t < GetNumCols obs ->
      GetNumCols obs < 2 ^ 31 ->
      layout_ok (m_pMBLayout n) ->
      t / NumParallel n < GetSize (m_pMBLayout n) ->
      GetSegInfo t streamid n
      = Done (flag_at (m_pMBLayout n) streamid (t / NumParallel n)) n).
Proof.
  intros Hobs.
  split; [|split]; unfold GetSegInfo; unfold bind at 1; unfold get at 1.
  - intros Hstream. apply Z.leb_le in Hstream. rewrite Hstream. reflexivity.
  - intros Hstream Ht. apply Z.leb_gt in Hstream. rewrite Hstream.
    rewrite (bind_Done_intro _ _ _ _ _ (InputValues_Done 0 n obs ltac:(lia) Hobs)).
    apply Z.leb_le in Ht. rewrite Ht. reflexivity.
  - intros Hstream Ht Hcols Hok Hframe.
    assert (Hs : (NumParallel n <=? streamid) = false) by (apply Z.leb_gt; lia).
    rewrite Hs.
    rewrite (bind_Done_intro _ _ _ _ _ (InputValues_Done 0 n obs ltac:(lia) Hobs)).
    assert (Hlt : (GetNumCols obs <=? t) = false) by (apply Z.leb_gt; lia).
    rewrite Hlt.
    assert (HS0 : (NumParallel n =? 0) = false) by (apply Z.eqb_neq; lia).
    rewrite HS0.
    assert (Hq : 0 <= t / NumParallel n <= t).
    { split; [apply Z.div_pos; lia|]. apply Z.div_le_upper_bound; nia. }
    rewrite (to_int_small t), (to_size_t_small t) by lia.
    rewrite to_int_small, to_size_t_small by lia.
    unfold GetSize in Hframe.
    destruct (lookup_lt_is_Some_2 (FrameFlags (m_pMBLayout n))
                (Z.to_nat (t / NumParallel n)) ltac:(lia)) as [col Hcol].
    assert (Hlen : length col = NumParallelSequences (m_pMBLayout n)).
    { unfold layout_ok in Hok. rewrite Forall_lookup in Hok. exact (Hok _ _ Hcol). }
    unfold NumParallel, GetNumParallelSequences in Hstream.
    destruct (lookup_lt_is_Some_2 col (Z.to_nat streamid) ltac:(lia)) as [b Hb].
    unfold GetFrame.
    assert (Hpos : (0 <=? t / NumParallel n) = true) by (apply Z.leb_le; lia).
    assert (Hpos' : (0 <=? streamid) = true) by (apply Z.leb_le; lia).
    rewrite Hpos, Hcol, Hpos'. cbn [lift_option]. unfold bind, ret. cbn [fst].
    unfold flag_at, frame_column. rewrite Hcol. cbn [default from_option id].
    rewrite !Hb. reflexivity.
Qed.
End LSTMNodeCompletion.


(** * LSTMNode: history and errors across minibatches *)

Section LSTMNodeHistory.
Context {E : Type} `{ElemOps E} `{MatrixLib E} `{MatrixKernels E} `{PackingFlags}.
Import LSTMNode.
Local Abbreviation Node := (Node (E:=E)).

Lemma ColumnSliceHere_in_range (s w : Z) (m : Matrix E) :
  in_range m s w = true ->
  ColumnSliceHere s w m = Done (mkMatrix (NumRows m) (slice_columns m s w)) m.
Proof.
  intros Hin. unfold ColumnSliceHere, bind, get, ColumnSliceOf, ColumnSlice.
  rewrite Hin. reflexivity.
Qed.

Lemma ColumnSliceOf_in_range {St} (s w : Z) (m : Matrix E) (st : St) :
  in_range m s w = true ->
  ColumnSliceOf m s w st = Done (mkMatrix (NumRows m) (slice_columns m s w)) st.
Proof. intros Hin. unfold ColumnSliceOf, ColumnSlice. rewrite Hin. reflexivity. Qed.

Lemma in_range_intro (m : Matrix E) (s w : Z) :
  0 <= s -> 0 <= w -> s + w <= GetNumCols m -> in_range m s w = true.
Proof.
  intros Hs Hw Hfit. unfold in_range.
  apply andb_true_iff. split; [apply andb_true_iff; split|]; apply Z.leb_le; lia.
Qed.

(** Writing [a] and then [b] through two views of a buffer resized for
    both leaves the columns of [a] followed by those of [b]. *)
Lemma write_two_views (a b h : Matrix E) :
  NumRows a = NumRows b ->
  GetNumCols a + GetNumCols b < 2 ^ 64 ->
  bind (modify (Resize (GetNumRows a) (to_size_t (GetNumCols a + GetNumCols b))))
       (fun _ =>
     bind (ColumnSliceHere 0 (GetNumCols a)) (fun to =>
     bind (SetValue_slice 0 to a) (fun _ =>
     bind (ColumnSliceHere (GetNumCols a) (GetNumCols b)) (fun to =>
     SetValue_slice (GetNumCols a) to b)))) h
  = Done tt (packed a b).
Proof.
  intros Hrows Hsmall.
  assert (Ha : 0 <= GetNumCols a) by (unfold GetNumCols; lia).
  assert (Hb : 0 <= GetNumCols b) by (unfold GetNumCols; lia).
  rewrite to_size_t_small by lia.
  unfold bind at 1. unfold modify at 1.
  set (h1 := Resize (GetNumRows a) (GetNumCols a + GetNumCols b) h).
  assert (Hr1 : NumRows h1 = NumRows a).
  { apply Nat2Z.inj. apply GetNumRows_Resize. unfold GetNumRows. lia. }
  assert (Hc1 : length (Columns h1) = (length (Columns a) + length (Columns b))%nat).
  { apply Nat2Z.inj. rewrite Nat2Z.inj_add.
    apply (GetNumCols_Resize (GetNumRows a) (GetNumCols a + GetNumCols b) h). lia. }
  clearbody h1.
  rewrite (bind_Done_intro _ _ _ _ _
             (ColumnSliceHere_in_range 0 (GetNumCols a) h1
                ltac:(apply in_range_intro; unfold GetNumCols in *; lia))).
  assert (Hlen1 : length (slice_columns h1 0 (GetNumCols a)) = length (Columns a)).
  { rewrite length_slice_columns
      by (apply in_range_intro; unfold GetNumCols in *; lia).
    unfold GetNumCols. lia. }
  unfold SetValue_slice at 1.
  rewrite (same_shape_sizes _ a) by (cbn [NumRows Columns]; congruence).
  unfold bind at 1. unfold modify at 1.
  set (h2 := write_columns 0 (Columns a) h1).
  assert (Hcols2 : Columns h2 = (Columns a ++ drop (length (Columns a)) (Columns h1))%list)
    by reflexivity.
  assert (Hr2 : NumRows h2 = NumRows a) by exact Hr1.
  assert (Hc2 : length (Columns h2) = (length (Columns a) + length (Columns b))%nat).
  { rewrite Hcols2, length_app, length_drop. lia. }
  clearbody h2.
  rewrite (bind_Done_intro _ _ _ _ _
             (ColumnSliceHere_in_range (GetNumCols a) (GetNumCols b) h2
                ltac:(apply in_range_intro; unfold GetNumCols in *; lia))).
  assert (Hlen2 : length (slice_columns h2 (GetNumCols a) (GetNumCols b))
                  = length (Columns b)).
  { rewrite length_slice_columns
      by (apply in_range_intro; unfold GetNumCols in *; lia).
    unfold GetNumCols. lia. }
  unfold SetValue_slice.
  rewrite (same_shape_sizes _ b) by (cbn [NumRows Columns]; congruence).
  unfold modify, packed, write_columns. rewrite Hr2. do 2 f_equal.
  unfold GetNumCols. rewrite Nat2Z.id, Hcols2.
  rewrite take_app_length, drop_ge by (rewrite length_app, length_drop; lia).
  rewrite app_nil_r. reflexivity.
Qed.

Lemma half_fits (hist : Matrix E) :
  let eCols := GetNumCols hist / 2 in
  0 <= eCols /\ eCols + eCols <= GetNumCols hist
  /\ Z.to_nat eCols = (length (Columns hist) / 2)%nat.
Proof.
  cbn zeta. unfold GetNumCols.
  assert (Hq : 0 <= Z.of_nat (length (Columns hist)) / 2) by (apply Z.div_pos; lia).
  pose proof (Z.mul_div_le (Z.of_nat (length (Columns hist))) 2 ltac:(lia)).
  split; [lia|]. split; [lia|].
  change 2 with (Z.of_nat 2). rewrite <- Nat2Z.inj_div, Nat2Z.id. reflexivity.
Qed.

(** The two halves that [SetHistory] and [SetErrorsFromFutureMinibatch]
    take of [hist]. *)
Lemma halves (hist : Matrix E) (St : Type) (st : St) :
  let eCols := GetNumCols hist / 2 in
  let e := (length (Columns hist) / 2)%nat in
  ColumnSliceOf hist 0 eCols st = Done (first_columns e hist) st
  /\ ColumnSliceOf hist eCols eCols st
     = Done (mkMatrix (NumRows hist) (take e (drop e (Columns hist)))) st
  /\ packed (first_columns e hist) (mkMatrix (NumRows hist) (take e (drop e (Columns hist))))
     = first_columns (2 * e) hist.
Proof.
  cbn zeta. destruct (half_fits hist) as (Hpos & Hfit & Hnat). cbn zeta in *.
  split; [|split].
  - rewrite ColumnSliceOf_in_range by (apply in_range_intro; lia).
    unfold first_columns, slice_columns. rewrite Hnat. reflexivity.
  - rewrite ColumnSliceOf_in_range by (apply in_range_intro; lia).
    unfold slice_columns. rewrite Hnat. reflexivity.
  - unfold packed, first_columns. cbn [NumRows Columns].
    rewrite take_take_drop. do 2 f_equal. lia.
Qed.

Lemma first_columns_all (k : nat) (m : Matrix E) :
  (length (Columns m) <= k)%nat -> first_columns k m = m.
Proof.
  intros Hk. unfold first_columns. rewrite take_ge by exact Hk. destruct m. reflexivity.
Qed.

(** X16: [SetHistory] always finishes, and [GetHistory] right after it
    hands back the history: the first half of the columns of [hist]
    becomes the past output, the second half the past state, and
    [GetHistory(hist', false)] makes [hist'] the two joined again, which is
    [hist] when [hist] has an even number of columns and [hist] without its
    last column otherwise. *)
Theorem SetHistory_then_GetHistory (hist hist0 : Matrix E) (n : Node) :
  GetNumCols hist < 2 ^ 64 ->
  let e := (length (Columns hist) / 2)%nat in
  exists n1,
    SetHistory hist n = Done tt n1
    /\ m_PastOutput n1 = first_columns e hist
    /\ m_PastState n1 = mkMatrix (NumRows hist) (take e (drop e (Columns hist)))
    /\ GetHistory n1 false hist0 = Done true (first_columns (2 * e) hist)
    /\ (Nat.even (length (Columns hist)) = true ->
        GetHistory n1 false hist0 = Done true hist).
Proof.
  intros Hsmall e.
  assert (Hset : SetHistory hist n
                 = Done tt (set_m_PastState
                              (mkMatrix (NumRows hist) (take e (drop e (Columns hist))))
                              (set_m_PastOutput (first_columns e hist)
                                 (set_m_PastState
                                    (Resize (GetNumRows hist) (GetNumCols hist / 2)
                                       (m_PastState n))
                                    (set_m_PastOutput
                                       (Resize (GetNumRows hist) (GetNumCols hist / 2)
                                          (m_PastOutput n)) n))))).
  { unfold SetHistory. unfold bind at 1. unfold modify at 1.
    unfold bind at 1. unfold modify at 1.
    destruct (halves hist Node
                (set_m_PastState
                   (Resize (GetNumRows hist) (GetNumCols hist / 2) (m_PastState n))
                   (set_m_PastOutput
                      (Resize (GetNumRows hist) (GetNumCols hist / 2) (m_PastOutput n)) n)))
      as (Hhalf1 & _ & _). cbn zeta in Hhalf1. fold e in Hhalf1.
    rewrite (bind_Done_intro _ _ _ _ _ Hhalf1).
    unfold bind at 1. unfold modify at 1.
    match goal with
    | |- bind (ColumnSliceOf _ _ _) _ ?s = _ =>
        destruct (halves hist Node s) as (_ & Hhalf2 & _)
    end.
    cbn zeta in Hhalf2. fold e in Hhalf2.
    rewrite (bind_Done_intro _ _ _ _ _ Hhalf2). reflexivity. }
  eexists. split; [exact Hset|].
  cbn [m_PastOutput m_PastState set_m_PastState set_m_PastOutput].
  split; [reflexivity|]. split; [reflexivity|].
  assert (Hget : GetHistory
                   (set_m_PastState
                      (mkMatrix (NumRows hist) (take e (drop e (Columns hist))))
                      (set_m_PastOutput (first_columns e hist)
                         (set_m_PastState
                            (Resize (GetNumRows hist) (GetNumCols hist / 2) (m_PastState n))
                            (set_m_PastOutput
                               (Resize (GetNumRows hist) (GetNumCols hist / 2)
                                  (m_PastOutput n)) n))))
                   false hist0
                 = Done true (first_columns (2 * e) hist)).
  { unfold GetHistory.
    cbn [m_PastOutput m_PastState set_m_PastState set_m_PastOutput].
    destruct (halves hist Node n) as (_ & _ & Hpacked). cbn zeta in Hpacked.
    fold e in Hpacked. rewrite <- Hpacked.
    set (a := first_columns e hist).
    set (b := mkMatrix (NumRows hist) (take e (drop e (Columns hist)))).
    assert (Hfit : GetNumCols a + GetNumCols b < 2 ^ 64).
    { destruct (half_fits hist) as (_ & Hle & Hnat). cbn zeta in *.
      unfold a, b, first_columns, GetNumCols in *. cbn [Columns].
      rewrite !length_take, length_drop. lia. }
    pose proof (write_two_views a b hist0 eq_refl Hfit) as Hpack.
    unfold bind in *.
    destruct (modify (Resize (GetNumRows a) (to_size_t (GetNumCols a + GetNumCols b))) hist0)
      as [[] h1|]; [|discriminate].
    destruct (ColumnSliceHere 0 (GetNumCols a) h1) as [to h1'|]; [|discriminate].
    destruct (SetValue_slice 0 to a h1') as [[] h2|]; [|discriminate].
    destruct (ColumnSliceHere (GetNumCols a) (GetNumCols b) h2) as [to' h2'|];
      [|discriminate].
    rewrite Hpack. reflexivity. }
  split; [exact Hget|].
  intros Heven. rewrite Hget. f_equal. apply first_columns_all.
  apply Nat.even_spec in Heven as [k Hk]. unfold e. rewrite Hk.
  rewrite Nat.mul_comm, Nat.div_mul by lia. lia.
Qed.

(** X17: the errors handed over between minibatches make the same round
    trip: [SetErrorsFromFutureMinibatch] always finishes, stores the two
    halves of the columns of [hist] and sets the flag that makes the next
    backward sweep use them, and [GetErrorsToPreviousMinibatch] joins what
    is stored again: [hist] for an even number of columns, [hist] without
    its last column otherwise. *)
Theorem SetErrors_then_GetErrors (hist hist0 : Matrix E) (n : Node) :
  GetNumCols hist < 2 ^ 64 ->
  let e := (length (Columns hist) / 2)%nat in
  exists n1,
    SetErrorsFromFutureMinibatch hist n = Done tt n1
    /\ m_use_errors_from_future_minibatch n1 = true
    /\ m_obs_error_from_future_minibatch n1 = first_columns e hist
    /\ m_state_error_from_future_minibatch n1
       = mkMatrix (NumRows hist) (take e (drop e (Columns hist)))
    /\ GetErrorsToPreviousMinibatch n1 hist0 = Done tt (first_columns (2 * e) hist)
    /\ (Nat.even (length (Columns hist)) = true ->
        GetErrorsToPreviousMinibatch n1 hist0 = Done tt hist).
Proof.
  intros Hsmall e.
  set (b := mkMatrix (NumRows hist) (take e (drop e (Columns hist)))).
  assert (Hset : SetErrorsFromFutureMinibatch hist n
                 = Done tt (set_m_use_errors_from_future_minibatch true
                              (set_m_state_error_from_future_minibatch b
                                 (set_m_obs_error_from_future_minibatch
                                    (first_columns e hist) n)))).
  { unfold SetErrorsFromFutureMinibatch.
    destruct (halves hist Node n) as (Hhalf1 & _ & _). cbn zeta in Hhalf1.
    fold e in Hhalf1. rewrite (bind_Done_intro _ _ _ _ _ Hhalf1).
    unfold bind at 1. unfold modify at 1.
    match goal with
    | |- bind (ColumnSliceOf _ _ _) _ ?s = _ =>
        destruct (halves hist Node s) as (_ & Hhalf2 & _)
    end.
    cbn zeta in Hhalf2. fold e in Hhalf2.
    rewrite (bind_Done_intro _ _ _ _ _ Hhalf2). reflexivity. }
  eexists. split; [exact Hset|].
  cbn [m_use_errors_from_future_minibatch m_obs_error_from_future_minibatch
       m_state_error_from_future_minibatch set_m_use_errors_from_future_minibatch
       set_m_state_error_from_future_minibatch set_m_obs_error_from_future_minibatch].
  split; [reflexivity|]. split; [reflexivity|]. split; [reflexivity|].
  assert (Hget : GetErrorsToPreviousMinibatch
                   (set_m_use_errors_from_future_minibatch true
                      (set_m_state_error_from_future_minibatch b
                         (set_m_obs_error_from_future_minibatch (first_columns e hist) n)))
                   hist0
                 = Done tt (first_columns (2 * e) hist)).
  { unfold GetErrorsToPreviousMinibatch.
    cbn [m_obs_error_from_future_minibatch m_state_error_from_future_minibatch
         set_m_use_errors_from_future_minibatch set_m_state_error_from_future_minibatch
         set_m_obs_error_from_future_minibatch].
    destruct (halves hist Node n) as (_ & _ & Hpacked). cbn zeta in Hpacked.
    fold e in Hpacked. fold b in Hpacked. rewrite <- Hpacked.
    set (a := first_columns e hist).
    assert (Hfit : GetNumCols a + GetNumCols b < 2 ^ 64).
    { destruct (half_fits hist) as (_ & Hle & Hnat). cbn zeta in *.
      unfold a, b, first_columns, GetNumCols in *. cbn [Columns].
      rewrite !length_take, length_drop. lia. }
    exact (write_two_views a b hist0 eq_refl Hfit). }
  split; [exact Hget|].
  intros Heven. rewrite Hget. f_equal. apply first_columns_all.
  apply Nat.even_spec in Heven as [k Hk]. unfold e. rewrite Hk.
  rewrite Nat.mul_comm, Nat.div_mul by lia. lia.
Qed.
End LSTMNodeHistory.


(** * LSTMNode: validation *)

Section LSTMNodeValidation.
Context {E : Type} `{ElemOps E} `{MatrixLib E} `{MatrixKernels E} `{PackingFlags}.
Import LSTMNode.
Local Abbreviation Node := (Node (E:=E)).

Lemma five_inputs (n : Node) :
  Z.of_nat (length (InputsFunctionValues n)) = 5 ->
  exists obs mInputGate mForgetGate mOutputGate mCellWgt,
    InputsFunctionValues n = [obs; mInputGate; mForgetGate; mOutputGate; mCellWgt].
Proof.
  intros Hlen.
  destruct (InputsFunctionValues n) as [|a [|b [|c [|d [|e [|f l]]]]]];
    cbn [length] in Hlen; try lia.
  eauto 6.
Qed.

Lemma InputValues_of_five (n : Node) (obs mInputGate mForgetGate mOutputGate mCellWgt : Matrix E) :
  InputsFunctionValues n = [obs; mInputGate; mForgetGate; mOutputGate; mCellWgt] ->
  InputValues 0 n = Done obs n /\ InputValues 1 n = Done mInputGate n
  /\ InputValues 2 n = Done mForgetGate n /\ InputValues 3 n = Done mOutputGate n
  /\ InputValues 4 n = Done mCellWgt n.
Proof.
  intros Hin.
  repeat split; apply InputValues_Done; try lia; rewrite Hin; reflexivity.
Qed.

(** X18: [Validate] finishes exactly on the nodes with five inputs that
    are [validated], and then it changes the output only, which becomes a
    matrix of as many rows as the input gate and as many columns as the
    observation, every entry [NAN].  The number of columns of the fifth
    input, the memory cell weight, is not among the conditions: it is not
    checked. *)
Theorem Validate_finishes_iff_validated (input_is_sparse : bool)
    (operationNames : list string) (LearnableParameter : string) (n n' : Node) :
  Validate input_is_sparse operationNames LearnableParameter n = Done tt n'
  <-> exists obs mInputGate mForgetGate mOutputGate mCellWgt,
        InputsFunctionValues n = [obs; mInputGate; mForgetGate; mOutputGate; mCellWgt]
        /\ validated input_is_sparse operationNames LearnableParameter
             obs mInputGate mForgetGate mOutputGate mCellWgt
        /\ n' = set_m_functionValues
                  (resized_to (GetNumRows mInputGate) (GetNumCols obs) elem_NAN
                     (m_functionValues n)) n.
Proof.
  unfold Validate. unfold bind at 1. unfold get at 1. split.
  - intros Hrun.
    destruct (Z.of_nat (length (InputsFunctionValues n)) =? 5) eqn:Hlen;
      [|discriminate].
    apply Z.eqb_eq in Hlen. cbn [negb] in Hrun.
    destruct (five_inputs n Hlen) as (obs & wi & wf & wo & wc & Hin).
    destruct (InputValues_of_five n _ _ _ _ _ Hin) as (H0' & H1' & H2' & H3' & H4').
    destruct input_is_sparse; [discriminate|].
    destruct (operationNames !! 1%nat) as [name1|] eqn:Hn1; [|discriminate].
    destruct (operationNames !! 2%nat) as [name2|] eqn:Hn2; [|discriminate].
    destruct (operationNames !! 3%nat) as [name3|] eqn:Hn3; [|discriminate].
    destruct (operationNames !! 4%nat) as [name4|] eqn:Hn4; [|discriminate].
    cbn [lift_option] in Hrun. unfold bind at 1 2 3 4 in Hrun. unfold ret at 1 2 3 4 in Hrun.
    destruct (String.eqb name1 LearnableParameter) eqn:He1; [|discriminate].
    destruct (String.eqb name2 LearnableParameter) eqn:He2; [|discriminate].
    destruct (String.eqb name3 LearnableParameter) eqn:He3; [|discriminate].
    destruct (String.eqb name4 LearnableParameter) eqn:He4; [|discriminate].
    cbn [negb orb] in Hrun.
    apply String.eqb_eq in He1, He2, He3, He4. subst name1 name2 name3 name4.
    rewrite (bind_Done_intro _ _ _ _ _ H0') in Hrun.
    rewrite (bind_Done_intro _ _ _ _ _ H1') in Hrun.
    rewrite (bind_Done_intro _ _ _ _ _ H2') in Hrun.
    rewrite (bind_Done_intro _ _ _ _ _ H3') in Hrun.
    rewrite (bind_Done_intro _ _ _ _ _ H4') in Hrun.
    destruct (HasNoElements obs) eqn:Hobs; [discriminate|].
    destruct (HasNoElements wi) eqn:Hwi; [discriminate|].
    destruct (HasNoElements wf) eqn:Hwf; [discriminate|].
    destruct (HasNoElements wo) eqn:Hwo; [discriminate|].
    destruct (HasNoElements wc) eqn:Hwc; [discriminate|].
    cbn [orb] in Hrun.
    destruct (GetNumCols wi =? _) eqn:Hci; [|discriminate].
    destruct (GetNumCols wf =? _) eqn:Hcf; [|discriminate].
    destruct (GetNumCols wo =? _) eqn:Hco; [|discriminate].
    cbn [negb] in Hrun.
    destruct (GetNumRows wi =? GetNumRows wf) eqn:Hrf; [|discriminate].
    destruct (GetNumRows wi =? GetNumRows wo) eqn:Hro; [|discriminate].
    destruct (GetNumRows wi =? GetNumRows wc) eqn:Hrc; [|discriminate].
    cbn [negb orb] in Hrun. unfold modify in Hrun. inversion Hrun.
    apply Z.eqb_eq in Hci, Hcf, Hco, Hrf, Hro, Hrc.
    exists obs, wi, wf, wo, wc. split; [exact Hin|]. split; [|reflexivity].
    unfold validated. repeat split; auto.
  - intros (obs & wi & wf & wo & wc & Hin & Hvalid & ->).
    destruct Hvalid as (-> & Hn1 & Hn2 & Hn3 & Hn4 & Hobs & Hwi & Hwf & Hwo & Hwc
                        & Hci & Hcf & Hco & Hrf & Hro & Hrc).
    destruct (InputValues_of_five n _ _ _ _ _ Hin) as (H0' & H1' & H2' & H3' & H4').
    rewrite Hin.
    change (Z.of_nat (length [obs; wi; wf; wo; wc]) =? 5) with true. cbn [negb].
    rewrite Hn1, Hn2, Hn3, Hn4. cbn [lift_option].
    unfold bind at 1 2 3 4. unfold ret at 1 2 3 4.
    rewrite String.eqb_refl. cbn [negb orb].
    rewrite (bind_Done_intro _ _ _ _ _ H0').
    rewrite (bind_Done_intro _ _ _ _ _ H1').
    rewrite (bind_Done_intro _ _ _ _ _ H2').
    rewrite (bind_Done_intro _ _ _ _ _ H3').
    rewrite (bind_Done_intro _ _ _ _ _ H4').
    rewrite Hobs, Hwi, Hwf, Hwo, Hwc. cbn [orb].
    rewrite Hci, Hcf, Hco, Hrf, Hro, Hrc, !Z.eqb_refl. reflexivity.
Qed.
End LSTMNodeValidation.


(** * Delayed-value nodes: the delay for every step, and the carry *)

Section DelayedValueAnyStep.
Context {E : Type} `{ElemOps E} `{MatrixLib E} `{PackingFlags}.
Import DelayedValueNodeBase.
Local Abbreviation Node := (Node (E:=E)).

Lemma delayedIndex_of_value (direction t timeStep S : Z) :
  direction = 1 \/ direction = -1 ->
  0 <= timeStep < 2 ^ 31 ->
  - 2 ^ 31 <= t + direction * timeStep < 2 ^ 31 ->
  - 2 ^ 31 <= (t + direction * timeStep) * S < 2 ^ 31 ->
  delayedIndex_of direction t timeStep S = (t + direction * timeStep) * S.
Proof.
  intros Hdir Hstep Hframe Hcol. unfold delayedIndex_of.
  rewrite (to_int_small (direction * timeStep)) by (destruct Hdir; subst; lia).
  rewrite !to_int_to_size_t, (to_int_small (t + direction * timeStep)) by lia.
  apply to_int_small. lia.
Qed.

(** The delayed output of a sequence that is not at a boundary, by where
    the delayed index falls. *)
Lemma delayed_output_cases (direction SequenceStart_or_End : Z) (n : Node) (t i : Z)
    (column : option (list E)) :
  let S := NumParallel n in
  let input := Inputs0_FunctionValues n in
  let carry := m_delayedActivation n in
  let delayedIndex := (t + direction * m_timeStep n) * S in
  direction = 1 \/ direction = -1 ->
  0 <= m_timeStep n < 2 ^ 31 ->
  0 <= i < S ->
  - 2 ^ 31 <= t + direction * m_timeStep n < 2 ^ 31 ->
  - 2 ^ 31 <= delayedIndex -> delayedIndex + S <= 2 ^ 31 ->
  has_flag (flag_at (m_pShiftedMBLayout n) i t) SequenceStart_or_End = false ->
  delayed_output direction SequenceStart_or_End n S t i column ->
  exists col,
    column = Some col
    /\ (0 <= delayedIndex < GetNumCols input ->
        Columns input !! Z.to_nat (delayedIndex + i) = Some col)
    /\ (delayedIndex < 0 \/ GetNumCols input <= delayedIndex ->
        exists d,
          Mod delayedIndex (GetNumCols carry) = Some d
          /\ (0 <= d -> d + i < 2 ^ 31 -> Columns carry !! Z.to_nat (d + i) = Some col)).
Proof.
  intros S input carry delayedIndex Hdir Hstep Hi Hframe Hlow Hhigh Hflag Hout.
  subst input carry.
  unfold delayed_output in Hout. rewrite Hflag in Hout. fold S in Hout.
  destruct Hout as (d & src & col & Hd & Hsrc & Hcol & ->).
  rewrite (delayedIndex_of_value direction t (m_timeStep n) S Hdir Hstep Hframe
             ltac:(fold delayedIndex; lia)) in Hd, Hcol.
  fold delayedIndex in Hd, Hcol.
  exists col. split; [reflexivity|].
  unfold wrapped_index in Hd. unfold delayed_source in Hcol. split.
  - intros Hinside.
    assert (Hin : outside_minibatch delayedIndex (Inputs0_FunctionValues n) = false).
    { unfold outside_minibatch. apply orb_false_iff.
      split; [apply Z.ltb_ge | apply Z.leb_gt]; lia. }
    rewrite Hin in Hd, Hcol. subst d.
    destruct Hsrc as [->| ->].
    + rewrite to_int_small, to_size_t_small in Hcol by lia. exact Hcol.
    + rewrite to_size_t_small in Hcol by lia. rewrite Z2Nat.inj_add by lia. exact Hcol.
  - intros Houtside.
    assert (Hout : outside_minibatch delayedIndex (Inputs0_FunctionValues n) = true).
    { unfold outside_minibatch. apply orb_true_iff.
      destruct Houtside; [left; apply Z.ltb_lt | right; apply Z.leb_le]; lia. }
    rewrite Hout in Hd, Hcol. exists d. split; [exact Hd|].
    intros Hd0 Hdi.
    destruct Hsrc as [->| ->].
    + rewrite to_int_small, to_size_t_small in Hcol by lia. exact Hcol.
    + rewrite to_size_t_small in Hcol by lia. rewrite Z2Nat.inj_add by lia. exact Hcol.
Qed.

(** X19: for every step, not only a step of one: after a full-minibatch
    forward evaluation that finishes, the output column of a sequence at a
    frame [t] whose shifted flag word has no boundary marker is the column
    of the input for that sequence [timeStep] frames earlier (past-value
    node) or later (future-value node), whenever that frame lies within the
    minibatch. *)
Theorem EvaluateThisNode_delays_by_the_step (n n' : Node) (t i : Z) :
  let S := NumParallel n in
  let input := Inputs0_FunctionValues n in
  1 <= m_timeStep n ->
  GetNumCols input < 2 ^ 31 ->
  0 <= t < GetNumCols input / S ->
  0 <= i < S ->
  (PastValueNode.EvaluateThisNode n = Done tt n' ->
   has_flag (flag_at (m_pShiftedMBLayout n) i t) SequenceStart = false ->
   0 <= t - m_timeStep n ->
   exists col,
     Columns input !! Z.to_nat ((t - m_timeStep n) * S + i) = Some col
     /\ Columns (m_functionValues n') !! Z.to_nat (t * S + i) = Some col)
  /\ (FutureValueNode.EvaluateThisNode n = Done tt n' ->
      has_flag (flag_at (m_pShiftedMBLayout n) i t) SequenceEnd = false ->
      t + m_timeStep n < GetNumCols input / S ->
      exists col,
        Columns input !! Z.to_nat ((t + m_timeStep n) * S + i) = Some col
        /\ Columns (m_functionValues n') !! Z.to_nat (t * S + i) = Some col).
Proof.
  intros S input Hstep Hsmall Ht Hi.
  assert (Hq : S * (GetNumCols input / S) <= GetNumCols input)
    by (apply Z.mul_div_le; lia).
  assert (HT : GetNumCols input / S <= GetNumCols input) by nia.
  split; intros Hrun Hflag Hin.
  - pose proof (minibatch_columns PastValueNode.direction SequenceStart upto n n' t i
                  NoDup_upto elem_of_upto Hrun Hsmall Ht Hi) as Hout.
    apply (delayed_output_cases PastValueNode.direction SequenceStart n t i) in Hout;
      unfold PastValueNode.direction in *; fold S input;
      [|right; reflexivity|lia|lia|lia|nia|nia|exact Hflag].
    destruct Hout as (col & Hcol & Hinside & _). fold S input in Hinside.
    exists col. split; [|exact Hcol].
    replace ((t - m_timeStep n) * S + i) with ((t + -1 * m_timeStep n) * S + i) by lia.
    apply Hinside. nia.
  - pose proof (minibatch_columns FutureValueNode.direction SequenceEnd downfrom n n' t i
                  NoDup_downfrom elem_of_downfrom Hrun Hsmall Ht Hi) as Hout.
    apply (delayed_output_cases FutureValueNode.direction SequenceEnd n t i) in Hout;
      unfold FutureValueNode.direction in *; fold S input;
      [|left; reflexivity|lia|lia|lia|nia|nia|exact Hflag].
    destruct Hout as (col & Hcol & Hinside & _). fold S input in Hinside.
    exists col. split; [|exact Hcol].
    replace ((t + m_timeStep n) * S + i) with ((t + 1 * m_timeStep n) * S + i) by lia.
    apply Hinside. nia.
Qed.

(** X20: a frame whose delayed frame lies outside the minibatch reads the
    carry buffer, that is, the input of the minibatch before: the delayed
    index is reduced by the library's [Mod] to an index [d] into the
    carry, and the output column of a sequence without boundary marker is
    the column [d + i] of the carry buffer as it was when the evaluation
    began. *)
Theorem EvaluateThisNode_reads_the_carry (n n' : Node) (t i : Z) :
  let S := NumParallel n in
  let input := Inputs0_FunctionValues n in
  let carry := m_delayedActivation n in
  1 <= m_timeStep n ->
  GetNumCols input + (m_timeStep n + 1) * S < 2 ^ 31 ->
  0 <= t < GetNumCols input / S ->
  0 <= i < S ->
  (PastValueNode.EvaluateThisNode n = Done tt n' ->
   has_flag (flag_at (m_pShiftedMBLayout n) i t) SequenceStart = false ->
   t - m_timeStep n < 0 ->
   exists d col,
     Mod ((t - m_timeStep n) * S) (GetNumCols carry) = Some d
     /\ Columns (m_functionValues n') !! Z.to_nat (t * S + i) = Some col
     /\ (0 <= d -> d + i < 2 ^ 31 -> Columns carry !! Z.to_nat (d + i) = Some col))
  /\ (FutureValueNode.EvaluateThisNode n = Done tt n' ->
      has_flag (flag_at (m_pShiftedMBLayout n) i t) SequenceEnd = false ->
      GetNumCols input <= (t + m_timeStep n) * S ->
      exists d col,
        Mod ((t + m_timeStep n) * S) (GetNumCols carry) = Some d
        /\ Columns (m_functionValues n') !! Z.to_nat (t * S + i) = Some col
        /\ (0 <= d -> d + i < 2 ^ 31 -> Columns carry !! Z.to_nat (d + i) = Some col)).
Proof.
  intros S input carry Hstep Hsmall Ht Hi.
  assert (Hcols : 0 <= GetNumCols input) by (unfold GetNumCols; lia).
  assert (Hq : S * (GetNumCols input / S) <= GetNumCols input)
    by (apply Z.mul_div_le; lia).
  assert (Hstep' : m_timeStep n < 2 ^ 31) by nia.
  assert (HT : GetNumCols input / S <= GetNumCols input) by nia.
  assert (HtS : t * S + S <= GetNumCols input) by nia.
  split; intros Hrun Hflag Hout'.
  - pose proof (minibatch_columns PastValueNode.direction SequenceStart upto n n' t i
                  NoDup_upto elem_of_upto Hrun ltac:(fold input; nia) Ht Hi) as Hout.
    apply (delayed_output_cases PastValueNode.direction SequenceStart n t i) in Hout;
      unfold PastValueNode.direction in *; fold S input;
      [|right; reflexivity|lia|lia|lia|nia|nia|exact Hflag].
    destruct Hout as (col & Hcol & _ & Houtside). fold S input carry in Houtside.
    destruct (Houtside ltac:(left; nia)) as (d & Hd & Hread).
    exists d, col.
    replace ((t - m_timeStep n) * S) with ((t + -1 * m_timeStep n) * S) by lia.
    split; [exact Hd|]. split; [exact Hcol | exact Hread].
  - pose proof (minibatch_columns FutureValueNode.direction SequenceEnd downfrom n n' t i
                  NoDup_downfrom elem_of_downfrom Hrun ltac:(fold input; nia) Ht Hi) as Hout.
    apply (delayed_output_cases FutureValueNode.direction SequenceEnd n t i) in Hout;
      unfold FutureValueNode.direction in *; fold S input;
      [|left; reflexivity|lia|lia|nia|nia|nia|exact Hflag].
    destruct Hout as (col & Hcol & _ & Houtside). fold S input carry in Houtside.
    destruct (Houtside ltac:(right; nia)) as (d & Hd & Hread).
    exists d, col.
    replace ((t + m_timeStep n) * S) with ((t + 1 * m_timeStep n) * S) by lia.
    split; [exact Hd|]. split; [exact Hcol | exact Hread].
Qed.
End DelayedValueAnyStep.


(** * Delayed-value nodes: the backward pass over a minibatch *)

Section DelayedValueBackwardColumns.
Context {E : Type} `{ElemOps E} `{MatrixLib E} `{PackingFlags}.
Import DelayedValueNodeBase.
Local Abbreviation Node := (Node (E:=E)).

(** The iteration for a sequence leaves every column alone but the one it
    addresses, whether it finishes or throws. *)
Lemma ComputeInputPartialSRP_stream_leaves (SequenceStart_or_End : Z)
    (timeIdxInSeq mNbr delayed : Z) (gradientValues : Matrix E)
    (colBoundaryFlags : list Z) (x : Z) (k : nat) (s : Matrix E) :
  Z.of_nat k <> to_size_t (delayed * mNbr + x) ->
  Columns (final_state
             (ComputeInputPartialSRP_stream SequenceStart_or_End timeIdxInSeq mNbr delayed
                gradientValues colBoundaryFlags x s)) !! k
  = Columns s !! k.
Proof.
  intros Hne. unfold ComputeInputPartialSRP_stream.
  rewrite final_state_bind. unfold lift_option.
  destruct (colBoundaryFlags !! Z.to_nat x) as [fx|]; [|reflexivity].
  cbn [ret].
  destruct (negb (has_flag fx SequenceStart_or_End) && negb (has_flag fx NoFeature));
    [|reflexivity].
  rewrite <- (Nat2Z.id k).
  apply add_column_other; [apply to_size_t_range | lia | exact Hne].
Qed.

(** The backward step of a frame leaves every column of the input's
    gradient alone that lies outside the columns of the delayed frame,
    whether it finishes or throws. *)
Lemma ComputeInputPartialSRP_leaves (direction SequenceStart_or_End : Z)
    (frameRange : FrameRange) (timeStep : Z) (gradientValues : Matrix E)
    (colBoundaryFlags : list Z) (minibatchPackingFlags : Z) (k : nat) (s : Matrix E) :
  let mNbr := FrameRange_NumCols frameRange in
  let delayed := to_size_t (FrameRange_t frameRange + to_int (direction * timeStep)) in
  0 <= mNbr ->
  (delayed < GetNumCols gradientValues ->
   delayed * mNbr + mNbr <= 2 ^ 64
   /\ (Z.of_nat k < delayed * mNbr \/ delayed * mNbr + mNbr <= Z.of_nat k)) ->
  Columns (final_state
             (ComputeInputPartialSRP direction SequenceStart_or_End frameRange timeStep
                gradientValues colBoundaryFlags minibatchPackingFlags s)) !! k
  = Columns s !! k.
Proof.
  intros mNbr delayed HmNbr Hout. unfold ComputeInputPartialSRP.
  fold mNbr. fold delayed.
  assert (Hd : 0 <= delayed) by apply to_size_t_range.
  destruct ((0 <=? delayed) && (delayed <? GetNumCols gradientValues)) eqn:Hcheck;
    [|reflexivity].
  apply andb_true_iff in Hcheck as [_ Hlt]. apply Z.ltb_lt in Hlt.
  destruct (Hout Hlt) as [Hfit Hk].
  destruct (has_flag minibatchPackingFlags (Z.lor SequenceStart_or_End NoFeature)).
  - apply (forM__keeps (fun s : Matrix E => Columns s !! k)). intros x s0 Hx.
    apply elem_of_upto in Hx.
    apply ComputeInputPartialSRP_stream_leaves.
    rewrite to_size_t_small by nia. lia.
  - rewrite final_state_bind.
    destruct (ColumnSliceOf gradientValues (to_size_t (FrameRange_t frameRange * mNbr)) mNbr s)
      as [frm s1|e s1] eqn:Hfrm.
    + apply ColumnSliceOf_Done in Hfrm as (-> & Hin' & Hfrm).
      rewrite final_state_bind.
      destruct (ColumnSliceHere (to_size_t (delayed * mNbr)) mNbr s) as [to s1|e s1] eqn:Hto.
      * apply ColumnSliceHere_Done in Hto as (-> & Hin & Hv).
        destruct (PlusAssign_slice_final (to_size_t (delayed * mNbr)) to frm s)
          as [->|[Hsame ->]]; [reflexivity|].
        apply same_shape_cols in Hsame as [_ Hlen]. subst to. cbn [Columns] in *.
        pose proof (length_slice_columns _ _ _ Hin) as Hslice.
        apply in_range_bounds in Hin as (Hc & _ & Hfits). unfold GetNumCols in Hfits.
        rewrite to_size_t_small in * by nia.
        apply lookup_write_columns_other;
          rewrite length_add_columns by exact Hlen; rewrite Hslice; lia.
      * pose proof (ColumnSliceHere_final (to_size_t (delayed * mNbr)) mNbr s) as Hf.
        rewrite Hto in Hf. cbn in Hf. subst s1. reflexivity.
    + pose proof (ColumnSliceOf_final gradientValues
                    (to_size_t (FrameRange_t frameRange * mNbr)) mNbr s) as Hf.
      rewrite Hfrm in Hf. cbn in Hf. subst s1. reflexivity.
Qed.

(** The backward step of a frame that finishes adds the node's gradient
    column of a sequence onto the delayed column of the input's gradient,
    when the flag word of the sequence lets the gradient through. *)
Lemma ComputeInputPartialSRP_sum (direction SequenceStart_or_End : Z)
    (frameRange : FrameRange) (timeStep : Z) (gradientValues : Matrix E)
    (colBoundaryFlags : list Z) (minibatchPackingFlags : Z) (i : Z) (s s' : Matrix E) :
  let mNbr := FrameRange_NumCols frameRange in
  let t := FrameRange_t frameRange in
  let delayed := to_size_t (t + to_int (direction * timeStep)) in
  0 <= mNbr <= 2 ^ 64 ->
  delayed * mNbr + mNbr <= 2 ^ 64 ->
  0 <= t -> t * mNbr + mNbr <= 2 ^ 64 ->
  delayed < GetNumCols gradientValues ->
  0 <= i < mNbr ->
  (forall flags, colBoundaryFlags !! Z.to_nat i = Some flags ->
                 has_flag flags SequenceStart_or_End = false
                 /\ has_flag flags NoFeature = false) ->
  ComputeInputPartialSRP direction SequenceStart_or_End frameRange timeStep
    gradientValues colBoundaryFlags minibatchPackingFlags s = Done tt s' ->
  exists old frm,
    Columns s !! Z.to_nat (to_size_t (delayed * mNbr + i)) = Some old
    /\ Columns gradientValues !! Z.to_nat (to_size_t (t * mNbr + i)) = Some frm
    /\ Columns s' !! Z.to_nat (to_size_t (delayed * mNbr + i)) = Some (column_sum old frm).
Proof.
  intros mNbr t delayed HmNbr Hwide Ht Hwide' Hin Hi Hflags Hrun.
  unfold ComputeInputPartialSRP in Hrun. fold mNbr t in Hrun. fold delayed in Hrun.
  assert (Hd : 0 <= delayed) by apply to_size_t_range.
  replace ((0 <=? delayed) && (delayed <? GetNumCols gradientValues)) with true in Hrun
    by (symmetry; apply andb_true_iff; split; [apply Z.leb_le | apply Z.ltb_lt]; lia).
  destruct (has_flag minibatchPackingFlags (Z.lor SequenceStart_or_End NoFeature)).
  - set (c := Z.to_nat (to_size_t (delayed * mNbr + i))).
    refine (forM__at
              (fun s0 : Matrix E => Columns s0 !! c = Columns s !! c)
              (fun s0 : Matrix E => exists old frm,
                   Columns s !! c = Some old
                   /\ Columns gradientValues !! Z.to_nat (to_size_t (t * mNbr + i)) = Some frm
                   /\ Columns s0 !! c = Some (column_sum old frm))
              i (upto mNbr) _ (NoDup_upto mNbr) _ _ _ _ s s' eq_refl Hrun).
    + apply elem_of_upto. exact Hi.
    + intros x s0 s1 Hin' Hne Hpre Hx. rewrite <- Hpre. apply elem_of_upto in Hin'.
      pose proof (ComputeInputPartialSRP_stream_other SequenceStart_or_End t mNbr delayed
                    gradientValues colBoundaryFlags x i s0 HmNbr Hin' Hi Hne) as Hk.
      rewrite Hx in Hk. exact Hk.
    + intros s0 s1 Hpre Hx.
      destruct (colBoundaryFlags !! Z.to_nat i) as [flags|] eqn:Hfl.
      * destruct (Hflags flags eq_refl) as [Hm Hn].
        destruct (ComputeInputPartialSRP_stream_at _ _ _ _ _ _ _ _ _ _ Hfl Hm Hn Hx)
          as (old & frm & Hold & Hfrm & Hnew).
        exists old, frm. fold c in Hold, Hnew. rewrite <- Hpre. auto.
      * unfold ComputeInputPartialSRP_stream in Hx. rewrite Hfl in Hx. discriminate.
    + intros x s0 s1 Hin' Hne (old & frm & Hold & Hfrm & Hnew) Hx.
      exists old, frm. split; [exact Hold|]. split; [exact Hfrm|].
      rewrite <- Hnew. apply elem_of_upto in Hin'.
      pose proof (ComputeInputPartialSRP_stream_other SequenceStart_or_End t mNbr delayed
                    gradientValues colBoundaryFlags x i s0 HmNbr Hin' Hi Hne) as Hk.
      rewrite Hx in Hk. exact Hk.
  - apply bind_Done in Hrun as (frm & s1 & Hfrm & Hrun).
    apply ColumnSliceOf_Done in Hfrm as (-> & Hrange' & ->).
    apply bind_Done in Hrun as (to & s1 & Hto & Hrun).
    apply ColumnSliceHere_Done in Hto as (-> & Hrange & ->).
    apply PlusAssign_slice_Done in Hrun as (Hshape & ->).
    apply same_shape_cols in Hshape as [_ Hlen]. cbn [Columns] in Hlen.
    pose proof (length_slice_columns _ _ _ Hrange) as Hlto.
    pose proof (length_slice_columns _ _ _ Hrange') as Hlfrm.
    apply in_range_bounds in Hrange as (Hds & _ & Hfit).
    apply in_range_bounds in Hrange' as (Hts & _ & Hfit').
    rewrite (to_size_t_add_small (delayed * mNbr) i)
      by (rewrite ?to_size_t_small by nia; lia).
    rewrite (to_size_t_add_small (t * mNbr) i)
      by (rewrite ?to_size_t_small by nia; lia).
    rewrite !Z2Nat.inj_add by lia.
    unfold GetNumCols in Hfit, Hfit'.
    destruct (lookup_lt_is_Some_2 (Columns s)
                (Z.to_nat (to_size_t (delayed * mNbr)) + Z.to_nat i) ltac:(lia)) as [old Hold].
    destruct (lookup_lt_is_Some_2 (Columns gradientValues)
                (Z.to_nat (to_size_t (t * mNbr)) + Z.to_nat i) ltac:(lia)) as [col Hcol].
    exists old, col. split; [exact Hold|]. split; [exact Hcol|].
    cbn [Columns].
    rewrite lookup_write_columns_new;
      [| rewrite length_add_columns by exact Hlen; lia
       | rewrite length_add_columns by exact Hlen; lia].
    unfold add_columns. rewrite lookup_zip_with.
    rewrite !lookup_slice_columns by lia. rewrite Hold, Hcol. reflexivity.
Qed.

(** What a backward call for a frame that finishes is made of. *)
Lemma backward_frame_Done (direction SequenceStart_or_End : Z) (frameRange : FrameRange)
    (n n' : Node) :
  backward_frame direction SequenceStart_or_End frameRange n = Done tt n' ->
  exists col g',
    FrameFlags (m_pShiftedMBLayout n) !! Z.to_nat (FrameRange_t frameRange) = Some col
    /\ ComputeInputPartialSRP direction SequenceStart_or_End frameRange (m_timeStep n)
         (m_gradientValues n) col (union_flags col) (Inputs0_GradientValues n)
       = Done tt g'
    /\ n' = set_Inputs0_GradientValues g' n.
Proof.
  intros Hrun. unfold backward_frame in Hrun.
  unfold bind at 1 in Hrun. unfold get at 1 in Hrun.
  apply bind_Done in Hrun as ([col mb] & s1 & Hframe & Hrun).
  unfold GetFrameOf, lift_option in Hframe.
  destruct (GetFrame (m_pShiftedMBLayout n) (FrameRange_t frameRange)) as [[col0 mb0]|] eqn:Hg;
    [|discriminate].
  inversion Hframe; subst col0 mb0 s1.
  apply GetFrame_Some in Hg as (_ & Hcol & ->).
  apply zoom_Done in Hrun as (g' & Hrun & ->). cbn [fst snd] in Hrun.
  exists col, g'. auto.
Qed.

Lemma to_size_t_negative (z : Z) : - 2 ^ 64 <= z < 0 -> to_size_t z = z + 2 ^ 64.
Proof.
  intros Hz. unfold to_size_t. symmetry.
  apply (Z.mod_unique z (2 ^ 64) (-1)); lia.
Qed.

(** The delayed frame of a frame [x], when it passes the bound test of
    the backward step. *)
Lemma delayed_frame_inside (direction x timeStep cols : Z) :
  direction = 1 \/ direction = -1 ->
  0 <= x < 2 ^ 31 -> 1 <= timeStep < 2 ^ 31 -> cols < 2 ^ 31 ->
  to_size_t (to_size_t x + to_int (direction * timeStep)) < cols ->
  to_size_t (to_size_t x + to_int (direction * timeStep)) = x + direction * timeStep
  /\ 0 <= x + direction * timeStep.
Proof.
  intros Hdir Hx Hstep Hcols.
  rewrite (to_size_t_small x) by lia.
  rewrite (to_int_small (direction * timeStep)) by (destruct Hdir; subst; lia).
  destruct (Z.le_gt_cases 0 (x + direction * timeStep)) as [Hpos|Hneg].
  - rewrite to_size_t_small by (destruct Hdir; subst; lia). auto.
  - rewrite to_size_t_negative by (destruct Hdir; subst; lia). lia.
Qed.

(** Both nodes run the backward pass by one pass over the frames, in one
    order or the other.  A sequence whose shifted flag word at a frame has
    neither the boundary marker nor [NoFeature] hands the node's gradient
    of the frame to the delayed frame, and no other frame writes there. *)
Lemma backward_pass_column (direction SequenceStart_or_End : Z) (frames : Z -> list Z)
    (n n' : Node) (t i : Z) :
  let S := NumParallel n in
  let gradientValues := m_gradientValues n in
  let c := Z.to_nat ((t + direction * m_timeStep n) * S + i) in
  (forall nbr, NoDup (frames nbr)) ->
  (forall nbr x, x ∈ frames nbr <-> 0 <= x < nbr) ->
  direction = 1 \/ direction = -1 ->
  bind get (fun n0 : Node =>
    bind (nbrSamples_of (GetNumCols (m_gradientValues n0)) n0) (fun nbrSamples =>
      forM_ (frames nbrSamples) (fun timeIdxInSeq =>
        backward_frame direction SequenceStart_or_End
          (mkFrameRange (to_size_t timeIdxInSeq) (NumParallel n0))))) n = Done tt n' ->
  1 <= m_timeStep n ->
  GetNumCols gradientValues < 2 ^ 31 ->
  0 <= t < GetNumCols gradientValues / S -> 0 <= i < S ->
  0 <= t + direction * m_timeStep n < GetNumCols gradientValues / S ->
  has_flag (flag_at (m_pShiftedMBLayout n) i t) SequenceStart_or_End = false ->
  has_flag (flag_at (m_pShiftedMBLayout n) i t) NoFeature = false ->
  exists old frm,
    Columns (Inputs0_GradientValues n) !! c = Some old
    /\ Columns gradientValues !! Z.to_nat (t * S + i) = Some frm
    /\ Columns (Inputs0_GradientValues n') !! c = Some (column_sum old frm).
Proof.
  intros S gradientValues c Hnd Hin Hdir Hrun Hstep Hsmall Ht Hi Hd Hm Hn.
  unfold bind at 1 in Hrun. unfold get at 1 in Hrun.
  apply bind_Done in Hrun as (nbr & s1 & Hnbr & Hrun).
  apply nbrSamples_of_Done in Hnbr as (-> & HS & ->).
  fold S gradientValues in Hrun.
  set (T := GetNumCols gradientValues / S) in *.
  assert (Hq : S * T <= GetNumCols gradientValues) by (apply Z.mul_div_le; lia).
  assert (HT : T <= GetNumCols gradientValues) by nia.
  assert (HS' : S <= GetNumCols gradientValues) by nia.
  assert (Hstep' : m_timeStep n < 2 ^ 31) by (destruct Hdir; subst; lia).
  rewrite (to_int_small T) in Hrun by lia.
  set (Inv := fun s : Node =>
                m_gradientValues s = gradientValues
                /\ m_timeStep s = m_timeStep n
                /\ m_pShiftedMBLayout s = m_pShiftedMBLayout n).
  refine (proj2 (forM__at
            (fun s : Node => Inv s /\ Columns (Inputs0_GradientValues s) !! c
                                     = Columns (Inputs0_GradientValues n) !! c)
            (fun s : Node => Inv s /\ exists old frm,
                 Columns (Inputs0_GradientValues n) !! c = Some old
                 /\ Columns gradientValues !! Z.to_nat (t * S + i) = Some frm
                 /\ Columns (Inputs0_GradientValues s) !! c = Some (column_sum old frm))
            t (frames T) _ (Hnd T) _ _ _ _ n n' _ Hrun)).
  - apply Hin. exact Ht.
  - (* another frame, before *)
    intros x s s' Hx Hne [(Hg & Hts & HL) Hpre] Hframe. apply Hin in Hx.
    apply backward_frame_Done in Hframe as (col & g' & _ & Hsrp & ->).
    split; [repeat split; assumption|].
    cbn [Inputs0_GradientValues set_Inputs0_GradientValues]. rewrite <- Hpre.
    rewrite Hg, Hts in Hsrp.
    pose proof (ComputeInputPartialSRP_leaves direction SequenceStart_or_End
                  (mkFrameRange (to_size_t x) S) (m_timeStep n) gradientValues col
                  (union_flags col) c (Inputs0_GradientValues s)) as Hk.
    cbn [FrameRange_NumCols FrameRange_t] in Hk. rewrite Hsrp in Hk. apply Hk; [lia|].
    intros Hlt.
    destruct (delayed_frame_inside direction x (m_timeStep n) (GetNumCols gradientValues)
                Hdir ltac:(lia) ltac:(lia) Hsmall Hlt) as [-> Hpos].
    subst c. split; [nia|].
    assert ((x + direction * m_timeStep n) * S + S <= (t + direction * m_timeStep n) * S
            \/ (t + direction * m_timeStep n) * S + S <= (x + direction * m_timeStep n) * S)
      by nia.
    rewrite Z2Nat.id by nia. lia.
  - (* the frame itself *)
    intros s s' [(Hg & Hts & HL) Hpre] Hframe.
    apply backward_frame_Done in Hframe as (col & g' & Hcol & Hsrp & ->).
    split; [repeat split; assumption|].
    cbn [Inputs0_GradientValues set_Inputs0_GradientValues].
    rewrite Hg, Hts in Hsrp. rewrite HL in Hcol.
    cbn [FrameRange_t] in Hcol. rewrite (to_size_t_small t) in Hcol by lia.
    assert (Hdelayed : to_size_t (to_size_t t + to_int (direction * m_timeStep n))
                       = t + direction * m_timeStep n).
    { rewrite (to_size_t_small t) by lia.
      rewrite (to_int_small (direction * m_timeStep n)) by (destruct Hdir; subst; lia).
      apply to_size_t_small. lia. }
    apply (ComputeInputPartialSRP_sum direction SequenceStart_or_End
             (mkFrameRange (to_size_t t) S) (m_timeStep n) gradientValues col
             (union_flags col) i) in Hsrp;
      cbn [FrameRange_NumCols FrameRange_t] in *; rewrite ?Hdelayed, ?(to_size_t_small t) by lia.
    + rewrite Hdelayed, (to_size_t_small t) in Hsrp by lia.
      rewrite !to_size_t_small in Hsrp by nia.
      destruct Hsrp as (old & frm & Hold & Hfrm & Hnew). fold c in Hold, Hnew.
      exists old, frm. rewrite <- Hpre. auto.
    + lia.
    + nia.
    + lia.
    + nia.
    + nia.
    + exact Hi.
    + intros flags Hfl.
      unfold flag_at, frame_column in Hm, Hn. rewrite Hcol in Hm, Hn.
      cbn [default from_option id] in Hm, Hn. rewrite Hfl in Hm, Hn. auto.
  - (* another frame, after *)
    intros x s s' Hx Hne [(Hg & Hts & HL) (old & frm & Hold & Hfrm & Hnew)] Hframe.
    apply Hin in Hx.
    apply backward_frame_Done in Hframe as (col & g' & _ & Hsrp & ->).
    split; [repeat split; assumption|].
    exists old, frm. split; [exact Hold|]. split; [exact Hfrm|].
    cbn [Inputs0_GradientValues set_Inputs0_GradientValues]. rewrite <- Hnew.
    rewrite Hg, Hts in Hsrp.
    pose proof (ComputeInputPartialSRP_leaves direction SequenceStart_or_End
                  (mkFrameRange (to_size_t x) S) (m_timeStep n) gradientValues col
                  (union_flags col) c (Inputs0_GradientValues s)) as Hk.
    cbn [FrameRange_NumCols FrameRange_t] in Hk. rewrite Hsrp in Hk. apply Hk; [lia|].
    intros Hlt.
    destruct (delayed_frame_inside direction x (m_timeStep n) (GetNumCols gradientValues)
                Hdir ltac:(lia) ltac:(lia) Hsmall Hlt) as [-> Hpos].
    subst c. split; [nia|].
    assert ((x + direction * m_timeStep n) * S + S <= (t + direction * m_timeStep n) * S
            \/ (t + direction * m_timeStep n) * S + S <= (x + direction * m_timeStep n) * S)
      by nia.
    rewrite Z2Nat.id by nia. lia.
  - split; [repeat split; reflexivity | reflexivity].
Qed.

(** A column of the input's gradient whose frame is the delayed frame of
    no frame of the minibatch is not written by a pass that finishes. *)
Lemma backward_pass_unread (direction SequenceStart_or_End : Z) (frames : Z -> list Z)
    (n n' : Node) (k : nat) :
  let S := NumParallel n in
  let gradientValues := m_gradientValues n in
  let reader := Z.of_nat k / S - direction * m_timeStep n in
  (forall nbr x, x ∈ frames nbr <-> 0 <= x < nbr) ->
  direction = 1 \/ direction = -1 ->
  bind get (fun n0 : Node =>
    bind (nbrSamples_of (GetNumCols (m_gradientValues n0)) n0) (fun nbrSamples =>
      forM_ (frames nbrSamples) (fun timeIdxInSeq =>
        backward_frame direction SequenceStart_or_End
          (mkFrameRange (to_size_t timeIdxInSeq) (NumParallel n0))))) n = Done tt n' ->
  1 <= m_timeStep n < 2 ^ 31 ->
  GetNumCols gradientValues < 2 ^ 31 ->
  reader < 0 \/ GetNumCols gradientValues / S <= reader ->
  Columns (Inputs0_GradientValues n') !! k = Columns (Inputs0_GradientValues n) !! k.
Proof.
  intros S gradientValues reader Hin Hdir Hrun Hstep Hsmall Hreader.
  unfold bind at 1 in Hrun. unfold get at 1 in Hrun.
  apply bind_Done in Hrun as (nbr & s1 & Hnbr & Hrun).
  apply nbrSamples_of_Done in Hnbr as (-> & HS & ->).
  fold S gradientValues in Hrun, HS.
  assert (HS1 : 1 <= S) by (unfold S, NumParallel, GetNumParallelSequences in *; lia).
  assert (Hcols : 0 <= GetNumCols gradientValues) by (unfold GetNumCols; lia).
  set (T := GetNumCols gradientValues / S) in *.
  assert (HT0 : 0 <= T) by (apply Z.div_pos; lia).
  assert (Hq : S * T <= GetNumCols gradientValues) by (apply Z.mul_div_le; lia).
  assert (HT : T <= GetNumCols gradientValues) by nia.
  rewrite (to_int_small T) in Hrun by lia.
  refine (proj2 (forM__inv
            (fun s : Node =>
               (m_gradientValues s = gradientValues /\ m_timeStep s = m_timeStep n)
               /\ Columns (Inputs0_GradientValues s) !! k
                  = Columns (Inputs0_GradientValues n) !! k)
            (frames T) _ _ n n' _ Hrun)).
  - intros x s s' Hx [[Hg Hts] Hpre] Hframe. apply Hin in Hx.
    apply backward_frame_Done in Hframe as (col & g' & _ & Hsrp & ->).
    split; [split; assumption|].
    cbn [Inputs0_GradientValues set_Inputs0_GradientValues]. rewrite <- Hpre.
    rewrite Hg, Hts in Hsrp.
    pose proof (ComputeInputPartialSRP_leaves direction SequenceStart_or_End
                  (mkFrameRange (to_size_t x) S) (m_timeStep n) gradientValues col
                  (union_flags col) k (Inputs0_GradientValues s)) as Hk.
    cbn [FrameRange_NumCols FrameRange_t] in Hk. rewrite Hsrp in Hk. apply Hk; [lia|].
    intros Hlt.
    destruct (delayed_frame_inside direction x (m_timeStep n) (GetNumCols gradientValues)
                Hdir ltac:(lia) ltac:(lia) Hsmall Hlt) as [-> Hpos].
    split; [nia|].
    set (d := x + direction * m_timeStep n) in *.
    destruct (Z.lt_ge_cases (Z.of_nat k) (d * S)) as [Hlow|Hlow]; [left; exact Hlow|].
    destruct (Z.lt_ge_cases (Z.of_nat k) (d * S + S)) as [Hhigh|Hhigh]; [|right; exact Hhigh].
    exfalso.
    assert (Hdiv : Z.of_nat k / S = d).
    { symmetry. apply (Z.div_unique (Z.of_nat k) S d (Z.of_nat k - d * S)); lia. }
    subst reader d. lia.
  - split; [split; reflexivity | reflexivity].
Qed.

(** X21: a backward pass over the minibatch that finishes hands every
    gradient column of the node to the delayed frame exactly once: for a
    sequence whose shifted flag word at frame [t] has neither the boundary
    marker nor [NoFeature], the column of the input's gradient for that
    sequence [timeStep] frames earlier (past-value node) or later
    (future-value node) ends as the entry-wise sum of what it held before
    the pass and the node's gradient column of frame [t]; no other frame
    of the pass adds to it. *)
Theorem ComputeInputPartial_adds_each_frame_once (inputIndex : Z) (n n' : Node) (t i : Z) :
  let S := NumParallel n in
  let gradientValues := m_gradientValues n in
  let flags := flag_at (m_pShiftedMBLayout n) i t in
  1 <= m_timeStep n ->
  GetNumCols gradientValues < 2 ^ 31 ->
  0 <= t < GetNumCols gradientValues / S ->
  0 <= i < S ->
  has_flag flags NoFeature = false ->
  (PastValueNode.ComputeInputPartial inputIndex n = Done tt n' ->
   has_flag flags SequenceStart = false ->
   0 <= t - m_timeStep n ->
   exists old frm,
     Columns (Inputs0_GradientValues n) !! Z.to_nat ((t - m_timeStep n) * S + i) = Some old
     /\ Columns gradientValues !! Z.to_nat (t * S + i) = Some frm
     /\ Columns (Inputs0_GradientValues n') !! Z.to_nat ((t - m_timeStep n) * S + i)
        = Some (column_sum old frm))
  /\ (FutureValueNode.ComputeInputPartial inputIndex n = Done tt n' ->
      has_flag flags SequenceEnd = false ->
      t + m_timeStep n < GetNumCols gradientValues / S ->
      exists old frm,
        Columns (Inputs0_GradientValues n) !! Z.to_nat ((t + m_timeStep n) * S + i) = Some old
        /\ Columns gradientValues !! Z.to_nat (t * S + i) = Some frm
        /\ Columns (Inputs0_GradientValues n') !! Z.to_nat ((t + m_timeStep n) * S + i)
           = Some (column_sum old frm)).
Proof.
  intros S gradientValues flags Hstep Hsmall Ht Hi Hn.
  split; intros Hrun Hm Hd.
  - unfold PastValueNode.ComputeInputPartial in Hrun.
    destruct (0 <? inputIndex); [discriminate|].
    pose proof (backward_pass_column PastValueNode.direction SequenceStart downfrom n n' t i
                  NoDup_downfrom elem_of_downfrom ltac:(right; reflexivity) Hrun Hstep
                  Hsmall Ht Hi) as Hcol.
    unfold PastValueNode.direction in Hcol. fold S gradientValues in Hcol.
    replace (t + -1 * m_timeStep n) with (t - m_timeStep n) in Hcol by lia.
    apply Hcol; [lia | exact Hm | exact Hn].
  - unfold FutureValueNode.ComputeInputPartial in Hrun.
    destruct (0 <? inputIndex); [discriminate|].
    pose proof (backward_pass_column FutureValueNode.direction SequenceEnd upto n n' t i
                  NoDup_upto elem_of_upto ltac:(left; reflexivity) Hrun Hstep
                  Hsmall Ht Hi) as Hcol.
    unfold FutureValueNode.direction in Hcol. fold S gradientValues in Hcol.
    replace (t + 1 * m_timeStep n) with (t + m_timeStep n) in Hcol by lia.
    apply Hcol; [lia | exact Hm | exact Hn].
Qed.

(** X22: the gradient is not carried across the minibatch: a backward
    pass that finishes leaves alone every column of the input's gradient
    that no frame of the minibatch reads, which for the past-value node
    are the columns of the last [timeStep] frames and for the future-value
    node the columns of the first [timeStep] frames. *)
Theorem ComputeInputPartial_leaves_unread_frames (inputIndex : Z) (n n' : Node) (k : nat) :
  let S := NumParallel n in
  let frame := Z.of_nat k / S in
  1 <= m_timeStep n < 2 ^ 31 ->
  GetNumCols (m_gradientValues n) < 2 ^ 31 ->
  (PastValueNode.ComputeInputPartial inputIndex n = Done tt n' ->
   GetNumCols (m_gradientValues n) / S - m_timeStep n <= frame ->
   Columns (Inputs0_GradientValues n') !! k = Columns (Inputs0_GradientValues n) !! k)
  /\ (FutureValueNode.ComputeInputPartial inputIndex n = Done tt n' ->
      frame < m_timeStep n ->
      Columns (Inputs0_GradientValues n') !! k = Columns (Inputs0_GradientValues n) !! k).
Proof.
  intros S frame Hstep Hsmall.
  split; intros Hrun Hframe.
  - unfold PastValueNode.ComputeInputPartial in Hrun.
    destruct (0 <? inputIndex); [discriminate|].
    apply (backward_pass_unread PastValueNode.direction SequenceStart downfrom n n' k
             elem_of_downfrom ltac:(right; reflexivity) Hrun Hstep Hsmall).
    unfold PastValueNode.direction. fold S frame. right. lia.
  - unfold FutureValueNode.ComputeInputPartial in Hrun.
    destruct (0 <? inputIndex); [discriminate|].
    apply (backward_pass_unread FutureValueNode.direction SequenceEnd upto n n' k
             elem_of_upto ltac:(left; reflexivity) Hrun Hstep Hsmall).
    unfold FutureValueNode.direction. fold S frame. left. lia.
Qed.
End DelayedValueBackwardColumns.


(** * LSTM node: a gradient request made twice *)

Section LSTMNodeRepeatedRequests.
Context {E : Type} `{ElemOps E} `{MatrixLib E} `{MatrixKernels E} `{PackingFlags}.
Context (Check : FrameRange -> Z -> Z -> MBLayout -> option Fault).
Import LSTMNode.
Local Abbreviation Node := (Node (E:=E)).

#[local] Arguments accumulate : simpl never.



















End LSTMNodeRepeatedRequests.


(** * Delayed-value nodes: the backward step and the end of the minibatch *)

Section BackwardStepRange.
Context {E : Type} `{ElemOps E} `{MatrixLib E} `{PackingFlags}.
Import DelayedValueNodeBase.

Lemma ColumnSliceHere_out_of_range (s w : Z) (m : Matrix E) :
  in_range m s w = false -> ColumnSliceHere s w m = Thrown slice_fault m.
Proof.
  intros Hout. unfold ColumnSliceHere, bind, get, ColumnSliceOf, ColumnSlice.
  rewrite Hout. reflexivity.
Qed.

Lemma in_range_beyond (m : Matrix E) (s w : Z) :
  0 < w -> GetNumCols m <= s -> in_range m s w = false.
Proof.
  intros Hw Hs. unfold in_range. apply andb_false_iff. right. apply Z.leb_gt. lia.
Qed.

(** A loop throws when one of its iterations throws from the state the
    loop starts in and the iterations before it leave that state alone. *)
Lemma forM__throws_at {St A} (l : list A) (body : A -> M St unit) (s : St) (i : A) :
  i ∈ l ->
  (forall x, x ∈ l -> body x s = Done tt s \/ exists e, body x s = Thrown e s) ->
  (exists e, body i s = Thrown e s) ->
  exists e, forM_ l body s = Thrown e s.
Proof.
  intros Hin Hbody [e Hi]. induction l as [|x l IH]; [inversion Hin|].
  cbn [forM_]. destruct (Hbody x (list_elem_of_here x l)) as [Hx|[e' Hx]].
  - rewrite (bind_Done_intro _ _ _ _ _ Hx).
    apply elem_of_cons in Hin as [->|Hin]; [congruence|].
    apply IH; [exact Hin|]. intros y Hy. apply Hbody. apply list_elem_of_further, Hy.
  - exists e'. unfold bind. rewrite Hx. reflexivity.
Qed.

(** A loop finishes when every iteration finishes from the states of an
    invariant and keeps it. *)
Lemma forM__finishes {St A} (Inv : St -> Prop) (l : list A) (body : A -> M St unit) :
  (forall x s, x ∈ l -> Inv s -> exists s', body x s = Done tt s' /\ Inv s') ->
  forall s, Inv s -> exists s', forM_ l body s = Done tt s' /\ Inv s'.
Proof.
  induction l as [|x l IH]; intros Hbody s Hs.
  - exists s. split; [reflexivity | exact Hs].
  - destruct (Hbody x s (list_elem_of_here x l) Hs) as (s1 & Hx & Hs1).
    cbn [forM_]. rewrite (bind_Done_intro _ _ _ _ _ Hx).
    apply IH; [|exact Hs1]. intros y s2 Hy. apply Hbody. apply list_elem_of_further, Hy.
Qed.

Lemma slices_same_shape (a b : Matrix E) (sa sb w : Z) :
  NumRows a = NumRows b ->
  in_range a sa w = true -> in_range b sb w = true ->
  same_shape (mkMatrix (NumRows a) (slice_columns a sa w))
             (mkMatrix (NumRows b) (slice_columns b sb w)) = true.
Proof.
  intros Hrows Ha Hb. unfold same_shape, GetNumRows, GetNumCols. cbn [NumRows Columns].
  rewrite (length_slice_columns _ _ _ Ha), (length_slice_columns _ _ _ Hb), Hrows.
  rewrite !Z.eqb_refl. reflexivity.
Qed.

(** The iteration for a sequence, by the flag word of the sequence. *)
Lemma ComputeInputPartialSRP_stream_eq (SequenceStart_or_End : Z)
    (timeIdxInSeq mNbr delayed : Z) (gradientValues : Matrix E)
    (colBoundaryFlags : list Z) (x : Z) (s : Matrix E) :
  ComputeInputPartialSRP_stream SequenceStart_or_End timeIdxInSeq mNbr delayed
    gradientValues colBoundaryFlags x s
  = match colBoundaryFlags !! Z.to_nat x with
    | None => Thrown index_fault s
    | Some flags =>
        if negb (has_flag flags SequenceStart_or_End) && negb (has_flag flags NoFeature)
        then bind (ColumnSliceHere (to_size_t (delayed * mNbr + x)) 1) (fun to =>
             bind (ColumnSliceOf gradientValues (to_size_t (timeIdxInSeq * mNbr + x)) 1)
                  (fun frm => PlusAssign_slice (to_size_t (delayed * mNbr + x)) to frm)) s
        else Done tt s
    end.
Proof.
  unfold ComputeInputPartialSRP_stream.
  destruct (colBoundaryFlags !! Z.to_nat x) as [flags|]; [|reflexivity].
  cbn [lift_option]. unfold bind at 1. unfold ret at 1.
  destruct (negb (has_flag flags SequenceStart_or_End) && negb (has_flag flags NoFeature));
    reflexivity.
Qed.

(** The iteration for a sequence finishes and keeps the shape of the
    input's gradient when the columns it addresses exist. *)
Lemma ComputeInputPartialSRP_stream_finishes (SequenceStart_or_End : Z)
    (timeIdxInSeq mNbr delayed : Z) (gradientValues : Matrix E)
    (colBoundaryFlags : list Z) (x : Z) (s : Matrix E) :
  0 <= x -> (Z.to_nat x < length colBoundaryFlags)%nat ->
  0 <= delayed * mNbr + x < 2 ^ 64 -> delayed * mNbr + x < GetNumCols s ->
  0 <= timeIdxInSeq * mNbr + x < 2 ^ 64 ->
  timeIdxInSeq * mNbr + x < GetNumCols gradientValues ->
  NumRows s = NumRows gradientValues ->
  exists s',
    ComputeInputPartialSRP_stream SequenceStart_or_End timeIdxInSeq mNbr delayed
      gradientValues colBoundaryFlags x s = Done tt s'
    /\ shape_of s' = shape_of s.
Proof.
  intros Hx Hlen Hto Hto' Hfrm Hfrm' Hrows. rewrite ComputeInputPartialSRP_stream_eq.
  destruct (lookup_lt_is_Some_2 colBoundaryFlags (Z.to_nat x) Hlen) as [fx Hfx].
  rewrite Hfx.
  destruct (negb (has_flag fx SequenceStart_or_End) && negb (has_flag fx NoFeature));
    [|exists s; split; reflexivity].
  rewrite !to_size_t_small by lia.
  assert (Hin : in_range s (delayed * mNbr + x) 1 = true) by (apply in_range_intro; lia).
  assert (Hin' : in_range gradientValues (timeIdxInSeq * mNbr + x) 1 = true)
    by (apply in_range_intro; lia).
  rewrite (bind_Done_intro _ _ _ _ _ (ColumnSliceHere_in_range _ _ _ Hin)).
  rewrite (bind_Done_intro _ _ _ _ _ (ColumnSliceOf_in_range _ _ _ s Hin')).
  pose proof (slices_same_shape s gradientValues _ _ 1 Hrows Hin Hin') as Hshape.
  unfold PlusAssign_slice. rewrite Hshape. eexists. split; [reflexivity|].
  exact (write_sum_shape _ 1 _ _ s Hin eq_refl Hshape).
Qed.

(** C7: whether the backward step of a frame adds is not decided by its
    test, which compares the delayed frame with the number of columns of
    the gradient.  For a sequence whose flag word lets the gradient
    through, with the test passed: when the columns of the delayed frame
    lie within the gradient of the input, the step finishes and the
    delayed column holds the entry-wise sum of what it held before and
    the node's gradient column of the frame; when they lie beyond it,
    which the test lets through as soon as there is more than one
    parallel sequence, the step adds nothing and drops nothing: it
    throws, leaving the gradient of the input as it was. *)
Theorem ComputeInputPartialSRP_beyond_the_minibatch
    (direction SequenceStart_or_End : Z) (frameRange : FrameRange) (timeStep : Z)
    (gradientValues : Matrix E) (colBoundaryFlags : list Z) (minibatchPackingFlags : Z)
    (inputGradientValues : Matrix E) (i flags : Z) :
  let mNbr := FrameRange_NumCols frameRange in
  let t := FrameRange_t frameRange in
  let delayed := delayed_frame direction frameRange timeStep in
  GetNumCols gradientValues < 2 ^ 31 ->
  0 <= t -> t * mNbr + mNbr <= GetNumCols gradientValues ->
  delayed < GetNumCols gradientValues ->
  0 <= i < mNbr ->
  colBoundaryFlags !! Z.to_nat i = Some flags ->
  has_flag flags SequenceStart_or_End = false ->
  has_flag flags NoFeature = false ->
  (delayed * mNbr + mNbr <= GetNumCols inputGradientValues ->
   NumRows inputGradientValues = NumRows gradientValues ->
   Z.of_nat (length colBoundaryFlags) = mNbr ->
   exists g' old frm,
     ComputeInputPartialSRP direction SequenceStart_or_End frameRange timeStep
       gradientValues colBoundaryFlags minibatchPackingFlags inputGradientValues
     = Done tt g'
     /\ Columns inputGradientValues
          !! Z.to_nat (delayed_column direction frameRange timeStep i) = Some old
     /\ Columns gradientValues !! Z.to_nat (frame_column_of frameRange i) = Some frm
     /\ Columns g' !! Z.to_nat (delayed_column direction frameRange timeStep i)
        = Some (column_sum old frm))
  /\ (GetNumCols inputGradientValues <= delayed * mNbr ->
      exists e,
        ComputeInputPartialSRP direction SequenceStart_or_End frameRange timeStep
          gradientValues colBoundaryFlags minibatchPackingFlags inputGradientValues
        = Thrown e inputGradientValues).
Proof.
  intros mNbr t delayed Hsmall Ht Hframe Htest Hi Hflags Hm Hn.
  unfold delayed_column, frame_column_of. fold mNbr t. fold delayed.
  unfold delayed_frame in delayed. fold t in delayed.
  assert (Hd : 0 <= delayed) by apply to_size_t_range.
  assert (HmNbr : mNbr <= GetNumCols gradientValues) by nia.
  assert (Hcheck : (0 <=? delayed) && (delayed <? GetNumCols gradientValues) = true)
    by (apply andb_true_iff; split; [apply Z.leb_le | apply Z.ltb_lt]; lia).
  split.
  - (* the delayed frame inside the gradient of the input *)
    intros Hinside Hrows Hlen.
    assert (Hruns : exists g',
               ComputeInputPartialSRP direction SequenceStart_or_End frameRange timeStep
                 gradientValues colBoundaryFlags minibatchPackingFlags inputGradientValues
               = Done tt g').
    { unfold ComputeInputPartialSRP. fold mNbr t. fold delayed. rewrite Hcheck.
      destruct (has_flag minibatchPackingFlags (Z.lor SequenceStart_or_End NoFeature)).
      - destruct (forM__finishes
                    (fun s : Matrix E => shape_of s = shape_of inputGradientValues)
                    (upto mNbr)
                    (ComputeInputPartialSRP_stream SequenceStart_or_End t mNbr delayed
                       gradientValues colBoundaryFlags)) with (s := inputGradientValues)
          as (g' & Hrun & _); [|reflexivity|exists g'; exact Hrun].
        intros x s Hx Hs. apply elem_of_upto in Hx.
        assert (Hcols : GetNumCols s = GetNumCols inputGradientValues)
          by (unfold GetNumCols; unfold shape_of in Hs; congruence).
        assert (Hrows' : NumRows s = NumRows gradientValues)
          by (unfold shape_of in Hs; congruence).
        destruct (ComputeInputPartialSRP_stream_finishes SequenceStart_or_End t mNbr delayed
                    gradientValues colBoundaryFlags x s) as (s' & Hrun & Hshape);
          [lia | lia | nia | nia | nia | nia | exact Hrows'|].
        exists s'. split; [exact Hrun | congruence].
      - rewrite !to_size_t_small by nia.
        assert (Hin' : in_range gradientValues (t * mNbr) mNbr = true)
          by (apply in_range_intro; nia).
        assert (Hin : in_range inputGradientValues (delayed * mNbr) mNbr = true)
          by (apply in_range_intro; nia).
        rewrite (bind_Done_intro _ _ _ _ _
                   (ColumnSliceOf_in_range _ _ _ inputGradientValues Hin')).
        rewrite (bind_Done_intro _ _ _ _ _ (ColumnSliceHere_in_range _ _ _ Hin)).
        unfold PlusAssign_slice.
        rewrite (slices_same_shape inputGradientValues gradientValues _ _ mNbr
                   Hrows Hin Hin').
        eexists. reflexivity. }
    destruct Hruns as (g' & Hrun). exists g'.
    destruct (ComputeInputPartialSRP_sum direction SequenceStart_or_End frameRange timeStep
                gradientValues colBoundaryFlags minibatchPackingFlags i
                inputGradientValues g') as (old & frm & Hold & Hfrm & Hnew);
      fold mNbr t; fold delayed;
      [lia | nia | exact Ht | nia | exact Htest | exact Hi | | exact Hrun |].
    + intros flags' Hfl. rewrite Hflags in Hfl. inversion Hfl; subst flags'. auto.
    + exists old, frm. auto.
  - (* the delayed frame beyond the gradient of the input *)
    intros Hbeyond.
    unfold ComputeInputPartialSRP. fold mNbr t. fold delayed. rewrite Hcheck.
    destruct (has_flag minibatchPackingFlags (Z.lor SequenceStart_or_End NoFeature)).
    + apply (forM__throws_at _ _ _ i); [apply elem_of_upto; exact Hi | |].
      * intros x Hx. apply elem_of_upto in Hx. rewrite ComputeInputPartialSRP_stream_eq.
        destruct (colBoundaryFlags !! Z.to_nat x) as [fx|];
          [|right; exists index_fault; reflexivity].
        destruct (negb (has_flag fx SequenceStart_or_End) && negb (has_flag fx NoFeature));
          [|left; reflexivity].
        right. exists slice_fault. unfold bind at 1.
        rewrite ColumnSliceHere_out_of_range; [reflexivity|].
        apply in_range_beyond; [lia|]. rewrite to_size_t_small by nia. lia.
      * exists slice_fault. rewrite ComputeInputPartialSRP_stream_eq.
        rewrite Hflags, Hm, Hn. cbn [negb andb]. unfold bind at 1.
        rewrite ColumnSliceHere_out_of_range; [reflexivity|].
        apply in_range_beyond; [lia|]. rewrite to_size_t_small by nia. lia.
    + unfold bind at 1.
      destruct (ColumnSliceOf gradientValues (to_size_t (t * mNbr)) mNbr inputGradientValues)
        as [frm s1|e s1] eqn:Hfrm.
      * apply ColumnSliceOf_Done in Hfrm as (-> & _ & _).
        exists slice_fault. unfold bind at 1.
        rewrite ColumnSliceHere_out_of_range; [reflexivity|].
        apply in_range_beyond; [lia|]. rewrite to_size_t_small by nia. lia.
      * pose proof (ColumnSliceOf_final gradientValues (to_size_t (t * mNbr)) mNbr
                      inputGradientValues) as Hf.
        rewrite Hfrm in Hf. cbn in Hf. subst s1. exists e. reflexivity.
Qed.
End BackwardStepRange.


(** * Persistence and the forward evaluation *)

Section PersistenceAndEvaluation.
Context {E : Type} `{ElemOps E} `{MatrixLib E} `{MatrixKernels E} `{PackingFlags}.
Context (Check : FrameRange -> Z -> Z -> MBLayout -> option Fault).
Context (CNTK_MODEL_VERSION_2 : Z).

(** Loading the file of a node into a node that differs from it in the
    persisted scalars only resizes the carry buffer. *)
Lemma loaded_is_reloaded (n : DelayedValueNodeBase.Node (E:=E)) (timeStep : Z) (v : E) :
  loaded n (DelayedValueNodeBase.set_timeStep timeStep
              (DelayedValueNodeBase.set_initialActivationValue v n))
  = reloaded n.
Proof.
  unfold loaded, reloaded. cbn. rewrite Resize_own_shape. destruct n; reflexivity.
Qed.

(** Two full-minibatch evaluations from nodes that differ in the carry
    buffer only agree wherever the carry is not read. *)
Lemma minibatch_columns_without_carry (direction SequenceStart_or_End : Z)
    (frames : Z -> list Z) (carry : Matrix E)
    (n m m' : DelayedValueNodeBase.Node (E:=E)) (t i : Z) :
  let S := DelayedValueNodeBase.NumParallel n in
  let input := DelayedValueNodeBase.Inputs0_FunctionValues n in
  let run :=
    bind get (fun n0 : DelayedValueNodeBase.Node (E:=E) =>
      bind (DelayedValueNodeBase.nbrSamples_of
              (GetNumCols (DelayedValueNodeBase.Inputs0_FunctionValues n0)) n0)
        (fun nbrSamples =>
           bind (forM_ (frames nbrSamples) (fun timeIdxInSeq =>
                   DelayedValueNodeBase.evaluate_frame direction SequenceStart_or_End
                     (mkFrameRange (to_size_t timeIdxInSeq)
                        (DelayedValueNodeBase.NumParallel n0))))
                (fun _ => DelayedValueNodeBase.keep_activation))) in
  (forall nbr, NoDup (frames nbr)) ->
  (forall nbr x, x ∈ frames nbr <-> 0 <= x < nbr) ->
  direction = 1 \/ direction = -1 ->
  run n = Done tt m ->
  run (DelayedValueNodeBase.set_delayedActivation carry n) = Done tt m' ->
  1 <= DelayedValueNodeBase.m_timeStep n ->
  GetNumCols input < 2 ^ 31 ->
  0 <= t < GetNumCols input / S -> 0 <= i < S ->
  reads_no_carry direction SequenceStart_or_End n t i ->
  Columns (DelayedValueNodeBase.m_functionValues m') !! Z.to_nat (t * S + i)
  = Columns (DelayedValueNodeBase.m_functionValues m) !! Z.to_nat (t * S + i).
Proof.
  intros S input run Hnd Hin Hdir Hrun Hrun' Hstep Hsmall Ht Hi Hreads.
  pose proof (minibatch_columns direction SequenceStart_or_End frames n m t i
                Hnd Hin Hrun Hsmall Ht Hi) as Hout.
  pose proof (minibatch_columns direction SequenceStart_or_End frames
                (DelayedValueNodeBase.set_delayedActivation carry n) m' t i
                Hnd Hin Hrun' Hsmall Ht Hi) as Hout'.
  change (DelayedValueNodeBase.NumParallel
            (DelayedValueNodeBase.set_delayedActivation carry n)) with S in Hout'.
  fold S in Hout.
  destruct (has_flag (flag_at (DelayedValueNodeBase.m_pShiftedMBLayout n) i t)
              SequenceStart_or_End) eqn:Hflag.
  - unfold delayed_output in Hout, Hout'.
    cbn [DelayedValueNodeBase.m_pShiftedMBLayout DelayedValueNodeBase.set_delayedActivation
         DelayedValueNodeBase.Inputs0_FunctionValues
         DelayedValueNodeBase.m_initialActivationValue] in Hout'.
    rewrite Hflag in Hout, Hout'. rewrite Hout, Hout'. reflexivity.
  - destruct Hreads as [Hmarked|Hinside]; [congruence|]. fold input S in Hinside.
    assert (Hq : S * (GetNumCols input / S) <= GetNumCols input)
      by (apply Z.mul_div_le; lia).
    assert (HT : GetNumCols input / S <= GetNumCols input) by nia.
    assert (Hstep' : DelayedValueNodeBase.m_timeStep n < 2 ^ 31)
      by (destruct Hdir; subst; lia).
    apply (delayed_output_cases direction SequenceStart_or_End n t i) in Hout;
      fold S input; [|exact Hdir|lia|lia|lia|nia|nia|exact Hflag].
    apply (delayed_output_cases direction SequenceStart_or_End
             (DelayedValueNodeBase.set_delayedActivation carry n) t i) in Hout';
      cbn [DelayedValueNodeBase.m_timeStep DelayedValueNodeBase.set_delayedActivation
           DelayedValueNodeBase.m_pShiftedMBLayout];
      change (DelayedValueNodeBase.NumParallel
                (DelayedValueNodeBase.set_delayedActivation carry n)) with S;
      [|exact Hdir|lia|lia|lia|nia|nia|exact Hflag].
    destruct Hout as (col & Hcol & Hread & _).
    destruct Hout' as (col' & Hcol' & Hread' & _).
    cbn [DelayedValueNodeBase.m_timeStep DelayedValueNodeBase.set_delayedActivation
         DelayedValueNodeBase.Inputs0_FunctionValues] in Hread'.
    change (DelayedValueNodeBase.NumParallel
              (DelayedValueNodeBase.set_delayedActivation carry n)) with S in Hread'.
    fold S input in Hread, Hread'.
    specialize (Hread ltac:(nia)). specialize (Hread' ltac:(nia)).
    rewrite Hcol, Hcol'. congruence.
Qed.

(** C10, as amended: a node's own part of a model file, read back under
    the format version it was written in, restores the persisted scalars
    exactly: the step size, the output dimensions and the initial
    activation of a delayed-value node; the input and output dimensions
    and the default state of the LSTM node.  For an LSTM node nothing else
    is written, so a node loaded back is the node saved.  For a
    delayed-value node loading also resizes the carry buffer to the saved
    output dimensions: the node loaded back is the node saved with its
    carry resized, which is the node saved when the carry had that shape
    already; otherwise a forward evaluation that finishes gives the output
    it gave before at every frame and sequence that does not read the
    carry, and nothing is said of the others. *)
Theorem save_then_load_restores_scalars (modelVersion : Z) :
  CNTK_MODEL_VERSION_2 <= modelVersion ->
  modelVersion = 2 ->
  (forall (n n0 : DelayedValueNodeBase.Node (E:=E)) (rest : File E),
      exists n',
        DelayedValueNodeBase.LoadFromFile CNTK_MODEL_VERSION_2
          (DelayedValueNodeBase.SaveToFile n ++ rest)%list modelVersion n0 = Done rest n'
        /\ DelayedValueNodeBase.m_timeStep n' = DelayedValueNodeBase.m_timeStep n
        /\ DelayedValueNodeBase.m_initialActivationValue n'
           = DelayedValueNodeBase.m_initialActivationValue n
        /\ GetNumRows (DelayedValueNodeBase.m_functionValues n')
           = GetNumRows (DelayedValueNodeBase.m_functionValues n)
        /\ GetNumCols (DelayedValueNodeBase.m_functionValues n')
           = GetNumCols (DelayedValueNodeBase.m_functionValues n)
        /\ (forall timeStep v,
              n0 = DelayedValueNodeBase.set_timeStep timeStep
                     (DelayedValueNodeBase.set_initialActivationValue v n) ->
              n' = reloaded n
              /\ (same_shape (DelayedValueNodeBase.m_delayedActivation n)
                             (DelayedValueNodeBase.m_functionValues n) = true ->
                  n' = n)
              /\ forall (m m' : DelayedValueNodeBase.Node (E:=E)) (t i : Z),
                   let S := DelayedValueNodeBase.NumParallel n in
                   let input := DelayedValueNodeBase.Inputs0_FunctionValues n in
                   1 <= DelayedValueNodeBase.m_timeStep n ->
                   GetNumCols input < 2 ^ 31 ->
                   0 <= t < GetNumCols input / S -> 0 <= i < S ->
                   (PastValueNode.EvaluateThisNode n = Done tt m ->
                    PastValueNode.EvaluateThisNode n' = Done tt m' ->
                    reads_no_carry PastValueNode.direction SequenceStart n t i ->
                    Columns (DelayedValueNodeBase.m_functionValues m') !! Z.to_nat (t * S + i)
                    = Columns (DelayedValueNodeBase.m_functionValues m)
                        !! Z.to_nat (t * S + i))
                   /\ (FutureValueNode.EvaluateThisNode n = Done tt m ->
                       FutureValueNode.EvaluateThisNode n' = Done tt m' ->
                       reads_no_carry FutureValueNode.direction SequenceEnd n t i ->
                       Columns (DelayedValueNodeBase.m_functionValues m')
                         !! Z.to_nat (t * S + i)
                       = Columns (DelayedValueNodeBase.m_functionValues m)
                           !! Z.to_nat (t * S + i))))
  /\ (forall (n n0 : LSTMNode.Node (E:=E)) (rest : File E),
        exists n',
          LSTMNode.LoadFromFile (LSTMNode.SaveToFile n ++ rest)%list modelVersion n0
          = Done rest n'
          /\ LSTMNode.m_inputDim n' = LSTMNode.m_inputDim n
          /\ LSTMNode.m_outputDim n' = LSTMNode.m_outputDim n
          /\ LSTMNode.m_DefaultState n' = LSTMNode.m_DefaultState n
          /\ (forall inputDim outputDim v,
                n0 = LSTMNode.set_m_inputDim inputDim
                       (LSTMNode.set_m_outputDim outputDim
                          (LSTMNode.set_m_DefaultState v n)) ->
                n' = n
                /\ LSTMNode.EvaluateThisNode Check n' = LSTMNode.EvaluateThisNode Check n)).
Proof.
  intros Hv ->. split.
  - intros n n0 rest. exists (loaded n n0).
    split; [apply LoadFromFile_SaveToFile; exact Hv|].
    destruct (loaded_scalars n n0) as (Hts & Hiv & Hrows & Hcols).
    do 4 (split; [assumption|]).
    intros timeStep v ->. rewrite loaded_is_reloaded.
    split; [reflexivity|]. split.
    + intros Hshape. unfold reloaded. rewrite (Resize_same_shape _ _ Hshape).
      destruct n; reflexivity.
    + intros m m' t i S input Hstep Hsmall Ht Hi. unfold reloaded. split.
      * intros Hrun Hrun' Hreads.
        exact (minibatch_columns_without_carry PastValueNode.direction SequenceStart upto
                 _ n m m' t i NoDup_upto elem_of_upto ltac:(right; reflexivity)
                 Hrun Hrun' Hstep Hsmall Ht Hi Hreads).
      * intros Hrun Hrun' Hreads.
        exact (minibatch_columns_without_carry FutureValueNode.direction SequenceEnd downfrom
                 _ n m m' t i NoDup_downfrom elem_of_downfrom ltac:(left; reflexivity)
                 Hrun Hrun' Hstep Hsmall Ht Hi Hreads).
  - intros n n0 rest. eexists.
    split; [apply LSTM_LoadFromFile_SaveToFile|].
    do 3 (split; [reflexivity|]).
    intros inputDim outputDim v ->.
    assert (Hsame : LSTMNode.set_m_DefaultState (LSTMNode.m_DefaultState n)
              (LSTMNode.set_m_outputDim (LSTMNode.m_outputDim n)
                 (LSTMNode.set_m_inputDim (LSTMNode.m_inputDim n)
                    (LSTMNode.set_m_inputDim inputDim
                       (LSTMNode.set_m_outputDim outputDim
                          (LSTMNode.set_m_DefaultState v n))))) = n)
      by (destruct n; reflexivity).
    rewrite Hsame. auto.
Qed.
End PersistenceAndEvaluation.


(** * The further facts on explicit inputs *)

(** Settles a closed comparison of integers, or a conjunction of them, by
    evaluation. *)
Ltac by_evaluation := vm_compute; repeat split; try discriminate.

Section DelayedValueFurtherExamples.
#[local] Existing Instance Z_ElemOps.
#[local] Existing Instance Z_MatrixLib.
#[local] Existing Instance bit_flags.
Import DelayedValueNodeBase.

(** The forward evaluation of the sample node changes its output and its
    carry only. *)
Lemma EvaluateThisNode_changes_output_and_carry_witness :
  exists n',
    PastValueNode.EvaluateThisNode sample_node = Done tt n'
    /\ n' = set_delayedActivation (Inputs0_FunctionValues sample_node)
              (set_functionValues (m_functionValues n') sample_node).
Proof.
  set (n' := final_state (PastValueNode.EvaluateThisNode sample_node)).
  assert (Hrun : PastValueNode.EvaluateThisNode sample_node = Done tt n')
    by (vm_compute; reflexivity).
  exists n'. split; [exact Hrun|].
  exact (EvaluateThisNode_changes_output_and_carry sample_node n' (or_introl Hrun)).
Defined.

(** The output of the sample node after the future-value evaluation has
    the shape of its input. *)
Lemma EvaluateThisNode_output_shape_witness :
  exists n',
    FutureValueNode.EvaluateThisNode sample_node = Done tt n'
    /\ same_shape (m_functionValues n') (Inputs0_FunctionValues sample_node) = true.
Proof.
  set (n' := final_state (FutureValueNode.EvaluateThisNode sample_node)).
  assert (Hrun : FutureValueNode.EvaluateThisNode sample_node = Done tt n')
    by (vm_compute; reflexivity).
  exists n'. split; [exact Hrun|].
  exact (proj1 (EvaluateThisNode_output_shape sample_node n' (or_intror Hrun)
                  ltac:(vm_compute; reflexivity))
               ltac:(by_evaluation)).
Defined.

(** The future-value node at frame 0 of three keeps the history it was
    given. *)
Lemma FutureValue_frame_evaluation_and_history_witness :
  exists n',
    bind (SetHistory (mkMatrix 1 [[5]]))
         (fun _ => FutureValueNode.EvaluateThisNode_frame (mkFrameRange 0 1)) sample_node
    = Done tt n'
    /\ m_delayedActivation n' = mkMatrix 1 [[5]].
Proof.
  set (n' := final_state
               (bind (SetHistory (mkMatrix 1 [[5]]))
                     (fun _ => FutureValueNode.EvaluateThisNode_frame (mkFrameRange 0 1))
                     sample_node)).
  assert (Hrun : bind (SetHistory (mkMatrix 1 [[5]]))
                   (fun _ => FutureValueNode.EvaluateThisNode_frame (mkFrameRange 0 1))
                   sample_node = Done tt n')
    by (vm_compute; reflexivity).
  exists n'. split; [exact Hrun|].
  exact (FutureValue_frame_evaluation_and_history (mkMatrix 1 [[5]]) (mkFrameRange 0 1)
           sample_node n' Hrun).
Defined.

(** A copy of the sample node with its history set, evaluated at frame 1:
    the flag of the copy is cleared and the copied carry stays. *)
Lemma CopyTo_clears_history_flag_witness :
  exists n',
    bind (CopyTo (fun _ => ret tt) true (set_historyAlreadySet true sample_node))
         (fun _ => PastValueNode.EvaluateThisNode_frame (mkFrameRange 1 1)) sample_node
    = Done tt n'
    /\ m_historyAlreadySet n' = false
    /\ m_delayedActivation n' = m_delayedActivation sample_node.
Proof.
  set (c := bind (CopyTo (fun _ => ret tt) true (set_historyAlreadySet true sample_node))
                 (fun _ => PastValueNode.EvaluateThisNode_frame (mkFrameRange 1 1))).
  set (n' := final_state (c sample_node)).
  assert (Hrun : c sample_node = Done tt n') by (vm_compute; reflexivity).
  destruct (CopyTo_clears_history_flag (fun _ => ret tt) (mkFrameRange 1 1)
              (set_historyAlreadySet true sample_node) sample_node n' Hrun)
    as (_ & _ & Hflag & Hcarry).
  exists n'. split; [exact Hrun|]. split; [exact Hflag | exact Hcarry].
Defined.

(** A node constructed with 2 rows, 3 columns, initial activation 7 and a
    step of zero: the buffers are filled, and [SetMBLayout] throws. *)
Lemma Construct_with_builds_node_witness :
  exists n',
    Construct_with 7 2 3 0 sample_node = Done tt n'
    /\ m_functionValues n' = filled 2 3 7
    /\ m_gradientValues n' = filled 2 3 0
    /\ SetMBLayout SequenceStart sample_layout n'
       = Thrown (LogicError "timeStep should be 1 or larger") n'.
Proof.
  destruct (Construct_with_builds_node SequenceStart 7 2 3 0 sample_layout sample_node
              ltac:(lia) ltac:(lia))
    as (n' & Hrun & Hout & _ & Hgrad & _ & _ & Hthrow).
  exists n'. split; [exact Hrun|]. split; [exact Hout|]. split; [exact Hgrad|].
  apply Hthrow. vm_compute. discriminate.
Defined.

(** With a step of two the shifted layout of the sample layout has its
    shape. *)
Lemma SetMBLayout_keeps_shape_markers_and_NoLabel_witness :
  exists n',
    SetMBLayout SequenceStart sample_layout (set_timeStep 2 sample_node) = Done tt n'
    /\ m_pMBLayout n' = sample_layout
    /\ layout_shape (m_pShiftedMBLayout n') = layout_shape sample_layout.
Proof.
  destruct (SetMBLayout_keeps_shape_markers_and_NoLabel SequenceStart sample_layout
              (set_timeStep 2 sample_node)
              ltac:(repeat constructor) ltac:(by_evaluation))
    as (n' & Hrun & Hlayout & Hshape & _).
  exists n'. split; [exact Hrun|]. split; [exact Hlayout | exact Hshape].
Defined.

(** With a step of two, frame 2 of the sample node receives the input of
    frame 0. *)
Lemma EvaluateThisNode_delays_by_the_step_witness :
  exists n' col,
    PastValueNode.EvaluateThisNode (set_timeStep 2 sample_node) = Done tt n'
    /\ Columns (Inputs0_FunctionValues sample_node) !! 0%nat = Some col
    /\ Columns (m_functionValues n') !! 2%nat = Some col.
Proof.
  set (n' := final_state (PastValueNode.EvaluateThisNode (set_timeStep 2 sample_node))).
  assert (Hrun : PastValueNode.EvaluateThisNode (set_timeStep 2 sample_node) = Done tt n')
    by (vm_compute; reflexivity).
  destruct (proj1 (EvaluateThisNode_delays_by_the_step (set_timeStep 2 sample_node) n' 2 0
                     ltac:(by_evaluation) ltac:(vm_compute; reflexivity)
                     ltac:(by_evaluation) ltac:(by_evaluation))
                  Hrun ltac:(vm_compute; reflexivity) ltac:(by_evaluation))
    as (col & Hin & Hout).
  exists n', col. split; [exact Hrun|]. split; [exact Hin | exact Hout].
Defined.

(** With a step of two, frame 1 of the sample node lies one frame before
    the minibatch and receives a column of the carry. *)
Lemma EvaluateThisNode_reads_the_carry_witness :
  exists n' d col,
    PastValueNode.EvaluateThisNode (set_timeStep 2 sample_node) = Done tt n'
    /\ Mod (-1) 3 = Some d
    /\ Columns (m_functionValues n') !! 1%nat = Some col.
Proof.
  set (n' := final_state (PastValueNode.EvaluateThisNode (set_timeStep 2 sample_node))).
  assert (Hrun : PastValueNode.EvaluateThisNode (set_timeStep 2 sample_node) = Done tt n')
    by (vm_compute; reflexivity).
  destruct (proj1 (EvaluateThisNode_reads_the_carry (set_timeStep 2 sample_node) n' 1 0
                     ltac:(by_evaluation) ltac:(vm_compute; reflexivity)
                     ltac:(by_evaluation) ltac:(by_evaluation))
                  Hrun ltac:(vm_compute; reflexivity) ltac:(vm_compute; reflexivity))
    as (d & col & Hd & Hout & _).
  exists n', d, col. split; [exact Hrun|]. split; [exact Hd | exact Hout].
Defined.

(** The backward pass of the sample node: the gradient of frame 1 is added
    onto the input's gradient of frame 0. *)
Lemma ComputeInputPartial_adds_each_frame_once_witness :
  exists n' old frm,
    PastValueNode.ComputeInputPartial 0 sample_node = Done tt n'
    /\ Columns (Inputs0_GradientValues sample_node) !! 0%nat = Some old
    /\ Columns (m_gradientValues sample_node) !! 1%nat = Some frm
    /\ Columns (Inputs0_GradientValues n') !! 0%nat = Some (column_sum old frm).
Proof.
  set (n' := final_state (PastValueNode.ComputeInputPartial 0 sample_node)).
  assert (Hrun : PastValueNode.ComputeInputPartial 0 sample_node = Done tt n')
    by (vm_compute; reflexivity).
  destruct (proj1 (ComputeInputPartial_adds_each_frame_once 0 sample_node n' 1 0
                     ltac:(by_evaluation) ltac:(vm_compute; reflexivity)
                     ltac:(by_evaluation) ltac:(by_evaluation)
                     ltac:(vm_compute; reflexivity))
                  Hrun ltac:(vm_compute; reflexivity) ltac:(by_evaluation))
    as (old & frm & Hold & Hfrm & Hnew).
  exists n', old, frm. split; [exact Hrun|]. split; [exact Hold|].
  split; [exact Hfrm | exact Hnew].
Defined.

(** The backward pass of the sample node leaves the input's gradient of
    the last frame as it was. *)
Lemma ComputeInputPartial_leaves_unread_frames_witness :
  exists n',
    PastValueNode.ComputeInputPartial 0 sample_node = Done tt n'
    /\ Columns (Inputs0_GradientValues n') !! 2%nat = Some [300].
Proof.
  set (n' := final_state (PastValueNode.ComputeInputPartial 0 sample_node)).
  assert (Hrun : PastValueNode.ComputeInputPartial 0 sample_node = Done tt n')
    by (vm_compute; reflexivity).
  exists n'. split; [exact Hrun|].
  exact (proj1 (ComputeInputPartial_leaves_unread_frames 0 sample_node n' 2
                  ltac:(by_evaluation) ltac:(vm_compute; reflexivity))
               Hrun ltac:(by_evaluation)).
Defined.
End DelayedValueFurtherExamples.

Section PersistenceFurtherExamples.
#[local] Existing Instance Z_ElemOps.
#[local] Existing Instance Z_MatrixLib.
#[local] Existing Instance Z_MatrixKernels.
#[local] Existing Instance bit_flags.

(** The file of the sample node read as a file of version 1, the current
    version being 2: the initial activation stays in the file. *)
Lemma LoadFromFile_of_an_older_version_witness :
  (exists n',
      DelayedValueNodeBase.LoadFromFile 2
        (DelayedValueNodeBase.SaveToFile sample_node ++ [])%list 1
        (DelayedValueNodeBase.set_initialActivationValue 9 sample_node)
      = Done [item_elem 7] n'
      /\ DelayedValueNodeBase.m_initialActivationValue n' = 9)
  /\ LSTMNode.LoadFromFile [item_elem 5] 1 blank_node
     = Done [] (LSTMNode.set_m_DefaultState 5 blank_node).
Proof.
  destruct (LoadFromFile_of_an_older_version 2 1 sample_node
              (DelayedValueNodeBase.set_initialActivationValue 9 sample_node)
              blank_node 5 [] ltac:(lia) ltac:(lia))
    as ((n' & Hload & _ & _ & _ & Hinit) & Hlstm).
  split; [|exact Hlstm].
  exists n'. split; [exact Hload | exact Hinit].
Defined.

(** Loading the file of the sample node and saving the loaded node gives
    the file again. *)
Lemma SaveToFile_after_LoadFromFile_witness :
  exists n',
    DelayedValueNodeBase.LoadFromFile 2 (DelayedValueNodeBase.SaveToFile sample_node) 2
      sample_node = Done [] n'
    /\ (DelayedValueNodeBase.SaveToFile n' ++ [])%list
       = DelayedValueNodeBase.SaveToFile sample_node.
Proof.
  set (n' := final_state
               (DelayedValueNodeBase.LoadFromFile 2
                  (DelayedValueNodeBase.SaveToFile sample_node) 2 sample_node)).
  assert (Hrun : DelayedValueNodeBase.LoadFromFile 2
                   (DelayedValueNodeBase.SaveToFile sample_node) 2 sample_node
                 = Done [] n')
    by (vm_compute; reflexivity).
  exists n'. split; [exact Hrun|].
  exact (proj1 (SaveToFile_after_LoadFromFile 2 2
                  (DelayedValueNodeBase.SaveToFile sample_node) [] [] sample_node n'
                  blank_node blank_node ltac:(lia)
                  ltac:(repeat constructor; vm_compute; discriminate))
               Hrun).
Defined.
End PersistenceFurtherExamples.

Section LSTMFurtherExamples.
#[local] Existing Instance Z_ElemOps.
#[local] Existing Instance Z_MatrixLib.
#[local] Existing Instance Z_MatrixKernels.
#[local] Existing Instance bit_flags.
Import LSTMNode.

(** The forward evaluation of the node without content finishes. *)
Lemma EvaluateThisNode_finishes_only_without_frames_witness :
  exists n',
    EvaluateThisNode Check_passes blank_node = Done tt n'
    /\ m_GradientComputed n' = false
    /\ GetNumCols (m_functionValues n') = 0.
Proof.
  destruct (proj2 (EvaluateThisNode_finishes_only_without_frames Check_passes blank_node
                     no_matrix no_matrix ltac:(reflexivity) ltac:(reflexivity)
                     ltac:(vm_compute; reflexivity))
                  ltac:(reflexivity))
    as (n' & Hrun & Hflag & _ & Hcols & _).
  exists n'. split; [exact Hrun|]. split; [exact Hflag | exact Hcols].
Defined.

(** The forward evaluation of the node with one frame throws. *)
Lemma EvaluateThisNode_throws_on_one_frame :
  exists e s', EvaluateThisNode Check_passes one_frame_node = Thrown e s'.
Proof.
  do 2 eexists. vm_compute. reflexivity.
Qed.

(** No backward call on the node with one frame finishes. *)
Lemma ComputeInputPartial_never_finishes_on_frames_witness :
  exists e s', ComputeInputPartial Check_passes 0 one_frame_node = Thrown e s'.
Proof.
  exact (ComputeInputPartial_never_finishes_on_frames Check_passes 0 one_frame_node
           (mkMatrix 1 [[1]]) ltac:(reflexivity) ltac:(reflexivity)
           ltac:(vm_compute; split; [reflexivity | discriminate])
           ltac:(vm_compute; reflexivity)).
Defined.

(** The flag word of the one frame of the node with one frame. *)
Lemma GetSegInfo_reads_the_layout_witness :
  GetSegInfo 0 0 one_frame_node = Done 1 one_frame_node
  /\ GetSegInfo 0 1 one_frame_node
     = Thrown (LogicError "GetSegInfo: stream id is larger than the number of streams")
              one_frame_node.
Proof.
  destruct (GetSegInfo_reads_the_layout 0 0 one_frame_node (mkMatrix 1 [[1]])
              ltac:(reflexivity)) as (_ & _ & Hread).
  destruct (GetSegInfo_reads_the_layout 0 1 one_frame_node (mkMatrix 1 [[1]])
              ltac:(reflexivity)) as (Hstream & _ & _).
  split.
  - apply Hread; [by_evaluation | by_evaluation | vm_compute; reflexivity
                  | repeat constructor | vm_compute; reflexivity].
  - apply Hstream. vm_compute. discriminate.
Defined.

(** A history of two columns comes back as it was given. *)
Lemma SetHistory_then_GetHistory_witness :
  exists n1,
    SetHistory (mkMatrix 1 [[1]; [2]]) blank_node = Done tt n1
    /\ m_PastOutput n1 = mkMatrix 1 [[1]]
    /\ m_PastState n1 = mkMatrix 1 [[2]]
    /\ GetHistory n1 false no_matrix = Done true (mkMatrix 1 [[1]; [2]]).
Proof.
  destruct (SetHistory_then_GetHistory (mkMatrix 1 [[1]; [2]]) no_matrix blank_node
              ltac:(vm_compute; reflexivity))
    as (n1 & Hset & Hout & Hstate & _ & Hget).
  exists n1. split; [exact Hset|]. split; [exact Hout|]. split; [exact Hstate|].
  apply Hget. reflexivity.
Defined.

(** Errors of two columns come back as they were given. *)
Lemma SetErrors_then_GetErrors_witness :
  exists n1,
    SetErrorsFromFutureMinibatch (mkMatrix 1 [[1]; [2]]) blank_node = Done tt n1
    /\ m_use_errors_from_future_minibatch n1 = true
    /\ GetErrorsToPreviousMinibatch n1 no_matrix = Done tt (mkMatrix 1 [[1]; [2]]).
Proof.
  destruct (SetErrors_then_GetErrors (mkMatrix 1 [[1]; [2]]) no_matrix blank_node
              ltac:(vm_compute; reflexivity))
    as (n1 & Hset & Hflag & _ & _ & _ & Hget).
  exists n1. split; [exact Hset|]. split; [exact Hflag|].
  apply Hget. reflexivity.
Defined.

(** The node with one frame is validated. *)
Lemma Validate_finishes_iff_validated_witness :
  exists n',
    Validate false ["Input"; "LearnableParameter"; "LearnableParameter";
                    "LearnableParameter"; "LearnableParameter"]
      "LearnableParameter" one_frame_node = Done tt n'
    /\ GetNumRows (m_functionValues n') = 1
    /\ GetNumCols (m_functionValues n') = 1.
Proof.
  set (names := ["Input"; "LearnableParameter"; "LearnableParameter";
                 "LearnableParameter"; "LearnableParameter"]).
  set (w := mkMatrix 1 [[1]; [1]; [1]; [1]]).
  set (n' := set_m_functionValues (resized_to 1 1 elem_NAN no_matrix) one_frame_node).
  exists n'. split; [|split; reflexivity].
  apply (proj2 (Validate_finishes_iff_validated false names "LearnableParameter"
                  one_frame_node n')).
  exists (mkMatrix 1 [[1]]), w, w, w, w.
  split; [reflexivity|]. split; [|reflexivity].
  repeat split; reflexivity.
Defined.
End LSTMFurtherExamples.


(** * The gradient requests, the range test and persistence on explicit inputs *)

Section GradientRequestExamples.
#[local] Existing Instance Z_ElemOps.
#[local] Existing Instance Z_MatrixLib.
#[local] Existing Instance Z_MatrixKernels.
#[local] Existing Instance bit_flags.


(** The same two requests in numbers: the gradient of input 1 holds [5]
    in every entry before the requests, after the first and after the
    second; the cached gradient of input 1 is 1 x 4 and holds zeros. *)
Lemma ComputeInputPartial_twice_on_quiet_node :
  exists n1 n2,
    LSTMNode.ComputeInputPartial Check_passes 1 quiet_node = Done tt n1
    /\ LSTMNode.ComputeInputPartial Check_passes 1 n1 = Done tt n2
    /\ cached_gradient 1 n1 = mkMatrix 1 [[0]; [0]; [0]; [0]]
    /\ LSTMNode.InputsGradientValues quiet_node !! 1%nat
       = Some (mkMatrix 1 [[5]; [5]; [5]; [5]])
    /\ LSTMNode.InputsGradientValues n1 !! 1%nat = Some (mkMatrix 1 [[5]; [5]; [5]; [5]])
    /\ LSTMNode.InputsGradientValues n2 !! 1%nat = Some (mkMatrix 1 [[5]; [5]; [5]; [5]]).
Proof.
  do 2 eexists. split; [vm_compute; reflexivity|]. split; [vm_compute; reflexivity|].
  repeat split; reflexivity.
Qed.
End GradientRequestExamples.

Section BackwardRangeExamples.
#[local] Existing Instance Z_ElemOps.
#[local] Existing Instance Z_MatrixLib.
#[local] Existing Instance bit_flags.
Import DelayedValueNodeBase.

(** The future-value step on two parallel sequences of three frames:
    at frame 1 the delayed frame 2 lies within the gradient of the input
    and the step adds; at frame 2 the delayed frame 3 is below the six
    columns of the gradient, the test passes, and the step throws. *)
Lemma ComputeInputPartialSRP_beyond_the_minibatch_witness :
  (exists g',
      ComputeInputPartialSRP 1 SequenceEnd (mkFrameRange 1 2) 1
        (m_gradientValues two_stream_node) [0; 0] 0 (Inputs0_GradientValues two_stream_node)
      = Done tt g'
      /\ Columns g' !! 4%nat = Some (column_sum [0] [3]))
  /\ exists e,
       ComputeInputPartialSRP 1 SequenceEnd (mkFrameRange 2 2) 1
         (m_gradientValues two_stream_node) [0; 0] 0 (Inputs0_GradientValues two_stream_node)
       = Thrown e (Inputs0_GradientValues two_stream_node).
Proof.
  split.
  - destruct (proj1 (ComputeInputPartialSRP_beyond_the_minibatch 1 SequenceEnd
                       (mkFrameRange 1 2) 1 (m_gradientValues two_stream_node) [0; 0] 0
                       (Inputs0_GradientValues two_stream_node) 0 0
                       ltac:(by_evaluation) ltac:(by_evaluation) ltac:(by_evaluation)
                       ltac:(by_evaluation) ltac:(by_evaluation) ltac:(reflexivity)
                       ltac:(reflexivity) ltac:(reflexivity))
                    ltac:(by_evaluation) ltac:(reflexivity) ltac:(reflexivity))
      as (g' & old & frm & Hrun & Hold & Hfrm & Hnew).
    exists g'. split; [exact Hrun|].
    vm_compute in Hold, Hfrm. inversion Hold; subst old. inversion Hfrm; subst frm.
    exact Hnew.
  - exact (proj2 (ComputeInputPartialSRP_beyond_the_minibatch 1 SequenceEnd
                    (mkFrameRange 2 2) 1 (m_gradientValues two_stream_node) [0; 0] 0
                    (Inputs0_GradientValues two_stream_node) 0 0
                    ltac:(by_evaluation) ltac:(by_evaluation) ltac:(by_evaluation)
                    ltac:(by_evaluation) ltac:(by_evaluation) ltac:(reflexivity)
                    ltac:(reflexivity) ltac:(reflexivity))
                 ltac:(by_evaluation)).
Defined.

(** The backward pass of the future-value node over a minibatch no frame
    of which is at a boundary: with one sequence the last frame is
    skipped and the pass finishes; with two parallel sequences the last
    frame passes the test and the pass throws. *)
Lemma FutureValue_backward_pass_on_two_streams :
  (exists n', FutureValueNode.ComputeInputPartial 0 (set_pShiftedMBLayout plain_layout
                                                       (set_pMBLayout plain_layout sample_node))
              = Done tt n'
              /\ Inputs0_GradientValues n' = mkMatrix 1 [[100]; [201]; [302]])
  /\ exists n',
       FutureValueNode.ComputeInputPartial 0 two_stream_node = Thrown slice_fault n'.
Proof.
  split; eexists; [split|]; vm_compute; reflexivity.
Qed.
End BackwardRangeExamples.

Section PersistenceAndEvaluationExamples.
#[local] Existing Instance Z_ElemOps.
#[local] Existing Instance Z_MatrixLib.
#[local] Existing Instance Z_MatrixKernels.
#[local] Existing Instance bit_flags.
Import DelayedValueNodeBase.

(** The node that construction and validation build, saved and loaded
    back with format version 2: the scalars are restored, and the output
    of frame 1, which does not read the carry, is what it was. *)
Lemma save_then_load_restores_scalars_witness :
  exists n' m m',
    LoadFromFile 2 (SaveToFile fresh_node ++ [])%list 2 fresh_node = Done [] n'
    /\ m_timeStep n' = 1
    /\ m_initialActivationValue n' = 7
    /\ GetNumRows (m_functionValues n') = 1
    /\ GetNumCols (m_functionValues n') = 3
    /\ PastValueNode.EvaluateThisNode fresh_node = Done tt m
    /\ PastValueNode.EvaluateThisNode n' = Done tt m'
    /\ Columns (m_functionValues m') !! 1%nat = Columns (m_functionValues m) !! 1%nat.
Proof.
  destruct (proj1 (save_then_load_restores_scalars Check_passes 2 2 ltac:(lia) eq_refl)
                  fresh_node fresh_node [])
    as (n' & Hload & Hstep & Hinit & Hrows & Hcols & Hmore).
  destruct (Hmore 1 7 eq_refl) as (Hn' & _ & Hagree).
  set (m := final_state (PastValueNode.EvaluateThisNode fresh_node)).
  set (m' := final_state (PastValueNode.EvaluateThisNode (reloaded fresh_node))).
  assert (Hrun : PastValueNode.EvaluateThisNode fresh_node = Done tt m)
    by (vm_compute; reflexivity).
  assert (Hrun' : PastValueNode.EvaluateThisNode n' = Done tt m')
    by (rewrite Hn'; vm_compute; reflexivity).
  exists n', m, m'.
  split; [exact Hload|]. split; [exact Hstep|]. split; [exact Hinit|].
  split; [exact Hrows|]. split; [exact Hcols|]. split; [exact Hrun|].
  split; [exact Hrun'|].
  exact (proj1 (Hagree m m' 1 0 ltac:(by_evaluation) ltac:(by_evaluation)
                  ltac:(by_evaluation) ltac:(by_evaluation))
               Hrun Hrun' ltac:(right; by_evaluation)).
Defined.

(** Saving and loading back changes the forward output: the node that
    construction with initial activation [7] and validation build has a
    carry of one column and an output of three; loaded back from its own
    file its scalars are as before and its carry has three columns, and
    frame 0, which reads the carry, gives [0] where it gave [7]. *)
Lemma save_then_load_changes_forward_output :
  exists n' m m',
    set_up bare_node = Done tt fresh_node
    /\ LoadFromFile 2 (SaveToFile fresh_node) 2 fresh_node = Done [] n'
    /\ m_timeStep n' = m_timeStep fresh_node
    /\ m_initialActivationValue n' = m_initialActivationValue fresh_node
    /\ shape_of (m_functionValues n') = shape_of (m_functionValues fresh_node)
    /\ PastValueNode.EvaluateThisNode fresh_node = Done tt m
    /\ PastValueNode.EvaluateThisNode n' = Done tt m'
    /\ m_functionValues m = mkMatrix 1 [[7]; [10]; [20]]
    /\ m_functionValues m' = mkMatrix 1 [[0]; [10]; [20]].
Proof.
  do 3 eexists. split; [vm_compute; reflexivity|]. split; [vm_compute; reflexivity|].
  do 3 (split; [reflexivity|]).
  split; [vm_compute; reflexivity|]. split; [vm_compute; reflexivity|].
  split; reflexivity.
Qed.
End PersistenceAndEvaluationExamples.

